(** * Module scaffolding scripts: createModule.py and removeModule.py

    A shallow embedding of the two scripts that create a module from the
    template and remove it again, together with the registry file
    modules/CMakeLists.txt they keep in step with the module directories.

    Python values are modelled as follows.
    - A [str] whose code points are below 256 is a [string]; each [ascii]
      is one code point.  The character tables below are those of CPython
      for that range.
    - A text file is identified with the string [read()] returns for it; a
      file whose bytes do not decode is [Binary].
    - The file system is the part of the project tree the scripts touch:
      the template directory and the modules directory.  A file is
      writable or not; no other permission is modelled.
    - A module identifier names one entry of the modules directory: an
      identifier with a path separator in it, "." and ".." are left out.
    - Standard output and the mutating file-system calls are recorded in a
      trace, standard input is a list of lines. *)

From Stdlib Require Import Strings.String Strings.Ascii Strings.Byte.
From Stdlib Require Import Lists.List Bool.Bool Arith.PeanoNat NArith.NArith ZArith.ZArith.
From Stdlib Require Import micromega.Lia Sorting.Sorted Sorting.Permutation.
Import ListNotations.

Local Open Scope string_scope.
Local Open Scope list_scope.

(** ** Python's [str] primitives on code points below 256 *)

Module Py.

Definition code (c : ascii) : N := N_of_ascii c.

Definition in_range (lo hi : N) (c : ascii) : bool :=
  ((lo <=? code c) && (code c <=? hi))%N.

Definition is_code (n : N) (c : ascii) : bool := (code c =? n)%N.

(** [str.isspace] for one character; the set [str.strip] removes. *)
Definition isspace (c : ascii) : bool :=
  in_range 9 13 c || in_range 28 32 c || is_code 133 c || is_code 160 c.

(** [str.isalpha] for one character. *)
Definition isalpha (c : ascii) : bool :=
  in_range 65 90 c || in_range 97 122 c || is_code 170 c || is_code 181 c
  || is_code 186 c || in_range 192 214 c || in_range 216 246 c
  || in_range 248 255 c.

(** [str.isalnum] for one character: alphabetic, decimal, digit or
    numeric. *)
Definition isalnum (c : ascii) : bool :=
  isalpha c || in_range 48 57 c || in_range 178 179 c || is_code 185 c
  || in_range 188 190 c.

(** [str.upper] for one character, as the code points of the result: the
    micro sign and y-diaeresis leave the range, sharp s becomes "SS". *)
Definition upper_char (c : ascii) : list N :=
  if in_range 97 122 c || in_range 224 246 c || in_range 248 254 c
  then [(code c - 32)%N]
  else if is_code 181 c then [924%N]
  else if is_code 223 c then [83%N; 83%N]
  else if is_code 255 c then [376%N]
  else [code c].

(** [str.lower] for one character; the range is closed under it. *)
Definition lower_char (c : ascii) : ascii :=
  if in_range 65 90 c || in_range 192 214 c || in_range 216 222 c
  then ascii_of_N (code c + 32)
  else c.

Fixpoint codes (s : string) : list N :=
  match s with
  | EmptyString => []
  | String c r => code c :: codes r
  end.

Fixpoint upper (s : string) : list N :=
  match s with
  | EmptyString => []
  | String c r => upper_char c ++ upper r
  end.

Fixpoint lower (s : string) : string :=
  match s with
  | EmptyString => EmptyString
  | String c r => String (lower_char c) (lower r)
  end.

Fixpoint all_chars (p : ascii -> bool) (s : string) : bool :=
  match s with
  | EmptyString => true
  | String c r => p c && all_chars p r
  end.

(** [s.isalnum()]: false on the empty string. *)
Definition str_isalnum (s : string) : bool :=
  match s with
  | EmptyString => false
  | _ => all_chars isalnum s
  end.

(** [s == s.upper()]. *)
Definition is_own_upper (s : string) : bool :=
  if list_eq_dec N.eq_dec (codes s) (upper s) then true else false.

(** [s.lstrip()], [s.rstrip()], [s.strip()]. *)
Fixpoint lstrip (s : string) : string :=
  match s with
  | EmptyString => EmptyString
  | String c r => if isspace c then lstrip r else s
  end.

Fixpoint rstrip (s : string) : string :=
  match s with
  | EmptyString => EmptyString
  | String c r =>
      match rstrip r with
      | EmptyString => if isspace c then EmptyString else String c EmptyString
      | r' => String c r'
      end
  end.

Definition strip (s : string) : string := lstrip (rstrip s).

(** [needle in hay]. *)
Fixpoint contains (needle hay : string) : bool :=
  prefix needle hay ||
  match hay with
  | EmptyString => false
  | String _ r => contains needle r
  end.

Definition newline : ascii := ascii_of_nat 10.
Definition nl : string := String newline EmptyString.

(** The lines of a text, each with its terminating newline, as
    [f.readlines()] returns them; only a last line can lack one. *)
Fixpoint readlines (s : string) : list string :=
  match s with
  | EmptyString => []
  | String c r =>
      if Ascii.eqb c newline then nl :: readlines r
      else match readlines r with
           | [] => [String c EmptyString]
           | l :: ls => String c l :: ls
           end
  end.

(** What [f.writelines(lines)] writes. *)
Definition writelines (lines : list string) : string :=
  String.concat EmptyString lines.

Fixpoint drop (n : nat) (s : string) : string :=
  match n, s with
  | O, _ => s
  | S k, EmptyString => EmptyString
  | S k, String _ r => drop k r
  end.

(** [s.replace(old, new)] for a non-empty [old]: occurrences are found
    from left to right and do not overlap.  [skip] counts the characters
    of a match that are still to be passed over. *)
Fixpoint replace_from (old new : string) (skip : nat) (s : string) : string :=
  match s with
  | EmptyString => EmptyString
  | String c r =>
      match skip with
      | S k => replace_from old new k r
      | O =>
          if prefix old s
          then new ++ replace_from old new (String.length old - 1) r
          else String c (replace_from old new 0 r)
      end
  end.

(** [s.replace(old, new)]; with an empty [old] Python puts [new] before
    every character and at the end. *)
Fixpoint intersperse (new s : string) : string :=
  match s with
  | EmptyString => new
  | String c r => new ++ String c (intersperse new r)
  end.

Definition replace (old new s : string) : string :=
  match old with
  | EmptyString => intersperse new s
  | _ => replace_from old new 0 s
  end.

(** [a or b] on an optional command-line string: [None] and the empty
    string are both false. *)
Definition or_else (a : option string) (b : string) : string :=
  match a with
  | Some (String c r) => String c r
  | _ => b
  end.

(** [sorted(names)]: strings compare by code point. *)
Fixpoint insert_sorted (x : string) (l : list string) : list string :=
  match l with
  | [] => [x]
  | y :: r => if String.leb x y then x :: y :: r else y :: insert_sorted x r
  end.

Fixpoint sorted (l : list string) : list string :=
  match l with
  | [] => []
  | x :: r => insert_sorted x (sorted r)
  end.

(** [int(s)] for a string [str.strip] has been applied to, so that no
    white space is left to skip: an optional sign, then decimal digits, a
    single underscore allowed between two digits.  [None] is ValueError.
    As in CPython 3.11 and later, with the limit it starts with, a string
    of more than 4300 digits is a ValueError as well: the sign and the
    underscores do not count, leading zeros do. *)
Definition digit_of (c : ascii) : option N :=
  if in_range 48 57 c then Some (code c - 48)%N else None.

Fixpoint digits (acc : N) (after_digit : bool) (s : string) : option N :=
  match s with
  | EmptyString => if after_digit then Some acc else None
  | String c r =>
      match digit_of c with
      | Some d => digits (10 * acc + d)%N true r
      | None =>
          if is_code 95 c && after_digit
          then match r with
               | EmptyString => None
               | String c' _ =>
                   match digit_of c' with
                   | Some _ => digits acc false r
                   | None => None
                   end
               end
          else None
      end
  end.

Fixpoint count_digits (s : string) : N :=
  match s with
  | EmptyString => 0%N
  | String c r =>
      ((if in_range 48 57 c then 1 else 0) + count_digits r)%N
  end.

Definition max_str_digits : N := 4300%N.

Definition int (s : string) : option Z :=
  if (max_str_digits <? count_digits s)%N then None
  else
    match s with
    | String c r =>
        if is_code 43 c then option_map Z.of_N (digits 0 false r)
        else if is_code 45 c
        then option_map (fun n => Z.opp (Z.of_N n)) (digits 0 false r)
        else option_map Z.of_N (digits 0 false s)
    | EmptyString => None
    end.

End Py.

(** ** The project tree *)

Inductive content : Type :=
| Text (s : string)
| Binary (raw : list byte).

Record file : Type := mkFile { writable : bool; data : content }.

#[warnings="-register-all"]
Inductive node : Type :=
| File (f : file)
| Dir (entries : list (string * node)).

Definition path : Type := list string.

Module Fs.

Definition entries : Type := list (string * node).

Fixpoint lookup (x : string) (es : entries) : option node :=
  match es with
  | [] => None
  | (y, m) :: r => if String.eqb y x then Some m else lookup x r
  end.

(** Bind the name [x] to [n]: in place when the name is there, at the end
    otherwise. *)
Fixpoint set_entry (x : string) (n : node) (es : entries) : entries :=
  match es with
  | [] => [(x, n)]
  | (y, m) :: r =>
      if String.eqb y x then (y, n) :: r else (y, m) :: set_entry x n r
  end.

(** Apply [g] to the node named [x], if there is one. *)
Fixpoint update_entry (x : string) (g : node -> node) (es : entries)
  : entries :=
  match es with
  | [] => []
  | (y, m) :: r =>
      if String.eqb y x then (y, g m) :: r else (y, m) :: update_entry x g r
  end.

Definition remove_entry (x : string) (es : entries) : entries :=
  filter (fun e => negb (String.eqb (fst e) x)) es.

Fixpoint resolve (p : path) (n : node) : option node :=
  match p with
  | [] => Some n
  | x :: p' =>
      match n with
      | Dir es => match lookup x es with
                  | Some m => resolve p' m
                  | None => None
                  end
      | File _ => None
      end
  end.

(** Bind [p] to [new]; nothing changes unless the parent of [p] is a
    directory of the tree. *)
Fixpoint put (p : path) (new : node) (n : node) : node :=
  match p with
  | [] => new
  | x :: p' =>
      match n with
      | Dir es =>
          match p' with
          | [] => Dir (set_entry x new es)
          | _ => Dir (update_entry x (put p' new) es)
          end
      | File _ => n
      end
  end.

(** Unlink [p] with everything below it. *)
Fixpoint delete (p : path) (n : node) : node :=
  match p with
  | [] => n
  | x :: p' =>
      match n with
      | Dir es =>
          match p' with
          | [] => Dir (remove_entry x es)
          | _ => Dir (update_entry x (delete p') es)
          end
      | File _ => n
      end
  end.

Definition parent (p : path) : path := removelast p.

(** [os.makedirs(p, exist_ok=True)]: the directories of [p] that are
    missing are made; a file on the way is an error. *)
Fixpoint makedirs (p : path) (n : node) : option node :=
  match n with
  | File _ => None
  | Dir es =>
      match p with
      | [] => Some n
      | x :: p' =>
          let below := match lookup x es with
                       | Some m => m
                       | None => Dir []
                       end in
          match makedirs p' below with
          | Some m' => Some (Dir (set_entry x m' es))
          | None => None
          end
      end
  end.

Definition exists_ (p : path) (root : node) : bool :=
  match resolve p root with Some _ => true | None => false end.

Definition is_dir (n : node) : bool :=
  match n with Dir _ => true | File _ => false end.

Definition file_at (p : path) (root : node) : option file :=
  match resolve p root with
  | Some (File f) => Some f
  | _ => None
  end.

(** The file paths [os.walk(top)] hands to the loop body, in its order:
    the files of a directory first, then each sub-directory in turn. *)
Fixpoint walk (top : path) (n : node) : list path :=
  match n with
  | File _ => []
  | Dir es =>
      map (fun e => top ++ [fst e]) (filter (fun e => negb (is_dir (snd e))) es)
      ++ (fix subdirs (es : entries) : list path :=
            match es with
            | [] => []
            | (x, m) :: r =>
                match m with
                | Dir _ => walk (top ++ [x]) m ++ subdirs r
                | File _ => subdirs r
                end
            end) es
  end.

(** The names of a directory are distinct, at every level. *)
Fixpoint distinct (l : list string) : bool :=
  match l with
  | [] => true
  | x :: r => negb (existsb (String.eqb x) r) && distinct r
  end.

Fixpoint wf (n : node) : bool :=
  match n with
  | File _ => true
  | Dir es =>
      distinct (map fst es)
      && (fix all (es : entries) : bool :=
            match es with
            | [] => true
            | (_, m) :: r => wf m && all r
            end) es
  end.

(** UTF-8 bytes of a string of code points below 256. *)
Definition utf8_char (c : ascii) : list byte :=
  let n := Py.code c in
  if (n <? 128)%N then [byte_of_ascii c]
  else match Byte.of_N (192 + N.shiftr n 6), Byte.of_N (128 + N.land n 63) with
       | Some hi, Some lo => [hi; lo]
       | _, _ => []
       end.

Fixpoint utf8 (s : string) : list byte :=
  match s with
  | EmptyString => []
  | String c r => utf8_char c ++ utf8 r
  end.

End Fs.

(** ** What the scripts print

    One constructor for each [print] call (a run of unconditional prints
    counts as one), carrying the values the text is formatted from. *)

Inductive message : Type :=
(* createModule.py *)
| Err_id_length (got : nat)
| Err_id_not_alnum
| Err_id_first_not_letter
| Err_id_not_uppercase
| Create_banner
| Err_target_exists (target : path)
| Copying_template (src dst : path)
| Created_rnbo_dir (p : path)
| Skipping_binary (p : path)
| Err_processing (p : path)
| Template_processed
| Err_cmake_not_found (p : path)
| Already_in_cmake (module_id : string)
| Added_to_cmake (module_id : string)
| Next_steps (module_id : string)
| Err_template_not_found (p : path)
| Err_modules_not_found (p : path)
(* removeModule.py *)
| Warn_permanent_delete (module_id : string) (dir : path)
| Please_yes_or_no
| Removing_directory (dir : path)
| Removed_directory (module_id : string)
| Warn_directory_missing (dir : path)
| Err_removing_directory (dir : path)
| Warn_cmake_missing (p : path)
| Removed_from_cmake (module_id : string)
| Warn_not_in_cmake (module_id : string)
| Err_updating_cmake
| Available_modules (names : list string)
| No_modules_to_remove
| Cancelled
| Please_number_between (hi : nat)
| Please_valid_number
| Err_module_not_found (module_id : string) (available : list string)
| Removal_cancelled
| Removing_module (module_id : string)
| Summary_removed (module_id : string)
| Summary_partially_removed (module_id : string).

(** The prompts of [input]. *)
Inductive prompt : Type :=
| Ask_module_id
| Ask_name (default : string)
| Ask_description (default : string)
| Ask_brand
| Ask_author
| Ask_email
| Ask_website
| Ask_confirm (module_id : string)
| Ask_select (hi : nat).

Inductive event : Type :=
| Print (m : message)
| Prompt (q : prompt)
| Wrote (p : path)
| Appended (p : path)
| Copied (src dst : path)
| Made_dir (p : path)
| Removed_tree (p : path).

(** ** Commands: state, exceptions and exit *)

Inductive exn : Type :=
| SystemExit (code : nat)
| UnicodeDecodeError
| OSError
| EOFError
| ValueError
| KeyError
| IndexError.

Inductive outcome (A : Type) : Type :=
| Return (a : A)
| Raise (e : exn).

Arguments Return {A} a.
Arguments Raise {A} e.

Record state : Type := mkState {
  fs : node;
  stdin : list string;
  trace : list event
}.

Definition M (A : Type) : Type := state -> outcome A * state.

Definition ret {A} (a : A) : M A := fun st => (Return a, st).

Definition bind {A B} (c : M A) (k : A -> M B) : M B :=
  fun st =>
    match c st with
    | (Return a, st') => k a st'
    | (Raise e, st') => (Raise e, st')
    end.

Declare Scope cmd_scope.
Delimit Scope cmd_scope with cmd.
Notation "x <- c ;; k" := (bind c (fun x => k))
  (at level 61, c at next level, right associativity) : cmd_scope.
Notation "c ;; k" := (bind c (fun _ => k))
  (at level 61, right associativity) : cmd_scope.
Local Open Scope cmd_scope.

Definition raise {A} (e : exn) : M A := fun st => (Raise e, st).

(** [sys.exit(code)]. *)
Definition sys_exit {A} (code : nat) : M A := raise (SystemExit code).

Definition emit (e : event) : M unit :=
  fun st => (Return tt, mkState (fs st) (stdin st) (trace st ++ [e])).

Definition print (m : message) : M unit := emit (Print m).

Definition get_fs : M node := fun st => (Return (fs st), st).

Definition set_fs (n : node) : M unit :=
  fun st => (Return tt, mkState n (stdin st) (trace st)).

(** [input(q)]: the prompt is written, then a line is read; end of input
    raises EOFError. *)
Definition input (q : prompt) : M string :=
  emit (Prompt q) ;;
  fun st =>
    match stdin st with
    | [] => (Raise EOFError, st)
    | l :: r => (Return l, mkState (fs st) r (trace st))
    end.

(** [try: body / except ...]: [handler e] is the clause that matches
    [e], if one does. *)
Definition try_except {A} (body : M A) (handler : exn -> option (M A)) : M A :=
  fun st =>
    match body st with
    | (Raise e, st') =>
        match handler e with
        | Some h => h st'
        | None => (Raise e, st')
        end
    | r => r
    end.

(** [except Exception]: SystemExit is not an Exception. *)
Definition is_Exception (e : exn) : bool :=
  match e with
  | SystemExit _ => false
  | _ => true
  end.

(** [while True: body], for a body that reads a line of input each time
    round and leaves the loop by answering a value or by an exception.
    The lines left bound the number of rounds: the end of the input ends
    the loop before the bound does ([while_true_unfold]). *)
Fixpoint rounds {A} (n : nat) (body : M (option A)) : M A :=
  match n with
  | O => raise EOFError
  | S k => r <- body ;;
           match r with
           | Some a => ret a
           | None => rounds k body
           end
  end.

Definition while_true {A} (body : M (option A)) : M A :=
  fun st => rounds (S (List.length (stdin st))) body st.

(** [for x in xs: body x]. *)
Fixpoint for_each {A} (xs : list A) (body : A -> M unit) : M unit :=
  match xs with
  | [] => ret tt
  | x :: r => body x ;; for_each r body
  end.

(** The exit status of the interpreter: an uncaught exception other than
    SystemExit ends it with status 1. *)
Definition exit_status {A} (r : outcome A) : nat :=
  match r with
  | Return _ => 0
  | Raise (SystemExit c) => c
  | Raise _ => 1
  end.

(** *** File operations *)

Module Io.

Definition path_exists (p : path) : M bool :=
  root <- get_fs ;; ret (Fs.exists_ p root).

(** [open(p, 'r').read()].  The text of a file is what the read returns
    for it; carriage returns are not translated here, so that the read
    is the one of the code for a file without them. *)
Definition read_text (p : path) : M string :=
  root <- get_fs ;;
  match Fs.resolve p root with
  | Some (File f) =>
      match data f with
      | Text s => ret s
      | Binary _ => raise UnicodeDecodeError
      end
  | _ => raise OSError
  end.

Definition parent_is_dir (p : path) (root : node) : bool :=
  match p with
  | [] => false
  | _ => match Fs.resolve (Fs.parent p) root with
         | Some (Dir _) => true
         | _ => false
         end
  end.

(** [open(p, 'w').write(s)]: the file is created when missing. *)
Definition write_text (p : path) (s : string) : M unit :=
  root <- get_fs ;;
  match Fs.resolve p root with
  | Some (File f) =>
      if writable f
      then set_fs (Fs.put p (File (mkFile true (Text s))) root) ;; emit (Wrote p)
      else raise OSError
  | Some (Dir _) => raise OSError
  | None =>
      if parent_is_dir p root
      then set_fs (Fs.put p (File (mkFile true (Text s))) root) ;; emit (Wrote p)
      else raise OSError
  end.

(** [open(p, 'a').write(s)]: nothing is decoded, the encoded text goes to
    the end of whatever is there. *)
Definition append_text (p : path) (s : string) : M unit :=
  root <- get_fs ;;
  match Fs.resolve p root with
  | Some (File f) =>
      if writable f
      then
        let d := match data f with
                 | Text c => Text (c ++ s)
                 | Binary raw => Binary (raw ++ Fs.utf8 s)
                 end in
        set_fs (Fs.put p (File (mkFile true d)) root) ;; emit (Appended p)
      else raise OSError
  | Some (Dir _) => raise OSError
  | None =>
      if parent_is_dir p root
      then set_fs (Fs.put p (File (mkFile true (Text s))) root) ;; emit (Appended p)
      else raise OSError
  end.

(** [shutil.copytree(src, dst)]: [src] must be a directory and [dst] must
    not exist; the directories leading to [dst] are made when missing.
    Every file of the model can be read, so the copy is complete, and it
    keeps the modes. *)
Definition copytree (src dst : path) : M unit :=
  root <- get_fs ;;
  match Fs.resolve src root, Fs.resolve dst root with
  | Some (Dir es), None =>
      match Fs.makedirs (Fs.parent dst) root with
      | Some root' => set_fs (Fs.put dst (Dir es) root') ;; emit (Copied src dst)
      | None => raise OSError
      end
  | _, _ => raise OSError
  end.

(** [p.mkdir(exist_ok=True)]. *)
Definition mkdir_exist_ok (p : path) : M unit :=
  root <- get_fs ;;
  match Fs.resolve p root with
  | Some (Dir _) => ret tt
  | Some (File _) => raise OSError
  | None =>
      if parent_is_dir p root
      then set_fs (Fs.put p (Dir []) root) ;; emit (Made_dir p)
      else raise OSError
  end.

(** [shutil.rmtree(p)]: anything but a directory is an error.  A
    directory is unlinked whole: the tree has no permissions on
    directories, under which the call can fail, also half-way. *)
Definition rmtree (p : path) : M unit :=
  root <- get_fs ;;
  match Fs.resolve p root with
  | Some (Dir _) => set_fs (Fs.delete p root) ;; emit (Removed_tree p)
  | _ => raise OSError
  end.

(** [p.iterdir()]: the entries of a directory, in the order the system
    lists them. *)
Definition iterdir (p : path) : M (list (string * node)) :=
  root <- get_fs ;;
  match Fs.resolve p root with
  | Some (Dir es) => ret es
  | _ => raise OSError
  end.

End Io.

(** ** scripts/createModule.py *)

Definition dict : Type := list (string * string).

(** [d[key]]. *)
Fixpoint dict_get (key : string) (d : dict) : M string :=
  match d with
  | [] => raise KeyError
  | (k, v) :: r => if String.eqb k key then ret v else dict_get key r
  end.

(** The inclusion directive of a module in the registry file. *)
Definition directive (module_id : string) : string :=
  "add_subdirectory(" ++ module_id ++ ")".

Definition modules_dir : path := ["modules"].
Definition cmake_file : path := modules_dir ++ ["CMakeLists.txt"].

Module CreateModule.

Record args : Type := mkArgs {
  module_id : option string;
  name : option string;
  description : option string;
  brand : option string;
  author : option string;
  email : option string;
  website : option string
}.

Definition template_dir : path := ["template"; "module"].

Definition validate_module_id (module_id : string) : M bool :=
  if String.eqb module_id "" then ret false
  else if negb (Nat.eqb (String.length module_id) 4)
  then print (Err_id_length (String.length module_id)) ;; ret false
  else if negb (Py.str_isalnum module_id)
  then print Err_id_not_alnum ;; ret false
  else
    match String.get 0 module_id with
    | None => raise IndexError
    | Some c =>
        if negb (Py.isalpha c)
        then print Err_id_first_not_letter ;; ret false
        else if negb (Py.is_own_upper module_id)
        then print Err_id_not_uppercase ;; ret false
        else ret true
    end.

(** [input(q).strip() or default]. *)
Definition ask (q : prompt) (default : string) : M string :=
  l <- input q ;; ret (Py.or_else (Some (Py.strip l)) default).

Definition collect_module_info (a : args) : M dict :=
  match module_id a with
  | Some (String c r) =>
      (* Non-interactive mode *)
      let id := String c r in
      ok <- validate_module_id id ;;
      if negb ok then sys_exit 1
      else
        let nm := Py.or_else (name a) id in
        ret [ ("__MOD__", id);
              ("__NAME__", nm);
              ("__DESCRIPTION__", Py.or_else (description a) nm);
              ("__BRAND__", Py.or_else (brand a) "YourBrand");
              ("__AUTHOR__", Py.or_else (author a) "Unknown");
              ("__EMAIL__", Py.or_else (email a) "unknown@example.com");
              ("__URL__", Py.or_else (website a) "https://example.com") ]
  | _ =>
      (* Interactive mode *)
      print Create_banner ;;
      id <- while_true
              (l <- input Ask_module_id ;;
               ok <- validate_module_id (Py.strip l) ;;
               ret (if ok then Some (Py.strip l) else None)) ;;
      nm <- ask (Ask_name id) id ;;
      ds <- ask (Ask_description nm) nm ;;
      br <- ask Ask_brand "YourBrand" ;;
      au <- ask Ask_author "Unknown" ;;
      em <- ask Ask_email "unknown@example.com" ;;
      ws <- ask Ask_website "https://example.com" ;;
      ret [ ("__MOD__", id);
            ("__NAME__", nm);
            ("__DESCRIPTION__", ds);
            ("__BRAND__", br);
            ("__AUTHOR__", au);
            ("__EMAIL__", em);
            ("__URL__", ws) ]
  end.

(** The loop over [substitutions.items()]. *)
Definition substitute (substitutions : dict) (content : string) : string :=
  fold_left (fun c kv => Py.replace (fst kv) (snd kv) c) substitutions content.

Definition substitute_in_file (file_path : path) (substitutions : dict)
  : M unit :=
  try_except
    (content <- Io.read_text file_path ;;
     Io.write_text file_path (substitute substitutions content))
    (fun e =>
       match e with
       | UnicodeDecodeError => Some (print (Skipping_binary file_path))
       | _ => if is_Exception e
              then Some (print (Err_processing file_path))
              else None
       end).

(** [os.walk(top)], flattened to the files the loop body receives. *)
Definition os_walk (top : path) : M (list path) :=
  root <- get_fs ;;
  ret (match Fs.resolve top root with
       | Some n => Fs.walk top n
       | None => []
       end).

Definition copy_and_substitute (template_dir target_dir : path)
  (substitutions : dict) : M unit :=
  e <- Io.path_exists target_dir ;;
  if e then print (Err_target_exists target_dir) ;; sys_exit 1
  else
    print (Copying_template template_dir target_dir) ;;
    Io.copytree template_dir target_dir ;;
    module_id <- dict_get "__MOD__" substitutions ;;
    let rnbo_dir := target_dir ++ [(module_id ++ "-rnbo")%string] in
    Io.mkdir_exist_ok rnbo_dir ;;
    print (Created_rnbo_dir rnbo_dir) ;;
    files <- os_walk target_dir ;;
    for_each files (fun file_path => substitute_in_file file_path substitutions) ;;
    print Template_processed.

Definition update_modules_cmake (modules_dir : path) (module_id : string)
  : M unit :=
  let cmake_file := modules_dir ++ ["CMakeLists.txt"] in
  e <- Io.path_exists cmake_file ;;
  if negb e then print (Err_cmake_not_found cmake_file) ;; sys_exit 1
  else
    content <- Io.read_text cmake_file ;;
    let add_line := directive module_id in
    if Py.contains add_line content
    then print (Already_in_cmake module_id)
    else
      Io.append_text cmake_file (add_line ++ Py.nl)%string ;;
      print (Added_to_cmake module_id).

Definition print_next_steps (module_id : string) : M unit :=
  print (Next_steps module_id).

Definition main (a : args) : M unit :=
  t <- Io.path_exists template_dir ;;
  if negb t then print (Err_template_not_found template_dir) ;; sys_exit 1
  else
    m <- Io.path_exists modules_dir ;;
    if negb m then print (Err_modules_not_found modules_dir) ;; sys_exit 1
    else
      substitutions <- collect_module_info a ;;
      module_id <- dict_get "__MOD__" substitutions ;;
      let target_dir := modules_dir ++ [module_id] in
      copy_and_substitute template_dir target_dir substitutions ;;
      update_modules_cmake modules_dir module_id ;;
      print_next_steps module_id.

End CreateModule.

(** ** scripts/removeModule.py *)

Module RemoveModule.

Record args : Type := mkArgs {
  module_id : option string;
  force : bool;
  list_only : bool   (* --list *)
}.

Definition reserved : list string := ["common"; "inc"; ".git"].

Definition name_in (x : string) (l : list string) : bool :=
  existsb (String.eqb x) l.

Definition list_available_modules (modules_dir : path) : M (list string) :=
  items <- Io.iterdir modules_dir ;;
  let modules :=
    map fst (filter (fun item => Fs.is_dir (snd item)
                                 && negb (name_in (fst item) reserved)) items) in
  ret (Py.sorted modules).

Definition confirm_removal (module_id : string) (module_dir : path)
  (force : bool) : M bool :=
  if force then ret true
  else
    print (Warn_permanent_delete module_id module_dir) ;;
    while_true
      (l <- input (Ask_confirm module_id) ;;
       let response := Py.lower (Py.strip l) in
       if name_in response ["yes"; "y"] then ret (Some true)
       else if name_in response ["no"; "n"] then ret (Some false)
       else print Please_yes_or_no ;; ret None).

Definition remove_module_directory (module_dir : path) (module_id : string)
  : M bool :=
  try_except
    (e <- Io.path_exists module_dir ;;
     if e
     then
       print (Removing_directory module_dir) ;;
       Io.rmtree module_dir ;;
       print (Removed_directory module_id) ;;
       ret true
     else
       print (Warn_directory_missing module_dir) ;;
       ret false)
    (fun e =>
       if is_Exception e
       then Some (print (Err_removing_directory module_dir) ;; ret false)
       else None).

Definition remove_from_cmake (cmake_file : path) (module_id : string)
  : M bool :=
  try_except
    (e <- Io.path_exists cmake_file ;;
     if negb e
     then print (Warn_cmake_missing cmake_file) ;; ret false
     else
       content <- Io.read_text cmake_file ;;
       let lines := Py.readlines content in
       let target_line := (directive module_id ++ Py.nl)%string in
       let original_count := List.length lines in
       let lines :=
         filter (fun line =>
                   negb (String.eqb (Py.strip line) (Py.strip target_line)))
                lines in
       if Nat.ltb (List.length lines) original_count
       then
         Io.write_text cmake_file (Py.writelines lines) ;;
         print (Removed_from_cmake module_id) ;;
         ret true
       else
         print (Warn_not_in_cmake module_id) ;;
         ret false)
    (fun e =>
       if is_Exception e
       then Some (print Err_updating_cmake ;; ret false)
       else None).

(** The menu of the interactive mode. *)
Definition select_module (available_modules : list string) : M string :=
  match available_modules with
  | [] => print No_modules_to_remove ;; sys_exit 0
  | _ =>
      print (Available_modules available_modules) ;;
      while_true
        (try_except
           (l <- input (Ask_select (List.length available_modules)) ;;
            let choice := Py.strip l in
            if String.eqb (Py.lower choice) "q"
            then print Cancelled ;; sys_exit 0
            else
              match Py.int choice with
              | None => raise ValueError
              | Some i =>
                  let index := (i - 1)%Z in
                  if ((0 <=? index) && (index <? Z.of_nat (List.length available_modules)))%Z
                  then
                    match nth_error available_modules (Z.to_nat index) with
                    | Some m => ret (Some m)
                    | None => raise IndexError
                    end
                  else
                    print (Please_number_between (List.length available_modules)) ;;
                    ret None
              end)
           (fun e =>
              match e with
              | ValueError => Some (print Please_valid_number ;; ret None)
              | _ => None
              end))
  end.

Definition main (a : args) : M unit :=
  m <- Io.path_exists modules_dir ;;
  if negb m then print (Err_modules_not_found modules_dir) ;; sys_exit 1
  else
    available_modules <- list_available_modules modules_dir ;;
    if list_only a
    then print (Available_modules available_modules) ;; sys_exit 0
    else
      module_id <-
        match module_id a with
        | Some (String c r) => ret (String c r)
        | _ => select_module available_modules
        end ;;
      let module_dir := modules_dir ++ [module_id] in
      e <- Io.path_exists module_dir ;;
      if negb e
      then print (Err_module_not_found module_id available_modules) ;; sys_exit 1
      else
        go <- confirm_removal module_id module_dir (force a) ;;
        if negb go then print Removal_cancelled ;; sys_exit 0
        else
          print (Removing_module module_id) ;;
          let success := true in
          in_cmake <- remove_from_cmake cmake_file module_id ;;
          let success := if negb in_cmake then false else success in
          in_dir <- remove_module_directory module_dir module_id ;;
          let success := if negb in_dir then false else success in
          if success
          then print (Summary_removed module_id)
          else print (Summary_partially_removed module_id) ;; sys_exit 1.

End RemoveModule.

(** The interpreter runs a script's [main] and ends with its status. *)
Definition run {A} (c : M A) (st : state) : nat * state :=
  let (r, st') := c st in (exit_status r, st').

(** ** The scripts that run the two scripts

    scripts/test/removeAll.py, scripts/test/test.py and scripts/addDemo.py
    start removeModule.py and createModule.py as child processes.  A
    child runs on the same project tree and reads the same standard
    input; what it prints is captured and never shown.  The child process
    itself is a parameter [spawn script argv] of these scripts: a command
    that answers the return code and the text of the error stream.  For
    these scripts the project tree also has the directory of the scripts
    and the demo code of the template. *)

Module Drv.

(** One constructor for each [print] call of the scripts, or for a run of
    calls that follow each other. *)
Inductive message : Type :=
(* removeAll.py *)
| No_modules_found
| Warn_delete_all (modules : list string)
| Please_yes_or_no
| Err_remove_script_not_found (p : path)
| Removing (module : string)
| Removed (module : string)
| Failed_to_remove (module stderr : string)
| Err_removing (module : string)
| Removal_complete (removed total : nat)
| Err_modules_not_found (p : path)
| Removal_cancelled
| All_removed
| Some_not_removed
(* test.py *)
| Err_create_script_not_found (p : path)
| Creating (module : string)
| Created (module : string)
| Failed_to_create (module stderr : string)
| Err_creating (module : string)
| Test_banner
| Blank_line
| Creation_complete (created total : nat)
| Test_next_steps
| Some_not_created
(* addDemo.py *)
| Creating_demo
| Created_demo
| Failed_to_create_demo (stderr : string)
| Err_creating_demo
| Err_template_rnbo_not_found (p : path)
| Err_module_rnbo_not_found (p : path)
| Make_sure_demo_created
| Copying_demo (src dst : path)
| Copied_file (name : string)
| Copied_directory (name : string)
| Demo_copied
| Err_copying_demo
| Demo_success_message
| Demo_exists_removing
| Failed_to_remove_demo (stderr : string)
| Demo_removed
| Err_removing_demo
| Demo_exists
| Failed_create_demo
| Failed_copy_demo.

Inductive event : Type :=
| Print (m : message)
| Prompt (modules : nat).

(** The project with its input, and what the script has written. *)
Record world : Type := mkWorld {
  inner : state;
  said : list event
}.

Definition D (A : Type) : Type := world -> outcome A * world.

Definition ret {A} (a : A) : D A := fun w => (Return a, w).

Definition bind {A B} (c : D A) (k : A -> D B) : D B :=
  fun w =>
    match c w with
    | (Return a, w') => k a w'
    | (Raise e, w') => (Raise e, w')
    end.

Declare Scope drv_scope.
Delimit Scope drv_scope with drv.
Notation "x <- c ;; k" := (bind c (fun x => k))
  (at level 61, c at next level, right associativity) : drv_scope.
Notation "c ;; k" := (bind c (fun _ => k))
  (at level 61, right associativity) : drv_scope.
Local Open Scope drv_scope.

Definition raise {A} (e : exn) : D A := fun w => (Raise e, w).

Definition sys_exit {A} (code : nat) : D A := raise (SystemExit code).

Definition print (m : message) : D unit :=
  fun w => (Return tt, mkWorld (inner w) (said w ++ [Print m])).

(** A command on the project, run in place. *)
Definition lift {A} (c : M A) : D A :=
  fun w => let (r, st) := c (inner w) in (r, mkWorld st (said w)).

(** [input(...)] with the prompt that names the number of modules. *)
Definition input (modules : nat) : D string :=
  fun w =>
    let w' := mkWorld (inner w) (said w ++ [Prompt modules]) in
    match stdin (inner w) with
    | [] => (Raise EOFError, w')
    | l :: r =>
        (Return l,
         mkWorld (mkState (fs (inner w)) r (trace (inner w))) (said w'))
    end.

Definition try_except {A} (body : D A) (handler : exn -> option (D A)) : D A :=
  fun w =>
    match body w with
    | (Raise e, w') =>
        match handler e with
        | Some h => h w'
        | None => (Raise e, w')
        end
    | r => r
    end.

Fixpoint rounds {A} (n : nat) (body : D (option A)) : D A :=
  match n with
  | O => raise EOFError
  | S k => r <- body ;;
           match r with
           | Some a => ret a
           | None => rounds k body
           end
  end.

(** [while True: body] for a body that reads a line each time round. *)
Definition while_true {A} (body : D (option A)) : D A :=
  fun w => rounds (S (List.length (stdin (inner w)))) body w.

Fixpoint for_each {A} (xs : list A) (body : A -> D unit) : D unit :=
  match xs with
  | [] => ret tt
  | x :: r => body x ;; for_each r body
  end.

End Drv.

(** *** scripts/test/removeAll.py *)

Module RemoveAll.

Record args : Type := mkArgs { force : bool }.

Definition remove_script : path := ["scripts"; "removeModule.py"].

Definition list_available_modules (modules_dir : path) : M (list string) :=
  items <- Io.iterdir modules_dir ;;
  let modules :=
    map fst
      (filter (fun item =>
                 Fs.is_dir (snd item)
                 && negb (RemoveModule.name_in (fst item)
                            ["common"; "inc"; ".git"])) items) in
  ret (Py.sorted modules).

Import Drv.
Local Open Scope drv_scope.

Section Child.

Variable spawn : path -> list string -> M (nat * string).

Definition confirm_removal (modules : list string) (force : bool) : D bool :=
  if force then ret true
  else
    match modules with
    | [] => print No_modules_found ;; ret false
    | _ =>
        print (Warn_delete_all modules) ;;
        while_true
          (l <- input (List.length modules) ;;
           let response := Py.lower (Py.strip l) in
           if RemoveModule.name_in response ["yes"; "y"] then ret (Some true)
           else if RemoveModule.name_in response ["no"; "n"]
           then ret (Some false)
           else print Please_yes_or_no ;; ret None)
    end.

(** The loop of [remove_all_modules], with its counter. *)
Fixpoint remove_each (modules : list string) (success_count : nat) : D nat :=
  match modules with
  | [] => ret success_count
  | module :: rest =>
      print (Removing module) ;;
      success_count <-
        try_except
          (result <- lift (spawn remove_script [module; "--force"]) ;;
           if Nat.eqb (fst result) 0
           then print (Removed module) ;; ret (S success_count)
           else print (Failed_to_remove module (snd result)) ;;
                ret success_count)
          (fun e =>
             if is_Exception e
             then Some (print (Err_removing module) ;; ret success_count)
             else None) ;;
      remove_each rest success_count
  end.

Definition remove_all_modules (modules : list string) : D bool :=
  e <- lift (Io.path_exists remove_script) ;;
  if negb e
  then print (Err_remove_script_not_found remove_script) ;; ret false
  else
    let total_count := List.length modules in
    success_count <- remove_each modules 0 ;;
    print (Removal_complete success_count total_count) ;;
    ret (Nat.eqb success_count total_count).

Definition main (a : args) : D unit :=
  m <- lift (Io.path_exists modules_dir) ;;
  if negb m then print (Err_modules_not_found modules_dir) ;; sys_exit 1
  else
    available_modules <- lift (list_available_modules modules_dir) ;;
    match available_modules with
    | [] => print No_modules_found ;; sys_exit 0
    | _ =>
        go <- confirm_removal available_modules (force a) ;;
        if negb go then print Removal_cancelled ;; sys_exit 0
        else
          success <- remove_all_modules available_modules ;;
          if success then print All_removed
          else print Some_not_removed ;; sys_exit 1
    end.

End Child.

End RemoveAll.

(** *** scripts/test/test.py *)

Module TestModules.

Import Drv.
Local Open Scope drv_scope.

Section Child.

Variable spawn : path -> list string -> M (nat * string).

(** A module configuration. *)
Record config : Type := mkConfig {
  id : string;
  name : string;
  description : string;
  brand : string;
  author : string;
  email : string;
  website : string
}.

Definition create_script : path := ["scripts"; "createModule.py"].

(** The command line after the name of the script. *)
Definition command_line (module_config : config) : list string :=
  [ id module_config;
    "--name"; name module_config;
    "--description"; description module_config;
    "--brand"; brand module_config;
    "--author"; author module_config;
    "--email"; email module_config;
    "--website"; website module_config ].

Definition create_test_module (module_config : config) : D bool :=
  e <- lift (Io.path_exists create_script) ;;
  if negb e
  then print (Err_create_script_not_found create_script) ;; ret false
  else
    let cmd := command_line module_config in
    print (Creating (id module_config)) ;;
    try_except
      (result <- lift (spawn create_script cmd) ;;
       if Nat.eqb (fst result) 0
       then print (Created (id module_config)) ;; ret true
       else print (Failed_to_create (id module_config) (snd result)) ;;
            ret false)
      (fun e =>
         if is_Exception e
         then Some (print (Err_creating (id module_config)) ;; ret false)
         else None).

Definition test_modules : list config :=
  [ mkConfig "TEST" "Test Module" "Basic test module for development"
      "TestBrand" "Test Developer" "test@example.com"
      "https://test.example.com";
    mkConfig "VERB" "Reverb Effect"
      "Digital reverb processor with multiple algorithms"
      "AudioDev" "Audio Engineer" "audio@example.com"
      "https://audiodev.example.com" ].

(** The loop of [main], with its counter. *)
Fixpoint create_each (configs : list config) (success_count : nat) : D nat :=
  match configs with
  | [] => ret success_count
  | module_config :: rest =>
      ok <- create_test_module module_config ;;
      let success_count := if ok then S success_count else success_count in
      print Blank_line ;;
      create_each rest success_count
  end.

Definition main : D unit :=
  print Test_banner ;;
  let total_count := List.length test_modules in
  success_count <- create_each test_modules 0 ;;
  print (Creation_complete success_count total_count) ;;
  if Nat.eqb success_count total_count
  then print Test_next_steps
  else print Some_not_created ;; sys_exit 1.

End Child.

End TestModules.

(** *** scripts/addDemo.py *)

Module Shutil.

(** [shutil.copy2(src, dst)]: the source must be a file; a destination
    that is a directory stands for the entry of that name in it.  The
    destination is written like a file opened for writing, and it gets
    the mode of the source. *)
Definition copy2 (src dst : path) : M unit :=
  root <- get_fs ;;
  let dst :=
    match Fs.resolve dst root with
    | Some (Dir _) => dst ++ [last src EmptyString]
    | _ => dst
    end in
  match Fs.resolve src root with
  | Some (File f) =>
      if list_eq_dec string_dec src dst then raise OSError
      else
        match Fs.resolve dst root with
        | Some (Dir _) => raise OSError
        | Some (File g) =>
            if writable g
            then set_fs (Fs.put dst (File f) root) ;; emit (Copied src dst)
            else raise OSError
        | None =>
            if Io.parent_is_dir dst root
            then set_fs (Fs.put dst (File f) root) ;; emit (Copied src dst)
            else raise OSError
        end
  | _ => raise OSError
  end.

End Shutil.

Module AddDemo.

Record args : Type := mkArgs { force : bool }.

Definition create_script : path := ["scripts"; "createModule.py"].
Definition remove_script : path := ["scripts"; "removeModule.py"].
Definition template_rnbo_dir : path := ["template"; "Demo"; "Demo-rnbo"].
Definition module_rnbo_dir : path := ["modules"; "DEMO"; "DEMO-rnbo"].
Definition demo_dir : path := ["modules"; "DEMO"].

(** The command line after the name of the script. *)
Definition command_line : list string :=
  [ "DEMO";
    "--name"; "Demo Module";
    "--description"; "Demo module with example RNBO patch";
    "--brand"; "Example";
    "--author"; "Example Team";
    "--email"; "info@example.com";
    "--website"; "https://example.com" ].

(** One round of the loop of [copy_demo_rnbo_code]; the entry is what
    [iterdir] listed, and the template is not written to in the loop. *)
Definition copy_item (item : string * node) : M unit :=
  match snd item with
  | File _ =>
      let dest_file := module_rnbo_dir ++ [fst item] in
      Shutil.copy2 (template_rnbo_dir ++ [fst item]) dest_file
  | Dir _ =>
      let dest_dir := module_rnbo_dir ++ [fst item] in
      e <- Io.path_exists dest_dir ;;
      (if e then Io.rmtree dest_dir else ret tt) ;;
      Io.copytree (template_rnbo_dir ++ [fst item]) dest_dir
  end.

Import Drv.
Local Open Scope drv_scope.

Section Child.

Variable spawn : path -> list string -> M (nat * string).

Definition create_demo_module : D bool :=
  e <- lift (Io.path_exists create_script) ;;
  if negb e
  then print (Err_create_script_not_found create_script) ;; ret false
  else
    let cmd := command_line in
    print Creating_demo ;;
    try_except
      (result <- lift (spawn create_script cmd) ;;
       if Nat.eqb (fst result) 0
       then print Created_demo ;; ret true
       else print (Failed_to_create_demo (snd result)) ;; ret false)
      (fun e =>
         if is_Exception e
         then Some (print Err_creating_demo ;; ret false)
         else None).

Definition copy_demo_rnbo_code : D bool :=
  e <- lift (Io.path_exists template_rnbo_dir) ;;
  if negb e
  then print (Err_template_rnbo_not_found template_rnbo_dir) ;; ret false
  else
    e <- lift (Io.path_exists module_rnbo_dir) ;;
    if negb e
    then print (Err_module_rnbo_not_found module_rnbo_dir) ;;
         print Make_sure_demo_created ;;
         ret false
    else
      print (Copying_demo template_rnbo_dir module_rnbo_dir) ;;
      try_except
        (items <- lift (Io.iterdir template_rnbo_dir) ;;
         for_each items
           (fun item =>
              lift (copy_item item) ;;
              match snd item with
              | File _ => print (Copied_file (fst item))
              | Dir _ => print (Copied_directory (fst item))
              end) ;;
         print Demo_copied ;;
         ret true)
        (fun e =>
           if is_Exception e
           then Some (print Err_copying_demo ;; ret false)
           else None).

Definition check_demo_exists : D bool := lift (Io.path_exists demo_dir).

Definition print_success_message : D unit := print Demo_success_message.

Definition main (a : args) : D unit :=
  e <- check_demo_exists ;;
  (if e
   then
     if force a
     then
       print Demo_exists_removing ;;
       s <- lift (Io.path_exists remove_script) ;;
       if s
       then
         try_except
           (result <- lift (spawn remove_script ["DEMO"; "--force"]) ;;
            if negb (Nat.eqb (fst result) 0)
            then print (Failed_to_remove_demo (snd result)) ;; sys_exit 1
            else print Demo_removed)
           (fun e =>
              if is_Exception e
              then Some (print Err_removing_demo ;; sys_exit 1)
              else None)
       else print (Err_remove_script_not_found remove_script) ;; sys_exit 1
     else print Demo_exists ;; sys_exit 1
   else ret tt) ;;
  created <- create_demo_module ;;
  if negb created then print Failed_create_demo ;; sys_exit 1
  else
    copied <- copy_demo_rnbo_code ;;
    if negb copied then print Failed_copy_demo ;; sys_exit 1
    else print_success_message.

End Child.

End AddDemo.

(** * Notions used in the statements *)

(** ** Module identifiers *)

(** The four rules of a module identifier, as the documentation states
    them.  A character counts as upper case when upper-casing leaves it
    as it is, which is how a digit passes. *)
Definition well_formed_id (s : string) : Prop :=
  String.length s = 4
  /\ (forall c, In c (list_ascii_of_string s) -> Py.isalnum c = true)
  /\ (exists c r, s = String c r /\ Py.isalpha c = true)
  /\ (forall c, In c (list_ascii_of_string s) -> Py.upper_char c = [Py.code c]).

(** [str.islower] for one character: the lower-case letters below 256. *)
Definition islower (c : ascii) : bool :=
  Py.in_range 97 122 c || Py.is_code 170 c || Py.is_code 181 c
  || Py.is_code 186 c || Py.in_range 223 246 c || Py.in_range 248 255 c.

(** The two lower-case letters below 256 that [str.upper] leaves as they
    are: the feminine and the masculine ordinal indicator. *)
Definition feminine_ordinal : ascii := ascii_of_nat 170.
Definition masculine_ordinal : ascii := ascii_of_nat 186.

(** The four rules with the last one read as it is worded, every
    character is upper case: no character is a lower-case letter, so that
    a digit passes. *)
Definition stated_id (s : string) : Prop :=
  String.length s = 4
  /\ (forall c, In c (list_ascii_of_string s) -> Py.isalnum c = true)
  /\ (exists c r, s = String c r /\ Py.isalpha c = true)
  /\ (forall c, In c (list_ascii_of_string s) -> islower c = false).

(** The identifiers the validator takes, said without [str.upper]: a
    lower-case letter is taken when it is one of the two ordinal
    indicators. *)
Definition accepted_id (s : string) : Prop :=
  String.length s = 4
  /\ (forall c, In c (list_ascii_of_string s) -> Py.isalnum c = true)
  /\ (exists c r, s = String c r /\ Py.isalpha c = true)
  /\ (forall c, In c (list_ascii_of_string s) -> islower c = true ->
                c = feminine_ordinal \/ c = masculine_ordinal).

(** The command line that gives the identifier and no option. *)
Definition only_id (module_id : string) : CreateModule.args :=
  CreateModule.mkArgs (Some module_id) None None None None None None.

(** The mapping of the non-interactive mode. *)
Definition mapping_of (a : CreateModule.args) (mid : string) : dict :=
  [ ("__MOD__", mid);
    ("__NAME__", Py.or_else (CreateModule.name a) mid);
    ("__DESCRIPTION__",
     Py.or_else (CreateModule.description a)
                (Py.or_else (CreateModule.name a) mid));
    ("__BRAND__", Py.or_else (CreateModule.brand a) "YourBrand");
    ("__AUTHOR__", Py.or_else (CreateModule.author a) "Unknown");
    ("__EMAIL__", Py.or_else (CreateModule.email a) "unknown@example.com");
    ("__URL__", Py.or_else (CreateModule.website a) "https://example.com") ].

(** ** Lines of a text *)

(** A string without a newline character. *)
Definition no_newline (b : string) : Prop :=
  Py.all_chars (fun c => negb (Ascii.eqb c Py.newline)) b = true.

(** A string without a carriage return.  A text-mode read turns a
    carriage return, alone or before a newline, into a newline; of a text
    without one it gives what the file holds, and where the line separator
    is the newline a rewrite of that text gives the same file back. *)
Definition carriage_return : ascii := ascii_of_nat 13.

Definition no_carriage_return (b : string) : Prop :=
  Py.all_chars (fun c => negb (Ascii.eqb c carriage_return)) b = true.

(** A line that ends with its newline, and one that ends the file
    without. *)
Definition terminated (l : string) : Prop :=
  exists b, l = (b ++ Py.nl)%string /\ no_newline b.

Definition unterminated (l : string) : Prop :=
  l <> EmptyString /\ no_newline l.

(** The shape of what [readlines] returns: only the last line may lack its
    newline. *)
Fixpoint line_list (ls : list string) : Prop :=
  match ls with
  | [] => True
  | l :: r =>
      match r with
      | [] => terminated l \/ unterminated l
      | _ => terminated l /\ line_list r
      end
  end.

(** A text whose last character is a newline. *)
Definition ends_with_newline (c : string) : Prop :=
  exists b, c = (b ++ Py.nl)%string.

(** ** Occurrences and overlaps of strings *)

(** [t] occurs in [s]. *)
Definition occurs (t s : string) : Prop :=
  exists a b, s = (a ++ t ++ b)%string.

(** Two strings agree as far as both go. *)
Fixpoint compat (x y : string) : bool :=
  match x, y with
  | EmptyString, _ => true
  | _, EmptyString => true
  | String a x', String b y' => Ascii.eqb a b && compat x' y'
  end.

(** The suffixes of a string that are not empty, longest first. *)
Fixpoint suffixes (s : string) : list string :=
  match s with
  | EmptyString => []
  | String _ r => s :: suffixes r
  end.

(** A value clashes with a token when they can overlap: the token starts
    inside the value, or the value starts inside the token. *)
Definition clash (v t : string) : bool :=
  String.eqb t ""
  || existsb (fun v' => compat v' t) (suffixes v)
  || existsb (fun t' => compat t' v) (suffixes (Py.drop 1 t)).

(** No value of the mapping clashes with a token of the mapping. *)
Definition clash_free (substitutions : dict) : bool :=
  forallb (fun kv =>
             forallb (fun kv' => negb (clash (snd kv) (fst kv'))) substitutions)
          substitutions.

(** Every occurrence of [t] in [g ++ s] starts in [s]. *)
Definition starts_in (t g s : string) : Prop :=
  forall a b, (g ++ s)%string = (a ++ t ++ b)%string ->
              exists a', a = (g ++ a')%string.



(** ** The registry file and the module directories *)

(** The text of the file at [p], when there is a text file there. *)
Definition text_at (p : path) (root : node) : option string :=
  match Fs.file_at p root with
  | Some f => match data f with Text s => Some s | Binary _ => None end
  | None => None
  end.

(** A line for a module: its trimmed content is the module's directive. *)
Definition is_line_for (module_id line : string) : bool :=
  String.eqb (Py.strip line) (directive module_id).

(** The lines of a text that are for a module, the other lines, and
    whether there is a line for it. *)
Definition lines_for (module_id content : string) : list string :=
  filter (is_line_for module_id) (Py.readlines content).

Definition other_lines (module_id content : string) : list string :=
  filter (fun line => negb (is_line_for module_id line)) (Py.readlines content).

Definition has_line_for (module_id content : string) : bool :=
  existsb (is_line_for module_id) (Py.readlines content).

(** The two sides of the invariant. *)
Definition registered (mid : string) (root : node) : bool :=
  match text_at cmake_file root with
  | Some c => has_line_for mid c
  | None => false
  end.

Definition module_exists (mid : string) (root : node) : bool :=
  Fs.exists_ (modules_dir ++ [mid]) root.

(** A name of one entry of a directory: it is not empty, it is not "."
    or "..", and it has no separator, colon or null character in it, so
    that joining it to the path of a directory names that entry. *)
Definition entry_name (s : string) : bool :=
  negb (String.eqb s "") && negb (String.eqb s ".")
  && negb (String.eqb s "..")
  && Py.all_chars
       (fun c => negb (Py.is_code 47 c || Py.is_code 92 c
                       || Py.is_code 58 c || Py.is_code 0 c)) s.

(** A project whose registry file holds the text [c]. *)
Definition registry_state (c : string) : state :=
  mkState
    (Dir [("modules", Dir [("CMakeLists.txt", File (mkFile true (Text c)))])])
    [] [].

(** A project with the template, a module TEST beside the reserved
    directory, and the registry. *)
Definition sample_project : node :=
  Dir [ ("template",
         Dir [("module",
               Dir [("CMakeLists.txt",
                     File (mkFile true (Text "project(__MOD__) # __NAME__")));
                    ("icon.png", File (mkFile true (Binary [x89; x50])));
                    ("LICENSE", File (mkFile false (Text "(c) __AUTHOR__")))])]);
        ("modules",
         Dir [("CMakeLists.txt",
               File (mkFile true (Text ("add_subdirectory(common)" ++ Py.nl))));
              ("common", Dir [])]) ].

(** The same project with another text in the registry file. *)
Definition sample_with_registry (c : string) : node :=
  Fs.put cmake_file (File (mkFile true (Text c))) sample_project.

(** ** Walks and substituted files *)

(** The second half of the walk: the sub-directories in turn. *)
Definition walk_subdirs (top : path) : Fs.entries -> list path :=
  fix subdirs (es : Fs.entries) : list path :=
    match es with
    | [] => []
    | (x, m) :: r =>
        match m with
        | Dir _ => Fs.walk (top ++ [x]) m ++ subdirs r
        | File _ => subdirs r
        end
    end.

(** The first half: the files of the directory itself. *)
Definition walk_files (top : path) (es : Fs.entries) : list path :=
  map (fun e => top ++ [fst e]) (filter (fun e => negb (Fs.is_dir (snd e))) es).

(** What [substitute_in_file] leaves of a file, and what it records. *)
Definition substituted (substitutions : dict) (f : file) : file :=
  match data f with
  | Text c =>
      if writable f
      then mkFile true (Text (CreateModule.substitute substitutions c))
      else f
  | Binary _ => f
  end.

Definition report (p : path) (f : file) : event :=
  match data f with
  | Text _ => if writable f then Wrote p else Print (Err_processing p)
  | Binary _ => Print (Skipping_binary p)
  end.

(** A command that leaves the project tree as it found it. *)
Definition preserves_fs {A} (c : M A) : Prop :=
  forall st r st', c st = (r, st') -> fs st' = fs st.

(** ** Loops that read their input *)

(** A command that reads nothing. *)
Definition keeps_stdin {A} (c : M A) : Prop :=
  forall st r st', c st = (r, st') -> stdin st' = stdin st.

(** A command that reads one line: at the end of the input it raises
    EOFError, otherwise it takes the first line and no other. *)
Definition reads_a_line {A} (c : M A) : Prop :=
  forall st,
    match stdin st with
    | [] => exists st', c st = (Raise EOFError, st')
    | _ :: ls => forall r st', c st = (r, st') -> stdin st' = ls
    end.

(** ** Answers read from the input *)

(** How a line of input answers the question of [confirm_removal]. *)
Definition answer (l : string) : option bool :=
  let response := Py.lower (Py.strip l) in
  if RemoveModule.name_in response ["yes"; "y"] then Some true
  else if RemoveModule.name_in response ["no"; "n"] then Some false
  else None.

(** A command that leaves the project tree alone and, of the input, only
    takes lines from the front. *)
Definition quiet {A} (c : M A) : Prop :=
  forall st r st',
    c st = (r, st') ->
    fs st' = fs st /\ exists taken, stdin st = taken ++ stdin st'.

(** How a line of input answers the menu of [n] modules. *)
Inductive choice : Type :=
| Quit
| Pick (index : nat)
| Not_a_number
| Out_of_range.

Definition choice_of (n : nat) (l : string) : choice :=
  let c := Py.strip l in
  if String.eqb (Py.lower c) "q" then Quit
  else
    match Py.int c with
    | None => Not_a_number
    | Some i =>
        let index := (i - 1)%Z in
        if ((0 <=? index) && (index <? Z.of_nat n))%Z
        then Pick (Z.to_nat index)
        else Out_of_range
    end.

(** What the menu prints after a line it cannot use. *)
Definition menu_reply (n : nat) (l : string) : list event :=
  match choice_of n l with
  | Out_of_range => [Prompt (Ask_select n); Print (Please_number_between n)]
  | _ => [Prompt (Ask_select n); Print Please_valid_number]
  end.

(** ** Where a command writes *)

(** Two paths part ways: they agree up to a point and then name different
    entries, so that neither lies above the other. *)
Definition diverge (p q : path) : Prop :=
  exists c x y p' q', p = c ++ x :: p' /\ q = c ++ y :: q' /\ x <> y.

(** A command that changes nothing at the paths that part ways with all
    of [roots]. *)
Definition touches_only (roots : list path) {A} (c : M A) : Prop :=
  forall st r st',
    c st = (r, st') ->
    forall q, Forall (fun p => diverge p q) roots ->
              Fs.resolve q (fs st') = Fs.resolve q (fs st).

(** A command that, in a tree that differs from [root] at [t] only,
    leaves a tree that differs from [root] at [t] only. *)
Definition writes_below (t : path) {A} (c : M A) : Prop :=
  forall st r st',
    c st = (r, st') ->
    forall root n, fs st = Fs.put t n root ->
                   exists n', fs st' = Fs.put t n' root.

(** A command after which the same paths exist, and the same of them are
    directories. *)
Definition keeps_kinds {A} (c : M A) : Prop :=
  forall st r st',
    c st = (r, st') ->
    forall q, option_map Fs.is_dir (Fs.resolve q (fs st'))
              = option_map Fs.is_dir (Fs.resolve q (fs st)).

(** ** Child processes *)

(** The child process [child] runs the script [script]: it starts with
    nothing printed, works on the project tree and the input it finds and
    leaves them as the script does; its return code is the exit status of
    the script.  What it prints is captured and what it writes to the
    error stream is not said. *)
Definition runs_as (child : M (nat * string)) {A} (script : M A) : Prop :=
  forall st,
    let started := mkState (fs st) (stdin st) [] in
    exists err,
      child st
      = (Return (exit_status (fst (script started)), err),
         mkState (fs (snd (script started))) (stdin (snd (script started)))
                 (trace st)).

(** A name the command line of the child can give as the module: it is
    not empty and does not look like an option. *)
Definition plain_name (s : string) : bool :=
  negb (String.eqb s "") && negb (prefix "-" s).

(** The child processes of removeAll.py are runs of removeModule.py. *)
Definition spawns_remove_module (spawn : path -> list string -> M (nat * string))
  : Prop :=
  forall m,
    plain_name m = true ->
    runs_as (spawn RemoveAll.remove_script [m; "--force"])
            (RemoveModule.main (RemoveModule.mkArgs (Some m) true false)).

(** The arguments createModule.py reads from the command line test.py
    builds. *)
Definition args_of (module_config : TestModules.config) : CreateModule.args :=
  CreateModule.mkArgs
    (Some (TestModules.id module_config))
    (Some (TestModules.name module_config))
    (Some (TestModules.description module_config))
    (Some (TestModules.brand module_config))
    (Some (TestModules.author module_config))
    (Some (TestModules.email module_config))
    (Some (TestModules.website module_config)).

(** The child processes of test.py are runs of createModule.py. *)
Definition spawns_create_module (spawn : path -> list string -> M (nat * string))
  : Prop :=
  forall module_config,
    In module_config TestModules.test_modules ->
    runs_as (spawn TestModules.create_script
               (TestModules.command_line module_config))
            (CreateModule.main (args_of module_config)).

(** The modules removeAll.py lists in a directory with the entries
    [es]. *)
Definition listed (es : Fs.entries) : list string :=
  Py.sorted
    (map fst
       (filter (fun item =>
                  Fs.is_dir (snd item)
                  && negb (RemoveModule.name_in (fst item)
                             ["common"; "inc"; ".git"])) es)).

(** The lines of a text that are for none of the modules. *)
Definition lines_for_none_of (modules : list string) (c : string)
  : list string :=
  filter (fun line => negb (existsb (fun m => is_line_for m line) modules))
         (Py.readlines c).

(** A command of the calling scripts that leaves the project tree alone
    and only takes lines from the front of the input. *)
Definition quiet_call {A} (c : Drv.D A) : Prop :=
  forall w r w',
    c w = (r, w') ->
    fs (Drv.inner w') = fs (Drv.inner w)
    /\ exists taken,
         stdin (Drv.inner w) = taken ++ stdin (Drv.inner w').

(** ** The registry step of a forced removal *)

(** Whether the registry step of removeModule.py succeeds for the module
    [m] in the tree [root], and the tree it leaves. *)
Definition removable (m : string) (root : node) : bool :=
  match Fs.file_at cmake_file root with
  | Some f =>
      match data f with
      | Text c => has_line_for m c && writable f
      | Binary _ => false
      end
  | None => false
  end.

Definition without_line (m : string) (root : node) : node :=
  match Fs.file_at cmake_file root with
  | Some f =>
      match data f with
      | Text c =>
          if has_line_for m c && writable f
          then Fs.put cmake_file
                 (File (mkFile true (Text (Py.writelines (other_lines m c)))))
                 root
          else root
      | Binary _ => root
      end
  | None => root
  end.

(** A child process that runs [script] and writes nothing to the error
    stream. *)
Definition child {A} (script : M A) : M (nat * string) :=
  fun st =>
    let r := script (mkState (fs st) (stdin st) []) in
    (Return (exit_status (fst r), EmptyString),
     mkState (fs (snd r)) (stdin (snd r)) (trace st)).

(** removeModule.py as the child of removeAll.py. *)
Definition remove_module_child (script : path) (argv : list string)
  : M (nat * string) :=
  match argv with
  | m :: _ => child (RemoveModule.main (RemoveModule.mkArgs (Some m) true false))
  | [] => ret (2, EmptyString)
  end.

(** createModule.py as the child of test.py. *)
Definition create_module_child (script : path) (argv : list string)
  : M (nat * string) :=
  match argv with
  | [i; _; n; _; d; _; b; _; a; _; e; _; w] =>
      child (CreateModule.main
               (CreateModule.mkArgs (Some i) (Some n) (Some d) (Some b)
                  (Some a) (Some e) (Some w)))
  | _ => ret (2, EmptyString)
  end.

(** A checkout with the scripts, the template, the reserved directory and
    two modules, of which TEST is in the registry and DEMO is not. *)
Definition sample_checkout : node :=
  Dir [ ("scripts",
         Dir [("createModule.py", File (mkFile true (Text "")));
              ("removeModule.py", File (mkFile true (Text "")))]);
        ("template",
         Dir [("module",
               Dir [("CMakeLists.txt",
                     File (mkFile true (Text "project(__MOD__) # __NAME__")))])]);
        ("modules",
         Dir [("TEST", Dir [("TEST.cpp", File (mkFile true (Text "")))]);
              ("CMakeLists.txt",
               File (mkFile true
                       (Text ("add_subdirectory(common)" ++ Py.nl
                              ++ "add_subdirectory(TEST)" ++ Py.nl))));
              ("common", Dir []);
              ("DEMO", Dir [])]) ].

(** The line createModule.py adds to a registry with the text [c] for the
    module: none when the text has the directive already. *)
Definition line_if_missing (module_id c : string) : string :=
  if Py.contains (directive module_id) c then EmptyString
  else directive module_id ++ Py.nl.

(** The entries of the template with the RNBO directory of the module,
    which is made empty when the template has no entry of that name. *)
Definition with_rnbo_dir (mid : string) (tes : Fs.entries) : Fs.entries :=
  match Fs.lookup (mid ++ "-rnbo") tes with
  | Some _ => tes
  | None => tes ++ [((mid ++ "-rnbo")%string, Dir [])]
  end.

(** The destination of an entry of the demo code can take it: nothing is
    there, or a writable file for a file, or a directory for a
    directory. *)
Definition can_take (n : node) (d : option node) : bool :=
  match d with
  | None => true
  | Some (File g) => match n with File _ => writable g | Dir _ => false end
  | Some (Dir _) => Fs.is_dir n
  end.

(** A checkout with the demo code in the template and a DEMO module that
    has an older copy of a part of it. *)
Definition sample_with_demo : node :=
  Dir [ ("scripts",
         Dir [("createModule.py", File (mkFile true (Text "")));
              ("removeModule.py", File (mkFile true (Text "")))]);
        ("template",
         Dir [("module",
               Dir [("CMakeLists.txt",
                     File (mkFile true (Text "project(__MOD__) # __NAME__")))]);
              ("Demo",
               Dir [("Demo-rnbo",
                     Dir [("patch.cpp", File (mkFile true (Text "new")));
                          ("src",
                           Dir [("dsp.h", File (mkFile false (Text "dsp")))])])])]);
        ("modules",
         Dir [("CMakeLists.txt",
               File (mkFile true (Text ("add_subdirectory(common)" ++ Py.nl))));
              ("common", Dir []);
              ("DEMO",
               Dir [("DEMO-rnbo",
                     Dir [("patch.cpp", File (mkFile true (Text "old")));
                          ("notes.txt", File (mkFile true (Text "mine")));
                          ("src",
                           Dir [("old.h", File (mkFile true (Text "")))])])])]) ].

(** The arguments createModule.py reads from the command line addDemo.py
    builds. *)
Definition demo_args : CreateModule.args :=
  CreateModule.mkArgs
    (Some "DEMO") (Some "Demo Module")
    (Some "Demo module with example RNBO patch") (Some "Example")
    (Some "Example Team") (Some "info@example.com")
    (Some "https://example.com").

(** The child processes of addDemo.py are runs of createModule.py and of
    removeModule.py. *)
Definition spawns_for_demo (spawn : path -> list string -> M (nat * string))
  : Prop :=
  runs_as (spawn AddDemo.create_script AddDemo.command_line)
          (CreateModule.main demo_args)
  /\ runs_as (spawn AddDemo.remove_script ["DEMO"; "--force"])
             (RemoveModule.main (RemoveModule.mkArgs (Some "DEMO") true false)).

(** The two scripts as the children of addDemo.py, told apart by the
    script that is named. *)
Definition demo_children (script : path) (argv : list string)
  : M (nat * string) :=
  if list_eq_dec string_dec script AddDemo.create_script
  then create_module_child script argv
  else remove_module_child script argv.

(** * Properties *)

(** Unfold the commands of a script down to functions on states. *)
Ltac run_cmd :=
  cbv beta iota zeta delta
    [bind ret raise sys_exit emit print get_fs set_fs try_except
     Io.path_exists Io.read_text Io.write_text Io.append_text Io.copytree
     Io.mkdir_exist_ok Io.rmtree Io.iterdir Fs.exists_];
  cbn [fs stdin trace negb].

(** Use a known fact, then let the command run on. *)
Ltac step H :=
  rewrite ?H; cbv beta iota zeta; cbn [fs stdin trace negb is_Exception].


(** One command after the other. *)
Lemma bind_run {A B} (c : M A) (k : A -> M B) (st st' : state) (a : A) :
  c st = (Return a, st') -> bind c k st = k a st'.
Proof. intros H. unfold bind. now rewrite H. Qed.

Lemma bind_raise {A B} (c : M A) (k : A -> M B) (st st' : state) (e : exn) :
  c st = (Raise e, st') -> bind c k st = (Raise e, st').
Proof. intros H. unfold bind. now rewrite H. Qed.

(** ** Strings *)

Section StringFacts.

Lemma append_nil_r (s : string) : (s ++ "")%string = s.
Proof. induction s; simpl; congruence. Qed.

Lemma append_assoc (a b c : string) :
  ((a ++ b) ++ c)%string = (a ++ (b ++ c))%string.
Proof. induction a; simpl; congruence. Qed.

Lemma length_append (a b : string) :
  String.length (a ++ b) = String.length a + String.length b.
Proof. induction a; simpl; auto. Qed.

Lemma chars_append (a b : string) :
  list_ascii_of_string (a ++ b)
  = list_ascii_of_string a ++ list_ascii_of_string b.
Proof. induction a; simpl; congruence. Qed.

Lemma chars_inj (a b : string) :
  list_ascii_of_string a = list_ascii_of_string b -> a = b.
Proof.
  intros H.
  rewrite <- (string_of_list_ascii_of_string a),
          <- (string_of_list_ascii_of_string b).
  now rewrite H.
Qed.

Lemma all_chars_spec (p : ascii -> bool) (s : string) :
  Py.all_chars p s = true
  <-> forall c, In c (list_ascii_of_string s) -> p c = true.
Proof.
  induction s as [|a s IH]; simpl.
  - split; [intros _ c [] | reflexivity].
  - rewrite andb_true_iff, IH. split.
    + intros [Ha Hs] c [<- | Hc]; auto.
    + intros H. split; [apply H; now left | intros c Hc; apply H; now right].
Qed.

(** A character is its own upper-case form, or upper-casing starts with
    another code point. *)
Lemma upper_char_cases (c : ascii) :
  Py.upper_char c = [Py.code c]
  \/ exists x r, Py.upper_char c = x :: r /\ x <> Py.code c.
Proof.
  destruct c as [[] [] [] [] [] [] [] []]; vm_compute;
    first [ left; reflexivity
          | right; eexists; eexists; split; [reflexivity | discriminate] ].
Qed.

Lemma is_own_upper_spec (s : string) :
  Py.is_own_upper s = true
  <-> forall c, In c (list_ascii_of_string s) -> Py.upper_char c = [Py.code c].
Proof.
  unfold Py.is_own_upper.
  destruct (list_eq_dec N.eq_dec (Py.codes s) (Py.upper s)) as [E | E].
  - split; [intros _ | reflexivity].
    induction s as [|a s IH]; simpl in *; [intros c [] |].
    destruct (upper_char_cases a) as [Ha | (x & r & Ha & Hx)];
      rewrite Ha in E; simpl in E.
    + injection E as E. intros c [<- | Hc]; auto.
    + injection E as E1 E2. congruence.
  - split; [discriminate | intros H; exfalso; apply E]. clear E.
    induction s as [|a s IH]; simpl in *; [reflexivity |].
    rewrite (H a (or_introl eq_refl)). simpl. f_equal.
    apply IH. intros c Hc. apply H. now right.
Qed.

End StringFacts.

(** ** C2: the identifier validator *)

Section Validate.

Import CreateModule.

Lemma validate_module_id_state (s : string) (st : state) :
  exists b ms,
    validate_module_id s st
    = (Return b, mkState (fs st) (stdin st) (trace st ++ map Print ms)).
Proof.
  assert (Here : forall b : bool, (Return b, st)
            = (Return b, mkState (fs st) (stdin st) (trace st ++ map Print []))).
  { intros b. simpl. rewrite app_nil_r. now destruct st. }
  unfold validate_module_id.
  destruct s as [|a s].
  { exists false, []. apply Here. }
  change (String.eqb (String a s) "") with false. cbv iota.
  cbn [String.get].
  destruct (Nat.eqb (String.length (String a s)) 4); cbn [negb];
    [| now exists false, [Err_id_length (String.length (String a s))]].
  destruct (Py.str_isalnum (String a s)); cbn [negb];
    [| now exists false, [Err_id_not_alnum]].
  destruct (Py.isalpha a); cbn [negb];
    [| now exists false, [Err_id_first_not_letter]].
  destruct (Py.is_own_upper (String a s)); cbn [negb];
    [| now exists false, [Err_id_not_uppercase]].
  exists true, []. apply Here.
Qed.

Lemma validate_module_id_true (s : string) (st : state) :
  fst (validate_module_id s st) = Return true <-> well_formed_id s.
Proof.
  unfold validate_module_id, well_formed_id.
  destruct s as [|a s].
  { split; [discriminate | intros [H _]; discriminate H]. }
  change (String.eqb (String a s) "") with false. cbv iota.
  destruct (Nat.eqb (String.length (String a s)) 4) eqn:L.
  2:{ apply Nat.eqb_neq in L. split; [discriminate | tauto]. }
  apply Nat.eqb_eq in L. cbn [negb String.get].
  unfold Py.str_isalnum.
  destruct (Py.all_chars Py.isalnum (String a s)) eqn:A; cbn [negb].
  2:{ split; [discriminate |].
      intros (_ & H & _). apply all_chars_spec in H. congruence. }
  destruct (Py.isalpha a) eqn:F; cbn [negb].
  2:{ split; [discriminate |].
      intros (_ & _ & (c & r & E & H) & _). injection E as -> ->. congruence. }
  destruct (Py.is_own_upper (String a s)) eqn:U; cbn [negb].
  - split; [intros _ | reflexivity].
    repeat split; auto.
    + now apply all_chars_spec.
    + now exists a, s.
    + now apply is_own_upper_spec.
  - split; [discriminate |].
    intros (_ & _ & _ & H). apply is_own_upper_spec in H. congruence.
Qed.

(** A character is its own upper-casing exactly when it is no lower-case
    letter, or one of the two ordinal indicators. *)
Lemma own_upper_islower (c : ascii) :
  Py.upper_char c = [Py.code c]
  <-> (islower c = true -> c = feminine_ordinal \/ c = masculine_ordinal).
Proof.
  assert (B : (if list_eq_dec N.eq_dec (Py.upper_char c) [Py.code c]
               then true else false)
              = negb (islower c) || Ascii.eqb c feminine_ordinal
                || Ascii.eqb c masculine_ordinal).
  { destruct c as [[] [] [] [] [] [] [] []]; vm_compute; reflexivity. }
  destruct (list_eq_dec N.eq_dec (Py.upper_char c) [Py.code c]) as [E | E].
  - split; [intros _ L | intros _; exact E].
    rewrite L in B. cbn [negb orb] in B. symmetry in B.
    apply orb_true_iff in B as [B | B]; apply Ascii.eqb_eq in B; tauto.
  - split; [intros H; contradiction |].
    intros H. symmetry in B. apply orb_false_iff in B as (B & B2).
    apply orb_false_iff in B as (B0 & B1).
    apply negb_false_iff in B0.
    destruct (H B0) as [-> | ->]; [discriminate B1 | discriminate B2].
Qed.

Lemma well_formed_id_accepted (s : string) : well_formed_id s <-> accepted_id s.
Proof.
  unfold well_formed_id, accepted_id.
  split; intros (L & A & F & U); (split; [exact L |]; split; [exact A |];
    split; [exact F |]); intros c Hc.
  - apply own_upper_islower. now apply U.
  - apply own_upper_islower. now apply U.
Qed.

(** C2, as the code has it.  [validate_module_id] answers true exactly for
    the strings of four alphanumeric characters that start with a letter
    and in which no character is a lower-case letter other than the two
    ordinal indicators, which are their own upper-casing; it answers false
    for every other string, so for the empty string and for "ab1".  Every
    identifier that keeps the four rules as they are worded is taken. *)
Theorem validate_module_id_exact :
  (forall (s : string) (st : state),
      fst (validate_module_id s st) = Return true <-> accepted_id s)
  /\ (forall (s : string) (st : state),
         fst (validate_module_id s st) = Return false <-> ~ accepted_id s)
  /\ (forall s, stated_id s -> accepted_id s)
  /\ (forall st, fst (validate_module_id "" st) = Return false)
  /\ (forall st, fst (validate_module_id "ab1" st) = Return false).
Proof.
  assert (T : forall s st,
             fst (validate_module_id s st) = Return true <-> accepted_id s).
  { intros s st. rewrite <- well_formed_id_accepted.
    apply validate_module_id_true. }
  split; [exact T |].
  split; [| split; [| split; intros st; reflexivity]].
  - intros s st. rewrite <- (T s st).
    destruct (validate_module_id_state s st) as (b & ms & E).
    rewrite E. cbn [fst]. destruct b; split; congruence.
  - intros s (L & A & F & U). split; [exact L |]. split; [exact A |].
    split; [exact F |]. intros c Hc Hl. rewrite (U c Hc) in Hl.
    discriminate Hl.
Qed.

(** C2 as it was stated fails on an identifier with an ordinal indicator:
    the feminine ordinal indicator is a lower-case letter, and the
    validator takes the identifier that starts with it, because
    upper-casing leaves that letter as it is. *)
Lemma validate_module_id_takes_lower_case :
  let s := String feminine_ordinal "BCD" in
  fst (validate_module_id s (mkState (Dir []) [] [])) = Return true
  /\ islower feminine_ordinal = true
  /\ Py.isalpha feminine_ordinal = true
  /\ ~ stated_id s.
Proof.
  cbv zeta. split; [reflexivity |]. split; [reflexivity |].
  split; [reflexivity |].
  intros (_ & _ & _ & U).
  specialize (U feminine_ordinal (or_introl eq_refl)). discriminate U.
Qed.

End Validate.

(** ** Lines of a text file *)

Section Lines.

Lemma terminated_cons (a : ascii) (l : string) :
  Ascii.eqb a Py.newline = false -> terminated l -> terminated (String a l).
Proof.
  intros Ha (b & -> & Hb). exists (String a b). split; [reflexivity |].
  unfold no_newline in *. simpl. now rewrite Ha.
Qed.

Lemma unterminated_cons (a : ascii) (l : string) :
  Ascii.eqb a Py.newline = false -> no_newline l -> unterminated (String a l).
Proof.
  intros Ha Hl. split; [discriminate |].
  unfold no_newline in *. simpl. now rewrite Ha.
Qed.

Lemma line_list_tail (l : string) (r : list string) :
  line_list (l :: r) -> line_list r.
Proof. destruct r; simpl; [trivial | tauto]. Qed.

Lemma line_list_cons (l : string) (r : list string) :
  terminated l -> line_list r -> line_list (l :: r).
Proof. destruct r; simpl; tauto. Qed.

Lemma readlines_line_list (c : string) : line_list (Py.readlines c).
Proof.
  induction c as [|a c IH]; simpl; [exact I |].
  destruct (Ascii.eqb a Py.newline) eqn:Ha.
  - apply line_list_cons; [| exact IH].
    exists EmptyString. split; reflexivity.
  - destruct (Py.readlines c) as [|l ls].
    + right. now apply unterminated_cons.
    + destruct ls as [|l' ls].
      * simpl in *. destruct IH as [T | [_ U]].
        -- left. now apply terminated_cons.
        -- right. now apply unterminated_cons.
      * destruct IH as [T R]. split; [now apply terminated_cons | exact R].
Qed.

Lemma readlines_terminated (b rest : string) :
  no_newline b ->
  Py.readlines (b ++ String Py.newline rest)
  = (b ++ Py.nl)%string :: Py.readlines rest.
Proof.
  unfold no_newline. induction b as [|a b IH]; simpl; intros H.
  - reflexivity.
  - apply andb_true_iff in H as [Ha Hb]. apply negb_true_iff in Ha.
    rewrite Ha, (IH Hb). reflexivity.
Qed.

Lemma readlines_unterminated (l : string) :
  unterminated l -> Py.readlines l = [l].
Proof.
  intros [Hne H]. unfold no_newline in H.
  induction l as [|a l IH]; [congruence |]. simpl in *.
  apply andb_true_iff in H as [Ha Hl]. apply negb_true_iff in Ha.
  rewrite Ha. destruct l as [|a' l]; [reflexivity |].
  rewrite IH; [reflexivity | discriminate | exact Hl].
Qed.

(** Reading back what [writelines] wrote gives the lines written. *)
Lemma readlines_writelines (ls : list string) :
  line_list ls -> Py.readlines (Py.writelines ls) = ls.
Proof.
  unfold Py.writelines.
  induction ls as [|l r IH]; [reflexivity |]. intros H.
  destruct r as [|l' r].
  - simpl in *. destruct H as [(b & -> & Hb) | U].
    + unfold Py.nl at 1. now rewrite readlines_terminated.
    + now apply readlines_unterminated.
  - destruct H as [(b & -> & Hb) R].
    change (String.concat "" ((b ++ Py.nl)%string :: l' :: r))
      with ((b ++ Py.nl) ++ String.concat "" (l' :: r))%string.
    set (rest := String.concat "" (l' :: r)) in *.
    rewrite append_assoc.
    change (Py.nl ++ rest)%string with (String Py.newline rest).
    rewrite readlines_terminated by exact Hb. now rewrite IH.
Qed.

Lemma line_list_filter (p : string -> bool) (ls : list string) :
  line_list ls -> line_list (filter p ls).
Proof.
  induction ls as [|l r IH]; [trivial |]. intros H.
  pose proof (IH (line_list_tail _ _ H)) as Hr.
  simpl. destruct (p l); [| exact Hr].
  destruct r as [|l' r]; [exact H |].
  destruct H as [T _]. now apply line_list_cons.
Qed.

Lemma writelines_cons (l : string) (r : list string) :
  Py.writelines (l :: r) = (l ++ Py.writelines r)%string.
Proof.
  unfold Py.writelines. destruct r; simpl; [now rewrite append_nil_r | reflexivity].
Qed.

Lemma writelines_readlines (c : string) : Py.writelines (Py.readlines c) = c.
Proof.
  induction c as [|a c IH]; [reflexivity |].
  cbn [Py.readlines].
  destruct (Ascii.eqb a Py.newline) eqn:Ha.
  - apply Ascii.eqb_eq in Ha as ->.
    rewrite writelines_cons, IH. reflexivity.
  - destruct (Py.readlines c) as [|l ls] eqn:E.
    + rewrite <- IH. reflexivity.
    + rewrite writelines_cons. rewrite writelines_cons in IH.
      rewrite <- IH. reflexivity.
Qed.

Lemma readlines_app (c d : string) :
  c = EmptyString \/ ends_with_newline c ->
  Py.readlines (c ++ d) = Py.readlines c ++ Py.readlines d.
Proof.
  intros H.
  assert (G : forall b, Py.readlines ((b ++ Py.nl) ++ d)
                        = Py.readlines (b ++ Py.nl) ++ Py.readlines d).
  { clear. induction b as [|a b IH]; [reflexivity |]. simpl.
    rewrite IH. destruct (Ascii.eqb a Py.newline); [reflexivity |].
    destruct (Py.readlines (b ++ Py.nl)) eqn:E; [| reflexivity].
    exfalso. clear -E. induction b as [|a' b IH]; simpl in E; [discriminate |].
    destruct (Ascii.eqb a' Py.newline); [discriminate |].
    destruct (Py.readlines (b ++ Py.nl)); [now apply IH | discriminate]. }
  destruct H as [-> | [b ->]]; [reflexivity | apply G].
Qed.

(** *** Stripping *)

Lemma rstrip_snoc_space (s : string) (c : ascii) :
  Py.isspace c = true ->
  Py.rstrip (s ++ String c "") = Py.rstrip s.
Proof.
  intros Hc. induction s as [|a s IH]; simpl.
  - now rewrite Hc.
  - now rewrite IH.
Qed.

Lemma rstrip_snoc_other (s : string) (c : ascii) :
  Py.isspace c = false ->
  Py.rstrip (s ++ String c "") = (s ++ String c "")%string.
Proof.
  intros Hc. induction s as [|a s IH]; simpl.
  - now rewrite Hc.
  - rewrite IH. now destruct s.
Qed.

Lemma strip_directive (module_id : string) :
  Py.strip (directive module_id) = directive module_id.
Proof.
  unfold Py.strip, directive.
  rewrite <- append_assoc, rstrip_snoc_other by reflexivity.
  reflexivity.
Qed.

Lemma strip_directive_nl (module_id : string) :
  Py.strip (directive module_id ++ Py.nl) = directive module_id.
Proof.
  unfold Py.strip, Py.nl.
  rewrite rstrip_snoc_space by reflexivity.
  apply strip_directive.
Qed.

End Lines.

(** ** The project tree: lookups after updates *)

Section FsFacts.

Lemma lookup_set_entry_same x n es :
  Fs.lookup x (Fs.set_entry x n es) = Some n.
Proof.
  induction es as [|[y m] r IH]; simpl.
  - now rewrite String.eqb_refl.
  - destruct (String.eqb y x) eqn:E; simpl; now rewrite E.
Qed.

Lemma lookup_set_entry_other x y n es :
  x <> y -> Fs.lookup y (Fs.set_entry x n es) = Fs.lookup y es.
Proof.
  intros Hxy. induction es as [|[z m] r IH]; simpl.
  - apply String.eqb_neq in Hxy. now rewrite Hxy.
  - destruct (String.eqb z x) eqn:E; simpl.
    + apply String.eqb_eq in E as ->.
      apply String.eqb_neq in Hxy. now rewrite Hxy.
    + now rewrite IH.
Qed.

Lemma lookup_update_entry_same x g es :
  Fs.lookup x (Fs.update_entry x g es) = option_map g (Fs.lookup x es).
Proof.
  induction es as [|[y m] r IH]; simpl; [reflexivity |].
  destruct (String.eqb y x) eqn:E; simpl; now rewrite E.
Qed.

Lemma lookup_update_entry_other x y g es :
  x <> y -> Fs.lookup y (Fs.update_entry x g es) = Fs.lookup y es.
Proof.
  intros Hxy. induction es as [|[z m] r IH]; simpl; [reflexivity |].
  destruct (String.eqb z x) eqn:E; simpl.
  - apply String.eqb_eq in E as ->.
    apply String.eqb_neq in Hxy. now rewrite Hxy.
  - now rewrite IH.
Qed.

Lemma lookup_remove_entry_same x es :
  Fs.lookup x (Fs.remove_entry x es) = None.
Proof.
  induction es as [|[y m] r IH]; simpl; [reflexivity |].
  destruct (String.eqb y x) eqn:E; simpl; [exact IH | now rewrite E].
Qed.

Lemma lookup_remove_entry_other x y es :
  x <> y -> Fs.lookup y (Fs.remove_entry x es) = Fs.lookup y es.
Proof.
  intros Hxy. induction es as [|[z m] r IH]; simpl; [reflexivity |].
  destruct (String.eqb z x) eqn:E; simpl.
  - apply String.eqb_eq in E as ->.
    apply String.eqb_neq in Hxy. now rewrite Hxy.
  - now rewrite IH.
Qed.

Lemma put_inner x p n es :
  p <> [] ->
  Fs.put (x :: p) n (Dir es) = Dir (Fs.update_entry x (Fs.put p n) es).
Proof. destruct p; [congruence | reflexivity]. Qed.

Lemma delete_inner x p es :
  p <> [] ->
  Fs.delete (x :: p) (Dir es) = Dir (Fs.update_entry x (Fs.delete p) es).
Proof. destruct p; [congruence | reflexivity]. Qed.

Lemma resolve_cons x p es :
  Fs.resolve (x :: p) (Dir es)
  = match Fs.lookup x es with
    | Some m => Fs.resolve p m
    | None => None
    end.
Proof. reflexivity. Qed.

Lemma snoc_not_nil {A} (l : list A) (a : A) (r : list A) : l ++ a :: r <> [].
Proof. destruct l; discriminate. Qed.

(** Writing over what is there. *)
Lemma resolve_put_same p n m root :
  Fs.resolve p root = Some m -> Fs.resolve p (Fs.put p n root) = Some n.
Proof.
  revert root. induction p as [|x p IH]; intros root H; [reflexivity |].
  destruct root as [f | es]; [discriminate |].
  rewrite resolve_cons in H.
  destruct (Fs.lookup x es) as [m0 |] eqn:L; [| discriminate].
  destruct p as [|y p].
  - simpl. now rewrite lookup_set_entry_same.
  - rewrite put_inner by discriminate.
    rewrite resolve_cons, lookup_update_entry_same, L.
    cbn [option_map]. now apply IH.
Qed.

(** Creating a new entry in a directory. *)
Lemma resolve_put_child q x n es root :
  Fs.resolve q root = Some (Dir es) ->
  Fs.resolve (q ++ [x]) (Fs.put (q ++ [x]) n root) = Some n.
Proof.
  revert root. induction q as [|y q IH]; intros root H.
  - simpl in H. injection H as ->. simpl. now rewrite lookup_set_entry_same.
  - destruct root as [f | es0]; [discriminate |].
    rewrite resolve_cons in H.
    destruct (Fs.lookup y es0) as [m0 |] eqn:L; [| discriminate].
    change ((y :: q) ++ [x]) with (y :: (q ++ [x])).
    rewrite put_inner by apply snoc_not_nil.
    rewrite resolve_cons, lookup_update_entry_same, L.
    cbn [option_map]. now apply IH.
Qed.

(** Paths that part ways at some component do not see each other. *)
Lemma resolve_put_apart c x y p q n root :
  x <> y ->
  Fs.resolve (c ++ y :: q) (Fs.put (c ++ x :: p) n root)
  = Fs.resolve (c ++ y :: q) root.
Proof.
  intros Hxy. revert root. induction c as [|z c IH]; intros root.
  - destruct root as [f | es]; [reflexivity |].
    destruct p as [|x' p]; simpl.
    + now rewrite lookup_set_entry_other.
    + now rewrite lookup_update_entry_other.
  - destruct root as [f | es]; [reflexivity |].
    change ((z :: c) ++ x :: p) with (z :: (c ++ x :: p)).
    change ((z :: c) ++ y :: q) with (z :: (c ++ y :: q)).
    rewrite put_inner by apply snoc_not_nil.
    rewrite !resolve_cons, lookup_update_entry_same.
    destruct (Fs.lookup z es) as [m |]; [| reflexivity].
    cbn [option_map]. apply IH.
Qed.

Lemma resolve_delete_apart c x y p q root :
  x <> y ->
  Fs.resolve (c ++ y :: q) (Fs.delete (c ++ x :: p) root)
  = Fs.resolve (c ++ y :: q) root.
Proof.
  intros Hxy. revert root. induction c as [|z c IH]; intros root.
  - destruct root as [f | es]; [reflexivity |].
    destruct p as [|x' p]; simpl.
    + now rewrite lookup_remove_entry_other.
    + now rewrite lookup_update_entry_other.
  - destruct root as [f | es]; [reflexivity |].
    change ((z :: c) ++ x :: p) with (z :: (c ++ x :: p)).
    change ((z :: c) ++ y :: q) with (z :: (c ++ y :: q)).
    rewrite delete_inner by apply snoc_not_nil.
    rewrite !resolve_cons, lookup_update_entry_same.
    destruct (Fs.lookup z es) as [m |]; [| reflexivity].
    cbn [option_map]. apply IH.
Qed.

Lemma resolve_delete_same p root :
  p <> [] -> Fs.resolve p (Fs.delete p root) = None.
Proof.
  revert root. induction p as [|x p IH]; intros root Hp; [congruence |].
  destruct root as [f | es]; [reflexivity |].
  destruct p as [|y p].
  - simpl. now rewrite lookup_remove_entry_same.
  - rewrite delete_inner by discriminate.
    rewrite resolve_cons, lookup_update_entry_same.
    destruct (Fs.lookup x es) as [m |]; [| reflexivity].
    cbn [option_map]. apply IH. discriminate.
Qed.

Lemma file_at_resolve p root f :
  Fs.file_at p root = Some f <-> Fs.resolve p root = Some (File f).
Proof.
  unfold Fs.file_at. destruct (Fs.resolve p root) as [[g | es] |];
    split; congruence.
Qed.

End FsFacts.

(** ** Occurrences of one string in another *)

Section Occurrences.

Lemma prefix_spec (a s : string) :
  prefix a s = true <-> exists b, s = (a ++ b)%string.
Proof.
  revert s. induction a as [|x a IH]; intros s.
  - destruct s; simpl; split; eauto.
  - destruct s as [|y s]; simpl.
    + split; [discriminate | intros [b H]; discriminate H].
    + destruct (ascii_dec x y) as [-> | N].
      * rewrite IH. split; intros [b H]; exists b; congruence.
      * split; [discriminate | intros [b H]]. congruence.
Qed.

Lemma contains_spec (t s : string) : Py.contains t s = true <-> occurs t s.
Proof.
  unfold occurs. induction s as [|c s IH].
  - cbn [Py.contains]. rewrite orb_false_r, prefix_spec. split.
    + intros [b H]. exists EmptyString, b. exact H.
    + intros (a & b & H). destruct a; [| discriminate H]. now exists b.
  - cbn [Py.contains]. rewrite orb_true_iff, prefix_spec, IH. split.
    + intros [[b H] | (a & b & H)].
      * exists EmptyString, b. exact H.
      * exists (String c a), b. simpl. now rewrite H.
    + intros (a & b & H). destruct a as [|c' a].
      * left. now exists b.
      * right. injection H as _ H. now exists a, b.
Qed.

Lemma occurs_refl (t : string) : occurs t t.
Proof. exists EmptyString, EmptyString. simpl. now rewrite append_nil_r. Qed.

Lemma occurs_trans (t u s : string) : occurs t u -> occurs u s -> occurs t s.
Proof.
  intros (a & b & ->) (a' & b' & ->).
  exists (a' ++ a)%string, (b ++ b')%string.
  now rewrite !append_assoc.
Qed.

Lemma occurs_app_l (t a s : string) : occurs t s -> occurs t (a ++ s).
Proof.
  intros (x & y & ->). exists (a ++ x)%string, y. now rewrite append_assoc.
Qed.

Lemma occurs_app_r (t s b : string) : occurs t s -> occurs t (s ++ b).
Proof.
  intros (x & y & ->). exists x, (y ++ b)%string. now rewrite !append_assoc.
Qed.

Lemma lstrip_occurs (s : string) : occurs (Py.lstrip s) s.
Proof.
  induction s as [|c s IH]; simpl.
  - apply occurs_refl.
  - destruct (Py.isspace c); [| apply occurs_refl].
    apply (occurs_app_l _ (String c "") s IH).
Qed.

Lemma rstrip_occurs (s : string) : occurs (Py.rstrip s) s.
Proof.
  assert (G : exists b, s = (Py.rstrip s ++ b)%string).
  { induction s as [|c s [b IH]]; simpl; [now exists EmptyString |].
    destruct (Py.rstrip s) as [|c' r].
    - destruct (Py.isspace c).
      + exists (String c s). reflexivity.
      + exists s. reflexivity.
    - exists b. simpl. f_equal. exact IH. }
  destruct G as [b G]. exists EmptyString, b. exact G.
Qed.

Lemma strip_occurs (s : string) : occurs (Py.strip s) s.
Proof.
  unfold Py.strip.
  apply (occurs_trans _ _ _ (lstrip_occurs _) (rstrip_occurs s)).
Qed.

Lemma line_occurs (l c : string) : In l (Py.readlines c) -> occurs l c.
Proof.
  rewrite <- (writelines_readlines c) at 2.
  induction (Py.readlines c) as [|l' ls IH]; [intros [] |].
  rewrite writelines_cons. intros [-> | H].
  - apply occurs_app_r, occurs_refl.
  - apply occurs_app_l, IH, H.
Qed.

End Occurrences.

(** ** The registry file *)

Section Registry.

Import CreateModule RemoveModule.

Lemma filter_shorter {A} (p : A -> bool) (l : list A) :
  Nat.ltb (List.length (filter (fun a => negb (p a)) l)) (List.length l)
  = existsb p l.
Proof.
  induction l as [|a l IH]; [reflexivity |].
  simpl. destruct (p a); simpl.
  - apply Nat.ltb_lt.
    pose proof (filter_length_le (fun a => negb (p a)) l). lia.
  - exact IH.
Qed.

Lemma text_at_put_same p c m root :
  Fs.resolve p root = Some m ->
  text_at p (Fs.put p (File (mkFile true (Text c))) root) = Some c.
Proof.
  intros H. unfold text_at, Fs.file_at.
  now rewrite (resolve_put_same _ _ _ _ H).
Qed.

(** What [remove_from_cmake] does to a registry file it can write. *)
Lemma remove_from_cmake_run p module_id f c st :
  Fs.file_at p (fs st) = Some f -> data f = Text c -> writable f = true ->
  remove_from_cmake p module_id st
  = if has_line_for module_id c
    then (Return true,
          mkState (Fs.put p (File (mkFile true
                                     (Text (Py.writelines (other_lines module_id c)))))
                          (fs st))
                  (stdin st)
                  (trace st ++ [Wrote p; Print (Removed_from_cmake module_id)]))
    else (Return false,
          mkState (fs st) (stdin st)
                  (trace st ++ [Print (Warn_not_in_cmake module_id)])).
Proof.
  intros Hf Hd Hw. apply file_at_resolve in Hf.
  unfold remove_from_cmake. run_cmd.
  step Hf. step Hf. step Hd.
  rewrite strip_directive_nl.
  change (fun line => negb (String.eqb (Py.strip line) (directive module_id)))
    with (fun line => negb (is_line_for module_id line)).
  rewrite filter_shorter. fold (has_line_for module_id c).
  destruct (has_line_for module_id c); [| reflexivity].
  step Hf. step Hw. now rewrite <- app_assoc.
Qed.

(** C3. On a registry file that can be written, [remove_from_cmake]
    deletes exactly the lines whose trimmed content is the directive of
    the module and keeps the others in their order; it answers true
    exactly when a line was deleted, and when no line matches it does not
    write the file at all. *)
Theorem remove_from_cmake_spec (p : path) (module_id : string) (f : file)
  (c : string) (st : state) :
  Fs.file_at p (fs st) = Some f -> data f = Text c -> writable f = true ->
  let kept := filter (fun line => negb (is_line_for module_id line))
                     (Py.readlines c) in
  let (r, st') := remove_from_cmake p module_id st in
  (has_line_for module_id c = true ->
     r = Return true
     /\ (exists c', text_at p (fs st') = Some c' /\ Py.readlines c' = kept)
     /\ trace st' = trace st ++ [Wrote p; Print (Removed_from_cmake module_id)])
  /\ (has_line_for module_id c = false ->
     r = Return false
     /\ fs st' = fs st
     /\ kept = Py.readlines c
     /\ trace st' = trace st ++ [Print (Warn_not_in_cmake module_id)]).
Proof.
  intros Hf Hd Hw kept.
  rewrite (remove_from_cmake_run _ _ _ _ _ Hf Hd Hw).
  destruct (has_line_for module_id c) eqn:E.
  - split; [intros _ | discriminate].
    split; [reflexivity |]. split; [| reflexivity].
    exists (Py.writelines kept). cbn [fs]. split.
    + apply file_at_resolve in Hf. apply (text_at_put_same _ _ _ _ Hf).
    + apply readlines_writelines, line_list_filter, readlines_line_list.
  - split; [discriminate | intros _].
    repeat split.
    unfold kept, has_line_for in *.
    clear -E. induction (Py.readlines c) as [|l ls IH]; [reflexivity |].
    simpl in *. apply orb_false_iff in E as [-> E]. simpl. now rewrite IH.
Qed.

Lemma remove_from_cmake_spec_witness :
  Fs.file_at cmake_file
    (fs (registry_state "add_subdirectory(TEST)
add_subdirectory(VERB)
")) = Some (mkFile true (Text "add_subdirectory(TEST)
add_subdirectory(VERB)
"))
  /\ fst (remove_from_cmake cmake_file "TEST"
            (registry_state "add_subdirectory(TEST)
add_subdirectory(VERB)
")) = Return true.
Proof.
  split; [reflexivity |].
  pose proof (remove_from_cmake_spec cmake_file "TEST" _ _
                (registry_state "add_subdirectory(TEST)
add_subdirectory(VERB)
") eq_refl eq_refl eq_refl) as H.
  cbv zeta in H.
  destruct (remove_from_cmake cmake_file "TEST" _) as [r st'].
  destruct H as [H _]. apply H. reflexivity.
Defined.

(** What [update_modules_cmake] does to a registry file it can write. *)
Lemma update_modules_cmake_run dir module_id f c st :
  Fs.file_at (dir ++ ["CMakeLists.txt"]) (fs st) = Some f ->
  data f = Text c -> writable f = true ->
  update_modules_cmake dir module_id st
  = if Py.contains (directive module_id) c
    then (Return tt,
          mkState (fs st) (stdin st)
                  (trace st ++ [Print (Already_in_cmake module_id)]))
    else (Return tt,
          mkState (Fs.put (dir ++ ["CMakeLists.txt"])
                          (File (mkFile true
                                   (Text (c ++ (directive module_id ++ Py.nl)))))
                          (fs st))
                  (stdin st)
                  (trace st ++ [Appended (dir ++ ["CMakeLists.txt"]);
                                Print (Added_to_cmake module_id)])).
Proof.
  intros Hf Hd Hw. apply file_at_resolve in Hf.
  unfold update_modules_cmake. run_cmd.
  step Hf. step Hf. step Hd.
  destruct (Py.contains (directive module_id) c); [reflexivity |].
  step Hf. step Hw. step Hd. now rewrite <- app_assoc.
Qed.

Lemma no_newline_directive (module_id : string) :
  no_newline module_id -> no_newline (directive module_id).
Proof.
  unfold no_newline, directive. intros H.
  assert (G : forall a b, Py.all_chars (fun c => negb (Ascii.eqb c Py.newline)) a = true ->
                          Py.all_chars (fun c => negb (Ascii.eqb c Py.newline)) b = true ->
                          Py.all_chars (fun c => negb (Ascii.eqb c Py.newline)) (a ++ b) = true).
  { induction a as [|x a IH]; simpl; intros b Ha Hb; [exact Hb |].
    apply andb_true_iff in Ha as [-> Ha]. simpl. now apply IH. }
  apply (G "add_subdirectory("); [reflexivity |].
  apply G; [exact H | reflexivity].
Qed.

(** A line for the module carries the directive, so the directive occurs
    in the text. *)
Lemma has_line_contains (module_id c : string) :
  has_line_for module_id c = true ->
  Py.contains (directive module_id) c = true.
Proof.
  unfold has_line_for, is_line_for. intros H.
  apply existsb_exists in H as (l & Hl & E).
  apply String.eqb_eq in E. apply contains_spec. rewrite <- E.
  apply (occurs_trans _ _ _ (strip_occurs l) (line_occurs _ _ Hl)).
Qed.

Lemma lines_for_none (module_id c : string) :
  has_line_for module_id c = false -> lines_for module_id c = [].
Proof.
  unfold has_line_for, lines_for.
  induction (Py.readlines c) as [|l ls IH]; [reflexivity |].
  simpl. intros H. apply orb_false_iff in H as [-> H]. now apply IH.
Qed.

(** The lines of the file after the directive went to the end of a text
    that is empty or ends with a newline. *)
Lemma readlines_added (module_id c : string) :
  c = EmptyString \/ ends_with_newline c -> no_newline module_id ->
  Py.readlines (c ++ (directive module_id ++ Py.nl))
  = Py.readlines c ++ [(directive module_id ++ Py.nl)%string].
Proof.
  intros Hc Hn. rewrite (readlines_app _ _ Hc). f_equal.
  unfold Py.nl at 1.
  now rewrite (readlines_terminated _ EmptyString (no_newline_directive _ Hn)).
Qed.

Lemma ends_with_newline_last (c : string) :
  ends_with_newline c ->
  last (list_ascii_of_string c) Ascii.zero = Py.newline.
Proof.
  intros [b ->]. rewrite chars_append. apply last_last.
Qed.

(** C4, as the code has it. [update_modules_cmake] leaves the file alone
    and reports the module as present when the text of the directive
    occurs anywhere in the file, which is the case when the file has a
    line for the module.  Otherwise, on a file that is empty or ends with
    a newline, the directive becomes a new last line. *)
Theorem update_modules_cmake_spec (dir : path) (module_id : string)
  (f : file) (c : string) (st : state) :
  Fs.file_at (dir ++ ["CMakeLists.txt"]) (fs st) = Some f ->
  data f = Text c -> writable f = true ->
  let (r, st') := update_modules_cmake dir module_id st in
  r = Return tt
  /\ (has_line_for module_id c = true ->
       Py.contains (directive module_id) c = true)
  /\ (Py.contains (directive module_id) c = true ->
       fs st' = fs st
       /\ trace st' = trace st ++ [Print (Already_in_cmake module_id)])
  /\ (Py.contains (directive module_id) c = false ->
       c = EmptyString \/ ends_with_newline c -> no_newline module_id ->
       exists c',
         text_at (dir ++ ["CMakeLists.txt"]) (fs st') = Some c'
         /\ Py.readlines c'
            = Py.readlines c ++ [(directive module_id ++ Py.nl)%string]
         /\ trace st' = trace st ++ [Appended (dir ++ ["CMakeLists.txt"]);
                                     Print (Added_to_cmake module_id)]).
Proof.
  intros Hf Hd Hw.
  rewrite (update_modules_cmake_run _ _ _ _ _ Hf Hd Hw).
  destruct (Py.contains (directive module_id) c) eqn:E.
  - repeat split; congruence.
  - split; [reflexivity |]. split.
    + intros H. apply has_line_contains in H. congruence.
    + split; [discriminate |]. intros _ Hc Hn.
      exists (c ++ (directive module_id ++ Py.nl))%string. cbn [fs trace].
      split; [| split; [now apply readlines_added | reflexivity]].
      apply file_at_resolve in Hf. apply (text_at_put_same _ _ _ _ Hf).
Qed.

Lemma update_modules_cmake_spec_witness :
  Fs.file_at cmake_file
    (fs (registry_state ("add_subdirectory(common)" ++ Py.nl)))
  = Some (mkFile true (Text ("add_subdirectory(common)" ++ Py.nl)))
  /\ fst (update_modules_cmake modules_dir "TEST"
            (registry_state ("add_subdirectory(common)" ++ Py.nl)))
     = Return tt.
Proof.
  split; [reflexivity |].
  pose proof (update_modules_cmake_spec modules_dir "TEST" _ _
                (registry_state ("add_subdirectory(common)" ++ Py.nl))
                eq_refl eq_refl eq_refl) as H.
  destruct (update_modules_cmake modules_dir "TEST" _) as [r st'].
  apply H.
Defined.

(** C4 as it was stated fails in two ways.  A registry file whose last
    line has no newline has no line for TEST before and none after the
    call: the directive is glued to the last line.  And a file that only
    mentions the directive in a comment has no line for TEST, yet the
    call changes nothing. *)
Lemma update_modules_cmake_no_new_line :
  has_line_for "TEST" "add_subdirectory(common)" = false
  /\ text_at cmake_file
       (fs (snd (update_modules_cmake modules_dir "TEST"
                   (registry_state "add_subdirectory(common)"))))
     = Some ("add_subdirectory(common)add_subdirectory(TEST)" ++ Py.nl)%string
  /\ Py.readlines ("add_subdirectory(common)add_subdirectory(TEST)" ++ Py.nl)
     = [("add_subdirectory(common)add_subdirectory(TEST)" ++ Py.nl)%string]
  /\ has_line_for "TEST"
       ("add_subdirectory(common)add_subdirectory(TEST)" ++ Py.nl) = false
  /\ has_line_for "TEST" ("# add_subdirectory(TEST)" ++ Py.nl) = false
  /\ update_modules_cmake modules_dir "TEST"
       (registry_state ("# add_subdirectory(TEST)" ++ Py.nl))
     = (Return tt,
        mkState (fs (registry_state ("# add_subdirectory(TEST)" ++ Py.nl)))
                [] [Print (Already_in_cmake "TEST")]).
Proof. repeat split; vm_compute; reflexivity. Qed.

(** C8, as the code has it.  A second call never changes the file the
    first call left.  Starting from a file that is empty or ends with a
    newline and does not contain the text of the directive, the result
    has exactly one line for the module. *)
Theorem update_modules_cmake_twice (dir : path) (module_id : string)
  (f : file) (c : string) (st : state) :
  Fs.file_at (dir ++ ["CMakeLists.txt"]) (fs st) = Some f ->
  data f = Text c -> writable f = true ->
  let once := snd (update_modules_cmake dir module_id st) in
  let twice := snd (update_modules_cmake dir module_id once) in
  fs twice = fs once
  /\ (Py.contains (directive module_id) c = false ->
       c = EmptyString \/ ends_with_newline c -> no_newline module_id ->
       exists c',
         text_at (dir ++ ["CMakeLists.txt"]) (fs twice) = Some c'
         /\ List.length (lines_for module_id c') = 1).
Proof.
  intros Hf Hd Hw once twice. subst twice once.
  rewrite (update_modules_cmake_run _ _ _ _ st Hf Hd Hw).
  destruct (Py.contains (directive module_id) c) eqn:E; cbn [snd].
  - erewrite update_modules_cmake_run; [| exact Hf | exact Hd | exact Hw].
    rewrite E. split; [reflexivity | discriminate].
  - apply file_at_resolve in Hf.
    pose proof (resolve_put_same _
                  (File (mkFile true (Text (c ++ (directive module_id ++ Py.nl)))))
                  _ _ Hf) as Hp.
    apply file_at_resolve in Hp.
    erewrite update_modules_cmake_run; [| exact Hp | reflexivity | reflexivity].
    assert (O : Py.contains (directive module_id)
                  (c ++ (directive module_id ++ Py.nl)) = true).
    { apply contains_spec. apply occurs_app_l, occurs_app_r, occurs_refl. }
    rewrite O. cbn [snd fs]. split; [reflexivity |].
    intros _ Hc Hn.
    exists (c ++ (directive module_id ++ Py.nl))%string. split.
    + apply (text_at_put_same _ _ _ _ Hf).
    + unfold lines_for. rewrite (readlines_added _ _ Hc Hn), filter_app.
      fold (lines_for module_id c). rewrite lines_for_none.
      * cbn [app filter]. unfold is_line_for.
        now rewrite strip_directive_nl, String.eqb_refl.
      * destruct (has_line_for module_id c) eqn:L; [| reflexivity].
        apply has_line_contains in L. congruence.
Qed.

Lemma update_modules_cmake_twice_witness :
  Fs.file_at cmake_file
    (fs (registry_state ("add_subdirectory(common)" ++ Py.nl)))
  = Some (mkFile true (Text ("add_subdirectory(common)" ++ Py.nl)))
  /\ fs (snd (update_modules_cmake modules_dir "VERB"
               (snd (update_modules_cmake modules_dir "VERB"
                       (registry_state ("add_subdirectory(common)" ++ Py.nl))))))
     = fs (snd (update_modules_cmake modules_dir "VERB"
                  (registry_state ("add_subdirectory(common)" ++ Py.nl)))).
Proof.
  split; [reflexivity |].
  apply (update_modules_cmake_twice modules_dir "VERB" _ _
           (registry_state ("add_subdirectory(common)" ++ Py.nl))
           eq_refl eq_refl eq_refl).
Defined.

(** C8 as it was stated fails on a registry file whose last line has no
    newline: it has no line for TEST, and after two calls it still has
    none.  So it does on a file that mentions the directive in a
    comment: the two calls leave it as it is, without a line for TEST. *)
Lemma update_modules_cmake_twice_no_line :
  lines_for "TEST" "add_subdirectory(common)" = []
  /\ text_at cmake_file
       (fs (snd (update_modules_cmake modules_dir "TEST"
                   (snd (update_modules_cmake modules_dir "TEST"
                           (registry_state "add_subdirectory(common)"))))))
     = Some ("add_subdirectory(common)add_subdirectory(TEST)" ++ Py.nl)%string
  /\ lines_for "TEST"
       ("add_subdirectory(common)add_subdirectory(TEST)" ++ Py.nl) = []
  /\ text_at cmake_file
       (fs (snd (update_modules_cmake modules_dir "TEST"
                   (snd (update_modules_cmake modules_dir "TEST"
                           (registry_state
                              ("# add_subdirectory(TEST)" ++ Py.nl)))))))
     = Some ("# add_subdirectory(TEST)" ++ Py.nl)%string
  /\ lines_for "TEST" ("# add_subdirectory(TEST)" ++ Py.nl) = [].
Proof. repeat split; vm_compute; reflexivity. Qed.

(** C10. [update_modules_cmake] writes the directive and one newline at
    the end of the file whatever the file ends with.  On the file
    "add_subdirectory(common)", whose only line has no newline and is
    not a line for TEST, the directive lands on that line: the file
    still has one line, and its trimmed content is not the directive. *)
Theorem update_modules_cmake_blind_append :
  (forall (dir : path) (module_id : string) (f : file) (c : string)
          (st : state),
      Fs.file_at (dir ++ ["CMakeLists.txt"]) (fs st) = Some f ->
      data f = Text c -> writable f = true ->
      Py.contains (directive module_id) c = false ->
      text_at (dir ++ ["CMakeLists.txt"])
        (fs (snd (update_modules_cmake dir module_id st)))
      = Some (c ++ (directive module_id ++ Py.nl))%string)
  /\ (~ ends_with_newline "add_subdirectory(common)"
      /\ has_line_for "TEST" "add_subdirectory(common)" = false
      /\ Py.readlines "add_subdirectory(common)" = ["add_subdirectory(common)"]
      /\ exists c',
           text_at cmake_file
             (fs (snd (update_modules_cmake modules_dir "TEST"
                         (registry_state "add_subdirectory(common)"))))
           = Some c'
           /\ Py.readlines c'
              = [("add_subdirectory(common)" ++ directive "TEST" ++ Py.nl)%string]
           /\ Py.strip ("add_subdirectory(common)" ++ directive "TEST" ++ Py.nl)
              <> directive "TEST"
           /\ has_line_for "TEST" c' = false).
Proof.
  split.
  - intros dir module_id f c st Hf Hd Hw E.
    rewrite (update_modules_cmake_run _ _ _ _ _ Hf Hd Hw), E. cbn [snd fs].
    apply file_at_resolve in Hf. apply (text_at_put_same _ _ _ _ Hf).
  - split; [| split; [| split]]; try reflexivity.
    + intros H. apply ends_with_newline_last in H. vm_compute in H.
      discriminate H.
    + eexists. split; [vm_compute; reflexivity |].
      split; [vm_compute; reflexivity |].
      split; [vm_compute; discriminate | vm_compute; reflexivity].
Qed.

End Registry.

(** ** C9: the list of modules *)

Section ModuleList.

Import RemoveModule.







Lemma insert_sorted_perm (x : string) (l : list string) :
  Permutation (Py.insert_sorted x l) (x :: l).
Proof.
  induction l as [|y l IH]; simpl; [reflexivity |].
  destruct (String.leb x y); [reflexivity |].
  rewrite IH. apply perm_swap.
Qed.

Lemma sorted_perm (l : list string) : Permutation (Py.sorted l) l.
Proof.
  induction l as [|x l IH]; simpl; [reflexivity |].
  rewrite insert_sorted_perm. now constructor.
Qed.




Lemma name_in_spec (x : string) (l : list string) :
  name_in x l = true <-> In x l.
Proof.
  unfold name_in. rewrite existsb_exists. split.
  - intros (y & Hy & E). apply String.eqb_eq in E. now subst.
  - intros H. exists x. split; [exact H | apply String.eqb_refl].
Qed.

Lemma NoDup_names_filter (p : string * node -> bool) (es : Fs.entries) :
  NoDup (map fst es) -> NoDup (map fst (filter p es)).
Proof.
  induction es as [|e es IH]; simpl; intros N; [constructor |].
  inversion N as [| ? ? Hx Nl]; subst.
  destruct (p e); simpl; [| now apply IH].
  constructor; [| now apply IH].
  intros H. apply Hx. apply in_map_iff in H as (e' & E & H).
  apply filter_In in H as [H _]. apply in_map_iff. now exists e'.
Qed.



End ModuleList.

(** ** Commands that leave the project tree alone *)

Section Preserves.

Lemma preserves_ret {A} (a : A) : preserves_fs (ret a).
Proof. intros st r st' H. injection H as _ <-. reflexivity. Qed.

Lemma preserves_raise {A} (e : exn) : preserves_fs (@raise A e).
Proof. intros st r st' H. injection H as _ <-. reflexivity. Qed.

Lemma preserves_emit (e : event) : preserves_fs (emit e).
Proof. intros st r st' H. injection H as _ <-. reflexivity. Qed.

Lemma preserves_bind {A B} (c : M A) (k : A -> M B) :
  preserves_fs c -> (forall a, preserves_fs (k a)) -> preserves_fs (bind c k).
Proof.
  intros Hc Hk st r st' H. unfold bind in H.
  destruct (c st) as [[a | e] st1] eqn:E.
  - rewrite (Hk a _ _ _ H). apply (Hc _ _ _ E).
  - injection H as _ <-. apply (Hc _ _ _ E).
Qed.

Lemma preserves_input (q : prompt) : preserves_fs (input q).
Proof.
  unfold input. apply preserves_bind; [apply preserves_emit |].
  intros _ st r st' H. destruct (stdin st); injection H as _ <-; reflexivity.
Qed.

Lemma preserves_try {A} (c : M A) (h : exn -> option (M A)) :
  preserves_fs c -> (forall e k, h e = Some k -> preserves_fs k) ->
  preserves_fs (try_except c h).
Proof.
  intros Hc Hh st r st' H. unfold try_except in H.
  destruct (c st) as [[a | e] st1] eqn:E.
  - injection H as _ <-. apply (Hc _ _ _ E).
  - destruct (h e) as [k |] eqn:K.
    + rewrite (Hh _ _ K _ _ _ H). apply (Hc _ _ _ E).
    + injection H as _ <-. apply (Hc _ _ _ E).
Qed.

Lemma preserves_rounds {A} (n : nat) (body : M (option A)) :
  preserves_fs body -> preserves_fs (rounds n body).
Proof.
  intros Hb. induction n as [|n IH]; simpl.
  - apply preserves_raise.
  - apply preserves_bind; [exact Hb |].
    intros [a |]; [apply preserves_ret | exact IH].
Qed.

Lemma preserves_while_true {A} (body : M (option A)) :
  preserves_fs body -> preserves_fs (while_true body).
Proof.
  intros Hb st r st' H. unfold while_true in H.
  apply (preserves_rounds _ _ Hb _ _ _ H).
Qed.

Lemma preserves_confirm_removal module_id module_dir force :
  preserves_fs (RemoveModule.confirm_removal module_id module_dir force).
Proof.
  unfold RemoveModule.confirm_removal. destruct force; [apply preserves_ret |].
  apply preserves_bind; [apply preserves_emit | intros _].
  apply preserves_while_true.
  apply preserves_bind; [apply preserves_input | intros l].
  destruct (RemoveModule.name_in _ _); [apply preserves_ret |].
  destruct (RemoveModule.name_in _ _); [apply preserves_ret |].
  apply preserves_bind; [apply preserves_emit | intros _; apply preserves_ret].
Qed.

Lemma preserves_validate_module_id s :
  preserves_fs (CreateModule.validate_module_id s).
Proof.
  intros st r st' H.
  destruct (validate_module_id_state s st) as (b & ms & E).
  rewrite E in H. injection H as _ <-. reflexivity.
Qed.

End Preserves.

(** ** Loops: every round reads a line, so the rounds allowed suffice *)

Section Loops.

Lemma keeps_ret {A} (a : A) : keeps_stdin (ret a).
Proof. intros st r st' H. injection H as _ <-. reflexivity. Qed.

Lemma keeps_raise {A} (e : exn) : keeps_stdin (@raise A e).
Proof. intros st r st' H. injection H as _ <-. reflexivity. Qed.

Lemma keeps_emit (e : event) : keeps_stdin (emit e).
Proof. intros st r st' H. injection H as _ <-. reflexivity. Qed.

Lemma keeps_bind {A B} (c : M A) (k : A -> M B) :
  keeps_stdin c -> (forall a, keeps_stdin (k a)) -> keeps_stdin (bind c k).
Proof.
  intros Hc Hk st r st' H. unfold bind in H.
  destruct (c st) as [[a | e] st1] eqn:E.
  - rewrite (Hk a _ _ _ H). apply (Hc _ _ _ E).
  - injection H as _ <-. apply (Hc _ _ _ E).
Qed.

Lemma keeps_validate_module_id s :
  keeps_stdin (CreateModule.validate_module_id s).
Proof.
  intros st r st' H.
  destruct (validate_module_id_state s st) as (b & ms & E).
  rewrite E in H. injection H as _ <-. reflexivity.
Qed.

(** A line is read, and what follows reads nothing. *)
Lemma reads_input_then {A} (q : prompt) (k : string -> M A) :
  (forall l, keeps_stdin (k l)) -> reads_a_line (l <- input q ;; k l).
Proof.
  intros Hk st. unfold input, bind, emit. cbn [fs stdin trace].
  destruct (stdin st) as [| l ls].
  - eexists. reflexivity.
  - intros r st' H. now rewrite (Hk l _ _ _ H).
Qed.

(** Handlers that do not catch the end of the input and read nothing. *)
Lemma reads_try {A} (c : M A) (h : exn -> option (M A)) :
  reads_a_line c ->
  h EOFError = None ->
  (forall e k, h e = Some k -> keeps_stdin k) ->
  reads_a_line (try_except c h).
Proof.
  intros Hc He Hh st. specialize (Hc st). unfold try_except.
  destruct (stdin st) as [| l ls].
  - destruct Hc as (st' & ->). rewrite He. now exists st'.
  - intros r st' H. destruct (c st) as [[a | e] st1] eqn:E.
    + injection H as _ <-. apply (Hc _ _ eq_refl).
    + destruct (h e) as [k |] eqn:K.
      * rewrite (Hh _ _ K _ _ _ H). apply (Hc _ _ eq_refl).
      * injection H as _ <-. apply (Hc _ _ eq_refl).
Qed.

(** The loop is its body followed, unless the body answered, by the loop
    again: the bound on the rounds is never what ends it. *)
Lemma while_true_unfold {A} (body : M (option A)) (st : state) :
  reads_a_line body ->
  while_true body st
  = (r <- body ;;
     match r with
     | Some a => ret a
     | None => while_true body
     end) st.
Proof.
  intros Hb. unfold while_true at 1. cbn [rounds]. unfold bind.
  specialize (Hb st).
  destruct (body st) as [[[a |] | e] st1] eqn:E; try reflexivity.
  unfold while_true. destruct (stdin st) as [| l ls].
  - destruct Hb as (st' & Hb). discriminate Hb.
  - now rewrite (Hb _ _ eq_refl).
Qed.

(** The three loops of the scripts. *)
Lemma reads_module_id :
  reads_a_line
    (l <- input Ask_module_id ;;
     ok <- CreateModule.validate_module_id (Py.strip l) ;;
     ret (if ok then Some (Py.strip l) else None)).
Proof.
  apply reads_input_then. intros l.
  apply keeps_bind; [apply keeps_validate_module_id |].
  intros ok. apply keeps_ret.
Qed.

Lemma reads_confirmation module_id :
  reads_a_line
    (l <- input (Ask_confirm module_id) ;;
     let response := Py.lower (Py.strip l) in
     if RemoveModule.name_in response ["yes"; "y"] then ret (Some true)
     else if RemoveModule.name_in response ["no"; "n"] then ret (Some false)
     else print Please_yes_or_no ;; ret None).
Proof.
  apply reads_input_then. intros l. cbv zeta.
  destruct (RemoveModule.name_in _ _); [apply keeps_ret |].
  destruct (RemoveModule.name_in _ _); [apply keeps_ret |].
  apply keeps_bind; [apply keeps_emit | intros _; apply keeps_ret].
Qed.

Lemma reads_selection (available_modules : list string) :
  reads_a_line
    (try_except
       (l <- input (Ask_select (List.length available_modules)) ;;
        let choice := Py.strip l in
        if String.eqb (Py.lower choice) "q"
        then print Cancelled ;; sys_exit 0
        else
          match Py.int choice with
          | None => raise ValueError
          | Some i =>
              let index := (i - 1)%Z in
              if ((0 <=? index)
                  && (index <? Z.of_nat (List.length available_modules)))%Z
              then
                match nth_error available_modules (Z.to_nat index) with
                | Some m => ret (Some m)
                | None => raise IndexError
                end
              else
                print (Please_number_between (List.length available_modules)) ;;
                ret None
          end)
       (fun e =>
          match e with
          | ValueError => Some (print Please_valid_number ;; ret None)
          | _ => None
          end)).
Proof.
  apply reads_try.
  - apply reads_input_then. intros l. cbv zeta.
    destruct (String.eqb _ _).
    { apply keeps_bind; [apply keeps_emit | intros _; apply keeps_raise]. }
    destruct (Py.int _) as [i |]; [| apply keeps_raise].
    destruct (_ && _)%bool.
    + destruct (nth_error _ _); [apply keeps_ret | apply keeps_raise].
    + apply keeps_bind; [apply keeps_emit | intros _; apply keeps_ret].
  - reflexivity.
  - intros e k H. destruct e; try discriminate H. injection H as <-.
    apply keeps_bind; [apply keeps_emit | intros _; apply keeps_ret].
Qed.

End Loops.

(** Overwriting a file with a file changes neither which paths exist nor
    which of them are directories. *)
Lemma put_file_kind p f f' root :
  Fs.resolve p root = Some (File f) ->
  forall q,
    option_map Fs.is_dir (Fs.resolve q (Fs.put p (File f') root))
    = option_map Fs.is_dir (Fs.resolve q root).
Proof.
  revert root. induction p as [|x p IH]; intros root H q.
  - simpl in H. injection H as ->. destruct q; reflexivity.
  - destruct root as [g | es]; [discriminate |].
    rewrite resolve_cons in H.
    destruct (Fs.lookup x es) as [m0 |] eqn:L; [| discriminate].
    destruct q as [|y q]; [now destruct p |].
    destruct (string_dec x y) as [<- | N].
    + destruct p as [|z p].
      * simpl in H. injection H as ->.
        cbn [Fs.put]. rewrite !resolve_cons, lookup_set_entry_same, L.
        now destruct q.
      * rewrite put_inner by discriminate.
        rewrite !resolve_cons, lookup_update_entry_same, L.
        cbn [option_map]. now apply IH.
    + destruct p as [|z p].
      * cbn [Fs.put]. rewrite !resolve_cons.
        now rewrite lookup_set_entry_other.
      * rewrite put_inner by discriminate.
        rewrite !resolve_cons. now rewrite lookup_update_entry_other.
Qed.

(** ** C7: the two steps of a removal *)

Section Removal.

Import RemoveModule.

(** Every way [remove_from_cmake] can end: one write and the success
    message, or no change and one of three complaints. *)
Lemma remove_from_cmake_cases p module_id st :
  exists b st',
    remove_from_cmake p module_id st = (Return b, st')
    /\ stdin st' = stdin st
    /\ ((b = true
         /\ trace st' = trace st ++ [Wrote p; Print (Removed_from_cmake module_id)]
         /\ exists f c,
              Fs.file_at p (fs st) = Some f /\ data f = Text c
              /\ has_line_for module_id c = true
              /\ fs st' = Fs.put p (File (mkFile true
                            (Text (Py.writelines (other_lines module_id c)))))
                            (fs st))
        \/ (b = false /\ fs st' = fs st
            /\ exists m, trace st' = trace st ++ [Print m]
                         /\ In m [Warn_cmake_missing p;
                                  Warn_not_in_cmake module_id;
                                  Err_updating_cmake])).
Proof.
  destruct (Fs.resolve p (fs st)) as [[f | es] |] eqn:R.
  - destruct (data f) as [c | raw] eqn:D.
    + destruct (writable f) eqn:W.
      * assert (Hf : Fs.file_at p (fs st) = Some f) by now apply file_at_resolve.
        rewrite (remove_from_cmake_run _ _ _ _ _ Hf D W).
        destruct (has_line_for module_id c) eqn:E.
        -- eexists; eexists. split; [reflexivity |]. split; [reflexivity |].
           left. repeat split. exists f, c. auto.
        -- eexists; eexists. split; [reflexivity |]. split; [reflexivity |].
           right. repeat split. eexists. split; [reflexivity |]. simpl; auto.
      * unfold remove_from_cmake. run_cmd. step R. step R. step D.
        rewrite strip_directive_nl.
        change (fun line => negb (String.eqb (Py.strip line) (directive module_id)))
          with (fun line => negb (is_line_for module_id line)).
        rewrite filter_shorter.
        destruct (existsb (is_line_for module_id) (Py.readlines c)).
        -- step R. step W.
           eexists; eexists. split; [reflexivity |]. split; [reflexivity |].
           right. repeat split. eexists. split; [reflexivity |]. simpl; auto.
        -- eexists; eexists. split; [reflexivity |]. split; [reflexivity |].
           right. repeat split. eexists. split; [reflexivity |]. simpl; auto.
    + unfold remove_from_cmake. run_cmd. step R. step R. step D.
      eexists; eexists. split; [reflexivity |]. split; [reflexivity |].
      right. repeat split. eexists. split; [reflexivity |]. simpl; auto.
  - unfold remove_from_cmake. run_cmd. step R. step R.
    eexists; eexists. split; [reflexivity |]. split; [reflexivity |].
    right. repeat split. eexists. split; [reflexivity |]. simpl; auto.
  - unfold remove_from_cmake. run_cmd. step R.
    eexists; eexists. split; [reflexivity |]. split; [reflexivity |].
    right. repeat split. eexists. split; [reflexivity |]. simpl; auto.
Qed.

(** What [remove_module_directory] does with a path that exists. *)
Lemma remove_module_directory_run dir module_id m st :
  Fs.resolve dir (fs st) = Some m ->
  remove_module_directory dir module_id st
  = if Fs.is_dir m
    then (Return true,
          mkState (Fs.delete dir (fs st)) (stdin st)
                  (trace st ++ [Print (Removing_directory dir);
                                Removed_tree dir;
                                Print (Removed_directory module_id)]))
    else (Return false,
          mkState (fs st) (stdin st)
                  (trace st ++ [Print (Removing_directory dir);
                                Print (Err_removing_directory dir)])).
Proof.
  intros R. unfold remove_module_directory. run_cmd. step R. step R.
  destruct m as [f | es]; step R; cbn [Fs.is_dir app]; now rewrite <- ?app_assoc.
Qed.

Lemma remove_module_directory_missing dir module_id st :
  Fs.resolve dir (fs st) = None ->
  remove_module_directory dir module_id st
  = (Return false,
     mkState (fs st) (stdin st)
             (trace st ++ [Print (Warn_directory_missing dir)])).
Proof.
  intros R. unfold remove_module_directory. run_cmd. now step R.
Qed.

Lemma list_available_modules_run dir es st :
  Fs.resolve dir (fs st) = Some (Dir es) ->
  exists names, list_available_modules dir st = (Return names, st).
Proof.
  intros R. unfold list_available_modules. run_cmd. step R.
  eexists. reflexivity.
Qed.

(** The whole of a confirmed removal, in terms of its registry step. *)
Lemma main_remove_run (a : args) (mid : string) (es : Fs.entries)
  (m : node) (st st1 : state) :
  module_id a = Some mid -> mid <> EmptyString -> list_only a = false ->
  Fs.resolve modules_dir (fs st) = Some (Dir es) ->
  Fs.resolve (modules_dir ++ [mid]) (fs st) = Some m ->
  confirm_removal mid (modules_dir ++ [mid]) (force a) st = (Return true, st1) ->
  exists b1 s1,
    remove_from_cmake cmake_file mid
      (mkState (fs st) (stdin st1) (trace st1 ++ [Print (Removing_module mid)]))
    = (Return b1, s1)
    /\ main a st
       = (if Fs.is_dir m && b1 then Return tt else Raise (SystemExit 1),
          mkState (if Fs.is_dir m
                   then Fs.delete (modules_dir ++ [mid]) (fs s1)
                   else fs s1)
                  (stdin s1)
                  (trace s1
                   ++ [Print (Removing_directory (modules_dir ++ [mid]))]
                   ++ (if Fs.is_dir m
                       then [Removed_tree (modules_dir ++ [mid]);
                             Print (Removed_directory mid)]
                       else [Print (Err_removing_directory (modules_dir ++ [mid]))])
                   ++ [Print (if Fs.is_dir m && b1
                              then Summary_removed mid
                              else Summary_partially_removed mid)])).
Proof.
  intros Ha Hid Hl Hmods Hdir Hgo.
  destruct mid as [|c0 r0]; [congruence |]. clear Hid.
  destruct (list_available_modules_run _ _ _ Hmods) as [names Hnames].
  pose proof (preserves_confirm_removal _ _ _ _ _ _ Hgo) as Hfs1.
  set (s0 := mkState (fs st) (stdin st1)
                     (trace st1 ++ [Print (Removing_module (String c0 r0))])).
  destruct (remove_from_cmake_cases cmake_file (String c0 r0) s0)
    as (b1 & s1 & E1 & _ & Hb1).
  exists b1, s1. split; [exact E1 |].
  assert (Hkind : option_map Fs.is_dir
                    (Fs.resolve (modules_dir ++ [String c0 r0]) (fs s1))
                  = Some (Fs.is_dir m)).
  { destruct Hb1 as [(_ & _ & f & c & Hf & _ & _ & ->) | (_ & -> & _)].
    - apply file_at_resolve in Hf. rewrite (put_file_kind _ _ _ _ Hf).
      unfold s0. cbn [fs]. now rewrite Hdir.
    - unfold s0. cbn [fs]. now rewrite Hdir. }
  destruct (Fs.resolve (modules_dir ++ [String c0 r0]) (fs s1)) as [m' |] eqn:R1;
    [| discriminate]. injection Hkind as Hkind.
  pose proof (remove_module_directory_run _ (String c0 r0) _ _ R1) as E2.
  rewrite Hkind in E2.
  unfold main.
  erewrite bind_run by reflexivity. unfold Fs.exists_. rewrite Hmods. cbn [negb].
  erewrite bind_run by exact Hnames. rewrite Hl, Ha.
  erewrite bind_run by reflexivity.
  erewrite bind_run by reflexivity. unfold Fs.exists_. rewrite Hdir. cbn [negb].
  erewrite bind_run by exact Hgo. cbn [negb].
  erewrite bind_run by reflexivity. cbn [fs stdin trace]. rewrite Hfs1. fold s0.
  erewrite bind_run by exact E1.
  destruct (Fs.is_dir m); (erewrite bind_run by exact E2);
    destruct b1; cbn [negb andb fst snd]; unfold print, emit;
    cbn [fs stdin trace]; unfold bind, sys_exit, raise; cbn [fs stdin trace];
    rewrite <- ?app_assoc; reflexivity.
Qed.

(** [remove_from_cmake], case by case on what is at the path. *)
Lemma remove_from_cmake_eq p module_id st :
  remove_from_cmake p module_id st
  = match Fs.resolve p (fs st) with
    | None =>
        (Return false,
         mkState (fs st) (stdin st) (trace st ++ [Print (Warn_cmake_missing p)]))
    | Some (Dir _) =>
        (Return false,
         mkState (fs st) (stdin st) (trace st ++ [Print Err_updating_cmake]))
    | Some (File f) =>
        match data f with
        | Binary _ =>
            (Return false,
             mkState (fs st) (stdin st) (trace st ++ [Print Err_updating_cmake]))
        | Text c =>
            if has_line_for module_id c
            then
              if writable f
              then
                (Return true,
                 mkState (Fs.put p (File (mkFile true
                            (Text (Py.writelines (other_lines module_id c)))))
                            (fs st))
                         (stdin st)
                         (trace st
                          ++ [Wrote p; Print (Removed_from_cmake module_id)]))
              else
                (Return false,
                 mkState (fs st) (stdin st)
                         (trace st ++ [Print Err_updating_cmake]))
            else
              (Return false,
               mkState (fs st) (stdin st)
                       (trace st ++ [Print (Warn_not_in_cmake module_id)]))
        end
    end.
Proof.
  destruct (Fs.resolve p (fs st)) as [[f | es] |] eqn:R.
  - destruct (data f) as [c | raw] eqn:D.
    + destruct (writable f) eqn:W.
      * assert (Hf : Fs.file_at p (fs st) = Some f) by now apply file_at_resolve.
        rewrite (remove_from_cmake_run _ _ _ _ _ Hf D W).
        now destruct (has_line_for module_id c).
      * unfold remove_from_cmake. run_cmd. step R. step R. step D.
        rewrite strip_directive_nl.
        change (fun line => negb (String.eqb (Py.strip line) (directive module_id)))
          with (fun line => negb (is_line_for module_id line)).
        rewrite filter_shorter. fold (has_line_for module_id c).
        destruct (has_line_for module_id c); [| reflexivity].
        step R. step W. reflexivity.
    + unfold remove_from_cmake. run_cmd. step R. step R. step D. reflexivity.
  - unfold remove_from_cmake. run_cmd. step R. step R. reflexivity.
  - unfold remove_from_cmake. run_cmd. step R. reflexivity.
Qed.

(** C7, as the code has it.  A removal of a module named on the command
    line, whose path exists under the modules directory and which has been
    confirmed, runs the registry step and then the directory step, whatever
    the registry step answered: the output is the announcement, the one
    report of the registry step, the announcement and the one report of
    the directory step, and the summary.  The registry step succeeds
    exactly when the registry is a text file that can be written and has a
    line for the module, and then the file is rewritten without those
    lines; otherwise the file is left as it is.  The directory step
    succeeds exactly when the path is a directory, and then it is gone.
    The exit status is 0 exactly when both steps succeeded.  Every other
    outcome has the summary of a partial removal and status 1; the reports
    of the two steps tell the four outcomes apart. *)
Theorem main_remove_spec (a : args) (mid : string) (es : Fs.entries)
  (m : node) (st st1 : state) :
  module_id a = Some mid -> mid <> EmptyString -> list_only a = false ->
  Fs.resolve modules_dir (fs st) = Some (Dir es) ->
  Fs.resolve (modules_dir ++ [mid]) (fs st) = Some m ->
  confirm_removal mid (modules_dir ++ [mid]) (force a) st = (Return true, st1) ->
  exists (in_cmake in_dir : bool) (w d : list event) (m1 m2 : message)
         (r : outcome unit) (st' : state),
    main a st = (r, st')
    /\ trace st'
       = trace st1
         ++ [Print (Removing_module mid)]
         ++ w ++ [Print m1]
         ++ [Print (Removing_directory (modules_dir ++ [mid]))]
         ++ d ++ [Print m2]
         ++ [Print (if in_cmake && in_dir
                    then Summary_removed mid
                    else Summary_partially_removed mid)]
    /\ w = (if in_cmake then [Wrote cmake_file] else [])
    /\ d = (if in_dir then [Removed_tree (modules_dir ++ [mid])] else [])
    /\ In m1 [Removed_from_cmake mid; Warn_cmake_missing cmake_file;
              Warn_not_in_cmake mid; Err_updating_cmake]
    /\ (in_cmake = true <-> m1 = Removed_from_cmake mid)
    /\ m2 = (if in_dir then Removed_directory mid
             else Err_removing_directory (modules_dir ++ [mid]))
    /\ in_dir = Fs.is_dir m
    /\ (in_dir = true -> Fs.resolve (modules_dir ++ [mid]) (fs st') = None)
    /\ exit_status r = (if in_cmake && in_dir then 0 else 1)
    /\ (exit_status r = 0 <-> in_cmake = true /\ in_dir = true)
    /\ in_cmake = removable mid (fs st)
    /\ fs st'
       = (if in_dir
          then Fs.delete (modules_dir ++ [mid]) (without_line mid (fs st))
          else without_line mid (fs st))
    /\ stdin st' = stdin st1.
Proof.
  intros Ha Hid Hl Hmods Hdir Hgo.
  destruct (main_remove_run a mid es m st st1 Ha Hid Hl Hmods Hdir Hgo)
    as (b1 & s1 & E1 & Main).
  destruct (remove_from_cmake_cases cmake_file mid
              (mkState (fs st) (stdin st1)
                       (trace st1 ++ [Print (Removing_module mid)])))
    as (b1' & s1' & E1' & Hin1 & Hb1).
  rewrite E1 in E1'. injection E1' as <- <-. cbn [trace stdin] in Hb1, Hin1.
  assert (T1 : exists m1,
             trace s1 = trace st1 ++ [Print (Removing_module mid)]
                        ++ (if b1 then [Wrote cmake_file] else []) ++ [Print m1]
             /\ In m1 [Removed_from_cmake mid; Warn_cmake_missing cmake_file;
                       Warn_not_in_cmake mid; Err_updating_cmake]
             /\ (b1 = true <-> m1 = Removed_from_cmake mid)).
  { destruct Hb1 as [(-> & T & _) | (-> & _ & m1 & T & Hm1)].
    - exists (Removed_from_cmake mid). rewrite T, <- app_assoc.
      repeat split; simpl; auto.
    - exists m1. rewrite T, <- app_assoc. split; [reflexivity |].
      split; [simpl in *; tauto |].
      split; [discriminate |].
      intros ->. simpl in Hm1. destruct Hm1 as [H | [H | [H | []]]];
        discriminate H. }
  destruct T1 as (m1 & T1 & Hm1b & Hm1c).
  assert (Step : b1 = removable mid (fs st)
                 /\ fs s1 = without_line mid (fs st)).
  { rewrite remove_from_cmake_eq in E1. cbn [fs stdin trace] in E1.
    unfold removable, without_line, Fs.file_at.
    destruct (Fs.resolve cmake_file (fs st)) as [[f | des] |];
      [destruct (data f) as [c | raw];
       [destruct (has_line_for mid c); [destruct (writable f) |] |] | |].
    all: pose proof (f_equal fst E1) as Eb; pose proof (f_equal snd E1) as Es;
         cbn [fst snd] in Eb, Es; clear E1; injection Eb as <-; subst s1.
    all: split; reflexivity. }
  destruct Step as (Hb & Hfs).
  exists b1, (Fs.is_dir m), (if b1 then [Wrote cmake_file] else []),
    (if Fs.is_dir m then [Removed_tree (modules_dir ++ [mid])] else []), m1,
    (if Fs.is_dir m then Removed_directory mid
     else Err_removing_directory (modules_dir ++ [mid])).
  do 2 eexists. split; [exact Main |]. cbn [trace fs stdin].
  rewrite T1, (andb_comm b1).
  split; [| split; [reflexivity | split; [reflexivity | split; [exact Hm1b |
    split; [exact Hm1c | split; [reflexivity | split; [reflexivity |]]]]]]].
  - destruct (Fs.is_dir m), b1; cbn [andb app]; rewrite <- ?app_assoc;
      reflexivity.
  - split; [| split; [| split; [| split; [exact Hb | split]]]].
    + intros K. rewrite K. apply resolve_delete_same. discriminate.
    + now destruct (Fs.is_dir m), b1.
    + destruct (Fs.is_dir m), b1; cbn [andb exit_status]; split;
        try tauto; try discriminate; intros [H1 H2]; discriminate.
    + rewrite Hfs. reflexivity.
    + exact Hin1.
Qed.

Lemma main_remove_spec_witness :
  let st :=
    mkState
      (Dir [("modules",
             Dir [("CMakeLists.txt",
                   File (mkFile true
                           (Text ("add_subdirectory(VERB)" ++ Py.nl))));
                  ("VERB", Dir [])])]) [] [] in
  let run := main (mkArgs (Some "VERB") true false) st in
  exit_status (fst run) = 0
  /\ fs (snd run)
     = Dir [("modules",
             Dir [("CMakeLists.txt", File (mkFile true (Text "")))])].
Proof.
  destruct (main_remove_spec (mkArgs (Some "VERB") true false) "VERB"
              [("CMakeLists.txt",
                File (mkFile true (Text ("add_subdirectory(VERB)" ++ Py.nl))));
               ("VERB", Dir [])]
              (Dir [])
              (mkState
                 (Dir [("modules",
                        Dir [("CMakeLists.txt",
                              File (mkFile true
                                      (Text ("add_subdirectory(VERB)" ++ Py.nl))));
                             ("VERB", Dir [])])]) [] [])
              (mkState
                 (Dir [("modules",
                        Dir [("CMakeLists.txt",
                              File (mkFile true
                                      (Text ("add_subdirectory(VERB)" ++ Py.nl))));
                             ("VERB", Dir [])])]) [] [])
              eq_refl)
    as (in_cmake & in_dir & w & d & m1 & m2 & r & st' & E & _ & _ & _ & _ & _
        & _ & Hd & _ & Hx & _ & Hc & Hfs & _);
    try reflexivity; try discriminate.
  cbv zeta. rewrite E. cbn [fst snd]. rewrite Hx, Hfs, Hc, Hd.
  split; reflexivity.
Defined.

(** C7 as it was stated fails where it has a partial success reported
    apart from a total failure.  With a registry that has no line for the
    module, a removal of a path that is a file changes nothing, and a
    removal of a path that is a directory removes it; both end with the
    summary of a partial removal and with status 1. *)
Lemma main_remove_failures_alike :
  let a := mkArgs (Some "VERB") true false in
  let registry := ("CMakeLists.txt", File (mkFile true (Text ""))) in
  let nothing :=
    mkState
      (Dir [("modules",
             Dir [registry; ("VERB", File (mkFile true (Text "")))])])
      [] [] in
  let half :=
    mkState (Dir [("modules", Dir [registry; ("VERB", Dir [])])]) [] [] in
  fs (snd (main a nothing)) = fs nothing
  /\ fs (snd (main a half)) = Dir [("modules", Dir [registry])]
  /\ exit_status (fst (main a nothing)) = 1
  /\ exit_status (fst (main a half)) = 1
  /\ last (trace (snd (main a nothing))) (Print Cancelled)
     = Print (Summary_partially_removed "VERB")
  /\ last (trace (snd (main a half))) (Print Cancelled)
     = Print (Summary_partially_removed "VERB").
Proof. cbv zeta. repeat split; reflexivity. Qed.

End Removal.

(** ** C5: a creation that is refused *)

Section Refusal.

Import CreateModule.

(** C5, as the code has it.  When a non-empty identifier given on the
    command line fails validation, or names a path that exists under the
    modules directory, [main] ends with status 1, has printed messages and
    nothing else, and the project tree is as it was. *)
Theorem main_create_refused (a : args) (mid : string) (st : state) :
  module_id a = Some mid -> mid <> EmptyString ->
  ~ well_formed_id mid \/ Fs.exists_ (modules_dir ++ [mid]) (fs st) = true ->
  exists r st' ms,
    main a st = (r, st')
    /\ exit_status r = 1
    /\ fs st' = fs st
    /\ stdin st' = stdin st
    /\ trace st' = trace st ++ map Print ms.
Proof.
  intros Ha Hne H.
  destruct mid as [|c0 r0]; [congruence |]. clear Hne.
  unfold main. run_cmd.
  destruct (Fs.resolve template_dir (fs st)) as [t |]; cbv beta iota; cbn [negb].
  2:{ eexists; eexists; exists [Err_template_not_found template_dir].
      split; [reflexivity |]. repeat split. }
  destruct (Fs.resolve modules_dir (fs st)) as [md |]; cbv beta iota; cbn [negb].
  2:{ eexists; eexists; exists [Err_modules_not_found modules_dir].
      split; [reflexivity |]. repeat split. }
  unfold collect_module_info. rewrite Ha. run_cmd.
  destruct (validate_module_id_state (String c0 r0) st) as (b & ms & E).
  pose proof (validate_module_id_true (String c0 r0) st) as V.
  rewrite E in *. cbn [fst] in V. cbv beta iota.
  destruct b; cbn [negb]; cbv beta iota.
  - destruct H as [H | H]; [exfalso; apply H, V; reflexivity |].
    cbn [dict_get String.eqb Ascii.eqb Bool.eqb]. run_cmd.
    unfold copy_and_substitute. run_cmd. unfold Fs.exists_ in H.
    destruct (Fs.resolve (modules_dir ++ [String c0 r0]) (fs st)); [| discriminate].
    cbv beta iota.
    eexists; eexists;
      exists (ms ++ [Err_target_exists (modules_dir ++ [String c0 r0])]).
    split; [reflexivity |]. cbn [fs stdin trace exit_status].
    repeat split. now rewrite map_app, app_assoc.
  - eexists; eexists; exists ms. split; [reflexivity |]. repeat split.
Qed.

Lemma main_create_refused_witness :
  exists r st' ms,
    main (only_id "ab1") (mkState sample_project [] []) = (r, st')
    /\ exit_status r = 1
    /\ fs st' = sample_project
    /\ stdin st' = []
    /\ trace st' = [] ++ map Print ms.
Proof.
  apply (main_create_refused (only_id "ab1") "ab1"
           (mkState sample_project [] []) eq_refl).
  - discriminate.
  - left. intros [H _]. discriminate H.
Defined.

(** C5 as it was stated fails for the empty identifier: validation
    rejects it, but [main] takes it for a missing argument, asks for the
    identifier and the attributes, and creates the module it is given. *)
Lemma main_create_empty_id_prompts :
  fst (validate_module_id ""
         (mkState sample_project ["TEST"; ""; ""; ""; ""; ""; ""] []))
  = Return false
  /\ Fs.exists_ (modules_dir ++ ["TEST"]) sample_project = false
  /\ exit_status
       (fst (main (only_id "")
               (mkState sample_project ["TEST"; ""; ""; ""; ""; ""; ""] [])))
     = 0
  /\ Fs.exists_ (modules_dir ++ ["TEST"])
       (fs (snd (main (only_id "")
                   (mkState sample_project ["TEST"; ""; ""; ""; ""; ""; ""] []))))
     = true
  /\ text_at cmake_file
       (fs (snd (main (only_id "")
                   (mkState sample_project ["TEST"; ""; ""; ""; ""; ""; ""] []))))
     = Some ("add_subdirectory(common)" ++ Py.nl
              ++ "add_subdirectory(TEST)" ++ Py.nl)%string.
Proof. repeat split; vm_compute; reflexivity. Qed.

End Refusal.

(** ** Replacement and the tokens it can leave behind *)

Section Replace.

Lemma append_eq_append (a b c d : string) :
  (a ++ b)%string = (c ++ d)%string ->
  exists l, (a = (c ++ l)%string /\ d = (l ++ b)%string)
            \/ (c = (a ++ l)%string /\ b = (l ++ d)%string).
Proof.
  revert c. induction a as [|x a IH]; intros c H.
  - exists c. right. simpl in *. auto.
  - destruct c as [|y c].
    + exists (String x a). left. simpl in *. auto.
    + simpl in H. injection H as -> H.
      destruct (IH c H) as [l [[-> ->] | [-> ->]]]; exists l; [left | right];
        auto.
Qed.

Lemma append_cancel_l (a b c : string) :
  (a ++ b)%string = (a ++ c)%string -> b = c.
Proof. induction a; simpl; intros H; [exact H | injection H; auto]. Qed.

Lemma append_self_r (a b : string) : a = (a ++ b)%string -> b = EmptyString.
Proof.
  intros H. symmetry. apply (append_cancel_l a). now rewrite append_nil_r.
Qed.

Lemma append_empty (a b : string) :
  (a ++ b)%string = EmptyString -> a = EmptyString /\ b = EmptyString.
Proof. destruct a; simpl; [auto | discriminate]. Qed.

Lemma drop_append (a b : string) : Py.drop (String.length a) (a ++ b) = b.
Proof. induction a; simpl; auto. Qed.

Lemma replace_from_skip old new k s :
  Py.replace_from old new k s = Py.replace_from old new 0 (Py.drop k s).
Proof.
  revert k. induction s as [|c r IH]; intros [|k]; try reflexivity.
  simpl. apply IH.
Qed.

(** The two equations of a scan that is not inside a match. *)
Lemma replace_from_match old new s' :
  old <> EmptyString ->
  Py.replace_from old new 0 (old ++ s')
  = (new ++ Py.replace_from old new 0 s')%string.
Proof.
  intros Hold. destruct old as [|c o]; [congruence |].
  assert (P : prefix (String c o) (String c o ++ s') = true).
  { apply prefix_spec. now exists s'. }
  change ((String c o ++ s')%string) with (String c (o ++ s')) in *.
  cbn [Py.replace_from]. rewrite P. f_equal.
  replace (String.length (String c o) - 1) with (String.length o)
    by (simpl; lia).
  now rewrite replace_from_skip, drop_append.
Qed.

Lemma replace_from_other old new c r :
  prefix old (String c r) = false ->
  Py.replace_from old new 0 (String c r)
  = String c (Py.replace_from old new 0 r).
Proof. intros P. cbn [Py.replace_from]. now rewrite P. Qed.

Lemma compat_append (x y x' y' : string) :
  (x ++ y)%string = (x' ++ y')%string -> compat x x' = true.
Proof.
  revert x'. induction x as [|a x IH]; intros [|b x'] H; try reflexivity.
  simpl in H. injection H as -> H. simpl.
  rewrite Ascii.eqb_refl. simpl. now apply (IH x').
Qed.

Lemma suffixes_spec (l s : string) :
  s <> EmptyString -> In s (suffixes (l ++ s)).
Proof.
  intros Hs. induction l as [|c l IH]; simpl.
  - destruct s; [congruence | now left].
  - now right.
Qed.

(** An occurrence of a token in [g ++ v ++ r] lies in [g] or in [r] when
    the value [v] put between them does not clash with the token. *)
Lemma occurs_around (v t g r : string) :
  clash v t = false ->
  occurs t (g ++ v ++ r) -> occurs t g \/ occurs t r.
Proof.
  unfold clash. intros C (a & b & H).
  apply orb_false_iff in C as [C C3]. apply orb_false_iff in C as [_ C2].
  assert (Inside : forall k y, k <> EmptyString ->
             (exists l, v = (l ++ k)%string) -> (k ++ y)%string = (t ++ b)%string ->
             False).
  { intros k y Hk [l ->] E.
    assert (X : existsb (fun v' => compat v' t) (suffixes (l ++ k)) = true).
    { apply existsb_exists. exists k. split.
      - now apply suffixes_spec.
      - apply (compat_append _ y _ b). exact E. }
    congruence. }
  destruct (append_eq_append _ _ _ _ H) as [l [[-> E] | [-> E]]].
  - (* the occurrence starts in [g], or where [g] ends *)
    destruct (append_eq_append _ _ _ _ E) as [l' [[-> E'] | [-> E']]].
    + destruct l' as [|c' l'].
      { left. exists a, EmptyString. now rewrite !append_nil_r. }
      destruct l as [|c l].
      * (* it starts where [v] starts *)
        destruct v as [|cv v].
        -- right. exists EmptyString, b. exact E'.
        -- exfalso. apply (Inside (String cv v) r); [discriminate | |].
           ++ now exists EmptyString.
           ++ exact E'.
      * (* it starts before [v] and runs into it *)
        exfalso.
        assert (X : existsb (fun t' => compat t' v)
                      (suffixes (Py.drop 1 (String c l ++ String c' l'))) = true).
        { apply existsb_exists. exists (String c' l'). split.
          - cbn [Py.drop append]. apply suffixes_spec. discriminate.
          - apply (compat_append _ b _ r). now rewrite E'. }
        congruence.
    + left. now exists a, l'.
  - (* the occurrence starts after [g] *)
    destruct (append_eq_append _ _ _ _ E) as [k [[-> K] | [-> K]]].
    + destruct k as [|c k].
      { right. exists EmptyString, b. simpl in *. now rewrite K. }
      exfalso. apply (Inside (String c k) r); [discriminate | |].
      * now exists l.
      * now rewrite K.
    + right. exists k, b. exact K.
Qed.

Lemma clash_token_not_empty (v t : string) :
  clash v t = false -> t <> EmptyString.
Proof.
  unfold clash. intros C ->. discriminate C.
Qed.

Lemma starts_in_not_before (t g s : string) :
  t <> EmptyString -> starts_in t g s -> ~ occurs t g.
Proof.
  intros Ht H (a & b & E).
  destruct (H a (b ++ s)%string) as [a' Ea].
  { rewrite E. now rewrite !append_assoc. }
  subst a. rewrite append_assoc in E. apply append_self_r in E.
  apply append_empty in E as [_ E]. apply append_empty in E as [E _].
  contradiction.
Qed.

(** The scan, with [g] for what it has already passed since the last
    match: no occurrence of the token is left. *)
Lemma replace_from_keeps_out (old new t : string) :
  old <> EmptyString -> clash new t = false ->
  forall n s g,
    String.length s <= n ->
    starts_in t g s ->
    t = old \/ ~ occurs t s ->
    ~ occurs t (g ++ Py.replace_from old new 0 s).
Proof.
  intros Hold C. pose proof (clash_token_not_empty _ _ C) as Ht.
  induction n as [|n IH]; intros s g Hn Hg Hs.
  - destruct s; [| simpl in Hn; lia]. simpl. rewrite append_nil_r.
    now apply (starts_in_not_before t g EmptyString).
  - destruct s as [|c r].
    { simpl. rewrite append_nil_r.
      now apply (starts_in_not_before t g EmptyString). }
    destruct (prefix old (String c r)) eqn:P.
    + apply prefix_spec in P as [s' P]. rewrite P in *.
      rewrite replace_from_match by exact Hold. intros O.
      apply occurs_around in O as [O | O]; [| | exact C].
      * now apply (starts_in_not_before t g _ Ht Hg).
      * apply (IH s' EmptyString); [| | | exact O].
        -- rewrite length_append in Hn.
           destruct old; [congruence | simpl in Hn; lia].
        -- intros a b _. now exists a.
        -- destruct Hs as [-> | Hs]; [now left | right].
           intros O'. apply Hs. now apply occurs_app_l.
    + rewrite replace_from_other by exact P.
      change (g ++ String c (Py.replace_from old new 0 r))%string
        with (g ++ (String c "" ++ Py.replace_from old new 0 r))%string.
      rewrite <- append_assoc. apply IH.
      * simpl in Hn. lia.
      * intros a b E. rewrite append_assoc in E.
        destruct (Hg a b E) as [a' ->].
        rewrite append_assoc in E. apply append_cancel_l in E.
        destruct a' as [|c' a'].
        -- exfalso. simpl in E.
           destruct Hs as [-> | Hs].
           ++ assert (prefix old (String c r) = true)
                by (apply prefix_spec; now exists b).
              congruence.
           ++ apply Hs. exists EmptyString, b. exact E.
        -- simpl in E. injection E as <- E.
           exists a'. now rewrite append_assoc.
      * destruct Hs as [-> | Hs]; [now left | right].
        intros O'. apply Hs. apply (occurs_app_l _ (String c "") r O').
Qed.

Lemma replace_keeps_out (old new t s : string) :
  old <> EmptyString -> clash new t = false ->
  t = old \/ ~ occurs t s ->
  ~ occurs t (Py.replace old new s).
Proof.
  intros Hold C Hs.
  unfold Py.replace. destruct old as [|c o] eqn:E; [congruence |].
  rewrite <- E in *.
  apply (replace_from_keeps_out old new t Hold C (String.length s) s EmptyString);
    auto.
  intros a b _. now exists a.
Qed.

Lemma substitute_snoc (substitutions : dict) (k v c : string) :
  CreateModule.substitute (substitutions ++ [(k, v)]) c
  = Py.replace k v (CreateModule.substitute substitutions c).
Proof. unfold CreateModule.substitute. now rewrite fold_left_app. Qed.

(** After the substitution with a clash-free mapping no token is left. *)
Lemma substitute_keeps_out (substitutions : dict) (c : string) :
  clash_free substitutions = true ->
  forall k v, In (k, v) substitutions ->
              Py.contains k (CreateModule.substitute substitutions c) = false.
Proof.
  intros F.
  assert (G : forall k v k' v', In (k, v) substitutions ->
                                In (k', v') substitutions ->
                                clash v k' = false).
  { unfold clash_free in F. rewrite forallb_forall in F.
    intros k v k' v' H H'. specialize (F _ H). rewrite forallb_forall in F.
    specialize (F _ H'). now apply negb_true_iff in F. }
  clear F.
  assert (K : forall k v, In (k, v) substitutions ->
                          ~ occurs k (CreateModule.substitute substitutions c)).
  { induction substitutions as [|[k0 v0] subs IH] using rev_ind;
      [intros k v [] |].
    intros k v H. rewrite substitute_snoc.
    assert (H0 : In (k0, v0) (subs ++ [(k0, v0)]))
      by (apply in_or_app; right; now left).
    apply replace_keeps_out.
    - apply (clash_token_not_empty v0). apply (G k0 v0 k0 v0 H0 H0).
    - apply (G k0 v0 k v H0 H).
    - apply in_app_or in H as [H | [H | []]].
      + right. apply (IH (fun a b a' b' X Y =>
                          G a b a' b' (in_or_app _ _ _ (or_introl X))
                                      (in_or_app _ _ _ (or_introl Y))) k v H).
      + left. congruence. }
  intros k v H. specialize (K k v H).
  destruct (Py.contains k (CreateModule.substitute substitutions c)) eqn:E;
    [| reflexivity].
  apply contains_spec in E. contradiction.
Qed.

End Replace.

(** ** Trees: induction, well-formedness, the walk *)

Section Trees.

Lemma node_induction (P : node -> Prop)
  (HF : forall f, P (File f))
  (HD : forall es, Forall (fun e => P (snd e)) es -> P (Dir es)) :
  forall n, P n.
Proof.
  fix IH 1. intros [f | es]; [apply HF | apply HD].
  induction es as [|[x m] r IHr]; constructor; [apply IH | exact IHr].
Qed.

Lemma distinct_NoDup (l : list string) : Fs.distinct l = true -> NoDup l.
Proof.
  induction l as [|x r IH]; simpl; intros H; constructor.
  - apply andb_true_iff in H as [H _]. apply negb_true_iff in H.
    intros I. assert (X : existsb (String.eqb x) r = true).
    { apply existsb_exists. exists x. split; [exact I | apply String.eqb_refl]. }
    congruence.
  - apply andb_true_iff in H as [_ H]. now apply IH.
Qed.

Lemma wf_dir (es : Fs.entries) :
  Fs.wf (Dir es) = true ->
  NoDup (map fst es) /\ Forall (fun e => Fs.wf (snd e) = true) es.
Proof.
  cbn [Fs.wf]. intros H. apply andb_true_iff in H as [H1 H2].
  split; [now apply distinct_NoDup |]. clear H1.
  induction es as [|[x m] r IH]; constructor.
  - apply andb_true_iff in H2 as [H _]. exact H.
  - apply andb_true_iff in H2 as [_ H]. now apply IH.
Qed.

Lemma lookup_In x m es : Fs.lookup x es = Some m -> In (x, m) es.
Proof.
  induction es as [|[y n] r IH]; simpl; [discriminate |].
  destruct (String.eqb y x) eqn:E.
  - apply String.eqb_eq in E as ->. intros H. injection H as ->. now left.
  - intros H. right. now apply IH.
Qed.

Lemma In_lookup x m es :
  NoDup (map fst es) -> In (x, m) es -> Fs.lookup x es = Some m.
Proof.
  induction es as [|[y n] r IH]; simpl; intros N H; [contradiction |].
  inversion N as [| ? ? Hy Nr]; subst.
  destruct H as [H | H].
  - injection H as -> ->. now rewrite String.eqb_refl.
  - destruct (String.eqb y x) eqn:E; [| now apply IH].
    apply String.eqb_eq in E as ->. exfalso. apply Hy.
    apply in_map_iff. now exists (x, m).
Qed.

Lemma wf_lookup x m es :
  Fs.wf (Dir es) = true -> Fs.lookup x es = Some m -> Fs.wf m = true.
Proof.
  intros W L. apply wf_dir in W as [_ W]. rewrite Forall_forall in W.
  apply (W (x, m)). now apply lookup_In.
Qed.

Lemma wf_resolve p root n :
  Fs.wf root = true -> Fs.resolve p root = Some n -> Fs.wf n = true.
Proof.
  revert root. induction p as [|x p IH]; intros root W R.
  - simpl in R. now injection R as <-.
  - destruct root as [f | es]; [discriminate |]. rewrite resolve_cons in R.
    destruct (Fs.lookup x es) as [m |] eqn:L; [| discriminate].
    apply (IH m); [| exact R]. now apply (wf_lookup x m es).
Qed.

Lemma resolve_app p q root :
  Fs.resolve (p ++ q) root
  = match Fs.resolve p root with
    | Some n => Fs.resolve q n
    | None => None
    end.
Proof.
  revert root. induction p as [|x p IH]; intros root; [reflexivity |].
  destruct root as [f | es]; [reflexivity |].
  change ((x :: p) ++ q) with (x :: (p ++ q)). rewrite !resolve_cons.
  destruct (Fs.lookup x es); [apply IH | reflexivity].
Qed.

Lemma walk_dir top es :
  Fs.walk top (Dir es) = walk_files top es ++ walk_subdirs top es.
Proof. reflexivity. Qed.

Lemma walk_files_In top es p :
  In p (walk_files top es)
  <-> exists x f, p = top ++ [x] /\ In (x, File f) es.
Proof.
  unfold walk_files. rewrite in_map_iff. split.
  - intros ([x m] & <- & H). apply filter_In in H as [H K].
    destruct m as [f | d]; [| discriminate]. now exists x, f.
  - intros (x & f & -> & H). exists (x, File f). split; [reflexivity |].
    apply filter_In. now split.
Qed.

Lemma walk_subdirs_In top es p :
  In p (walk_subdirs top es)
  <-> exists x d, In (x, Dir d) es /\ In p (Fs.walk (top ++ [x]) (Dir d)).
Proof.
  induction es as [|[y m] r IH]; simpl.
  - split; [intros [] | intros (x & d & [] & _)].
  - destruct m as [f | d].
    + rewrite IH. split; intros (x & d & H & K); exists x, d; split; auto.
      destruct H as [H | H]; [discriminate | exact H].
    + rewrite in_app_iff, IH. split.
      * intros [H | (x & d' & H & K)]; [exists y, d | exists x, d']; auto.
      * intros (x & d' & [H | H] & K).
        -- injection H as -> ->. now left.
        -- right. now exists x, d'.
Qed.

(** A path of the walk is the top followed by the path of a file in the
    tree. *)
Lemma walk_sound n :
  Fs.wf n = true ->
  forall top p, In p (Fs.walk top n) ->
                exists q f, p = top ++ q /\ q <> [] /\ Fs.file_at q n = Some f.
Proof.
  induction n as [f | es IH] using node_induction; intros W top p H;
    [contradiction |].
  pose proof (wf_dir _ W) as [N Ws].
  rewrite walk_dir, in_app_iff in H. destruct H as [H | H].
  - apply walk_files_In in H as (x & f & -> & H).
    exists [x], f. split; [reflexivity |]. split; [discriminate |].
    unfold Fs.file_at. rewrite resolve_cons, (In_lookup _ _ _ N H). reflexivity.
  - apply walk_subdirs_In in H as (x & d & H & K).
    rewrite Forall_forall in IH, Ws.
    destruct (IH (x, Dir d) H (Ws _ H) _ _ K) as (q & f & -> & Hq & F).
    exists (x :: q), f. split; [now rewrite <- app_assoc |].
    split; [discriminate |].
    unfold Fs.file_at in *. rewrite resolve_cons, (In_lookup _ _ _ N H).
    exact F.
Qed.

(** Every file of the tree is on the walk. *)
Lemma walk_complete n :
  forall top q f, Fs.file_at q n = Some f -> q <> [] ->
                  In (top ++ q) (Fs.walk top n).
Proof.
  induction n as [g | es IH] using node_induction; intros top q f F Hq.
  - destruct q; [congruence | discriminate F].
  - destruct q as [|x q]; [congruence |]. unfold Fs.file_at in F.
    rewrite resolve_cons in F.
    destruct (Fs.lookup x es) as [m |] eqn:L; [| discriminate].
    apply lookup_In in L. rewrite walk_dir, in_app_iff.
    destruct q as [|y q].
    + simpl in F. destruct m as [f' | d]; [| discriminate].
      left. apply walk_files_In. now exists x, f'.
    + destruct m as [f' | d]; [discriminate |].
      right. apply walk_subdirs_In. exists x, d. split; [exact L |].
      rewrite Forall_forall in IH.
      replace (top ++ x :: y :: q) with ((top ++ [x]) ++ y :: q)
        by now rewrite <- app_assoc.
      apply (IH (x, Dir d) L _ _ f); [exact F | discriminate].
Qed.

Lemma walk_prefix n top p :
  In p (Fs.walk top n) -> exists q, p = top ++ q /\ q <> [].
Proof.
  revert top p. induction n as [f | es IH] using node_induction;
    intros top p H; [contradiction |].
  rewrite walk_dir, in_app_iff in H. destruct H as [H | H].
  - apply walk_files_In in H as (x & f & -> & _).
    exists [x]. split; [reflexivity | discriminate].
  - apply walk_subdirs_In in H as (x & d & H & K).
    rewrite Forall_forall in IH.
    destruct (IH (x, Dir d) H _ _ K) as (q & -> & _).
    exists (x :: q). split; [now rewrite <- app_assoc | discriminate].
Qed.

Lemma walk_NoDup n :
  Fs.wf n = true -> forall top, NoDup (Fs.walk top n).
Proof.
  induction n as [f | es IH] using node_induction; intros W top;
    [constructor |].
  pose proof (wf_dir _ W) as [N Ws]. clear W.
  rewrite walk_dir. apply NoDup_app.
  - (* the files *)
    unfold walk_files.
    replace (map (fun e : string * node => top ++ [fst e])
                 (filter (fun e => negb (Fs.is_dir (snd e))) es))
      with (map (fun x => top ++ [x])
                (map fst (filter (fun e => negb (Fs.is_dir (snd e))) es)))
      by now rewrite map_map.
    apply Finite.Injective_map_NoDup.
    + intros x y E. apply app_inv_head in E. now injection E.
    + now apply NoDup_names_filter.
  - (* the sub-directories *)
    induction es as [|[x m] r IHr]; [constructor |].
    inversion N as [| ? ? Hx Nr]; inversion Ws as [| ? ? Wm Wr];
      inversion IH as [| ? ? Pm Pr]; subst.
    simpl. destruct m as [f | d]; [now apply IHr |].
    apply NoDup_app; [now apply Pm | now apply IHr |].
    intros p H K. apply walk_prefix in H as (q & -> & Hq).
    apply walk_subdirs_In in K as (y & d' & Hy & K).
    apply walk_prefix in K as (q' & E & _).
    rewrite <- !app_assoc in E. apply app_inv_head in E.
    simpl in E. injection E as -> _.
    apply Hx. apply in_map_iff. now exists (y, Dir d').
  - (* a file is not in a sub-directory *)
    intros p H K. apply walk_files_In in H as (x & f & -> & _).
    apply walk_subdirs_In in K as (y & d & _ & K).
    apply walk_prefix in K as (q & E & Hq).
    rewrite <- app_assoc in E. apply app_inv_head in E.
    simpl in E. injection E as _ E. now subst q.
Qed.

End Trees.

(** ** The substitution over a tree *)

Section Substitution.

Import CreateModule.

Lemma set_entry_same x n es :
  Fs.lookup x es = Some n -> Fs.set_entry x n es = es.
Proof.
  induction es as [|[y m] r IH]; simpl; [discriminate |].
  destruct (String.eqb y x) eqn:E.
  - intros H. now injection H as ->.
  - intros H. now rewrite IH.
Qed.

Lemma update_entry_same x g m es :
  Fs.lookup x es = Some m -> g m = m -> Fs.update_entry x g es = es.
Proof.
  induction es as [|[y n] r IH]; simpl; [discriminate |].
  destruct (String.eqb y x) eqn:E.
  - intros H G. injection H as ->. now rewrite G.
  - intros H G. now rewrite IH.
Qed.

(** Writing back what is there changes nothing. *)
Lemma put_same_node p n root :
  Fs.resolve p root = Some n -> Fs.put p n root = root.
Proof.
  revert root. induction p as [|x p IH]; intros root H.
  - simpl in *. congruence.
  - destruct root as [f | es]; [discriminate |]. rewrite resolve_cons in H.
    destruct (Fs.lookup x es) as [m |] eqn:L; [| discriminate].
    destruct p as [|y p].
    + simpl in *. injection H as ->. now rewrite set_entry_same.
    + rewrite put_inner by discriminate.
      now rewrite (update_entry_same x _ m es L (IH m H)).
Qed.

(** Overwriting one file leaves every other file as it is. *)
Lemma put_file_other p f f' root :
  Fs.resolve p root = Some (File f) ->
  forall q, q <> p ->
            Fs.file_at q (Fs.put p (File f') root) = Fs.file_at q root.
Proof.
  unfold Fs.file_at.
  revert root. induction p as [|x p IH]; intros root H q Hq.
  - simpl in H. injection H as ->.
    destruct q; [congruence | reflexivity].
  - destruct root as [g | es]; [discriminate |].
    rewrite resolve_cons in H.
    destruct (Fs.lookup x es) as [m0 |] eqn:L; [| discriminate].
    destruct q as [|y q]; [now destruct p |].
    destruct (string_dec x y) as [<- | N].
    + assert (Hq' : q <> p) by congruence.
      destruct p as [|z p].
      * simpl in H. injection H as ->.
        cbn [Fs.put]. rewrite !resolve_cons, lookup_set_entry_same, L.
        destruct q; [congruence | reflexivity].
      * rewrite put_inner by discriminate.
        rewrite !resolve_cons, lookup_update_entry_same, L.
        cbn [option_map]. now apply IH.
    + destruct p as [|z p].
      * cbn [Fs.put]. rewrite !resolve_cons.
        now rewrite lookup_set_entry_other.
      * rewrite put_inner by discriminate.
        rewrite !resolve_cons. now rewrite lookup_update_entry_other.
Qed.

Lemma substitute_in_file_run p substitutions f st :
  Fs.file_at p (fs st) = Some f ->
  substitute_in_file p substitutions st
  = (Return tt,
     mkState (Fs.put p (File (substituted substitutions f)) (fs st))
             (stdin st) (trace st ++ [report p f])).
Proof.
  intros Hf. apply file_at_resolve in Hf.
  unfold substitute_in_file, substituted, report. run_cmd. step Hf.
  destruct f as [w [c | raw]]; cbn [data writable]; cbv beta iota.
  - step Hf. cbn [writable]. destruct w; cbv beta iota; cbn [fs stdin trace].
    + reflexivity.
    + now rewrite (put_same_node _ _ _ Hf).
  - now rewrite (put_same_node _ _ _ Hf).
Qed.

(** The loop of [copy_and_substitute] over distinct paths of files. *)
Lemma substitute_loop substitutions files :
  NoDup files ->
  forall st,
    (forall p, In p files -> exists f, Fs.file_at p (fs st) = Some f) ->
    exists st',
      for_each files (fun p => substitute_in_file p substitutions) st
      = (Return tt, st')
      /\ stdin st' = stdin st
      /\ (forall q f, In q files -> Fs.file_at q (fs st) = Some f ->
                      Fs.file_at q (fs st') = Some (substituted substitutions f)
                      /\ In (report q f) (trace st'))
      /\ (forall q, ~ In q files -> Fs.file_at q (fs st') = Fs.file_at q (fs st))
      /\ (forall q, option_map Fs.is_dir (Fs.resolve q (fs st'))
                    = option_map Fs.is_dir (Fs.resolve q (fs st)))
      /\ (forall e, In e (trace st) -> In e (trace st')).
Proof.
  induction files as [|p files IH]; intros N st Hall.
  - exists st. split; [reflexivity |]. split; [reflexivity |].
    split; [intros q f [] |]. repeat split; auto.
  - inversion N as [| ? ? Hp Nf]; subst.
    destruct (Hall p (or_introl eq_refl)) as [f Hf].
    cbn [for_each]. unfold bind at 1.
    rewrite (substitute_in_file_run _ _ _ _ Hf).
    set (st1 := mkState (Fs.put p (File (substituted substitutions f)) (fs st))
                        (stdin st) (trace st ++ [report p f])).
    pose proof (proj1 (file_at_resolve _ _ _) Hf) as Rf.
    assert (Other : forall q, q <> p ->
                Fs.file_at q (fs st1) = Fs.file_at q (fs st)).
    { intros q Hq. apply (put_file_other _ _ _ _ Rf q Hq). }
    assert (Same : Fs.file_at p (fs st1) = Some (substituted substitutions f)).
    { apply file_at_resolve. apply (resolve_put_same _ _ _ _ Rf). }
    destruct (IH Nf st1) as (st' & E & Hin & Hdone & Hrest & Hkind & Htrace).
    { intros q Hq. destruct (Hall q (or_intror Hq)) as [g Hg].
      exists g. rewrite Other; [exact Hg | congruence]. }
    exists st'. split; [exact E |]. split; [exact Hin |].
    split; [| split; [| split]].
    + intros q g [<- | Hq] Hg.
      * assert (g = f) by congruence. subst g. split.
        -- now rewrite (Hrest p Hp).
        -- apply Htrace. cbn [trace st1]. apply in_or_app. right. now left.
      * apply Hdone; [exact Hq |]. rewrite Other; [exact Hg | congruence].
    + intros q Hq. rewrite Hrest.
      * apply Other. intros ->. apply Hq. now left.
      * intros H. apply Hq. now right.
    + intros q. rewrite Hkind. apply (put_file_kind _ _ _ _ Rf).
    + intros e He. apply Htrace. cbn [trace st1]. apply in_or_app. now left.
Qed.

Lemma file_at_app p q root :
  Fs.file_at (p ++ q) root
  = match Fs.resolve p root with
    | Some n => Fs.file_at q n
    | None => None
    end.
Proof.
  unfold Fs.file_at. rewrite resolve_app.
  now destruct (Fs.resolve p root).
Qed.

Lemma makedirs_dir p d root :
  Fs.resolve p root = Some (Dir d) -> Fs.makedirs p root = Some root.
Proof.
  revert root. induction p as [| x p IH]; intros root H.
  - injection H as ->. reflexivity.
  - destruct root as [f | es]; [discriminate H |]. cbn [Fs.resolve] in H.
    cbn [Fs.makedirs].
    destruct (Fs.lookup x es) as [m |] eqn:L; [| discriminate H].
    rewrite (IH _ H). now rewrite (set_entry_same _ _ _ L).
Qed.

Lemma makedirs_file p f root :
  Fs.resolve p root = Some (File f) -> Fs.makedirs p root = None.
Proof.
  revert root. induction p as [| x p IH]; intros root H.
  - injection H as ->. reflexivity.
  - destruct root as [g | es]; [reflexivity |]. cbn [Fs.resolve] in H.
    cbn [Fs.makedirs].
    destruct (Fs.lookup x es) as [m |] eqn:L; [| discriminate H].
    now rewrite (IH _ H).
Qed.

Lemma makedirs_resolve p root root' :
  Fs.makedirs p root = Some root' ->
  exists d, Fs.resolve p root' = Some (Dir d).
Proof.
  revert root root'. induction p as [| x p IH]; intros root root' H.
  - destruct root as [f | es]; [discriminate H |]. injection H as <-.
    now exists es.
  - destruct root as [f | es]; [discriminate H |]. cbn [Fs.makedirs] in H.
    cbv zeta in H.
    destruct (Fs.makedirs p match Fs.lookup x es with
                            | Some m => m
                            | None => Dir []
                            end) as [m' |] eqn:E; [| discriminate H].
    injection H as <-. cbn [Fs.resolve]. rewrite lookup_set_entry_same.
    exact (IH _ _ E).
Qed.

Lemma parent_is_dir_child t x d root :
  Fs.resolve t root = Some (Dir d) -> Io.parent_is_dir (t ++ [x]) root = true.
Proof.
  intros H. unfold Io.parent_is_dir, Fs.parent.
  rewrite removelast_last, H. now destruct t.
Qed.

Lemma resolve_put_parent t x n d root :
  Fs.resolve t root = Some (Dir d) ->
  Fs.resolve t (Fs.put (t ++ [x]) n root) = Some (Dir (Fs.set_entry x n d)).
Proof.
  revert root. induction t as [|y t IH]; intros root H.
  - simpl in H. injection H as ->. reflexivity.
  - destruct root as [f | es]; [discriminate |]. rewrite resolve_cons in H.
    destruct (Fs.lookup y es) as [m |] eqn:L; [| discriminate].
    change ((y :: t) ++ [x]) with (y :: (t ++ [x])).
    rewrite put_inner by apply snoc_not_nil.
    rewrite resolve_cons, lookup_update_entry_same, L. cbn [option_map].
    now apply IH.
Qed.

Lemma set_entry_absent x n es :
  Fs.lookup x es = None -> Fs.set_entry x n es = es ++ [(x, n)].
Proof.
  induction es as [|[y m] r IH]; simpl; [reflexivity |].
  destruct (String.eqb y x); [discriminate |]. intros H. now rewrite IH.
Qed.

Lemma lookup_app x es es' :
  Fs.lookup x (es ++ es')
  = match Fs.lookup x es with
    | Some m => Some m
    | None => Fs.lookup x es'
    end.
Proof.
  induction es as [|[y m] r IH]; simpl; [reflexivity |].
  now destruct (String.eqb y x).
Qed.

(** A new, empty directory adds no file to a tree and nothing to its
    walk. *)
Lemma file_at_add_empty_dir x es :
  Fs.lookup x es = None ->
  forall q, Fs.file_at q (Dir (es ++ [(x, Dir [])])) = Fs.file_at q (Dir es).
Proof.
  intros L [|y q]; [reflexivity |]. unfold Fs.file_at.
  rewrite !resolve_cons, lookup_app.
  destruct (Fs.lookup y es) as [m |] eqn:Ly; [reflexivity |].
  simpl. destruct (String.eqb x y); [| reflexivity]. now destruct q.
Qed.

Lemma walk_add_empty_dir top x es :
  Fs.walk top (Dir (es ++ [(x, Dir [])])) = Fs.walk top (Dir es).
Proof.
  rewrite !walk_dir. f_equal.
  - unfold walk_files. rewrite filter_app. simpl. now rewrite app_nil_r.
  - induction es as [|[y m] r IH]; simpl; [reflexivity |].
    destruct m; now rewrite IH.
Qed.

(** The copy with its substitution, from a template that is a directory
    of distinct names to a target that does not exist yet. *)
Lemma copy_and_substitute_run template parent x substitutions mid tes pes st :
  Fs.resolve template (fs st) = Some (Dir tes) ->
  Fs.wf (Dir tes) = true ->
  Fs.resolve parent (fs st) = Some (Dir pes) ->
  Fs.resolve (parent ++ [x]) (fs st) = None ->
  (forall s, dict_get "__MOD__" substitutions s = (Return mid, s)) ->
  (forall f, Fs.lookup (mid ++ "-rnbo") tes <> Some (File f)) ->
  exists st',
    copy_and_substitute template (parent ++ [x]) substitutions st
    = (Return tt, st')
    /\ stdin st' = stdin st
    /\ (forall q f, Fs.file_at q (Dir tes) = Some f ->
          Fs.file_at ((parent ++ [x]) ++ q) (fs st')
          = Some (substituted substitutions f)
          /\ In (report ((parent ++ [x]) ++ q) f) (trace st'))
    /\ (forall y q, y <> x ->
          Fs.file_at (parent ++ y :: q) (fs st')
          = Fs.file_at (parent ++ y :: q) (fs st))
    /\ option_map Fs.is_dir (Fs.resolve (parent ++ [x]) (fs st')) = Some true
    /\ option_map Fs.is_dir
         (Fs.resolve ((parent ++ [x]) ++ [(mid ++ "-rnbo")%string]) (fs st'))
       = Some true
    /\ (forall e, In e (trace st) -> In e (trace st')).
Proof.
  intros Ht Wt Hp Hx Hmod Hrnbo.
  set (target := parent ++ [x]) in *.
  set (rnbo := (mid ++ "-rnbo")%string) in *.
  set (fs1 := Fs.put target (Dir tes) (fs st)).
  assert (R1 : Fs.resolve target fs1 = Some (Dir tes))
    by apply (resolve_put_child _ _ _ _ _ Hp).
  (* the tree after [mkdir] *)
  assert (Mk : exists st2 n2,
             Io.mkdir_exist_ok (target ++ [rnbo])
               (mkState fs1 (stdin st)
                  ((trace st ++ [Print (Copying_template template target)])
                   ++ [Copied template target]))
             = (Return tt, st2)
             /\ stdin st2 = stdin st
             /\ Fs.resolve target (fs st2) = Some n2
             /\ Fs.walk target n2 = Fs.walk target (Dir tes)
             /\ (forall q, Fs.file_at q n2 = Fs.file_at q (Dir tes))
             /\ option_map Fs.is_dir (Fs.resolve [rnbo] n2) = Some true
             /\ (forall y q, y <> x ->
                   Fs.file_at (parent ++ y :: q) (fs st2)
                   = Fs.file_at (parent ++ y :: q) fs1)
             /\ (forall e, In e (trace st) -> In e (trace st2))).
  { unfold Io.mkdir_exist_ok. run_cmd.
    rewrite resolve_app, R1, resolve_cons.
    destruct (Fs.lookup rnbo tes) as [[f | d] |] eqn:L.
    - exfalso. now apply (Hrnbo f).
    - cbn [Fs.resolve]. exists (mkState fs1 (stdin st)
                 ((trace st ++ [Print (Copying_template template target)])
                  ++ [Copied template target])), (Dir tes).
      cbn [fs stdin trace]. rewrite L.
      split; [reflexivity |]. split; [reflexivity |]. split; [exact R1 |].
      split; [reflexivity |]. split; [reflexivity |]. split; [reflexivity |].
      split; [reflexivity |].
      intros e He. apply in_or_app. left. apply in_or_app. now left.
    - cbv beta iota. rewrite (parent_is_dir_child _ _ _ _ R1).
      cbv beta iota; cbn [fs stdin trace].
      eexists. exists (Dir (tes ++ [(rnbo, Dir [])])).
      split; [reflexivity |]. cbn [fs stdin trace].
      split; [reflexivity |]. split; [| split; [| split; [| split; [| split]]]].
      + rewrite (resolve_put_parent _ _ _ _ _ R1).
        now rewrite (set_entry_absent _ _ _ L).
      + apply walk_add_empty_dir.
      + now apply file_at_add_empty_dir.
      + rewrite resolve_cons, lookup_app, L. simpl.
        now rewrite String.eqb_refl.
      + intros y q Hy. unfold Fs.file_at, target.
        rewrite <- app_assoc.
        now rewrite (resolve_put_apart parent x y ([] ++ [rnbo]) q _ fs1)
          by congruence.
      + intros e He. apply in_or_app. left. apply in_or_app. left.
        apply in_or_app. now left. }
  destruct Mk as (st2 & n2 & Emk & Hin2 & R2 & Wk & F2 & K2 & O2 & T2).
  (* the loop *)
  destruct (substitute_loop substitutions (Fs.walk target (Dir tes))
              (walk_NoDup _ Wt target)
              (mkState (fs st2) (stdin st2)
                       (trace st2 ++ [Print (Created_rnbo_dir (target ++ [rnbo]))])))
    as (st3 & Eloop & Hin3 & Done & Rest & Kind & T3).
  { intros p Hpw. cbn [fs].
    destruct (walk_sound _ Wt _ _ Hpw) as (q & f & -> & _ & F).
    exists f. now rewrite file_at_app, R2, F2. }
  exists (mkState (fs st3) (stdin st3) (trace st3 ++ [Print Template_processed])).
  split.
  { unfold copy_and_substitute.
    erewrite bind_run by reflexivity. unfold Fs.exists_. rewrite Hx.
    erewrite bind_run by reflexivity. cbn [fs stdin trace].
    erewrite bind_run.
    2:{ unfold Io.copytree. run_cmd. rewrite Ht, Hx.
        unfold target, Fs.parent. rewrite removelast_last.
        rewrite (makedirs_dir _ _ _ Hp). reflexivity. }
    cbn [fs stdin trace].
    erewrite bind_run by apply Hmod.
    cbv zeta. fold rnbo fs1.
    erewrite bind_run by exact Emk.
    erewrite bind_run by reflexivity. cbn [fs stdin trace].
    erewrite bind_run.
    2:{ unfold os_walk. run_cmd. rewrite R2, Wk. reflexivity. }
    erewrite bind_run by exact Eloop.
    reflexivity. }
  cbn [fs stdin trace] in *.
  split; [congruence |]. split; [| split; [| split; [| split]]].
  - intros q f F.
    assert (Hq : q <> []) by (intros ->; discriminate F).
    destruct (Done (target ++ q) f) as [D1 D2].
    + now apply (walk_complete _ target q f).
    + now rewrite file_at_app, R2, F2.
    + split; [exact D1 |]. apply in_or_app. now left.
  - intros y q Hy. rewrite Rest.
    + rewrite (O2 y q Hy). unfold Fs.file_at, fs1, target.
      now rewrite (resolve_put_apart parent x y [] q _ (fs st)) by congruence.
    + intros Hw. apply walk_prefix in Hw as (q' & E & _).
      unfold target in E. rewrite <- app_assoc in E.
      apply app_inv_head in E. simpl in E. congruence.
  - now rewrite Kind, R2; destruct n2 as [f | d];
      [destruct (F2 []) | reflexivity].
  - rewrite Kind, resolve_app, R2. exact K2.
  - intros e He. apply in_or_app. left. apply T3. apply in_or_app. left.
    now apply T2.
Qed.

(** C6, as the code has it.  After [copy_and_substitute], from a template
    directory to a target that did not exist, every file of the template
    is found in the target as follows.  A text file that can be written
    holds the text with every token replaced in the order of the mapping,
    each by plain substring replacement from left to right; no token
    occurs in it when no value of the mapping can overlap a token.  A
    file that does not decode is unchanged and reported as skipped.  A
    text file that cannot be written is unchanged and reported, and the
    other files are processed all the same. *)
Theorem copy_and_substitute_spec (template parent : path) (x : string)
  (substitutions : dict) (mid : string) (tes pes : Fs.entries) (st : state) :
  Fs.resolve template (fs st) = Some (Dir tes) ->
  Fs.wf (Dir tes) = true ->
  Fs.resolve parent (fs st) = Some (Dir pes) ->
  Fs.resolve (parent ++ [x]) (fs st) = None ->
  (forall s, dict_get "__MOD__" substitutions s = (Return mid, s)) ->
  (forall f, Fs.lookup (mid ++ "-rnbo") tes <> Some (File f)) ->
  exists st',
    copy_and_substitute template (parent ++ [x]) substitutions st
    = (Return tt, st')
    /\ forall q f,
         Fs.file_at q (Dir tes) = Some f ->
         (forall c, data f = Text c -> writable f = true ->
            text_at ((parent ++ [x]) ++ q) (fs st')
            = Some (substitute substitutions c)
            /\ (clash_free substitutions = true ->
                forall k v, In (k, v) substitutions ->
                            Py.contains k (substitute substitutions c) = false))
         /\ (forall raw, data f = Binary raw ->
              Fs.file_at ((parent ++ [x]) ++ q) (fs st') = Some f
              /\ In (Print (Skipping_binary ((parent ++ [x]) ++ q))) (trace st'))
         /\ (forall c, data f = Text c -> writable f = false ->
              Fs.file_at ((parent ++ [x]) ++ q) (fs st') = Some f
              /\ In (Print (Err_processing ((parent ++ [x]) ++ q))) (trace st')).
Proof.
  intros Ht Wt Hp Hx Hmod Hrnbo.
  destruct (copy_and_substitute_run _ _ _ _ _ _ _ _ Ht Wt Hp Hx Hmod Hrnbo)
    as (st' & E & _ & Files & _).
  exists st'. split; [exact E |].
  intros q f F. destruct (Files q f F) as [F' R].
  unfold substituted in F'. unfold report in R.
  split; [| split].
  - intros c D W. rewrite D, W in F'. split.
    + unfold text_at. now rewrite F'.
    + intros C k v. now apply substitute_keeps_out.
  - intros raw D. rewrite D in F', R. now split.
  - intros c D W. rewrite D, W in F', R. now split.
Qed.

Lemma copy_and_substitute_spec_witness :
  exists st',
    copy_and_substitute CreateModule.template_dir (modules_dir ++ ["VERB"])
      [("__MOD__", "VERB"); ("__NAME__", "Reverb")]
      (mkState sample_project [] [])
    = (Return tt, st')
    /\ text_at ((modules_dir ++ ["VERB"]) ++ ["CMakeLists.txt"]) (fs st')
       = Some (substitute [("__MOD__", "VERB"); ("__NAME__", "Reverb")]
                 "project(__MOD__) # __NAME__").
Proof.
  destruct (copy_and_substitute_spec CreateModule.template_dir modules_dir "VERB"
              [("__MOD__", "VERB"); ("__NAME__", "Reverb")] "VERB"
              [("CMakeLists.txt",
                File (mkFile true (Text "project(__MOD__) # __NAME__")));
               ("icon.png", File (mkFile true (Binary [x89; x50])));
               ("LICENSE", File (mkFile false (Text "(c) __AUTHOR__")))]
              [("CMakeLists.txt",
                File (mkFile true (Text ("add_subdirectory(common)" ++ Py.nl))));
               ("common", Dir [])]
              (mkState sample_project [] [])
              eq_refl eq_refl eq_refl eq_refl (fun s => eq_refl))
    as (st' & E & H).
  - intros f. discriminate.
  - exists st'. split; [exact E |].
    apply (proj1 (H ["CMakeLists.txt"]
                    (mkFile true (Text "project(__MOD__) # __NAME__")) eq_refl)
                 "project(__MOD__) # __NAME__" eq_refl eq_refl).
Defined.

(** C6 as it was stated fails when a value of the mapping contains a
    token: with the name "__MOD__" the file of the new module still holds
    the token "__MOD__".  It also fails for a text file that cannot be
    written: the copy of the read-only LICENSE keeps its token. *)
Lemma main_create_leaves_token :
  exit_status
    (fst (main (mkArgs (Some "TEST") (Some "__MOD__") None None None None None)
            (mkState sample_project [] [])))
  = 0
  /\ text_at (modules_dir ++ ["TEST"; "CMakeLists.txt"])
       (fs (snd (main (mkArgs (Some "TEST") (Some "__MOD__")
                         None None None None None)
                   (mkState sample_project [] []))))
     = Some "project(TEST) # __MOD__"
  /\ Py.contains "__MOD__" "project(TEST) # __MOD__" = true
  /\ exit_status (fst (main (only_id "TEST") (mkState sample_project [] [])))
     = 0
  /\ text_at (modules_dir ++ ["TEST"; "LICENSE"])
       (fs (snd (main (only_id "TEST") (mkState sample_project [] []))))
     = Some "(c) __AUTHOR__"
  /\ Py.contains "__AUTHOR__" "(c) __AUTHOR__" = true.
Proof. repeat split; vm_compute; reflexivity. Qed.

End Substitution.

(** ** C1: the registry and the module directories *)

Section Invariant.

Import CreateModule.

Lemma collect_module_info_run a mid st :
  module_id a = Some mid -> mid <> EmptyString ->
  exists (b : bool) (ms : list message),
    collect_module_info a st
    = (if b then Return (mapping_of a mid) else Raise (SystemExit 1),
       mkState (fs st) (stdin st) (trace st ++ map Print ms))
    /\ (b = true <-> well_formed_id mid).
Proof.
  intros Ha Hne. destruct mid as [|c0 r0]; [congruence |].
  destruct (validate_module_id_state (String c0 r0) st) as (b & ms & E).
  pose proof (validate_module_id_true (String c0 r0) st) as V.
  rewrite E in V. cbn [fst] in V.
  exists b, ms. split.
  - unfold collect_module_info. rewrite Ha.
    erewrite bind_run by exact E. now destruct b.
  - rewrite <- V. split; congruence.
Qed.

(** Each of these stops [copy_and_substitute] with status 1. *)
Lemma copy_and_substitute_fails template parent x substitutions mid st :
  (forall s, dict_get "__MOD__" substitutions s = (Return mid, s)) ->
  Fs.resolve (parent ++ [x]) (fs st) <> None
  \/ (forall tes, Fs.resolve template (fs st) <> Some (Dir tes))
  \/ (exists f, Fs.resolve parent (fs st) = Some (File f))
  \/ (exists tes f, Fs.resolve template (fs st) = Some (Dir tes)
                    /\ Fs.lookup (mid ++ "-rnbo") tes = Some (File f)) ->
  exists e st',
    copy_and_substitute template (parent ++ [x]) substitutions st
    = (Raise e, st')
    /\ exit_status (@Raise unit e) = 1.
Proof.
  intros Hmod H. unfold copy_and_substitute.
  erewrite bind_run by reflexivity. unfold Fs.exists_.
  destruct (Fs.resolve (parent ++ [x]) (fs st)) as [n |] eqn:Rx.
  { eexists; eexists. split; [reflexivity | reflexivity]. }
  erewrite bind_run by reflexivity. cbn [fs stdin trace].
  destruct (Fs.resolve template (fs st)) as [[f | tes] |] eqn:Rt.
  - erewrite bind_raise.
    2:{ unfold Io.copytree. run_cmd. rewrite Rt. reflexivity. }
    eexists; eexists. split; reflexivity.
  - destruct (Fs.makedirs parent (fs st)) as [root' |] eqn:Mk.
    + destruct H as [H | [H | [(f & H) | (tes' & f & H1 & H2)]]];
        [congruence | now destruct (H tes)
         | rewrite (makedirs_file _ _ _ H) in Mk; discriminate Mk |].
      injection H1 as <-.
      destruct (makedirs_resolve _ _ _ Mk) as (pes & Rp).
      erewrite bind_run.
      2:{ unfold Io.copytree. run_cmd. rewrite Rt, Rx.
          unfold Fs.parent. rewrite removelast_last, Mk. reflexivity. }
      cbn [fs stdin trace].
      erewrite bind_run by apply Hmod. cbv zeta.
      erewrite bind_raise.
      2:{ unfold Io.mkdir_exist_ok. run_cmd.
          rewrite resolve_app.
          rewrite (resolve_put_child _ _ _ _ _ Rp), resolve_cons, H2.
          reflexivity. }
      eexists; eexists. split; reflexivity.
    + erewrite bind_raise.
      2:{ unfold Io.copytree. run_cmd. rewrite Rt, Rx.
          unfold Fs.parent. rewrite removelast_last, Mk. reflexivity. }
      eexists; eexists. split; reflexivity.
  - erewrite bind_raise.
    2:{ unfold Io.copytree. run_cmd. rewrite Rt. reflexivity. }
    eexists; eexists. split; reflexivity.
Qed.

(** [update_modules_cmake] on a registry file that holds text. *)
Lemma update_modules_cmake_text dir mid f c st :
  Fs.file_at (dir ++ ["CMakeLists.txt"]) (fs st) = Some f ->
  data f = Text c ->
  update_modules_cmake dir mid st
  = if Py.contains (directive mid) c
    then (Return tt,
          mkState (fs st) (stdin st)
                  (trace st ++ [Print (Already_in_cmake mid)]))
    else if writable f
    then (Return tt,
          mkState (Fs.put (dir ++ ["CMakeLists.txt"])
                          (File (mkFile true
                                   (Text (c ++ (directive mid ++ Py.nl)))))
                          (fs st))
                  (stdin st)
                  (trace st ++ [Appended (dir ++ ["CMakeLists.txt"]);
                                Print (Added_to_cmake mid)]))
    else (Raise OSError, st).
Proof.
  intros Hf Hd.
  destruct (writable f) eqn:W.
  - now rewrite (update_modules_cmake_run _ _ _ _ _ Hf Hd W).
  - apply file_at_resolve in Hf.
    unfold update_modules_cmake. run_cmd.
    step Hf. step Hf. step Hd.
    destruct (Py.contains (directive mid) c); [reflexivity |].
    step Hf. step W. now destruct st.
Qed.

Lemma update_modules_cmake_fails dir mid st :
  (forall f c, Fs.file_at (dir ++ ["CMakeLists.txt"]) (fs st) = Some f ->
               data f <> Text c) ->
  exists e st',
    update_modules_cmake dir mid st = (Raise e, st')
    /\ exit_status (@Raise unit e) = 1.
Proof.
  intros H. unfold update_modules_cmake. run_cmd. unfold Fs.file_at in H.
  destruct (Fs.resolve (dir ++ ["CMakeLists.txt"]) (fs st)) as [[f | d] |] eqn:R;
    step R; step R.
  - destruct (data f) as [c | raw] eqn:D.
    + now destruct (H f c eq_refl).
    + eexists; eexists. split; reflexivity.
  - eexists; eexists. split; reflexivity.
  - eexists; eexists. split; reflexivity.
Qed.

Lemma well_formed_id_not_registry (mid : string) :
  well_formed_id mid -> "CMakeLists.txt" <> mid.
Proof. intros [L _] <-. discriminate L. Qed.

(** A run of [main] that ends with status 0, for an identifier given on
    the command line: what held before and what holds after. *)
Lemma main_create_success (a : args) (mid : string) (st : state) :
  module_id a = Some mid -> mid <> EmptyString -> Fs.wf (fs st) = true ->
  exists r st',
    main a st = (r, st')
    /\ (exit_status r = 0 ->
        well_formed_id mid
        /\ Fs.resolve (modules_dir ++ [mid]) (fs st) = None
        /\ option_map Fs.is_dir (Fs.resolve (modules_dir ++ [mid]) (fs st'))
           = Some true
        /\ exists f c,
             Fs.file_at cmake_file (fs st) = Some f /\ data f = Text c
             /\ text_at cmake_file (fs st')
                = Some (if Py.contains (directive mid) c then c
                        else (c ++ (directive mid ++ Py.nl))%string)).
Proof.
  intros Ha Hne W.
  assert (Dead : forall (X : outcome unit * state) (e : exn) (s : state)
                         (Q : state -> Prop),
             X = (Raise e, s) -> exit_status (@Raise unit e) = 1 ->
             exists r st', X = (r, st') /\ (exit_status r = 0 -> Q st')).
  { intros X e s Q -> E. exists (Raise e), s. split; [reflexivity |].
    congruence. }
  unfold main.
  erewrite bind_run by reflexivity. unfold Fs.exists_.
  destruct (Fs.resolve template_dir (fs st)) as [t |] eqn:Rt; cbn [negb];
    [| eapply Dead; reflexivity].
  erewrite bind_run by reflexivity. unfold Fs.exists_.
  destruct (Fs.resolve modules_dir (fs st)) as [md |] eqn:Rm; cbn [negb];
    [| eapply Dead; reflexivity].
  destruct (collect_module_info_run a mid st Ha Hne) as (b & ms & Ec & Hb).
  destruct b; [| erewrite bind_raise by exact Ec; eapply Dead; reflexivity].
  erewrite bind_run by exact Ec.
  erewrite bind_run by reflexivity.
  pose proof (proj1 Hb eq_refl) as V.
  set (s1 := mkState (fs st) (stdin st) (trace st ++ map Print ms)).
  assert (Hmod : forall s, dict_get "__MOD__" (mapping_of a mid) s = (Return mid, s))
    by reflexivity.
  assert (Fail :
            Fs.resolve (modules_dir ++ [mid]) (fs s1) <> None
            \/ (forall tes, Fs.resolve template_dir (fs s1) <> Some (Dir tes))
            \/ (exists f, Fs.resolve modules_dir (fs s1) = Some (File f))
            \/ (exists tes f, Fs.resolve template_dir (fs s1) = Some (Dir tes)
                              /\ Fs.lookup (mid ++ "-rnbo") tes = Some (File f)) ->
            exists r st',
              (copy_and_substitute template_dir (modules_dir ++ [mid])
                 (mapping_of a mid);;
               update_modules_cmake modules_dir mid;; print_next_steps mid) s1
              = (r, st')
              /\ (exit_status r = 0 ->
                  well_formed_id mid
                  /\ Fs.resolve (modules_dir ++ [mid]) (fs st) = None
                  /\ option_map Fs.is_dir
                       (Fs.resolve (modules_dir ++ [mid]) (fs st')) = Some true
                  /\ exists f c,
                       Fs.file_at cmake_file (fs st) = Some f /\ data f = Text c
                       /\ text_at cmake_file (fs st')
                          = Some (if Py.contains (directive mid) c then c
                                  else (c ++ (directive mid ++ Py.nl))%string))).
  { intros F.
    destruct (copy_and_substitute_fails template_dir modules_dir mid
                (mapping_of a mid) mid s1 Hmod F) as (e & s' & E & X).
    erewrite bind_raise by exact E. eapply Dead; [reflexivity | exact X]. }
  unfold s1 in Fail at 1 2 3 4. cbn [fs] in Fail.
  destruct (Fs.resolve (modules_dir ++ [mid]) (fs st)) as [n |] eqn:Rx.
  { apply Fail. left. discriminate. }
  destruct t as [f | tes].
  { apply Fail. right. left. intros tes. rewrite Rt. discriminate. }
  destruct md as [f | pes].
  { apply Fail. right. right. left. now exists f. }
  destruct (Fs.lookup (mid ++ "-rnbo") tes) as [[f | d] |] eqn:L.
  { apply Fail. right. right. right. now exists tes, f. }
  all: clear Fail.
  all: destruct (copy_and_substitute_run template_dir modules_dir mid
                   (mapping_of a mid) mid tes pes s1 Rt
                   (wf_resolve _ _ _ W Rt) Rm Rx Hmod)
         as (s3 & E3 & _ & _ & Frame & Kind & _);
       [intros f; rewrite L; discriminate |];
       erewrite bind_run by exact E3;
       pose proof (Frame "CMakeLists.txt" [] (well_formed_id_not_registry _ V))
         as Fc; cbn [fs s1] in Fc; fold cmake_file in Fc.
  all: destruct (Fs.file_at cmake_file (fs st)) as [f |] eqn:Hf;
       [destruct (data f) as [c | raw] eqn:D |].
  all: try (destruct (update_modules_cmake_fails modules_dir mid s3)
              as (e & s' & E & X);
            [intros f' c' H; fold cmake_file in H; congruence |];
            erewrite bind_raise by exact E;
            eapply Dead; [reflexivity | exact X]).
  all: pose proof (update_modules_cmake_text modules_dir mid f c s3 Fc D) as Eu;
       fold cmake_file in Eu.
  all: destruct (Py.contains (directive mid) c) eqn:Cc;
       [| destruct (writable f)].
  all: try (erewrite bind_raise by exact Eu; eapply Dead; reflexivity).
  all: erewrite bind_run by exact Eu.
  all: do 2 eexists; (split; [reflexivity |]); intros _; cbn [fs].
  all: split; [exact V |]; split; [reflexivity |].
  all: apply file_at_resolve in Fc.
  all: split; [rewrite ?(put_file_kind _ _ _ _ Fc); exact Kind |].
  all: exists f, c; split; [reflexivity |]; split; [exact D |].
  all: unfold cmake_file in *; rewrite ?Cc.
  all: try apply (text_at_put_same _ _ _ _ Fc).
  all: unfold text_at, Fs.file_at; now rewrite Fc, D.
Qed.

Lemma well_formed_id_no_newline (mid : string) :
  well_formed_id mid -> no_newline mid.
Proof.
  intros (_ & A & _). unfold no_newline. apply all_chars_spec.
  intros c Hc. specialize (A c Hc). apply negb_true_iff.
  destruct (Ascii.eqb c Py.newline) eqn:E; [| reflexivity].
  apply Ascii.eqb_eq in E. subst c. discriminate A.
Qed.

Lemma has_line_after_removal (mid c : string) :
  has_line_for mid (Py.writelines (other_lines mid c)) = false.
Proof.
  unfold has_line_for, other_lines.
  rewrite readlines_writelines
    by apply line_list_filter, readlines_line_list.
  induction (Py.readlines c) as [|l ls IH]; [reflexivity |].
  simpl. destruct (is_line_for mid l) eqn:E; simpl; [exact IH |].
  now rewrite E.
Qed.

Lemma has_line_after_addition (mid c : string) :
  c = EmptyString \/ ends_with_newline c -> no_newline mid ->
  has_line_for mid (c ++ (directive mid ++ Py.nl)) = true.
Proof.
  intros Hc Hn. unfold has_line_for.
  rewrite (readlines_added _ _ Hc Hn), existsb_app. apply orb_true_iff. right.
  cbn [existsb]. unfold is_line_for.
  now rewrite strip_directive_nl, String.eqb_refl.
Qed.

(** C1, as the code has it.  After a creation that ends with status 0,
    of a module named on the command line, in a project whose registry
    file was empty or ended with a newline and did not contain the text of
    the directive, the registry has a line for the module and the module
    directory exists.  After a confirmed removal that ends with status 0,
    of a module named on the command line, the registry has no line for
    the module and the module directory does not exist. *)
Theorem registry_matches_after_success :
  (forall (a : CreateModule.args) (mid c : string) (st : state),
      CreateModule.module_id a = Some mid -> mid <> EmptyString ->
      Fs.wf (fs st) = true ->
      text_at cmake_file (fs st) = Some c ->
      Py.contains (directive mid) c = false ->
      c = EmptyString \/ ends_with_newline c ->
      exit_status (fst (CreateModule.main a st)) = 0 ->
      registered mid (fs (snd (CreateModule.main a st))) = true
      /\ module_exists mid (fs (snd (CreateModule.main a st))) = true)
  /\ (forall (a : RemoveModule.args) (mid : string) (es : Fs.entries)
             (m : node) (st st1 : state),
         RemoveModule.module_id a = Some mid -> mid <> EmptyString ->
         RemoveModule.list_only a = false ->
         Fs.resolve modules_dir (fs st) = Some (Dir es) ->
         Fs.resolve (modules_dir ++ [mid]) (fs st) = Some m ->
         RemoveModule.confirm_removal mid (modules_dir ++ [mid])
           (RemoveModule.force a) st = (Return true, st1) ->
         exit_status (fst (RemoveModule.main a st)) = 0 ->
         registered mid (fs (snd (RemoveModule.main a st))) = false
         /\ module_exists mid (fs (snd (RemoveModule.main a st))) = false).
Proof.
  split.
  - intros a mid c st Ha Hne W Hc Hno Hend Hexit.
    destruct (main_create_success a mid st Ha Hne W) as (r & st' & E & H).
    rewrite E in *. cbn [fst snd] in *.
    destruct (H Hexit) as (V & _ & K & f & c' & Hf & D & T).
    assert (c' = c).
    { unfold text_at in Hc. rewrite Hf, D in Hc. congruence. }
    subst c'. rewrite Hno in T. split.
    + unfold registered. rewrite T.
      apply has_line_after_addition; [exact Hend |].
      now apply well_formed_id_no_newline.
    + unfold module_exists, Fs.exists_.
      now destruct (Fs.resolve (modules_dir ++ [mid]) (fs st')).
  - intros a mid es m st st1 Ha Hne Hl Hmods Hdir Hgo Hexit.
    destruct (main_remove_run a mid es m st st1 Ha Hne Hl Hmods Hdir Hgo)
      as (b1 & s1 & E1 & Main).
    rewrite Main in *. cbn [fst snd fs] in *.
    destruct (Fs.is_dir m) eqn:K; [| discriminate Hexit].
    destruct b1; [| discriminate Hexit]. clear Hexit.
    destruct (remove_from_cmake_cases cmake_file mid
                (mkState (fs st) (stdin st1)
                         (trace st1 ++ [Print (Removing_module mid)])))
      as (b & s & E & _ & [(_ & _ & f & c & Hf & D & _ & Hfs) | (Hb & _)]);
      rewrite E1 in E; injection E as <- <-; [| discriminate Hb].
    cbn [fs] in *. apply file_at_resolve in Hf.
    assert (Hmid : "CMakeLists.txt" <> mid).
    { intros <-. fold cmake_file in Hdir. rewrite Hf in Hdir.
      injection Hdir as <-. discriminate K. }
    split.
    + unfold registered, text_at, Fs.file_at, cmake_file.
      rewrite (resolve_delete_apart modules_dir mid "CMakeLists.txt" [] [])
        by congruence.
      fold cmake_file. rewrite Hfs, (resolve_put_same _ _ _ _ Hf).
      apply has_line_after_removal.
    + unfold module_exists, Fs.exists_.
      rewrite resolve_delete_same; [reflexivity |]. discriminate.
Qed.

Lemma registry_matches_after_success_witness :
  registered "TEST"
    (fs (snd (CreateModule.main (only_id "TEST")
                (mkState sample_project [] [])))) = true
  /\ module_exists "TEST"
       (fs (snd (CreateModule.main (only_id "TEST")
                   (mkState sample_project [] [])))) = true.
Proof.
  apply (proj1 registry_matches_after_success (only_id "TEST") "TEST"
           ("add_subdirectory(common)" ++ Py.nl)%string
           (mkState sample_project [] [])); try reflexivity.
  - discriminate.
  - right. now exists "add_subdirectory(common)".
Defined.

(** C1 as it was stated fails when the registry file is missing: the
    module directory is created, the registry step stops with status 1,
    and nothing is rolled back.  It also fails after a creation that ends
    with status 0, when the last line of the registry file had no newline
    and when the file mentioned the directive in a comment: the module
    directory exists and the registry has no line for the module. *)
Lemma main_create_without_registry :
  exit_status
    (fst (CreateModule.main (only_id "TEST")
            (mkState (Fs.delete cmake_file sample_project) [] [])))
  = 1
  /\ registered "TEST"
       (fs (snd (CreateModule.main (only_id "TEST")
                   (mkState (Fs.delete cmake_file sample_project) [] []))))
     = false
  /\ module_exists "TEST"
       (fs (snd (CreateModule.main (only_id "TEST")
                   (mkState (Fs.delete cmake_file sample_project) [] []))))
     = true
  /\ exit_status
       (fst (CreateModule.main (only_id "TEST")
               (mkState (sample_with_registry "add_subdirectory(common)")
                        [] [])))
     = 0
  /\ registered "TEST"
       (fs (snd (CreateModule.main (only_id "TEST")
                   (mkState (sample_with_registry "add_subdirectory(common)")
                            [] []))))
     = false
  /\ module_exists "TEST"
       (fs (snd (CreateModule.main (only_id "TEST")
                   (mkState (sample_with_registry "add_subdirectory(common)")
                            [] []))))
     = true
  /\ exit_status
       (fst (CreateModule.main (only_id "TEST")
               (mkState (sample_with_registry
                           ("# add_subdirectory(TEST)" ++ Py.nl))
                        [] [])))
     = 0
  /\ registered "TEST"
       (fs (snd (CreateModule.main (only_id "TEST")
                   (mkState (sample_with_registry
                               ("# add_subdirectory(TEST)" ++ Py.nl))
                            [] []))))
     = false
  /\ module_exists "TEST"
       (fs (snd (CreateModule.main (only_id "TEST")
                   (mkState (sample_with_registry
                               ("# add_subdirectory(TEST)" ++ Py.nl))
                            [] []))))
     = true.
Proof. repeat split; vm_compute; reflexivity. Qed.

End Invariant.

(** * Further properties of the two scripts *)

(** ** The registry file: removal after addition, and removal again *)

Section RegistryAgain.

Import CreateModule RemoveModule.

Lemma filter_none {A} (p : A -> bool) (l : list A) :
  existsb p l = false -> filter (fun a => negb (p a)) l = l.
Proof.
  induction l as [| a l IH]; simpl; [reflexivity |].
  intros H. apply orb_false_iff in H as [Ha Hl].
  rewrite Ha. simpl. now rewrite IH.
Qed.

Lemma other_lines_all (module_id c : string) :
  has_line_for module_id c = false ->
  other_lines module_id c = Py.readlines c.
Proof. intros H. now apply filter_none. Qed.

Lemma has_line_without_text (module_id c : string) :
  Py.contains (directive module_id) c = false ->
  has_line_for module_id c = false.
Proof.
  intros H. destruct (has_line_for module_id c) eqn:E; [| reflexivity].
  apply has_line_contains in E. congruence.
Qed.

(** The lines that are left once the directive has been added and its
    lines taken out again. *)
Lemma other_lines_added (module_id c : string) :
  Py.contains (directive module_id) c = false ->
  c = EmptyString \/ ends_with_newline c -> no_newline module_id ->
  Py.writelines (other_lines module_id (c ++ (directive module_id ++ Py.nl)))
  = c.
Proof.
  intros Hno Hend Hid. unfold other_lines.
  rewrite (readlines_added _ _ Hend Hid), filter_app.
  cbn [filter]. unfold is_line_for at 2.
  rewrite strip_directive_nl, String.eqb_refl. cbn [negb].
  rewrite app_nil_r.
  fold (other_lines module_id c).
  rewrite (other_lines_all _ _ (has_line_without_text _ _ Hno)).
  apply writelines_readlines.
Qed.

Lemma put_put p n1 n2 root :
  Fs.put p n2 (Fs.put p n1 root) = Fs.put p n2 root.
Proof.
  revert root. induction p as [| x p IH]; intros root; [reflexivity |].
  destruct root as [f | es]; [reflexivity |].
  destruct p as [| y p].
  - cbn [Fs.put]. f_equal.
    induction es as [| [z m] es IHes]; simpl.
    + now rewrite String.eqb_refl.
    + destruct (String.eqb z x) eqn:E; simpl; rewrite E; [reflexivity |].
      now rewrite IHes.
  - rewrite !put_inner by discriminate. f_equal.
    induction es as [| [z m] es IHes]; cbn [Fs.update_entry]; [reflexivity |].
    destruct (String.eqb z x) eqn:E; cbn [Fs.update_entry]; rewrite E.
    + now rewrite IH.
    + now rewrite IHes.
Qed.

(** X1. Addition, then removal.  On a registry file that can be written, has
    no carriage return, is empty or ends with a newline and does not
    contain the directive of the module, whose name has no newline and no
    carriage return, [update_modules_cmake] followed by
    [remove_from_cmake] answers true and leaves the project tree exactly
    as it was.  (A file with carriage returns is read without them and
    comes back without them.) *)
Theorem update_then_remove_restores (dir : path) (module_id c : string)
  (st : state) :
  Fs.file_at (dir ++ ["CMakeLists.txt"]) (fs st) = Some (mkFile true (Text c)) ->
  no_carriage_return c ->
  no_carriage_return module_id ->
  Py.contains (directive module_id) c = false ->
  c = EmptyString \/ ends_with_newline c ->
  no_newline module_id ->
  let added := update_modules_cmake dir module_id st in
  let removed :=
    remove_from_cmake (dir ++ ["CMakeLists.txt"]) module_id (snd added) in
  fst added = Return tt
  /\ text_at (dir ++ ["CMakeLists.txt"]) (fs (snd added))
     = Some (c ++ (directive module_id ++ Py.nl))%string
  /\ fst removed = Return true
  /\ fs (snd removed) = fs st.
Proof.
  intros Hf _ _ Hno Hend Hid added removed.
  assert (R : Fs.resolve (dir ++ ["CMakeLists.txt"]) (fs st)
              = Some (File (mkFile true (Text c))))
    by now apply file_at_resolve.
  assert (Ea : added
               = (Return tt,
                  mkState (Fs.put (dir ++ ["CMakeLists.txt"])
                             (File (mkFile true
                                      (Text (c ++ (directive module_id ++ Py.nl)))))
                             (fs st))
                          (stdin st)
                          (trace st ++ [Appended (dir ++ ["CMakeLists.txt"]);
                                        Print (Added_to_cmake module_id)]))).
  { unfold added.
    rewrite (update_modules_cmake_run _ _ _ _ _ Hf eq_refl eq_refl).
    now rewrite Hno. }
  unfold removed. rewrite Ea. cbn [fst snd fs].
  split; [reflexivity |]. split; [now rewrite (text_at_put_same _ _ _ _ R) |].
  rewrite remove_from_cmake_eq. cbn [fs stdin trace].
  rewrite (resolve_put_same _ _ _ _ R). cbn [data writable].
  rewrite (has_line_after_addition _ _ Hend Hid). cbn [fst snd fs].
  split; [reflexivity |].
  rewrite put_put, (other_lines_added _ _ Hno Hend Hid).
  now apply put_same_node.
Qed.

Lemma update_then_remove_restores_witness :
  let st := registry_state ("add_subdirectory(common)" ++ Py.nl) in
  let added := update_modules_cmake modules_dir "TEST" st in
  let removed := remove_from_cmake cmake_file "TEST" (snd added) in
  fst added = Return tt
  /\ text_at cmake_file (fs (snd added))
     = Some (("add_subdirectory(common)" ++ Py.nl)
             ++ (directive "TEST" ++ Py.nl))%string
  /\ fst removed = Return true
  /\ fs (snd removed) = fs st.
Proof.
  apply (update_then_remove_restores modules_dir "TEST"
           ("add_subdirectory(common)" ++ Py.nl)
           (registry_state ("add_subdirectory(common)" ++ Py.nl))).
  - reflexivity.
  - reflexivity.
  - reflexivity.
  - reflexivity.
  - right. now exists "add_subdirectory(common)".
  - reflexivity.
Defined.

(** X2. Removal again.  Whatever the first call of [remove_from_cmake] found
    and did, a second call answers false and changes nothing. *)
Theorem remove_from_cmake_again (p : path) (module_id : string) (st : state) :
  let once := remove_from_cmake p module_id st in
  let twice := remove_from_cmake p module_id (snd once) in
  fst twice = Return false /\ fs (snd twice) = fs (snd once).
Proof.
  cbv zeta. rewrite (remove_from_cmake_eq p module_id st).
  destruct (Fs.resolve p (fs st)) as [[f | es] |] eqn:R.
  - destruct (data f) as [c | raw] eqn:D.
    + destruct (has_line_for module_id c) eqn:L.
      * destruct (writable f) eqn:W.
        -- cbn [snd]. rewrite remove_from_cmake_eq. cbn [fs stdin trace].
           rewrite (resolve_put_same _ _ _ _ R). cbn [data writable].
           rewrite has_line_after_removal. now split.
        -- cbn [snd]. rewrite remove_from_cmake_eq. cbn [fs stdin trace].
           rewrite R, D, L, W. now split.
      * cbn [snd]. rewrite remove_from_cmake_eq. cbn [fs stdin trace].
        rewrite R, D, L. now split.
    + cbn [snd]. rewrite remove_from_cmake_eq. cbn [fs stdin trace].
      rewrite R, D. now split.
  - cbn [snd]. rewrite remove_from_cmake_eq. cbn [fs stdin trace].
    rewrite R. now split.
  - cbn [snd]. rewrite remove_from_cmake_eq. cbn [fs stdin trace].
    rewrite R. now split.
Qed.

(** X3. What [remove_from_cmake] never does: it raises nothing, reads no
    input, changes nothing when it answers false, changes no other file,
    and neither makes nor unlinks a path. *)
Theorem remove_from_cmake_contained (p : path) (module_id : string)
  (st : state) :
  exists (b : bool) (st' : state),
    remove_from_cmake p module_id st = (Return b, st')
    /\ stdin st' = stdin st
    /\ (b = false -> fs st' = fs st)
    /\ (forall q, q <> p -> Fs.file_at q (fs st') = Fs.file_at q (fs st))
    /\ (forall q, option_map Fs.is_dir (Fs.resolve q (fs st'))
                  = option_map Fs.is_dir (Fs.resolve q (fs st))).
Proof.
  rewrite remove_from_cmake_eq.
  destruct (Fs.resolve p (fs st)) as [[f | es] |] eqn:R;
    [destruct (data f) as [c | raw];
     [destruct (has_line_for module_id c); [destruct (writable f) |] |] | |].
  2-6: eexists; eexists; split; [reflexivity |]; cbn [fs stdin]; auto.
  eexists; eexists. split; [reflexivity |]. cbn [fs stdin].
  split; [reflexivity |]. split; [discriminate |]. split.
  - intros q Hq. now apply (put_file_other _ _ _ _ R).
  - intros q. now apply (put_file_kind _ _ _ _ R).
Qed.

End RegistryAgain.

(** ** Loops over the lines of the input *)

Section InputLoops.

Import RemoveModule.

Lemma state_eta (st : state) : mkState (fs st) (stdin st) (trace st) = st.
Proof. now destruct st. Qed.

(** Lines the body answers nothing to are passed over one by one. *)
Lemma while_true_passes {A} (body : M (option A)) (junk : string -> Prop)
  (said : string -> list event) :
  reads_a_line body ->
  (forall st l ls, stdin st = l :: ls -> junk l ->
                   body st = (Return None,
                              mkState (fs st) ls (trace st ++ said l))) ->
  forall ls st rest,
    Forall junk ls -> stdin st = ls ++ rest ->
    while_true body st
    = while_true body
        (mkState (fs st) rest (trace st ++ flat_map said ls)).
Proof.
  intros Hr Hb ls. induction ls as [| l ls IH]; intros st rest Hj Hs.
  - simpl in *. rewrite app_nil_r, <- Hs. now rewrite state_eta.
  - inversion Hj as [| ? ? Hl Hls]; subst.
    rewrite (while_true_unfold body st Hr). unfold bind at 1.
    rewrite (Hb st l (ls ++ rest) Hs Hl).
    rewrite (IH (mkState (fs st) (ls ++ rest) (trace st ++ said l)) rest
                Hls eq_refl).
    cbn [fs stdin trace flat_map]. now rewrite <- app_assoc.
Qed.

(** One round of the question. *)
Lemma confirm_round module_id st l ls :
  stdin st = l :: ls ->
  (l <- input (Ask_confirm module_id) ;;
   let response := Py.lower (Py.strip l) in
   if name_in response ["yes"; "y"] then ret (Some true)
   else if name_in response ["no"; "n"] then ret (Some false)
   else print Please_yes_or_no ;; ret None) st
  = match answer l with
    | Some b =>
        (Return (Some b),
         mkState (fs st) ls (trace st ++ [Prompt (Ask_confirm module_id)]))
    | None =>
        (Return None,
         mkState (fs st) ls
                 (trace st ++ [Prompt (Ask_confirm module_id);
                               Print Please_yes_or_no]))
    end.
Proof.
  intros Hs. unfold input, answer. run_cmd. rewrite Hs. cbv zeta.
  destruct (name_in _ ["yes"; "y"]); [reflexivity |].
  destruct (name_in _ ["no"; "n"]); [reflexivity |].
  cbn [fs stdin trace]. now rewrite <- app_assoc.
Qed.

(** X4. The question of [confirm_removal].  Without the force flag it is
    asked again for every line that is no answer, each time after the
    same reminder; the first line that answers decides, and the lines
    after it are left unread.  When the input ends first, EOFError is
    raised.  Nothing else happens. *)
Theorem confirm_removal_answers (module_id : string) (module_dir : path)
  (junk : list string) (st : state) :
  Forall (fun l => answer l = None) junk ->
  let asked :=
    trace st
    ++ [Print (Warn_permanent_delete module_id module_dir)]
    ++ flat_map (fun _ => [Prompt (Ask_confirm module_id);
                           Print Please_yes_or_no]) junk
    ++ [Prompt (Ask_confirm module_id)] in
  (forall l b rest,
      answer l = Some b -> stdin st = junk ++ l :: rest ->
      confirm_removal module_id module_dir false st
      = (Return b, mkState (fs st) rest asked))
  /\ (stdin st = junk ->
      confirm_removal module_id module_dir false st
      = (Raise EOFError, mkState (fs st) [] asked)).
Proof.
  intros Hj asked.
  assert (Hb : forall s l ls,
             stdin s = l :: ls -> answer l = None ->
             (l <- input (Ask_confirm module_id) ;;
              let response := Py.lower (Py.strip l) in
              if name_in response ["yes"; "y"] then ret (Some true)
              else if name_in response ["no"; "n"] then ret (Some false)
              else print Please_yes_or_no ;; ret None) s
             = (Return None,
                mkState (fs s) ls
                        (trace s ++ [Prompt (Ask_confirm module_id);
                                     Print Please_yes_or_no]))).
  { intros s l ls Hs Hl. rewrite (confirm_round _ _ _ _ Hs). now rewrite Hl. }
  split.
  - intros l b rest Hl Hs. unfold confirm_removal.
    erewrite bind_run by reflexivity.
    etransitivity.
    { exact (while_true_passes _ _ _ (reads_confirmation module_id) Hb
               junk
               (mkState (fs st) (stdin st)
                        (trace st
                         ++ [Print (Warn_permanent_delete module_id module_dir)]))
               (l :: rest) Hj Hs). }
    rewrite (while_true_unfold _ _ (reads_confirmation module_id)).
    unfold bind at 1. erewrite confirm_round by reflexivity. rewrite Hl.
    unfold ret, asked. cbn [fs stdin trace].
    now rewrite <- !app_assoc.
  - intros Hs. unfold confirm_removal.
    erewrite bind_run by reflexivity.
    etransitivity.
    { refine (while_true_passes _ _ _ (reads_confirmation module_id) Hb
                junk
                (mkState (fs st) (stdin st)
                         (trace st
                          ++ [Print (Warn_permanent_delete module_id module_dir)]))
                [] Hj _).
      cbn [stdin]. now rewrite app_nil_r. }
    rewrite (while_true_unfold _ _ (reads_confirmation module_id)).
    unfold input. run_cmd. unfold asked.
    now rewrite <- !app_assoc.
Qed.

Lemma confirm_removal_answers_witness :
  let st := mkState (Dir []) ["maybe"; ""; " Yes "; "no"] [] in
  let asked :=
    [Print (Warn_permanent_delete "TEST" ["modules"; "TEST"]);
     Prompt (Ask_confirm "TEST"); Print Please_yes_or_no;
     Prompt (Ask_confirm "TEST"); Print Please_yes_or_no;
     Prompt (Ask_confirm "TEST")] in
  confirm_removal "TEST" ["modules"; "TEST"] false st
  = (Return true, mkState (Dir []) ["no"] asked).
Proof.
  refine (proj1 (confirm_removal_answers "TEST" ["modules"; "TEST"]
                   ["maybe"; ""]
                   (mkState (Dir []) ["maybe"; ""; " Yes "; "no"] []) _)
                " Yes " true ["no"] eq_refl eq_refl).
  repeat constructor.
Defined.

(** One round of the menu. *)
Lemma select_round (available_modules : list string) st l ls :
  stdin st = l :: ls ->
  let n := List.length available_modules in
  try_except
    (l <- input (Ask_select (List.length available_modules)) ;;
     let choice := Py.strip l in
     if String.eqb (Py.lower choice) "q"
     then print Cancelled ;; sys_exit 0
     else
       match Py.int choice with
       | None => raise ValueError
       | Some i =>
           let index := (i - 1)%Z in
           if ((0 <=? index)
               && (index <? Z.of_nat (List.length available_modules)))%Z
           then
             match nth_error available_modules (Z.to_nat index) with
             | Some m => ret (Some m)
             | None => raise IndexError
             end
           else
             print (Please_number_between (List.length available_modules)) ;;
             ret None
       end)
    (fun e =>
       match e with
       | ValueError => Some (print Please_valid_number ;; ret None)
       | _ => None
       end) st
  = match choice_of n l with
    | Quit =>
        (Raise (SystemExit 0),
         mkState (fs st) ls (trace st ++ [Prompt (Ask_select n); Print Cancelled]))
    | Pick k =>
        (match nth_error available_modules k with
         | Some m => Return (Some m)
         | None => Raise IndexError
         end,
         mkState (fs st) ls (trace st ++ [Prompt (Ask_select n)]))
    | _ => (Return None, mkState (fs st) ls (trace st ++ menu_reply n l))
    end.
Proof.
  intros Hs n. unfold menu_reply, choice_of, input. run_cmd. rewrite Hs.
  cbv zeta. fold n.
  destruct (String.eqb (Py.lower (Py.strip l)) "q").
  { cbn [fs stdin trace]. now rewrite <- app_assoc. }
  destruct (Py.int (Py.strip l)) as [i |].
  - destruct ((0 <=? i - 1)%Z && (i - 1 <? Z.of_nat n)%Z)%bool.
    + now destruct (nth_error available_modules (Z.to_nat (i - 1))).
    + cbn [fs stdin trace]. now rewrite <- app_assoc.
  - cbn [fs stdin trace]. now rewrite <- app_assoc.
Qed.

Lemma choice_in_range (n : nat) (l : string) (k : nat) :
  choice_of n l = Pick k -> k < n.
Proof.
  unfold choice_of. cbv zeta.
  destruct (String.eqb _ _); [discriminate |].
  destruct (Py.int _) as [i |]; [| discriminate].
  destruct ((0 <=? i - 1)%Z && (i - 1 <? Z.of_nat n)%Z)%bool eqn:E;
    [| discriminate].
  intros H. injection H as <-.
  apply andb_true_iff in E as [E1 E2].
  apply Z.leb_le in E1. apply Z.ltb_lt in E2. lia.
Qed.

(** A numeral too long for [int] is no number for the menu. *)
Lemma choice_of_long (n : nat) (l : string) :
  (Py.max_str_digits < Py.count_digits (Py.strip l))%N ->
  choice_of n l = Not_a_number.
Proof.
  intros H. unfold choice_of. cbv zeta.
  destruct (String.eqb (Py.lower (Py.strip l)) "q") eqn:Q.
  - exfalso. apply String.eqb_eq in Q. revert H.
    destruct (Py.strip l) as [| a [| b r]]; try discriminate Q.
    cbn [Py.count_digits]. unfold Py.max_str_digits.
    destruct (Py.in_range 48 57 a); lia.
  - unfold Py.int. apply N.ltb_lt in H. now rewrite H.
Qed.

(** X5. The menu of the interactive mode.  A line that is no number, and a
    number that is not between 1 and the number of modules, are answered
    with a reminder and the menu asks again.  The first line that is such
    a number picks the module at that place of the list, the letter q
    ends the script with status 0, and the end of the input raises
    EOFError.  The lines after the one that decides are left unread.  A
    numeral of more than 4300 digits is no number: [int] refuses it. *)
Theorem select_module_choice (available_modules : list string)
  (junk : list string) (st : state) :
  available_modules <> [] ->
  let n := List.length available_modules in
  Forall (fun l => choice_of n l = Not_a_number
                   \/ choice_of n l = Out_of_range) junk ->
  let asked :=
    trace st ++ [Print (Available_modules available_modules)]
    ++ flat_map (menu_reply n) junk ++ [Prompt (Ask_select n)] in
  (forall l k rest,
      choice_of n l = Pick k -> stdin st = junk ++ l :: rest ->
      exists m,
        nth_error available_modules k = Some m
        /\ select_module available_modules st
           = (Return m, mkState (fs st) rest asked))
  /\ (forall l rest,
        choice_of n l = Quit -> stdin st = junk ++ l :: rest ->
        select_module available_modules st
        = (Raise (SystemExit 0),
           mkState (fs st) rest (asked ++ [Print Cancelled])))
  /\ (stdin st = junk ->
      select_module available_modules st
      = (Raise EOFError, mkState (fs st) [] asked))
  /\ (forall l, (4300 < Py.count_digits (Py.strip l))%N ->
                choice_of n l = Not_a_number
                /\ menu_reply n l
                   = [Prompt (Ask_select n); Print Please_valid_number]).
Proof.
  intros Hne n Hj asked.
  pose proof (reads_selection available_modules) as Hr.
  assert (Hb : forall s l ls,
             stdin s = l :: ls ->
             choice_of n l = Not_a_number \/ choice_of n l = Out_of_range ->
             try_except
               (l <- input (Ask_select (List.length available_modules)) ;;
                let choice := Py.strip l in
                if String.eqb (Py.lower choice) "q"
                then print Cancelled ;; sys_exit 0
                else
                  match Py.int choice with
                  | None => raise ValueError
                  | Some i =>
                      let index := (i - 1)%Z in
                      if ((0 <=? index)
                          && (index <? Z.of_nat (List.length available_modules)))%Z
                      then
                        match nth_error available_modules (Z.to_nat index) with
                        | Some m => ret (Some m)
                        | None => raise IndexError
                        end
                      else
                        print (Please_number_between
                                 (List.length available_modules)) ;;
                        ret None
                  end)
               (fun e =>
                  match e with
                  | ValueError => Some (print Please_valid_number ;; ret None)
                  | _ => None
                  end) s
             = (Return None, mkState (fs s) ls (trace s ++ menu_reply n l))).
  { intros s l ls Hs Hl. rewrite (select_round _ _ _ _ Hs). fold n.
    now destruct Hl as [-> | ->]. }
  assert (Hpass : forall rest,
             stdin st = junk ++ rest ->
             select_module available_modules st
             = while_true
                 (try_except
                    (l <- input (Ask_select (List.length available_modules)) ;;
                     let choice := Py.strip l in
                     if String.eqb (Py.lower choice) "q"
                     then print Cancelled ;; sys_exit 0
                     else
                       match Py.int choice with
                       | None => raise ValueError
                       | Some i =>
                           let index := (i - 1)%Z in
                           if ((0 <=? index)
                               && (index <? Z.of_nat
                                              (List.length available_modules)))%Z
                           then
                             match nth_error available_modules
                                     (Z.to_nat index) with
                             | Some m => ret (Some m)
                             | None => raise IndexError
                             end
                           else
                             print (Please_number_between
                                      (List.length available_modules)) ;;
                             ret None
                       end)
                    (fun e =>
                       match e with
                       | ValueError =>
                           Some (print Please_valid_number ;; ret None)
                       | _ => None
                       end))
                 (mkState (fs st) rest
                    (trace st ++ [Print (Available_modules available_modules)]
                     ++ flat_map (menu_reply n) junk))).
  { intros rest Hs. unfold select_module.
    destruct available_modules as [| m0 ms]; [congruence |].
    erewrite bind_run by reflexivity.
    etransitivity.
    { exact (while_true_passes _ _ _ Hr Hb junk
               (mkState (fs st) (stdin st)
                  (trace st ++ [Print (Available_modules (m0 :: ms))]))
               rest Hj Hs). }
    cbn [fs stdin trace]. now rewrite <- app_assoc. }
  split; [| split; [| split]].
  4:{ intros l Hl. pose proof (choice_of_long n l Hl) as C.
      split; [exact C |]. unfold menu_reply. now rewrite C. }
  - intros l k rest Hl Hs.
    destruct (nth_error available_modules k) as [m |] eqn:Hk.
    2:{ apply nth_error_None in Hk. apply choice_in_range in Hl. fold n in Hk.
        lia. }
    exists m. split; [reflexivity |].
    rewrite (Hpass _ Hs), (while_true_unfold _ _ Hr). unfold bind at 1.
    erewrite select_round by reflexivity. fold n. rewrite Hl, Hk.
    unfold ret, asked. cbn [fs stdin trace]. now rewrite <- !app_assoc.
  - intros l rest Hl Hs.
    rewrite (Hpass _ Hs), (while_true_unfold _ _ Hr). unfold bind at 1.
    erewrite select_round by reflexivity. fold n. rewrite Hl.
    unfold asked. cbn [fs stdin trace]. now rewrite <- !app_assoc.
  - intros Hs.
    rewrite (Hpass []) by now rewrite app_nil_r.
    rewrite (while_true_unfold _ _ Hr).
    unfold input. run_cmd. unfold asked. now rewrite <- !app_assoc.
Qed.

Lemma select_module_choice_witness :
  select_module ["TEST"; "VERB"]
    (mkState (Dir []) ["two"; "0"; "3"; " 2 "; "1"] [])
  = (Return "VERB",
     mkState (Dir []) ["1"]
       [Print (Available_modules ["TEST"; "VERB"]);
        Prompt (Ask_select 2); Print Please_valid_number;
        Prompt (Ask_select 2); Print (Please_number_between 2);
        Prompt (Ask_select 2); Print (Please_number_between 2);
        Prompt (Ask_select 2)]).
Proof.
  assert (Hne : ["TEST"; "VERB"] <> @nil string) by discriminate.
  assert (Hj : Forall (fun l => choice_of 2 l = Not_a_number
                                \/ choice_of 2 l = Out_of_range)
                      ["two"; "0"; "3"]).
  { repeat constructor; (now left) || (now right). }
  destruct (proj1 (select_module_choice ["TEST"; "VERB"] ["two"; "0"; "3"]
                     (mkState (Dir []) ["two"; "0"; "3"; " 2 "; "1"] [])
                     Hne Hj) " 2 " 1 ["1"] eq_refl eq_refl)
    as (m & Hm & E).
  injection Hm as <-. exact E.
Defined.

End InputLoops.

(** ** Commands that only ask and look *)

Section Quiet.

Import RemoveModule.

Lemma quiet_ret {A} (a : A) : quiet (ret a).
Proof.
  intros st r st' H. injection H as _ <-. split; [reflexivity | now exists []].
Qed.

Lemma quiet_raise {A} (e : exn) : quiet (@raise A e).
Proof.
  intros st r st' H. injection H as _ <-. split; [reflexivity | now exists []].
Qed.

Lemma quiet_emit (e : event) : quiet (emit e).
Proof.
  intros st r st' H. injection H as _ <-. split; [reflexivity | now exists []].
Qed.

Lemma quiet_bind {A B} (c : M A) (k : A -> M B) :
  quiet c -> (forall a, quiet (k a)) -> quiet (bind c k).
Proof.
  intros Hc Hk st r st' H. unfold bind in H.
  destruct (c st) as [[a | e] st1] eqn:E.
  - destruct (Hc _ _ _ E) as (F1 & t1 & S1).
    destruct (Hk a _ _ _ H) as (F2 & t2 & S2).
    split; [congruence |]. exists (t1 ++ t2). rewrite S1, S2.
    now rewrite app_assoc.
  - injection H as _ <-. apply (Hc _ _ _ E).
Qed.

Lemma quiet_input (q : prompt) : quiet (input q).
Proof.
  unfold input. apply quiet_bind; [apply quiet_emit |].
  intros _ st r st' H. destruct (stdin st) as [| l ls] eqn:S.
  - injection H as _ <-. split; [reflexivity | exists []; now rewrite S].
  - injection H as _ <-. split; [reflexivity | now exists [l]].
Qed.

Lemma quiet_try {A} (c : M A) (h : exn -> option (M A)) :
  quiet c -> (forall e k, h e = Some k -> quiet k) -> quiet (try_except c h).
Proof.
  intros Hc Hh st r st' H. unfold try_except in H.
  destruct (c st) as [[a | e] st1] eqn:E.
  - injection H as _ <-. apply (Hc _ _ _ E).
  - destruct (h e) as [k |] eqn:K.
    + destruct (Hc _ _ _ E) as (F1 & t1 & S1).
      destruct (Hh _ _ K _ _ _ H) as (F2 & t2 & S2).
      split; [congruence |]. exists (t1 ++ t2). rewrite S1, S2.
      now rewrite app_assoc.
    + injection H as _ <-. apply (Hc _ _ _ E).
Qed.

Lemma quiet_while_true {A} (body : M (option A)) :
  quiet body -> quiet (while_true body).
Proof.
  intros Hb.
  assert (Hn : forall n, quiet (rounds n body)).
  { induction n as [| n IH]; simpl; [apply quiet_raise |].
    apply quiet_bind; [exact Hb |].
    intros [a |]; [apply quiet_ret | exact IH]. }
  intros st r st' H. apply (Hn _ _ _ _ H).
Qed.

Lemma quiet_path_exists (p : path) : quiet (Io.path_exists p).
Proof.
  intros st r st' H. injection H as _ <-. split; [reflexivity | now exists []].
Qed.

Lemma quiet_list_available_modules (dir : path) :
  quiet (list_available_modules dir).
Proof.
  intros st r st' H. unfold list_available_modules in H. revert H. run_cmd.
  destruct (Fs.resolve dir (fs st)) as [[f | es] |]; intros H;
    injection H as _ <-; (split; [reflexivity | now exists []]).
Qed.

Lemma quiet_select_module (available_modules : list string) :
  quiet (select_module available_modules).
Proof.
  unfold select_module. destruct available_modules as [| m ms].
  { apply quiet_bind; [apply quiet_emit | intros _; apply quiet_raise]. }
  apply quiet_bind; [apply quiet_emit | intros _].
  apply quiet_while_true. apply quiet_try.
  - apply quiet_bind; [apply quiet_input | intros l]. cbv zeta.
    destruct (String.eqb _ _).
    { apply quiet_bind; [apply quiet_emit | intros _; apply quiet_raise]. }
    destruct (Py.int _) as [i |]; [| apply quiet_raise].
    destruct (_ && _)%bool.
    + destruct (nth_error _ _); [apply quiet_ret | apply quiet_raise].
    + apply quiet_bind; [apply quiet_emit | intros _; apply quiet_ret].
  - intros e k H. destruct e; try discriminate H. injection H as <-.
    apply quiet_bind; [apply quiet_emit | intros _; apply quiet_ret].
Qed.

Lemma quiet_confirm_removal module_id module_dir force :
  quiet (confirm_removal module_id module_dir force).
Proof.
  unfold confirm_removal. destruct force; [apply quiet_ret |].
  apply quiet_bind; [apply quiet_emit | intros _].
  apply quiet_while_true.
  apply quiet_bind; [apply quiet_input | intros l]. cbv zeta.
  destruct (name_in _ _); [apply quiet_ret |].
  destruct (name_in _ _); [apply quiet_ret |].
  apply quiet_bind; [apply quiet_emit | intros _; apply quiet_ret].
Qed.

(** The question is only answered yes by a line that says yes. *)
Lemma confirm_removal_yes module_id module_dir st st' :
  confirm_removal module_id module_dir false st = (Return true, st') ->
  exists l, In l (stdin st) /\ answer l = Some true.
Proof.
  unfold confirm_removal. unfold bind at 1. cbn [print emit].
  unfold while_true. cbn [stdin].
  generalize (S (List.length (stdin st))).
  generalize (trace st ++ [Print (Warn_permanent_delete module_id module_dir)]).
  generalize (stdin st) as ls. intros ls tr n. revert ls tr.
  induction n as [| n IH]; intros ls tr H; [discriminate H |].
  cbn [rounds] in H. unfold bind at 1 in H.
  destruct ls as [| l ls].
  { unfold input in H. revert H. run_cmd. discriminate. }
  erewrite confirm_round in H by reflexivity.
  destruct (answer l) as [[|] |] eqn:E.
  - exists l. split; [now left | exact E].
  - discriminate H.
  - cbn [fs stdin trace] in H. destruct (IH _ _ H) as (l' & Hin & Hl').
    exists l'. split; [now right | exact Hl'].
Qed.

(** X6. Nothing is removed without consent.  Without the force flag, when no
    line of the input says yes, [main] leaves the project tree exactly as
    it found it, whatever the arguments and however the run ends. *)
Theorem main_remove_needs_consent (a : args) (st : state) :
  force a = false ->
  (forall l, In l (stdin st) -> answer l <> Some true) ->
  fs (snd (main a st)) = fs st.
Proof.
  intros Hf Hno. unfold main.
  erewrite bind_run by reflexivity.
  destruct (Fs.exists_ modules_dir (fs st)); cbn [negb]; [| reflexivity].
  unfold bind at 1.
  destruct (list_available_modules modules_dir st) as [[avail | e] s1] eqn:E1;
    destruct (quiet_list_available_modules _ _ _ _ E1) as (F1 & t1 & S1);
    [| exact F1].
  destruct (list_only a); [exact F1 |].
  unfold bind at 1.
  assert (Q2 : quiet (match module_id a with
                      | Some (String c r) => ret (String c r)
                      | _ => select_module avail
                      end)).
  { destruct (module_id a) as [[| c r] |];
      [apply quiet_select_module | apply quiet_ret | apply quiet_select_module]. }
  destruct (match module_id a with
            | Some (String c r) => ret (String c r)
            | _ => select_module avail
            end s1) as [[mid | e] s2] eqn:E2;
    destruct (Q2 _ _ _ E2) as (F2 & t2 & S2); [| cbn [snd]; congruence].
  erewrite bind_run by reflexivity.
  destruct (Fs.exists_ (modules_dir ++ [mid]) (fs s2)); cbn [negb];
    [| cbn; congruence].
  unfold bind at 1. rewrite Hf.
  destruct (confirm_removal mid (modules_dir ++ [mid]) false s2)
    as [[go | e] s3] eqn:E3;
    destruct (quiet_confirm_removal _ _ _ _ _ _ E3) as (F3 & t3 & S3);
    [| cbn [snd]; congruence].
  destruct go; cbn [negb]; [| cbn; congruence].
  exfalso. destruct (confirm_removal_yes _ _ _ _ E3) as (l & Hin & Hl).
  apply (Hno l); [| exact Hl].
  rewrite S1, S2. apply in_or_app. right. apply in_or_app. now right.
Qed.

Lemma main_remove_needs_consent_witness :
  fs (snd (main (mkArgs (Some "common") false false)
             (mkState sample_project ["maybe"; "yes please"; ""] [])))
  = sample_project.
Proof.
  apply (main_remove_needs_consent (mkArgs (Some "common") false false)
           (mkState sample_project ["maybe"; "yes please"; ""] [])).
  - reflexivity.
  - intros l [<- | [<- | [<- | []]]]; discriminate.
Defined.

End Quiet.

(** ** Removal of a module: what goes and what stays *)

Section RemovalAgain.

Import RemoveModule.

(** X7. [remove_module_directory] raises nothing and reads nothing.  It
    answers true only for a path that is a directory, which is then
    unlinked with all it holds.  For a path that is a file, or that does
    not exist, it answers false and leaves the tree as it was.  What lies
    beside the path is never touched.  (Nothing is said of a directory
    that cannot be unlinked.) *)
Theorem remove_module_directory_spec (parent : path) (x module_id : string)
  (st : state) :
  exists (b : bool) (st' : state),
    remove_module_directory (parent ++ [x]) module_id st = (Return b, st')
    /\ stdin st' = stdin st
    /\ (b = true
        -> option_map Fs.is_dir (Fs.resolve (parent ++ [x]) (fs st))
           = Some true)
    /\ (b = true -> forall q, Fs.resolve ((parent ++ [x]) ++ q) (fs st') = None)
    /\ (option_map Fs.is_dir (Fs.resolve (parent ++ [x]) (fs st)) <> Some true
        -> b = false /\ fs st' = fs st)
    /\ (forall y q, y <> x ->
          Fs.resolve (parent ++ y :: q) (fs st')
          = Fs.resolve (parent ++ y :: q) (fs st)).
Proof.
  destruct (Fs.resolve (parent ++ [x]) (fs st)) as [m |] eqn:R.
  - rewrite (remove_module_directory_run _ _ _ _ R).
    destruct m as [f | es]; cbn [Fs.is_dir option_map].
    + eexists; eexists. split; [reflexivity |]. cbn [fs stdin].
      split; [reflexivity |]. split; [discriminate |].
      split; [discriminate |]. split; [intros _; now split | reflexivity].
    + eexists; eexists. split; [reflexivity |]. cbn [fs stdin].
      split; [reflexivity |]. split; [reflexivity |].
      split; [| split; [intros H; now contradiction H |]].
      * intros _ q. rewrite resolve_app.
        rewrite resolve_delete_same by apply snoc_not_nil. reflexivity.
      * intros y q Hy. now apply resolve_delete_apart.
  - rewrite (remove_module_directory_missing _ _ _ R).
    eexists; eexists. split; [reflexivity |]. cbn [fs stdin option_map].
    split; [reflexivity |]. split; [discriminate |].
    split; [discriminate |]. split; [intros _; now split | reflexivity].
Qed.

(** A forced removal, case by case. *)
Lemma main_remove_forced_run (mid : string) (st : state) :
  mid <> EmptyString ->
  let a := mkArgs (Some mid) true false in
  let dir := modules_dir ++ [mid] in
  let fit (f : file) (c : string) :=
    Fs.file_at cmake_file (fs st) = Some f /\ data f = Text c
    /\ writable f = true /\ has_line_for mid c = true in
  (exit_status (fst (main a st)) = 0
   \/ exit_status (fst (main a st)) = 1)
  /\ (exit_status (fst (main a st)) = 0
      <-> option_map Fs.is_dir (Fs.resolve dir (fs st)) = Some true
          /\ exists f c, fit f c)
  /\ (forall f c,
        option_map Fs.is_dir (Fs.resolve dir (fs st)) = Some true ->
        fit f c ->
        stdin (snd (main a st)) = stdin st
        /\ fs (snd (main a st))
           = Fs.delete dir
               (Fs.put cmake_file
                  (File (mkFile true
                           (Text (Py.writelines (other_lines mid c)))))
                  (fs st))).
Proof.
  intros Hne a dir fit.
  destruct (Fs.resolve modules_dir (fs st)) as [[g | es] |] eqn:Rm.
  - (* the modules path is a file *)
    assert (Rd : Fs.resolve dir (fs st) = None)
      by (unfold dir; now rewrite resolve_app, Rm).
    assert (E : main a st = (Raise OSError, st)).
    { unfold main. erewrite bind_run by reflexivity.
      unfold Fs.exists_. rewrite Rm. cbn [negb].
      erewrite bind_raise; [reflexivity |].
      unfold list_available_modules. run_cmd. now rewrite Rm. }
    rewrite E, Rd. cbn. split; [now right |].
    split; [split; [discriminate | intros [H _]; discriminate H] |].
    intros f c H. discriminate H.
  - destruct (Fs.resolve dir (fs st)) as [m |] eqn:Rd.
    + destruct (main_remove_run a mid es m st st eq_refl Hne eq_refl Rm Rd
                  eq_refl) as (b1 & s1 & E1 & Main).
      unfold dir. rewrite Main. clear Main.
      rewrite remove_from_cmake_eq in E1. cbn [fs stdin trace] in E1.
      cbn [fst snd fs stdin option_map].
      destruct (Fs.resolve cmake_file (fs st)) as [[f | des] |] eqn:Rc.
      * assert (Hf : Fs.file_at cmake_file (fs st) = Some f)
          by now apply file_at_resolve.
        destruct (data f) as [c | raw] eqn:D;
          [destruct (has_line_for mid c) eqn:L;
           [destruct (writable f) eqn:W |] |];
          injection E1 as <- <-; cbn [fs stdin].
        -- destruct (Fs.is_dir m) eqn:K; cbn [andb exit_status].
           ++ split; [now left |]. split.
              ** split; [intros _ | reflexivity].
                 split; [reflexivity | now exists f, c].
              ** intros f' c' _ (Hf' & D' & _).
                 assert (f' = f) by congruence. subst f'.
                 assert (c' = c) by congruence. subst c'. now split.
           ++ split; [now right |]. split.
              ** split; [discriminate | intros [H _]; discriminate H].
              ** intros f' c' H. discriminate H.
        -- rewrite andb_false_r. cbn [exit_status].
           split; [now right |]. split.
           ++ split; [discriminate |].
              intros (_ & f' & c' & Hf' & D' & W' & _). congruence.
           ++ intros f' c' _ (Hf' & D' & W' & _). congruence.
        -- rewrite andb_false_r. cbn [exit_status].
           split; [now right |]. split.
           ++ split; [discriminate |].
              intros (_ & f' & c' & Hf' & D' & _ & L'). congruence.
           ++ intros f' c' _ (Hf' & D' & _ & L'). congruence.
        -- rewrite andb_false_r. cbn [exit_status].
           split; [now right |]. split.
           ++ split; [discriminate |].
              intros (_ & f' & c' & Hf' & D' & _). congruence.
           ++ intros f' c' _ (Hf' & D' & _). congruence.
      * injection E1 as <- <-. rewrite andb_false_r. cbn [exit_status].
        assert (Hn : Fs.file_at cmake_file (fs st) = None)
          by (unfold Fs.file_at; now rewrite Rc).
        split; [now right |]. split.
        -- split; [discriminate |].
           intros (_ & f' & c' & Hf' & _). congruence.
        -- intros f' c' _ (Hf' & _). congruence.
      * injection E1 as <- <-. rewrite andb_false_r. cbn [exit_status].
        assert (Hn : Fs.file_at cmake_file (fs st) = None)
          by (unfold Fs.file_at; now rewrite Rc).
        split; [now right |]. split.
        -- split; [discriminate |].
           intros (_ & f' & c' & Hf' & _). congruence.
        -- intros f' c' _ (Hf' & _). congruence.
    + (* no such module *)
      destruct (list_available_modules_run _ _ _ Rm) as (names & El).
      assert (E : main a st
                  = (Raise (SystemExit 1),
                     mkState (fs st) (stdin st)
                             (trace st ++ [Print (Err_module_not_found mid names)]))).
      { unfold main. erewrite bind_run by reflexivity.
        unfold Fs.exists_. rewrite Rm. cbn [negb].
        erewrite bind_run by exact El. cbn [a list_only module_id].
        destruct mid as [| c0 r0]; [congruence |].
        erewrite bind_run by reflexivity.
        erewrite bind_run by reflexivity.
        unfold Fs.exists_. fold dir. rewrite Rd. cbn [negb].
        reflexivity. }
      rewrite E. cbn. split; [now right |].
      split; [split; [discriminate | intros [H _]; discriminate H] |].
      intros f c H. discriminate H.
  - (* no modules directory *)
    assert (Rd : Fs.resolve dir (fs st) = None)
      by (unfold dir; now rewrite resolve_app, Rm).
    assert (E : main a st
                = (Raise (SystemExit 1),
                   mkState (fs st) (stdin st)
                           (trace st ++ [Print (Err_modules_not_found modules_dir)]))).
    { unfold main. erewrite bind_run by reflexivity.
      unfold Fs.exists_. rewrite Rm. reflexivity. }
    rewrite E, Rd. cbn. split; [now right |].
    split; [split; [discriminate | intros [H _]; discriminate H] |].
    intros f c H. discriminate H.
Qed.

Lemma entry_name_not_empty (s : string) :
  entry_name s = true -> s <> EmptyString.
Proof. intros H ->. discriminate H. Qed.

(** X8. A forced removal of a module named on the command line by the name
    of an entry ends with status 0 or 1, and with 0 only when the module
    path is a directory and the registry file is a text file that can be
    written and has a line for the module.  A run that ends with status 0
    has read no input and has left the tree with the lines for the module
    taken out of the registry file and the module directory unlinked. *)
Theorem main_remove_forced (mid : string) (st : state) :
  entry_name mid = true ->
  let a := mkArgs (Some mid) true false in
  let dir := modules_dir ++ [mid] in
  let fit (f : file) (c : string) :=
    Fs.file_at cmake_file (fs st) = Some f /\ data f = Text c
    /\ writable f = true /\ has_line_for mid c = true in
  (exit_status (fst (main a st)) = 0
   \/ exit_status (fst (main a st)) = 1)
  /\ (exit_status (fst (main a st)) = 0
      -> option_map Fs.is_dir (Fs.resolve dir (fs st)) = Some true
         /\ exists f c, fit f c)
  /\ (forall f c,
        exit_status (fst (main a st)) = 0 ->
        fit f c ->
        stdin (snd (main a st)) = stdin st
        /\ fs (snd (main a st))
           = Fs.delete dir
               (Fs.put cmake_file
                  (File (mkFile true
                           (Text (Py.writelines (other_lines mid c)))))
                  (fs st))).
Proof.
  intros He a dir fit.
  pose proof (main_remove_forced_run mid st (entry_name_not_empty _ He))
    as H.
  cbv zeta in H. destruct H as (H01 & Hiff & Hrun).
  unfold fit, dir, a. split; [exact H01 |]. split; [exact (proj1 Hiff) |].
  intros f c Hz Hfit. apply (Hrun f c); [| exact Hfit].
  exact (proj1 (proj1 Hiff Hz)).
Qed.

Lemma main_remove_forced_witness :
  exit_status (fst (main (mkArgs (Some "common") true false)
                      (mkState sample_project [] []))) = 0
  /\ fs (snd (main (mkArgs (Some "common") true false)
                (mkState sample_project [] [])))
     = Fs.delete (modules_dir ++ ["common"])
         (Fs.put cmake_file (File (mkFile true (Text ""))) sample_project).
Proof.
  assert (Z : exit_status (fst (main (mkArgs (Some "common") true false)
                                  (mkState sample_project [] []))) = 0)
    by (vm_compute; reflexivity).
  destruct (main_remove_forced "common" (mkState sample_project [] [])
              eq_refl) as (_ & _ & Hrun).
  split; [exact Z |].
  apply (Hrun (mkFile true (Text ("add_subdirectory(common)" ++ Py.nl)))
           ("add_subdirectory(common)" ++ Py.nl)%string Z).
  repeat split.
Defined.

End RemovalAgain.

(** ** The information a module is created from *)

Section Information.

Import CreateModule.

Lemma ask_run (q : prompt) (default : string) st l ls :
  stdin st = l :: ls ->
  ask q default st
  = (Return (Py.or_else (Some (Py.strip l)) default),
     mkState (fs st) ls (trace st ++ [Prompt q])).
Proof. intros Hs. unfold ask, input. run_cmd. now rewrite Hs. Qed.

Lemma ask_eof (q : prompt) (default : string) st :
  stdin st = [] ->
  ask q default st
  = (Raise EOFError, mkState (fs st) [] (trace st ++ [Prompt q])).
Proof. intros Hs. unfold ask, input. run_cmd. now rewrite Hs. Qed.

Lemma or_else_not_empty (a : option string) (b : string) :
  b <> EmptyString -> Py.or_else a b <> EmptyString.
Proof. intros Hb. destruct a as [[| c r] |]; simpl; congruence. Qed.

Lemma well_formed_id_not_empty (s : string) :
  well_formed_id s -> s <> EmptyString.
Proof. intros (H & _) ->. discriminate H. Qed.

(** One round of the question for the identifier. *)
Lemma module_id_round st l ls :
  stdin st = l :: ls ->
  exists (b : bool) (ms : list message),
    (l <- input Ask_module_id ;;
     ok <- validate_module_id (Py.strip l) ;;
     ret (if ok then Some (Py.strip l) else None)) st
    = (Return (if b then Some (Py.strip l) else None),
       mkState (fs st) ls (trace st ++ Prompt Ask_module_id :: map Print ms))
    /\ (b = true <-> well_formed_id (Py.strip l)).
Proof.
  intros Hs.
  destruct (validate_module_id_state (Py.strip l)
              (mkState (fs st) ls (trace st ++ [Prompt Ask_module_id])))
    as (b & ms & E).
  pose proof (validate_module_id_true (Py.strip l)
                (mkState (fs st) ls (trace st ++ [Prompt Ask_module_id]))) as V.
  rewrite E in V. cbn [fst] in V.
  exists b, ms. split.
  - erewrite bind_run.
    2:{ unfold input. run_cmd. rewrite Hs. reflexivity. }
    erewrite bind_run by exact E. cbn [fs stdin trace].
    unfold ret. now rewrite <- app_assoc.
  - rewrite <- V. split; congruence.
Qed.

(** The loop answers an identifier that passes validation, and none
    other. *)
Lemma module_id_loop_valid (n : nat) st mid st' :
  rounds n
    (l <- input Ask_module_id ;;
     ok <- validate_module_id (Py.strip l) ;;
     ret (if ok then Some (Py.strip l) else None)) st
  = (Return mid, st') ->
  well_formed_id mid /\ fs st' = fs st.
Proof.
  revert st. induction n as [| n IH]; intros st H; [discriminate H |].
  cbn [rounds] in H. unfold bind at 1 in H.
  destruct (stdin st) as [| l ls] eqn:Hs.
  { revert H. unfold input. run_cmd. rewrite Hs. discriminate. }
  destruct (module_id_round st l ls Hs) as (b & ms & E & V).
  rewrite E in H. destruct b.
  - injection H as <- <-. split; [now apply V | reflexivity].
  - destruct (IH _ H) as (W & F). split; [exact W | exact F].
Qed.

Lemma module_id_loop (junk : list string) :
  Forall (fun l => ~ well_formed_id (Py.strip l)) junk ->
  forall st,
    (forall idl rest,
        well_formed_id (Py.strip idl) -> stdin st = junk ++ idl :: rest ->
        exists st',
          while_true
            (l <- input Ask_module_id ;;
             ok <- validate_module_id (Py.strip l) ;;
             ret (if ok then Some (Py.strip l) else None)) st
          = (Return (Py.strip idl), st')
          /\ fs st' = fs st /\ stdin st' = rest)
    /\ (stdin st = junk ->
        exists st',
          while_true
            (l <- input Ask_module_id ;;
             ok <- validate_module_id (Py.strip l) ;;
             ret (if ok then Some (Py.strip l) else None)) st
          = (Raise EOFError, st')
          /\ fs st' = fs st /\ stdin st' = []).
Proof.
  induction 1 as [| j junk Hj Hjunk IH]; intros st.
  - split.
    + intros idl rest Hv Hs. rewrite (while_true_unfold _ _ reads_module_id).
      unfold bind at 1.
      destruct (module_id_round st idl rest Hs) as (b & ms & E & V).
      rewrite E. destruct b.
      * eexists. split; [reflexivity |]. split; reflexivity.
      * destruct V as [_ V]. discriminate (V Hv).
    + intros Hs. rewrite (while_true_unfold _ _ reads_module_id).
      unfold input. run_cmd. rewrite Hs.
      eexists. split; [reflexivity |]. split; reflexivity.
  - assert (Step : forall ls, stdin st = j :: ls ->
               exists s1,
                 while_true
                   (l <- input Ask_module_id ;;
                    ok <- validate_module_id (Py.strip l) ;;
                    ret (if ok then Some (Py.strip l) else None)) st
                 = while_true
                     (l <- input Ask_module_id ;;
                      ok <- validate_module_id (Py.strip l) ;;
                      ret (if ok then Some (Py.strip l) else None)) s1
                 /\ fs s1 = fs st /\ stdin s1 = ls).
    { intros ls Hs. rewrite (while_true_unfold _ st reads_module_id).
      unfold bind at 1.
      destruct (module_id_round st j ls Hs) as (b & ms & E & V).
      rewrite E. destruct b; [destruct Hj; now apply V |].
      eexists. split; [reflexivity |]. split; reflexivity. }
    split.
    + intros idl rest Hv Hs.
      destruct (Step _ Hs) as (s1 & -> & F1 & S1).
      destruct (proj1 (IH s1) idl rest Hv S1) as (st' & E & F & S).
      exists st'. split; [exact E |]. split; congruence.
    + intros Hs.
      destruct (Step _ Hs) as (s1 & -> & F1 & S1).
      destruct (proj2 (IH s1) S1) as (st' & E & F & S).
      exists st'. split; [exact E |]. split; congruence.
Qed.

Lemma ask_value (q : prompt) (default : string) st v st' :
  ask q default st = (Return v, st') ->
  fs st' = fs st /\ (default <> EmptyString -> v <> EmptyString).
Proof.
  intros H. destruct (stdin st) as [| l ls] eqn:Hs.
  - rewrite (ask_eof _ _ _ Hs) in H. discriminate H.
  - rewrite (ask_run _ _ _ _ _ Hs) in H. injection H as <- <-.
    split; [reflexivity |].
    exact (or_else_not_empty (Some (Py.strip l)) default).
Qed.

(** X9. The mapping [collect_module_info] returns, from the command line or
    from the answers typed in: its keys are the seven tokens in their
    order, the value of __MOD__ passes validation, no value is empty, and
    the project tree has not been touched. *)
Theorem collect_module_info_values (a : args) (d : dict) (st st' : state) :
  collect_module_info a st = (Return d, st') ->
  map fst d
  = ["__MOD__"; "__NAME__"; "__DESCRIPTION__"; "__BRAND__"; "__AUTHOR__";
     "__EMAIL__"; "__URL__"]
  /\ (exists mid rest, d = ("__MOD__", mid) :: rest /\ well_formed_id mid)
  /\ Forall (fun kv => snd kv <> EmptyString) d
  /\ fs st' = fs st.
Proof.
  intros H.
  assert (Interactive :
            (print Create_banner ;;
             id <- while_true
                     (l <- input Ask_module_id ;;
                      ok <- validate_module_id (Py.strip l) ;;
                      ret (if ok then Some (Py.strip l) else None)) ;;
             nm <- ask (Ask_name id) id ;;
             ds <- ask (Ask_description nm) nm ;;
             br <- ask Ask_brand "YourBrand" ;;
             au <- ask Ask_author "Unknown" ;;
             em <- ask Ask_email "unknown@example.com" ;;
             ws <- ask Ask_website "https://example.com" ;;
             ret [ ("__MOD__", id);
                   ("__NAME__", nm);
                   ("__DESCRIPTION__", ds);
                   ("__BRAND__", br);
                   ("__AUTHOR__", au);
                   ("__EMAIL__", em);
                   ("__URL__", ws) ]) st = (Return d, st') ->
            map fst d
            = ["__MOD__"; "__NAME__"; "__DESCRIPTION__"; "__BRAND__";
               "__AUTHOR__"; "__EMAIL__"; "__URL__"]
            /\ (exists mid rest,
                   d = ("__MOD__", mid) :: rest /\ well_formed_id mid)
            /\ Forall (fun kv => snd kv <> EmptyString) d
            /\ fs st' = fs st).
  { clear H. intros H.
    erewrite bind_run in H by reflexivity.
    unfold bind at 1 in H.
    match type of H with
    | match ?c with _ => _ end = _ =>
        destruct c as [[id | e] s1] eqn:E1; [| discriminate H]
    end.
    apply module_id_loop_valid in E1 as (V & F1). cbn [fs] in F1.
    pose proof (well_formed_id_not_empty _ V) as Nid.
    unfold bind at 1 in H.
    destruct (ask (Ask_name id) id s1) as [[nm | e] s2] eqn:E2;
      [| discriminate H].
    apply ask_value in E2 as (F2 & N2).
    unfold bind at 1 in H.
    destruct (ask (Ask_description nm) nm s2) as [[ds | e] s3] eqn:E3;
      [| discriminate H].
    apply ask_value in E3 as (F3 & N3).
    unfold bind at 1 in H.
    destruct (ask Ask_brand "YourBrand" s3) as [[br | e] s4] eqn:E4;
      [| discriminate H].
    apply ask_value in E4 as (F4 & N4).
    unfold bind at 1 in H.
    destruct (ask Ask_author "Unknown" s4) as [[au | e] s5] eqn:E5;
      [| discriminate H].
    apply ask_value in E5 as (F5 & N5).
    unfold bind at 1 in H.
    destruct (ask Ask_email "unknown@example.com" s5) as [[em | e] s6] eqn:E6;
      [| discriminate H].
    apply ask_value in E6 as (F6 & N6).
    unfold bind at 1 in H.
    destruct (ask Ask_website "https://example.com" s6) as [[ws | e] s7] eqn:E7;
      [| discriminate H].
    apply ask_value in E7 as (F7 & N7).
    injection H as <- <-.
    split; [reflexivity |]. split; [eexists; eexists; split; [reflexivity | exact V] |].
    split; [| congruence].
    repeat constructor; cbn [snd]; auto; (apply N4 || apply N5 || apply N6 || apply N7);
      discriminate. }
  unfold collect_module_info in H.
  destruct (module_id a) as [[| c r] |] eqn:Ha;
    [now apply Interactive | | now apply Interactive].
  clear Interactive.
  destruct (collect_module_info_run a (String c r) st Ha) as (b & ms & E & V);
    [discriminate |].
  unfold collect_module_info in E. rewrite Ha in E. rewrite E in H.
  destruct b; [| discriminate H]. injection H as <- <-.
  pose proof (proj1 V eq_refl) as W.
  split; [reflexivity |].
  split; [eexists; eexists; split; [reflexivity | exact W] |].
  split; [| reflexivity].
  unfold mapping_of.
  repeat constructor; cbn [snd]; try discriminate;
    repeat apply or_else_not_empty; discriminate.
Qed.

Lemma collect_module_info_values_witness :
  map fst
    [ ("__MOD__", "TEST"); ("__NAME__", "TEST"); ("__DESCRIPTION__", "TEST");
      ("__BRAND__", "YourBrand"); ("__AUTHOR__", "Unknown");
      ("__EMAIL__", "unknown@example.com"); ("__URL__", "https://example.com") ]
  = ["__MOD__"; "__NAME__"; "__DESCRIPTION__"; "__BRAND__"; "__AUTHOR__";
     "__EMAIL__"; "__URL__"]
  /\ (exists mid rest,
         [ ("__MOD__", "TEST"); ("__NAME__", "TEST"); ("__DESCRIPTION__", "TEST");
           ("__BRAND__", "YourBrand"); ("__AUTHOR__", "Unknown");
           ("__EMAIL__", "unknown@example.com");
           ("__URL__", "https://example.com") ]
         = ("__MOD__", mid) :: rest /\ well_formed_id mid)
  /\ Forall (fun kv => snd kv <> EmptyString)
       [ ("__MOD__", "TEST"); ("__NAME__", "TEST"); ("__DESCRIPTION__", "TEST");
         ("__BRAND__", "YourBrand"); ("__AUTHOR__", "Unknown");
         ("__EMAIL__", "unknown@example.com");
         ("__URL__", "https://example.com") ]
  /\ sample_project = sample_project.
Proof.
  apply (collect_module_info_values
           (mkArgs (Some "") (Some "ignored") None None None None None)
           _
           (mkState sample_project ["ab"; " TEST "; ""; ""; ""; ""; ""; ""] [])
           (mkState sample_project []
              [Print Create_banner;
               Prompt Ask_module_id; Print (Err_id_length 2);
               Prompt Ask_module_id;
               Prompt (Ask_name "TEST"); Prompt (Ask_description "TEST");
               Prompt Ask_brand; Prompt Ask_author; Prompt Ask_email;
               Prompt Ask_website])).
  vm_compute. reflexivity.
Defined.

(** X10. The interactive mode, which is taken when the command line gives no
    identifier or an empty one.  Lines whose trimmed text fails validation
    are passed over; the first that passes is the identifier, and the six
    lines after it answer the six questions, a blank answer standing for
    the default.  The options of the command line play no part.  When the
    input ends before the seventh line EOFError is raised.  The project
    tree is not touched. *)
Theorem collect_module_info_interactive (a : args) (junk : list string)
  (st : state) :
  module_id a = None \/ module_id a = Some EmptyString ->
  Forall (fun l => ~ well_formed_id (Py.strip l)) junk ->
  (forall idl n d b au e w rest,
      well_formed_id (Py.strip idl) ->
      stdin st = junk ++ idl :: n :: d :: b :: au :: e :: w :: rest ->
      let id := Py.strip idl in
      let nm := Py.or_else (Some (Py.strip n)) id in
      fst (collect_module_info a st)
      = Return [ ("__MOD__", id);
                 ("__NAME__", nm);
                 ("__DESCRIPTION__", Py.or_else (Some (Py.strip d)) nm);
                 ("__BRAND__", Py.or_else (Some (Py.strip b)) "YourBrand");
                 ("__AUTHOR__", Py.or_else (Some (Py.strip au)) "Unknown");
                 ("__EMAIL__",
                  Py.or_else (Some (Py.strip e)) "unknown@example.com");
                 ("__URL__",
                  Py.or_else (Some (Py.strip w)) "https://example.com") ]
      /\ stdin (snd (collect_module_info a st)) = rest
      /\ fs (snd (collect_module_info a st)) = fs st)
  /\ (forall lines,
        List.length lines < 7 ->
        (forall idl r, lines = idl :: r -> well_formed_id (Py.strip idl)) ->
        stdin st = junk ++ lines ->
        fst (collect_module_info a st) = Raise EOFError
        /\ stdin (snd (collect_module_info a st)) = []
        /\ fs (snd (collect_module_info a st)) = fs st).
Proof.
  intros Ha Hj.
  assert (E0 : collect_module_info a st
               = (print Create_banner ;;
                  id <- while_true
                          (l <- input Ask_module_id ;;
                           ok <- validate_module_id (Py.strip l) ;;
                           ret (if ok then Some (Py.strip l) else None)) ;;
                  nm <- ask (Ask_name id) id ;;
                  ds <- ask (Ask_description nm) nm ;;
                  br <- ask Ask_brand "YourBrand" ;;
                  au <- ask Ask_author "Unknown" ;;
                  em <- ask Ask_email "unknown@example.com" ;;
                  ws <- ask Ask_website "https://example.com" ;;
                  ret [ ("__MOD__", id);
                        ("__NAME__", nm);
                        ("__DESCRIPTION__", ds);
                        ("__BRAND__", br);
                        ("__AUTHOR__", au);
                        ("__EMAIL__", em);
                        ("__URL__", ws) ]) st).
  { unfold collect_module_info. now destruct Ha as [-> | ->]. }
  rewrite E0. clear E0.
  erewrite bind_run by reflexivity.
  set (s0 := mkState (fs st) (stdin st) (trace st ++ [Print Create_banner])).
  split.
  - intros idl n d b au e w rest Hv Hs id nm.
    destruct (proj1 (module_id_loop junk Hj s0) idl _ Hv Hs)
      as (s1 & E1 & F1 & S1).
    erewrite bind_run by exact E1. fold id.
    erewrite bind_run by (apply ask_run; exact S1). fold nm.
    erewrite bind_run by (apply ask_run; reflexivity).
    erewrite bind_run by (apply ask_run; reflexivity).
    erewrite bind_run by (apply ask_run; reflexivity).
    erewrite bind_run by (apply ask_run; reflexivity).
    erewrite bind_run by (apply ask_run; reflexivity).
    cbn [ret fst snd fs stdin]. split; [reflexivity |].
    split; [reflexivity | exact F1].
  - intros lines Hlen Hv Hs.
    destruct lines as [| idl lines].
    { rewrite app_nil_r in Hs.
      destruct (proj2 (module_id_loop junk Hj s0) Hs) as (s1 & E1 & F1 & S1).
      erewrite bind_raise by exact E1. now split. }
    destruct (proj1 (module_id_loop junk Hj s0) idl lines (Hv _ _ eq_refl) Hs)
      as (s1 & E1 & F1 & S1).
    erewrite bind_run by exact E1.
    destruct lines as [| n lines].
    { erewrite bind_raise by (apply ask_eof; exact S1). split; [reflexivity |].
      split; [reflexivity | exact F1]. }
    erewrite bind_run by (apply ask_run; exact S1).
    destruct lines as [| d lines].
    { erewrite bind_raise by (apply ask_eof; reflexivity).
      split; [reflexivity |]. split; [reflexivity | exact F1]. }
    erewrite bind_run by (apply ask_run; reflexivity).
    destruct lines as [| b lines].
    { erewrite bind_raise by (apply ask_eof; reflexivity).
      split; [reflexivity |]. split; [reflexivity | exact F1]. }
    erewrite bind_run by (apply ask_run; reflexivity).
    destruct lines as [| au lines].
    { erewrite bind_raise by (apply ask_eof; reflexivity).
      split; [reflexivity |]. split; [reflexivity | exact F1]. }
    erewrite bind_run by (apply ask_run; reflexivity).
    destruct lines as [| e lines].
    { erewrite bind_raise by (apply ask_eof; reflexivity).
      split; [reflexivity |]. split; [reflexivity | exact F1]. }
    erewrite bind_run by (apply ask_run; reflexivity).
    destruct lines as [| w lines].
    { erewrite bind_raise by (apply ask_eof; reflexivity).
      split; [reflexivity |]. split; [reflexivity | exact F1]. }
    simpl in Hlen. lia.
Qed.

Lemma collect_module_info_interactive_witness :
  fst (collect_module_info
         (mkArgs None (Some "ignored") None None None None None)
         (mkState sample_project
            ["verb"; ""; " VERB "; "Reverb"; ""; ""; "  "; "me@example.com";
             ""; "left"] []))
  = Return [ ("__MOD__", "VERB"); ("__NAME__", "Reverb");
             ("__DESCRIPTION__", "Reverb"); ("__BRAND__", "YourBrand");
             ("__AUTHOR__", "Unknown"); ("__EMAIL__", "me@example.com");
             ("__URL__", "https://example.com") ]
  /\ stdin (snd (collect_module_info
                   (mkArgs None (Some "ignored") None None None None None)
                   (mkState sample_project
                      ["verb"; ""; " VERB "; "Reverb"; ""; ""; "  ";
                       "me@example.com"; ""; "left"] [])))
     = ["left"]
  /\ fs (snd (collect_module_info
                (mkArgs None (Some "ignored") None None None None None)
                (mkState sample_project
                   ["verb"; ""; " VERB "; "Reverb"; ""; ""; "  ";
                    "me@example.com"; ""; "left"] [])))
     = sample_project.
Proof.
  assert (Hj : Forall (fun l => ~ well_formed_id (Py.strip l)) ["verb"; ""]).
  { repeat constructor.
    - intros (_ & _ & _ & H). specialize (H "v"%char (or_introl eq_refl)).
      discriminate H.
    - intros (H & _). discriminate H. }
  assert (Hv : well_formed_id (Py.strip " VERB ")).
  { apply (validate_module_id_true "VERB" (mkState (Dir []) [] [])).
    reflexivity. }
  apply (proj1 (collect_module_info_interactive
                  (mkArgs None (Some "ignored") None None None None None)
                  ["verb"; ""]
                  (mkState sample_project
                     ["verb"; ""; " VERB "; "Reverb"; ""; ""; "  ";
                      "me@example.com"; ""; "left"] [])
                  (or_introl eq_refl) Hj)
               " VERB " "Reverb" "" "" "  " "me@example.com" "" ["left"]
               Hv eq_refl).
Defined.

End Information.

(** ** Files without tokens, and the files the loop visits *)

Section Untouched.

Import CreateModule.

Lemma replace_absent (old new s : string) :
  old <> EmptyString -> Py.contains old s = false -> Py.replace old new s = s.
Proof.
  intros Ho Hn.
  assert (Hn' : ~ occurs old s)
    by (intros H; apply contains_spec in H; congruence).
  clear Hn. destruct old as [| a old]; [congruence |]. cbn [Py.replace].
  induction s as [| c r IH]; [reflexivity |].
  rewrite replace_from_other.
  - f_equal. apply IH. intros (x & y & ->).
    apply Hn'. now exists (String c x), y.
  - destruct (prefix (String a old) (String c r)) eqn:E; [| reflexivity].
    apply prefix_spec in E as (b & E). destruct Hn'.
    exists EmptyString, b. exact E.
Qed.

Lemma substitute_absent (substitutions : dict) (c : string) :
  forallb (fun kv => negb (String.eqb (fst kv) "")
                     && negb (Py.contains (fst kv) c)) substitutions = true ->
  substitute substitutions c = c.
Proof.
  unfold substitute. induction substitutions as [| [k v] d IH]; intros H;
    [reflexivity |].
  cbn [forallb fst] in H. apply andb_true_iff in H as [Hk Hd].
  apply andb_true_iff in Hk as [Hk Hc].
  cbn [fold_left fst snd]. rewrite replace_absent.
  - now apply IH.
  - intros ->. discriminate Hk.
  - now destruct (Py.contains k c).
Qed.

(** X11. A text file that can be written, has no carriage return and holds
    none of the tokens is written back as it was: the project tree is
    exactly as before.  (A file with carriage returns is read without
    them and is written back without them.) *)
Theorem substitute_in_file_without_tokens (p : path) (substitutions : dict)
  (c : string) (st : state) :
  Fs.file_at p (fs st) = Some (mkFile true (Text c)) ->
  no_carriage_return c ->
  forallb (fun kv => negb (String.eqb (fst kv) "")
                     && negb (Py.contains (fst kv) c)) substitutions = true ->
  substitute_in_file p substitutions st
  = (Return tt, mkState (fs st) (stdin st) (trace st ++ [Wrote p])).
Proof.
  intros Hf _ Hc. rewrite (substitute_in_file_run _ _ _ _ Hf).
  unfold substituted, report. cbn [data writable].
  rewrite (substitute_absent _ _ Hc).
  apply file_at_resolve in Hf. now rewrite (put_same_node _ _ _ Hf).
Qed.

Lemma substitute_in_file_without_tokens_witness :
  substitute_in_file cmake_file (mapping_of (only_id "TEST") "TEST")
    (mkState sample_project [] [])
  = (Return tt, mkState sample_project [] [Wrote cmake_file]).
Proof.
  apply (substitute_in_file_without_tokens cmake_file
           (mapping_of (only_id "TEST") "TEST")
           ("add_subdirectory(common)" ++ Py.nl)
           (mkState sample_project [] [])).
  - reflexivity.
  - reflexivity.
  - reflexivity.
Defined.

(** X12. The files the substitution loop visits: in a tree where the names of
    a directory are distinct, exactly the files below the top directory,
    each once, and no directory. *)
Theorem os_walk_visits_files (top : path) (n : node) (st : state) :
  Fs.resolve top (fs st) = Some n -> Fs.wf n = true ->
  exists files,
    os_walk top st = (Return files, st)
    /\ NoDup files
    /\ (forall p, In p files
                  <-> exists q f, p = top ++ q /\ q <> []
                                  /\ Fs.file_at p (fs st) = Some f).
Proof.
  intros R W. exists (Fs.walk top n). split; [| split].
  - unfold os_walk. run_cmd. rewrite R. now destruct st.
  - now apply walk_NoDup.
  - intros p. split.
    + intros H. destruct (walk_sound _ W _ _ H) as (q & f & -> & Hq & F).
      exists q, f. split; [reflexivity |]. split; [exact Hq |].
      now rewrite file_at_app, R.
    + intros (q & f & -> & Hq & F). rewrite file_at_app, R in F.
      now apply (walk_complete _ top q f).
Qed.

Lemma os_walk_visits_files_witness :
  exists files,
    os_walk template_dir (mkState sample_project [] [])
    = (Return files, mkState sample_project [] [])
    /\ NoDup files
    /\ (forall p, In p files
                  <-> exists q f, p = template_dir ++ q /\ q <> []
                                  /\ Fs.file_at p sample_project = Some f).
Proof.
  refine (os_walk_visits_files template_dir _ (mkState sample_project [] [])
            eq_refl _).
  reflexivity.
Defined.

End Untouched.

(** ** What a command can have changed *)

Section Frames.

Import CreateModule RemoveModule.

Lemma diverge_below p r q : diverge p q -> diverge (p ++ r) q.
Proof.
  intros (c & x & y & p' & q' & -> & -> & H).
  exists c, x, y, (p' ++ r), q'. rewrite <- app_assoc. now split.
Qed.

Lemma diverge_put p q n root :
  diverge p q -> Fs.resolve q (Fs.put p n root) = Fs.resolve q root.
Proof.
  intros (c & x & y & p' & q' & -> & -> & H). now apply resolve_put_apart.
Qed.

Lemma diverge_delete p q root :
  diverge p q -> Fs.resolve q (Fs.delete p root) = Fs.resolve q root.
Proof.
  intros (c & x & y & p' & q' & -> & -> & H). now apply resolve_delete_apart.
Qed.

Lemma resolve_empty_dir q : q <> [] -> Fs.resolve q (Dir []) = None.
Proof. now destruct q. Qed.

(** [makedirs] changes nothing beside the path it makes. *)
Lemma makedirs_apart c x y p' q' root root' :
  Fs.makedirs (c ++ x :: p') root = Some root' -> x <> y ->
  Fs.resolve (c ++ y :: q') root' = Fs.resolve (c ++ y :: q') root.
Proof.
  revert root root'. induction c as [| z c IH]; intros root root' H Hxy.
  - destruct root as [f | es]; [discriminate H |].
    cbn [app Fs.makedirs] in H. cbv zeta in H.
    destruct (Fs.makedirs p' _) as [m' |]; [| discriminate H].
    injection H as <-. cbn [app]. rewrite !resolve_cons.
    now rewrite lookup_set_entry_other.
  - destruct root as [f | es]; [discriminate H |].
    cbn [app Fs.makedirs] in H. cbv zeta in H.
    destruct (Fs.makedirs (c ++ x :: p') _) as [m' |] eqn:E; [| discriminate H].
    injection H as <-. cbn [app]. rewrite !resolve_cons.
    rewrite lookup_set_entry_same, (IH _ _ E Hxy).
    destruct (Fs.lookup z es); [reflexivity |].
    apply resolve_empty_dir, snoc_not_nil.
Qed.

(** [makedirs] changes nothing below the path it makes. *)
Lemma makedirs_below c q root root' :
  Fs.makedirs c root = Some root' -> q <> [] ->
  Fs.resolve (c ++ q) root' = Fs.resolve (c ++ q) root.
Proof.
  revert root root'. induction c as [| z c IH]; intros root root' H Hq.
  - destruct root as [f | es]; [discriminate H |]. now injection H as <-.
  - destruct root as [f | es]; [discriminate H |].
    cbn [Fs.makedirs] in H. cbv zeta in H.
    destruct (Fs.makedirs c _) as [m' |] eqn:E; [| discriminate H].
    injection H as <-. cbn [app]. rewrite !resolve_cons.
    rewrite lookup_set_entry_same, (IH _ _ E Hq).
    destruct (Fs.lookup z es); [reflexivity |].
    apply resolve_empty_dir. now destruct c, q.
Qed.

Lemma removelast_snoc_cons {A} (c : list A) (x : A) (p : list A) :
  removelast (c ++ x :: p)
  = match p with
    | [] => c
    | _ => c ++ x :: removelast p
    end.
Proof.
  destruct p as [| y p].
  - apply removelast_last.
  - rewrite removelast_app by discriminate. reflexivity.
Qed.

Lemma diverge_makedirs p q root root' :
  diverge p q -> Fs.makedirs (Fs.parent p) root = Some root' ->
  Fs.resolve q root' = Fs.resolve q root.
Proof.
  intros (c & x & y & p' & q' & -> & -> & H) E. unfold Fs.parent in E.
  rewrite removelast_snoc_cons in E. destruct p' as [| z p'].
  - apply (makedirs_below _ (y :: q') _ _ E). discriminate.
  - now apply (makedirs_apart _ _ _ _ _ _ _ E).
Qed.

(** *** How the commands compose *)

Lemma touches_preserves roots {A} (c : M A) :
  preserves_fs c -> touches_only roots c.
Proof. intros H st r st' E q _. now rewrite (H _ _ _ E). Qed.

Lemma touches_bind roots {A B} (c : M A) (k : A -> M B) :
  touches_only roots c -> (forall a, touches_only roots (k a)) ->
  touches_only roots (bind c k).
Proof.
  intros Hc Hk st r st' H q Hq. unfold bind in H.
  destruct (c st) as [[a | e] st1] eqn:E.
  - rewrite (Hk a _ _ _ H q Hq). apply (Hc _ _ _ E q Hq).
  - injection H as _ <-. apply (Hc _ _ _ E q Hq).
Qed.

Lemma touches_try roots {A} (c : M A) (h : exn -> option (M A)) :
  touches_only roots c -> (forall e k, h e = Some k -> touches_only roots k) ->
  touches_only roots (try_except c h).
Proof.
  intros Hc Hh st r st' H q Hq. unfold try_except in H.
  destruct (c st) as [[a | e] st1] eqn:E.
  - injection H as _ <-. apply (Hc _ _ _ E q Hq).
  - destruct (h e) as [k |] eqn:K.
    + rewrite (Hh _ _ K _ _ _ H q Hq). apply (Hc _ _ _ E q Hq).
    + injection H as _ <-. apply (Hc _ _ _ E q Hq).
Qed.

Lemma touches_for_each roots {A} (xs : list A) (body : A -> M unit) :
  (forall x, In x xs -> touches_only roots (body x)) ->
  touches_only roots (for_each xs body).
Proof.
  induction xs as [| x xs IH]; intros H; cbn [for_each].
  - apply touches_preserves, preserves_ret.
  - apply touches_bind; [apply H; now left |].
    intros _. apply IH. intros y Hy. apply H. now right.
Qed.

Lemma touches_print roots (m : message) : touches_only roots (print m).
Proof. apply touches_preserves, preserves_emit. Qed.

(** *** The file operations *)

Lemma under_root roots (p0 r q : path) :
  In p0 roots -> Forall (fun p => diverge p q) roots -> diverge (p0 ++ r) q.
Proof.
  intros Hin Hq. apply diverge_below.
  rewrite Forall_forall in Hq. now apply Hq.
Qed.

Lemma touches_path_exists roots (p : path) :
  touches_only roots (Io.path_exists p).
Proof. intros st r st' H q _. now injection H as _ <-. Qed.

Lemma touches_read_text roots (p : path) : touches_only roots (Io.read_text p).
Proof.
  intros st r st' H q _. revert H. unfold Io.read_text. run_cmd.
  destruct (Fs.resolve p (fs st)) as [[f | es] |]; [destruct (data f) | |];
    intros H; now injection H as _ <-.
Qed.

Lemma touches_write_text roots (p0 r : path) (s : string) :
  In p0 roots -> touches_only roots (Io.write_text (p0 ++ r) s).
Proof.
  intros Hin st res st' H q Hq.
  pose proof (under_root _ _ r _ Hin Hq) as D.
  revert H. unfold Io.write_text. run_cmd.
  destruct (Fs.resolve (p0 ++ r) (fs st)) as [[f | es] |];
    [destruct (writable f) | | destruct (Io.parent_is_dir _ _)];
    intros H; injection H as _ <-; cbn [fs];
    reflexivity || now apply diverge_put.
Qed.

Lemma touches_append_text roots (p0 r : path) (s : string) :
  In p0 roots -> touches_only roots (Io.append_text (p0 ++ r) s).
Proof.
  intros Hin st res st' H q Hq.
  pose proof (under_root _ _ r _ Hin Hq) as D.
  revert H. unfold Io.append_text. run_cmd.
  destruct (Fs.resolve (p0 ++ r) (fs st)) as [[f | es] |];
    [destruct (writable f) | | destruct (Io.parent_is_dir _ _)];
    intros H; injection H as _ <-; cbn [fs];
    reflexivity || now apply diverge_put.
Qed.

Lemma touches_mkdir roots (p0 r : path) :
  In p0 roots -> touches_only roots (Io.mkdir_exist_ok (p0 ++ r)).
Proof.
  intros Hin st res st' H q Hq.
  pose proof (under_root _ _ r _ Hin Hq) as D.
  revert H. unfold Io.mkdir_exist_ok. run_cmd.
  destruct (Fs.resolve (p0 ++ r) (fs st)) as [[f | es] |];
    [| | destruct (Io.parent_is_dir _ _)];
    intros H; injection H as _ <-; cbn [fs];
    reflexivity || now apply diverge_put.
Qed.

Lemma touches_rmtree roots (p0 r : path) :
  In p0 roots -> touches_only roots (Io.rmtree (p0 ++ r)).
Proof.
  intros Hin st res st' H q Hq.
  pose proof (under_root _ _ r _ Hin Hq) as D.
  revert H. unfold Io.rmtree. run_cmd.
  destruct (Fs.resolve (p0 ++ r) (fs st)) as [[f | es] |];
    intros H; injection H as _ <-; cbn [fs];
    reflexivity || now apply diverge_delete.
Qed.

Lemma touches_copytree roots (src p0 r : path) :
  In p0 roots -> touches_only roots (Io.copytree src (p0 ++ r)).
Proof.
  intros Hin st res st' H q Hq.
  pose proof (under_root _ _ r _ Hin Hq) as D.
  revert H. unfold Io.copytree. run_cmd.
  destruct (Fs.resolve src (fs st)) as [[f | es] |];
    [| destruct (Fs.resolve (p0 ++ r) (fs st));
       [| destruct (Fs.makedirs (Fs.parent (p0 ++ r)) (fs st)) as [root' |] eqn:E]
     |];
    intros H; injection H as _ <-; cbn [fs]; try reflexivity.
  rewrite (diverge_put _ _ _ _ D). now apply (diverge_makedirs _ _ _ _ D).
Qed.

(** *** The functions of the scripts *)

Lemma touches_bind_value roots {A B} (c : M A) (k : A -> M B) :
  touches_only roots c ->
  (forall a st st', c st = (Return a, st') -> touches_only roots (k a)) ->
  touches_only roots (bind c k).
Proof.
  intros Hc Hk st r st' H q Hq. unfold bind in H.
  destruct (c st) as [[a | e] st1] eqn:E.
  - rewrite (Hk a _ _ E _ _ _ H q Hq). apply (Hc _ _ _ E q Hq).
  - injection H as _ <-. apply (Hc _ _ _ E q Hq).
Qed.

Lemma quiet_preserves {A} (c : M A) : quiet c -> preserves_fs c.
Proof. intros H st r st' E. apply (H _ _ _ E). Qed.

Lemma preserves_dict_get (key : string) (d : dict) :
  preserves_fs (dict_get key d).
Proof.
  induction d as [| [k v] d IH]; cbn [dict_get].
  - apply preserves_raise.
  - destruct (String.eqb k key); [apply preserves_ret | exact IH].
Qed.

Lemma preserves_collect_module_info (a : CreateModule.args) :
  preserves_fs (collect_module_info a).
Proof.
  assert (Hask : forall q d, preserves_fs (ask q d)).
  { intros q d. apply preserves_bind; [apply preserves_input |].
    intros l. apply preserves_ret. }
  assert (I : preserves_fs
                (print Create_banner ;;
                 id <- while_true
                         (l <- input Ask_module_id ;;
                          ok <- validate_module_id (Py.strip l) ;;
                          ret (if ok then Some (Py.strip l) else None)) ;;
                 nm <- ask (Ask_name id) id ;;
                 ds <- ask (Ask_description nm) nm ;;
                 br <- ask Ask_brand "YourBrand" ;;
                 au <- ask Ask_author "Unknown" ;;
                 em <- ask Ask_email "unknown@example.com" ;;
                 ws <- ask Ask_website "https://example.com" ;;
                 ret [ ("__MOD__", id);
                       ("__NAME__", nm);
                       ("__DESCRIPTION__", ds);
                       ("__BRAND__", br);
                       ("__AUTHOR__", au);
                       ("__EMAIL__", em);
                       ("__URL__", ws) ])).
  { apply preserves_bind; [apply preserves_emit | intros _].
    apply preserves_bind.
    { apply preserves_while_true.
      apply preserves_bind; [apply preserves_input | intros l].
      apply preserves_bind; [apply preserves_validate_module_id | intros ok].
      apply preserves_ret. }
    intros id.
    repeat (apply preserves_bind; [apply Hask | intros ?]).
    apply preserves_ret. }
  unfold collect_module_info.
  destruct (CreateModule.module_id a) as [[| c r] |]; [exact I | | exact I].
  apply preserves_bind; [apply preserves_validate_module_id | intros ok].
  destruct ok; cbn [negb]; [apply preserves_ret | apply preserves_raise].
Qed.

Lemma touches_substitute_in_file roots (p0 r : path) (substitutions : dict) :
  In p0 roots ->
  touches_only roots (substitute_in_file (p0 ++ r) substitutions).
Proof.
  intros Hin. unfold substitute_in_file. apply touches_try.
  - apply touches_bind; [apply touches_read_text | intros c].
    now apply touches_write_text.
  - intros e k H.
    destruct e; cbn [is_Exception] in H; try discriminate H;
      injection H as <-; apply touches_print.
Qed.

Lemma os_walk_below (top : path) st files st' :
  os_walk top st = (Return files, st') ->
  forall p, In p files -> exists q, p = top ++ q.
Proof.
  unfold os_walk. run_cmd. intros H p Hp. injection H as <- _.
  destruct (Fs.resolve top (fs st)) as [n |]; [| destruct Hp].
  destruct (walk_prefix _ _ _ Hp) as (q & -> & _). now exists q.
Qed.

Lemma preserves_os_walk (top : path) : preserves_fs (os_walk top).
Proof. intros st r st' H. now injection H as _ <-. Qed.

Lemma touches_copy_and_substitute roots (template target : path)
  (substitutions : dict) :
  In target roots ->
  touches_only roots (copy_and_substitute template target substitutions).
Proof.
  intros Hin. unfold copy_and_substitute.
  apply touches_bind; [apply touches_path_exists | intros e].
  destruct e.
  { apply touches_bind; [apply touches_print | intros _].
    apply touches_preserves, preserves_raise. }
  apply touches_bind; [apply touches_print | intros _].
  apply touches_bind.
  { rewrite <- (app_nil_r target). now apply touches_copytree. }
  intros _.
  apply touches_bind;
    [apply touches_preserves, preserves_dict_get | intros module_id].
  cbv zeta.
  apply touches_bind; [now apply touches_mkdir | intros _].
  apply touches_bind; [apply touches_print | intros _].
  apply touches_bind_value; [apply touches_preserves, preserves_os_walk |].
  intros files s s' Hw.
  apply touches_bind; [| intros _; apply touches_print].
  apply touches_for_each. intros p Hp.
  destruct (os_walk_below _ _ _ _ Hw p Hp) as (q & ->).
  now apply touches_substitute_in_file.
Qed.

Lemma touches_update_modules_cmake roots (dir : path) (module_id : string) :
  In (dir ++ ["CMakeLists.txt"]) roots ->
  touches_only roots (update_modules_cmake dir module_id).
Proof.
  intros Hin. unfold update_modules_cmake. cbv zeta.
  apply touches_bind; [apply touches_path_exists | intros e].
  destruct e; cbn [negb].
  2:{ apply touches_bind; [apply touches_print | intros _].
      apply touches_preserves, preserves_raise. }
  apply touches_bind; [apply touches_read_text | intros c].
  destruct (Py.contains _ _); [apply touches_print |].
  apply touches_bind; [| intros _; apply touches_print].
  rewrite <- (app_nil_r (dir ++ ["CMakeLists.txt"])).
  now apply touches_append_text.
Qed.

Lemma touches_remove_from_cmake roots (p : path) (module_id : string) :
  In p roots -> touches_only roots (remove_from_cmake p module_id).
Proof.
  intros Hin st r st' H q Hq.
  rewrite Forall_forall in Hq. specialize (Hq p Hin).
  rewrite remove_from_cmake_eq in H.
  destruct (Fs.resolve p (fs st)) as [[f | es] |];
    [destruct (data f) as [c | raw];
     [destruct (has_line_for module_id c); [destruct (writable f) |] |] | |];
    injection H as _ <-; cbn [fs]; try reflexivity.
  now apply diverge_put.
Qed.

Lemma touches_remove_module_directory roots (dir : path) (module_id : string) :
  In dir roots -> touches_only roots (remove_module_directory dir module_id).
Proof.
  intros Hin. unfold remove_module_directory. apply touches_try.
  - apply touches_bind; [apply touches_path_exists | intros e].
    destruct e.
    + apply touches_bind; [apply touches_print | intros _].
      apply touches_bind.
      { rewrite <- (app_nil_r dir). now apply touches_rmtree. }
      intros _. apply touches_bind; [apply touches_print | intros _].
      apply touches_preserves, preserves_ret.
    + apply touches_bind; [apply touches_print | intros _].
      apply touches_preserves, preserves_ret.
  - intros e k H. destruct (is_Exception e); [| discriminate H].
    injection H as <-.
    apply touches_bind; [apply touches_print | intros _].
    apply touches_preserves, preserves_ret.
Qed.

Lemma touches_weaken roots roots' {A} (c : M A) :
  (forall p, In p roots -> exists p0 r, In p0 roots' /\ p = p0 ++ r) ->
  touches_only roots c -> touches_only roots' c.
Proof.
  intros Hsub Hc st r st' E q Hq. apply (Hc _ _ _ E).
  apply Forall_forall. intros p Hp.
  destruct (Hsub p Hp) as (p0 & r0 & Hin & ->).
  now apply (under_root roots').
Qed.

Lemma touches_below_modules (mid : string) {A} (c : M A) :
  touches_only [modules_dir ++ [mid]; cmake_file] c ->
  touches_only [modules_dir] c.
Proof.
  apply touches_weaken. intros p [<- | [<- | []]].
  - exists modules_dir, [mid]. split; [now left | reflexivity].
  - exists modules_dir, ["CMakeLists.txt"]. split; [now left | reflexivity].
Qed.

Lemma touches_create_steps (mid : string) (substitutions : dict) :
  touches_only [modules_dir ++ [mid]; cmake_file]
    (copy_and_substitute CreateModule.template_dir (modules_dir ++ [mid])
       substitutions ;;
     update_modules_cmake modules_dir mid ;;
     print_next_steps mid).
Proof.
  apply touches_bind;
    [apply touches_copy_and_substitute; now left | intros _].
  apply touches_bind;
    [apply touches_update_modules_cmake; right; now left | intros _].
  apply touches_print.
Qed.

Lemma touches_remove_steps (mid : string) :
  touches_only [modules_dir ++ [mid]; cmake_file]
    (print (Removing_module mid) ;;
     in_cmake <- remove_from_cmake cmake_file mid ;;
     in_dir <- remove_module_directory (modules_dir ++ [mid]) mid ;;
     if (if negb in_dir then false else if negb in_cmake then false else true)
     then print (Summary_removed mid)
     else print (Summary_partially_removed mid) ;; sys_exit 1).
Proof.
  apply touches_bind; [apply touches_print | intros _].
  apply touches_bind;
    [apply touches_remove_from_cmake; right; now left | intros in_cmake].
  apply touches_bind;
    [apply touches_remove_module_directory; now left | intros in_dir].
  destruct (if negb in_dir then false else if negb in_cmake then false else true).
  - apply touches_print.
  - apply touches_bind; [apply touches_print | intros _].
    apply touches_preserves, preserves_raise.
Qed.

(** X13. What creation never does.  Whatever the arguments, the input and the
    project, a run of createModule.py changes nothing outside the modules
    directory; and when the identifier is given on the command line, it
    changes nothing but the directory of that module and the registry
    file: the template, the other modules and their files are as
    before. *)
Theorem main_create_touches (a : CreateModule.args) (st : state) :
  (forall q, diverge modules_dir q ->
             Fs.resolve q (fs (snd (CreateModule.main a st)))
             = Fs.resolve q (fs st))
  /\ (forall mid q,
         CreateModule.module_id a = Some mid -> mid <> EmptyString ->
         diverge (modules_dir ++ [mid]) q -> diverge cmake_file q ->
         Fs.resolve q (fs (snd (CreateModule.main a st)))
         = Fs.resolve q (fs st)).
Proof.
  assert (Any : touches_only [modules_dir] (CreateModule.main a)).
  { unfold CreateModule.main.
    apply touches_bind; [apply touches_path_exists | intros t].
    destruct t; cbn [negb].
    2:{ apply touches_bind; [apply touches_print | intros _].
        apply touches_preserves, preserves_raise. }
    apply touches_bind; [apply touches_path_exists | intros m].
    destruct m; cbn [negb].
    2:{ apply touches_bind; [apply touches_print | intros _].
        apply touches_preserves, preserves_raise. }
    apply touches_bind;
      [apply touches_preserves, preserves_collect_module_info | intros d].
    apply touches_bind;
      [apply touches_preserves, preserves_dict_get | intros mid].
    cbv zeta. apply (touches_below_modules mid), touches_create_steps. }
  split.
  - intros q Hq.
    destruct (CreateModule.main a st) as [r st'] eqn:E.
    apply (Any _ _ _ E). now constructor.
  - intros mid q Ha Hne H1 H2.
    assert (Named : touches_only [modules_dir ++ [mid]; cmake_file]
                      (CreateModule.main a)).
    { unfold CreateModule.main.
      apply touches_bind; [apply touches_path_exists | intros t].
      destruct t; cbn [negb].
      2:{ apply touches_bind; [apply touches_print | intros _].
          apply touches_preserves, preserves_raise. }
      apply touches_bind; [apply touches_path_exists | intros m].
      destruct m; cbn [negb].
      2:{ apply touches_bind; [apply touches_print | intros _].
          apply touches_preserves, preserves_raise. }
      apply touches_bind_value;
        [apply touches_preserves, preserves_collect_module_info |].
      intros d s s' Ed.
      destruct (collect_module_info_run a mid s Ha Hne) as (b & ms & Ec & _).
      rewrite Ec in Ed. destruct b; [| discriminate Ed].
      injection Ed as <- _.
      apply touches_bind_value;
        [apply touches_preserves, preserves_dict_get |].
      intros mid' s1 s1' Em. injection Em as <- _.
      cbv zeta. apply touches_create_steps. }
    destruct (CreateModule.main a st) as [r st'] eqn:E.
    apply (Named _ _ _ E). now repeat constructor.
Qed.

(** X14. What removal never does.  When the command line names no module, or
    names it by the name of an entry, then whatever the other arguments,
    the input and the project, a run of removeModule.py changes nothing
    outside the modules directory; and when the module is named, it
    changes nothing but the directory of that module and the registry
    file.  (A name with a separator in it, or "..", is joined as a path
    and can lead elsewhere.) *)
Theorem main_remove_touches (a : RemoveModule.args) (st : state) :
  (forall mid, RemoveModule.module_id a = Some mid ->
               mid = EmptyString \/ entry_name mid = true) ->
  (forall q, diverge modules_dir q ->
             Fs.resolve q (fs (snd (RemoveModule.main a st)))
             = Fs.resolve q (fs st))
  /\ (forall mid q,
         RemoveModule.module_id a = Some mid -> mid <> EmptyString ->
         diverge (modules_dir ++ [mid]) q -> diverge cmake_file q ->
         Fs.resolve q (fs (snd (RemoveModule.main a st)))
         = Fs.resolve q (fs st)).
Proof.
  intros _.
  assert (Rest : forall mid available,
             touches_only [modules_dir ++ [mid]; cmake_file]
               (e <- Io.path_exists (modules_dir ++ [mid]) ;;
                if negb e
                then print (Err_module_not_found mid available) ;; sys_exit 1
                else
                  go <- confirm_removal mid (modules_dir ++ [mid])
                          (RemoveModule.force a) ;;
                  if negb go then print Removal_cancelled ;; sys_exit 0
                  else
                    print (Removing_module mid) ;;
                    in_cmake <- remove_from_cmake cmake_file mid ;;
                    in_dir <- remove_module_directory (modules_dir ++ [mid]) mid ;;
                    if (if negb in_dir then false
                        else if negb in_cmake then false else true)
                    then print (Summary_removed mid)
                    else print (Summary_partially_removed mid) ;; sys_exit 1)).
  { intros mid available.
    apply touches_bind; [apply touches_path_exists | intros e].
    destruct e; cbn [negb].
    2:{ apply touches_bind; [apply touches_print | intros _].
        apply touches_preserves, preserves_raise. }
    apply touches_bind;
      [apply touches_preserves, preserves_confirm_removal | intros go].
    destruct go; cbn [negb]; [apply touches_remove_steps |].
    apply touches_bind; [apply touches_print | intros _].
    apply touches_preserves, preserves_raise. }
  assert (Any : touches_only [modules_dir] (RemoveModule.main a)).
  { unfold RemoveModule.main.
    apply touches_bind; [apply touches_path_exists | intros m].
    destruct m; cbn [negb].
    2:{ apply touches_bind; [apply touches_print | intros _].
        apply touches_preserves, preserves_raise. }
    apply touches_bind;
      [apply touches_preserves, quiet_preserves,
         quiet_list_available_modules | intros available].
    destruct (list_only a).
    { apply touches_bind; [apply touches_print | intros _].
      apply touches_preserves, preserves_raise. }
    apply touches_bind.
    { apply touches_preserves, quiet_preserves.
      destruct (RemoveModule.module_id a) as [[| c r] |];
        [apply quiet_select_module | apply quiet_ret | apply quiet_select_module]. }
    intros mid. cbv zeta. apply (touches_below_modules mid), Rest. }
  split.
  - intros q Hq.
    destruct (RemoveModule.main a st) as [r st'] eqn:E.
    apply (Any _ _ _ E). now constructor.
  - intros mid q Ha Hne H1 H2.
    assert (Named : touches_only [modules_dir ++ [mid]; cmake_file]
                      (RemoveModule.main a)).
    { unfold RemoveModule.main.
      apply touches_bind; [apply touches_path_exists | intros m].
      destruct m; cbn [negb].
      2:{ apply touches_bind; [apply touches_print | intros _].
          apply touches_preserves, preserves_raise. }
      apply touches_bind;
        [apply touches_preserves, quiet_preserves,
           quiet_list_available_modules | intros available].
      destruct (list_only a).
      { apply touches_bind; [apply touches_print | intros _].
        apply touches_preserves, preserves_raise. }
      rewrite Ha. destruct mid as [| c r]; [congruence |].
      apply touches_bind_value; [apply touches_preserves, preserves_ret |].
      intros mid' s s' Em. injection Em as <- _.
      cbv zeta. apply Rest. }
    destruct (RemoveModule.main a st) as [r st'] eqn:E.
    apply (Named _ _ _ E). now repeat constructor.
Qed.

Lemma main_remove_touches_witness :
  let a := RemoveModule.mkArgs (Some "TEST") true false in
  let st := mkState sample_checkout [] [] in
  (forall q, diverge modules_dir q ->
             Fs.resolve q (fs (snd (RemoveModule.main a st)))
             = Fs.resolve q (fs st))
  /\ (forall mid q,
         RemoveModule.module_id a = Some mid -> mid <> EmptyString ->
         diverge (modules_dir ++ [mid]) q -> diverge cmake_file q ->
         Fs.resolve q (fs (snd (RemoveModule.main a st)))
         = Fs.resolve q (fs st)).
Proof.
  apply (main_remove_touches (RemoveModule.mkArgs (Some "TEST") true false)
           (mkState sample_checkout [] [])).
  intros mid H. injection H as <-. now right.
Defined.

End Frames.

(** ** The tree a creation leaves *)

Section Created.

Import CreateModule.

Lemma update_entry_set_entry x g n es :
  Fs.update_entry x g (Fs.set_entry x n es) = Fs.set_entry x (g n) es.
Proof.
  induction es as [| [y m] es IH]; cbn [Fs.set_entry Fs.update_entry].
  - now rewrite String.eqb_refl.
  - destruct (String.eqb y x) eqn:E; cbn [Fs.update_entry]; rewrite E;
      [reflexivity | now rewrite IH].
Qed.

Lemma set_entry_set_entry x n1 n2 es :
  Fs.set_entry x n2 (Fs.set_entry x n1 es) = Fs.set_entry x n2 es.
Proof.
  induction es as [| [y m] es IH]; cbn [Fs.set_entry].
  - now rewrite String.eqb_refl.
  - destruct (String.eqb y x) eqn:E; cbn [Fs.set_entry]; rewrite E;
      [reflexivity | now rewrite IH].
Qed.

Lemma update_entry_twice x g h es :
  Fs.update_entry x g (Fs.update_entry x h es)
  = Fs.update_entry x (fun m => g (h m)) es.
Proof.
  induction es as [| [y m] es IH]; cbn [Fs.update_entry]; [reflexivity |].
  destruct (String.eqb y x) eqn:E; cbn [Fs.update_entry]; rewrite E;
    [reflexivity | now rewrite IH].
Qed.

Lemma update_entry_ext x g h es :
  (forall m, g m = h m) -> Fs.update_entry x g es = Fs.update_entry x h es.
Proof.
  intros H. induction es as [| [y m] es IH]; cbn [Fs.update_entry];
    [reflexivity |].
  destruct (String.eqb y x); [now rewrite H | now rewrite IH].
Qed.

(** A write below a path that has just been bound is a write into what
    was bound. *)
Lemma put_below t q n N root :
  Fs.put (t ++ q) n (Fs.put t N root) = Fs.put t (Fs.put q n N) root.
Proof.
  revert root. induction t as [| x t IH]; intros root; [reflexivity |].
  destruct root as [f | es].
  { cbn [app]. destruct t; reflexivity. }
  destruct t as [| y t].
  - cbn [app]. destruct q as [| z q].
    + cbn [Fs.put]. now rewrite set_entry_set_entry.
    + change (Fs.put [x] N (Dir es)) with (Dir (Fs.set_entry x N es)).
      rewrite put_inner by discriminate.
      change (Fs.put [x] (Fs.put (z :: q) n N) (Dir es))
        with (Dir (Fs.set_entry x (Fs.put (z :: q) n N) es)).
      now rewrite update_entry_set_entry.
  - change ((x :: y :: t) ++ q) with (x :: ((y :: t) ++ q)).
    rewrite (put_inner x (y :: t) N) by discriminate.
    rewrite (put_inner x ((y :: t) ++ q)) by discriminate.
    rewrite (put_inner x (y :: t)) by discriminate.
    rewrite update_entry_twice. f_equal.
    apply update_entry_ext. intros m. apply IH.
Qed.

(** *** Commands that write below a path *)

Lemma below_preserves t {A} (c : M A) : preserves_fs c -> writes_below t c.
Proof.
  intros H st r st' E root n Hn. exists n. now rewrite (H _ _ _ E).
Qed.

Lemma below_bind t {A B} (c : M A) (k : A -> M B) :
  writes_below t c ->
  (forall a st st', c st = (Return a, st') -> writes_below t (k a)) ->
  writes_below t (bind c k).
Proof.
  intros Hc Hk st r st' H root n Hn. unfold bind in H.
  destruct (c st) as [[a | e] st1] eqn:E.
  - destruct (Hc _ _ _ E _ _ Hn) as (n1 & H1).
    apply (Hk a _ _ E _ _ _ H _ _ H1).
  - injection H as _ <-. apply (Hc _ _ _ E _ _ Hn).
Qed.

Lemma below_try t {A} (c : M A) (h : exn -> option (M A)) :
  writes_below t c -> (forall e k, h e = Some k -> writes_below t k) ->
  writes_below t (try_except c h).
Proof.
  intros Hc Hh st r st' H root n Hn. unfold try_except in H.
  destruct (c st) as [[a | e] st1] eqn:E.
  - injection H as _ <-. apply (Hc _ _ _ E _ _ Hn).
  - destruct (h e) as [k |] eqn:K.
    + destruct (Hc _ _ _ E _ _ Hn) as (n1 & H1).
      apply (Hh _ _ K _ _ _ H _ _ H1).
    + injection H as _ <-. apply (Hc _ _ _ E _ _ Hn).
Qed.

Lemma below_for_each t {A} (xs : list A) (body : A -> M unit) :
  (forall x, In x xs -> writes_below t (body x)) ->
  writes_below t (for_each xs body).
Proof.
  induction xs as [| x xs IH]; intros H; cbn [for_each].
  - apply below_preserves, preserves_ret.
  - apply below_bind; [apply H; now left |].
    intros _ _ _ _. apply IH. intros y Hy. apply H. now right.
Qed.

Lemma below_print t (m : message) : writes_below t (print m).
Proof. apply below_preserves, preserves_emit. Qed.

Lemma below_read_text t (p : path) : writes_below t (Io.read_text p).
Proof.
  apply below_preserves. intros st r st'. unfold Io.read_text. run_cmd.
  destruct (Fs.resolve p (fs st)) as [[f | es] |]; [destruct (data f) | |];
    intros H; now injection H as _ <-.
Qed.

Lemma below_write_text t (q : path) (s : string) :
  writes_below t (Io.write_text (t ++ q) s).
Proof.
  intros st r st' H root n Hn. revert H. unfold Io.write_text. run_cmd.
  destruct (Fs.resolve (t ++ q) (fs st)) as [[f | es] |];
    [destruct (writable f) | | destruct (Io.parent_is_dir _ _)];
    intros H; injection H as _ <-; cbn [fs]; rewrite Hn;
    (now exists n) || (rewrite put_below; eexists; reflexivity).
Qed.

Lemma below_mkdir t (q : path) : writes_below t (Io.mkdir_exist_ok (t ++ q)).
Proof.
  intros st r st' H root n Hn. revert H. unfold Io.mkdir_exist_ok. run_cmd.
  destruct (Fs.resolve (t ++ q) (fs st)) as [[f | es] |];
    [| | destruct (Io.parent_is_dir _ _)];
    intros H; injection H as _ <-; cbn [fs]; rewrite Hn;
    (now exists n) || (rewrite put_below; eexists; reflexivity).
Qed.

Lemma below_substitute_in_file t (q : path) (substitutions : dict) :
  writes_below t (substitute_in_file (t ++ q) substitutions).
Proof.
  unfold substitute_in_file. apply below_try.
  - apply below_bind; [apply below_read_text | intros c _ _ _].
    apply below_write_text.
  - intros e k H.
    destruct e; cbn [is_Exception] in H; try discriminate H;
      injection H as <-; apply below_print.
Qed.

(** *** Commands that keep the kinds of the paths *)

Lemma kinds_preserves {A} (c : M A) : preserves_fs c -> keeps_kinds c.
Proof. intros H st r st' E q. now rewrite (H _ _ _ E). Qed.

Lemma kinds_bind {A B} (c : M A) (k : A -> M B) :
  keeps_kinds c -> (forall a, keeps_kinds (k a)) -> keeps_kinds (bind c k).
Proof.
  intros Hc Hk st r st' H q. unfold bind in H.
  destruct (c st) as [[a | e] st1] eqn:E.
  - rewrite (Hk a _ _ _ H q). apply (Hc _ _ _ E q).
  - injection H as _ <-. apply (Hc _ _ _ E q).
Qed.

Lemma kinds_for_each {A} (xs : list A) (body : A -> M unit) :
  (forall x, keeps_kinds (body x)) -> keeps_kinds (for_each xs body).
Proof.
  intros H. induction xs as [| x xs IH]; cbn [for_each].
  - apply kinds_preserves, preserves_ret.
  - apply kinds_bind; [apply H | intros _; exact IH].
Qed.

Lemma kinds_substitute_in_file (p : path) (substitutions : dict) :
  keeps_kinds (substitute_in_file p substitutions).
Proof.
  intros st r st' H q. revert H. unfold substitute_in_file, Io.read_text.
  run_cmd.
  destruct (Fs.resolve p (fs st)) as [[f | es] |] eqn:R.
  - destruct (data f) as [c | raw].
    + unfold Io.write_text. run_cmd. rewrite R.
      destruct (writable f); intros H; injection H as _ <-; cbn [fs];
        [now apply (put_file_kind _ _ _ _ R) | reflexivity].
    + intros H. now injection H as _ <-.
  - intros H. now injection H as _ <-.
  - intros H. now injection H as _ <-.
Qed.

(** *** The module directory after the copy *)

Lemma keeps_kinds_rest (target : path) (p : path) (substitutions : dict) :
  keeps_kinds
    (print (Created_rnbo_dir p) ;;
     files <- os_walk target ;;
     for_each files (fun file_path => substitute_in_file file_path substitutions) ;;
     print Template_processed).
Proof.
  apply kinds_bind; [apply kinds_preserves, preserves_emit | intros _].
  apply kinds_bind; [apply kinds_preserves, preserves_os_walk | intros files].
  apply kinds_bind; [| intros _; apply kinds_preserves, preserves_emit].
  apply kinds_for_each. intros x. apply kinds_substitute_in_file.
Qed.

Lemma writes_below_rest (target : path) (p : path) (substitutions : dict) :
  writes_below target
    (print (Created_rnbo_dir p) ;;
     files <- os_walk target ;;
     for_each files (fun file_path => substitute_in_file file_path substitutions) ;;
     print Template_processed).
Proof.
  apply below_bind; [apply below_print | intros _ _ _ _].
  apply below_bind; [apply below_preserves, preserves_os_walk |].
  intros files s s' Hw.
  apply below_bind; [| intros _ _ _ _; apply below_print].
  apply below_for_each. intros q Hq.
  destruct (os_walk_below _ _ _ _ Hw q Hq) as (q' & ->).
  apply below_substitute_in_file.
Qed.

(** The copy, said of the tree: the target is bound to a directory whose
    files are the files of the template, substituted, and no others. *)
Lemma copy_and_substitute_exact template parent x substitutions mid tes pes st :
  Fs.resolve template (fs st) = Some (Dir tes) ->
  Fs.wf (Dir tes) = true ->
  Fs.resolve parent (fs st) = Some (Dir pes) ->
  Fs.resolve (parent ++ [x]) (fs st) = None ->
  (forall s, dict_get "__MOD__" substitutions s = (Return mid, s)) ->
  (forall f, Fs.lookup (mid ++ "-rnbo") tes <> Some (File f)) ->
  exists n st',
    copy_and_substitute template (parent ++ [x]) substitutions st
    = (Return tt, st')
    /\ stdin st' = stdin st
    /\ fs st' = Fs.put (parent ++ [x]) n (fs st)
    /\ (forall q g',
          Fs.file_at q n = Some g'
          <-> exists g, Fs.file_at q (Dir tes) = Some g
                        /\ g' = substituted substitutions g)
    /\ Fs.is_dir n = true
    /\ option_map Fs.is_dir (Fs.resolve [(mid ++ "-rnbo")%string] n) = Some true
    /\ (forall q, option_map Fs.is_dir (Fs.resolve q n)
                  = option_map Fs.is_dir
                      (Fs.resolve q (Dir (with_rnbo_dir mid tes)))).
Proof.
  intros Ht Wt Hp Hx Hmod Hrnbo.
  destruct (copy_and_substitute_run _ _ _ _ _ _ _ _ Ht Wt Hp Hx Hmod Hrnbo)
    as (st' & E & S & Fwd & _ & Kt & Kr & _).
  set (target := parent ++ [x]) in *.
  set (rnbo := (mid ++ "-rnbo")%string) in *.
  (* the run, up to the loop *)
  pose proof E as E'. unfold copy_and_substitute in E'.
  erewrite bind_run in E' by reflexivity. unfold Fs.exists_ in E'.
  rewrite Hx in E'.
  erewrite bind_run in E' by reflexivity. cbn [fs stdin trace] in E'.
  erewrite bind_run in E'.
  2:{ unfold Io.copytree. run_cmd. rewrite Ht, Hx.
      unfold target, Fs.parent. rewrite removelast_last.
      rewrite (makedirs_dir _ _ _ Hp). reflexivity. }
  cbn [fs stdin trace] in E'.
  erewrite bind_run in E' by apply Hmod. cbv zeta in E'. fold rnbo in E'.
  assert (R1 : Fs.resolve target (Fs.put target (Dir tes) (fs st))
               = Some (Dir tes))
    by apply (resolve_put_child _ _ _ _ _ Hp).
  assert (Mk : exists s2 tes',
             Io.mkdir_exist_ok (target ++ [rnbo])
               (mkState (Fs.put target (Dir tes) (fs st)) (stdin st)
                  ((trace st ++ [Print (Copying_template template target)])
                   ++ [Copied template target]))
             = (Return tt, s2)
             /\ fs s2 = Fs.put target (Dir tes') (fs st)
             /\ (forall q, Fs.file_at q (Dir tes') = Fs.file_at q (Dir tes))
             /\ tes' = with_rnbo_dir mid tes).
  { unfold Io.mkdir_exist_ok. run_cmd.
    rewrite resolve_app, R1, resolve_cons.
    unfold with_rnbo_dir. fold rnbo.
    destruct (Fs.lookup rnbo tes) as [[f | d] |] eqn:L.
    - exfalso. now apply (Hrnbo f).
    - cbn [Fs.resolve]. eexists. exists tes.
      split; [reflexivity |]. split; [reflexivity |]. split; reflexivity.
    - cbv beta iota. rewrite (parent_is_dir_child _ _ _ _ R1).
      cbv beta iota; cbn [fs stdin trace].
      eexists. exists (tes ++ [(rnbo, Dir [])]).
      split; [reflexivity |]. cbn [fs]. split; [| split; [| reflexivity]].
      + rewrite put_below. cbn [Fs.put].
        now rewrite (set_entry_absent _ _ _ L).
      + now apply file_at_add_empty_dir. }
  destruct Mk as (s2 & tes' & Emk & F2 & Same & Shape).
  erewrite bind_run in E' by exact Emk.
  destruct (writes_below_rest _ _ _ _ _ _ E' _ _ F2) as (n & Hn).
  pose proof (keeps_kinds_rest _ _ _ _ _ _ E') as Kinds.
  assert (Rn : Fs.resolve target (fs st') = Some n).
  { rewrite Hn. apply (resolve_put_child _ _ _ _ _ Hp). }
  exists n, st'. split; [exact E |]. split; [exact S |]. split; [exact Hn |].
  split; [| split; [| split]].
  - intros q g'. split.
    + intros Hq.
      assert (Hq' : Fs.file_at (target ++ q) (fs st') = Some g')
        by now rewrite file_at_app, Rn.
      apply file_at_resolve in Hq'.
      pose proof (Kinds (target ++ q)) as K. rewrite Hq' in K.
      cbn [option_map Fs.is_dir] in K.
      destruct (Fs.resolve (target ++ q) (fs s2)) as [[g0 | d] |] eqn:R2;
        try discriminate K.
      assert (R2' : Fs.resolve target (Fs.put target (Dir tes') (fs st))
                    = Some (Dir tes'))
        by apply (resolve_put_child _ _ _ _ _ Hp).
      rewrite F2, resolve_app, R2' in R2.
      assert (G0 : Fs.file_at q (Dir tes) = Some g0).
      { rewrite <- Same. unfold Fs.file_at. now rewrite R2. }
      exists g0. split; [exact G0 |].
      destruct (Fwd q g0 G0) as (Hs & _).
      apply file_at_resolve in Hs. congruence.
    + intros (g & Hg & ->). destruct (Fwd q g Hg) as (Hs & _).
      now rewrite file_at_app, Rn in Hs.
  - rewrite Rn in Kt. cbn [option_map] in Kt. congruence.
  - rewrite resolve_app, Rn in Kr. exact Kr.
  - intros q. pose proof (Kinds (target ++ q)) as K.
    assert (R2' : Fs.resolve target (Fs.put target (Dir tes') (fs st))
                  = Some (Dir tes'))
      by apply (resolve_put_child _ _ _ _ _ Hp).
    rewrite resolve_app, Rn in K. rewrite K, F2, resolve_app, R2'.
    now rewrite Shape.
Qed.

(** *** The whole creation *)

Lemma main_create_run (a : args) (mid : string) (tes es : Fs.entries)
  (f : file) (c : string) (st : state) :
  module_id a = Some mid -> well_formed_id mid ->
  Fs.resolve template_dir (fs st) = Some (Dir tes) ->
  Fs.wf (Dir tes) = true ->
  Fs.resolve modules_dir (fs st) = Some (Dir es) ->
  Fs.resolve (modules_dir ++ [mid]) (fs st) = None ->
  (forall g, Fs.lookup (mid ++ "-rnbo") tes <> Some (File g)) ->
  Fs.file_at cmake_file (fs st) = Some f -> data f = Text c ->
  Py.contains (directive mid) c = true \/ writable f = true ->
  exists n st',
    main a st = (Return tt, st')
    /\ stdin st' = stdin st
    /\ fs st'
       = (if Py.contains (directive mid) c
          then Fs.put (modules_dir ++ [mid]) n (fs st)
          else Fs.put cmake_file
                 (File (mkFile true (Text (c ++ (directive mid ++ Py.nl)))))
                 (Fs.put (modules_dir ++ [mid]) n (fs st)))
    /\ (forall q g',
          Fs.file_at q n = Some g'
          <-> exists g, Fs.file_at q (Dir tes) = Some g
                        /\ g' = substituted (mapping_of a mid) g)
    /\ Fs.is_dir n = true
    /\ option_map Fs.is_dir (Fs.resolve [(mid ++ "-rnbo")%string] n) = Some true
    /\ (forall q, option_map Fs.is_dir (Fs.resolve q n)
                  = option_map Fs.is_dir
                      (Fs.resolve q (Dir (with_rnbo_dir mid tes)))).
Proof.
  intros Ha V Rt Wt Rm Rx Hrnbo Hf D Hw.
  pose proof (well_formed_id_not_empty _ V) as Hne.
  destruct (collect_module_info_run a mid st Ha Hne) as (b & ms & Ec & Hb).
  rewrite (proj2 Hb V) in Ec. clear Hb b.
  assert (Hmod : forall s, dict_get "__MOD__" (mapping_of a mid) s
                           = (Return mid, s)) by reflexivity.
  destruct (copy_and_substitute_exact template_dir modules_dir mid
              (mapping_of a mid) mid tes es
              (mkState (fs st) (stdin st) (trace st ++ map Print ms))
              Rt Wt Rm Rx Hmod Hrnbo)
    as (n & s3 & E3 & S3 & F3 & Files & Kn & Kr & Kd).
  cbn [fs stdin] in S3, F3.
  assert (Fc : Fs.file_at cmake_file (fs s3) = Some f).
  { rewrite F3. unfold Fs.file_at, cmake_file.
    rewrite (resolve_put_apart modules_dir mid "CMakeLists.txt" [] [])
      by (intros H; symmetry in H; now apply (well_formed_id_not_registry _ V)).
    apply file_at_resolve in Hf. unfold cmake_file in Hf. now rewrite Hf. }
  pose proof (update_modules_cmake_text modules_dir mid f c s3 Fc D) as Eu.
  assert (Main : forall r, update_modules_cmake modules_dir mid s3 = (Return tt, r) ->
             main a st
             = (Return tt,
                mkState (fs r) (stdin r) (trace r ++ [Print (Next_steps mid)]))).
  { intros r Er. unfold main.
    erewrite bind_run by reflexivity. unfold Fs.exists_. rewrite Rt. cbn [negb].
    erewrite bind_run by reflexivity. unfold Fs.exists_. rewrite Rm. cbn [negb].
    erewrite bind_run by exact Ec.
    erewrite bind_run by reflexivity.
    erewrite bind_run by exact E3.
    erewrite bind_run by exact Er. reflexivity. }
  exists n.
  destruct (Py.contains (directive mid) c) eqn:Cc.
  - rewrite (Main _ Eu). eexists. split; [reflexivity |]. cbn [fs stdin].
    split; [exact S3 |]. split; [exact F3 |].
    split; [exact Files |]. split; [exact Kn |]. split; [exact Kr | exact Kd].
  - destruct Hw as [Hw | Hw]; [discriminate Hw |]. rewrite Hw in Eu.
    rewrite (Main _ Eu). eexists. split; [reflexivity |]. cbn [fs stdin].
    split; [exact S3 |]. split; [now rewrite F3 |].
    split; [exact Files |]. split; [exact Kn |]. split; [exact Kr | exact Kd].
Qed.

(** X15. The tree a creation leaves.  When the identifier given on the command
    line passes validation, the template is a directory that holds no
    file named like the export directory, the modules directory is a
    directory without an entry of that name, and the registry file is a
    text file that already mentions the directive or can be written: the
    script ends with status 0 and has read no input.  The tree it leaves
    is the tree it found with the module path bound to a directory, and
    with the directive and a newline appended to the registry file unless
    that mentioned the directive.  The files of the new directory are the
    files of the template, each substituted, and no others; it holds the
    export directory. *)
Theorem main_create_result (a : args) (mid : string) (tes es : Fs.entries)
  (f : file) (c : string) (st : state) :
  module_id a = Some mid -> well_formed_id mid ->
  Fs.resolve template_dir (fs st) = Some (Dir tes) ->
  Fs.wf (Dir tes) = true ->
  Fs.resolve modules_dir (fs st) = Some (Dir es) ->
  Fs.resolve (modules_dir ++ [mid]) (fs st) = None ->
  (forall g, Fs.lookup (mid ++ "-rnbo") tes <> Some (File g)) ->
  Fs.file_at cmake_file (fs st) = Some f -> data f = Text c ->
  Py.contains (directive mid) c = true \/ writable f = true ->
  exists n,
    exit_status (fst (main a st)) = 0
    /\ stdin (snd (main a st)) = stdin st
    /\ fs (snd (main a st))
       = (if Py.contains (directive mid) c
          then Fs.put (modules_dir ++ [mid]) n (fs st)
          else Fs.put cmake_file
                 (File (mkFile true (Text (c ++ (directive mid ++ Py.nl)))))
                 (Fs.put (modules_dir ++ [mid]) n (fs st)))
    /\ (forall q g',
          Fs.file_at q n = Some g'
          <-> exists g, Fs.file_at q (Dir tes) = Some g
                        /\ g' = substituted (mapping_of a mid) g)
    /\ Fs.is_dir n = true
    /\ option_map Fs.is_dir (Fs.resolve [(mid ++ "-rnbo")%string] n) = Some true.
Proof.
  intros Ha V Rt Wt Rm Rx Hrnbo Hf D Hw.
  destruct (main_create_run a mid tes es f c st Ha V Rt Wt Rm Rx Hrnbo Hf D Hw)
    as (n & st' & E & S & F & Files & Kn & Kr & _).
  exists n. rewrite E. cbn [fst snd exit_status].
  split; [reflexivity |]. split; [exact S |]. split; [exact F |].
  split; [exact Files |]. now split.
Qed.

Lemma main_create_result_witness :
  exists n,
    exit_status (fst (main (only_id "TEST") (mkState sample_project [] []))) = 0
    /\ stdin (snd (main (only_id "TEST") (mkState sample_project [] []))) = []
    /\ fs (snd (main (only_id "TEST") (mkState sample_project [] [])))
       = Fs.put cmake_file
           (File (mkFile true
                    (Text (("add_subdirectory(common)" ++ Py.nl)
                           ++ (directive "TEST" ++ Py.nl)))))
           (Fs.put (modules_dir ++ ["TEST"]) n sample_project)
    /\ (forall q g',
          Fs.file_at q n = Some g'
          <-> exists g,
                Fs.file_at q
                  (Dir [("CMakeLists.txt",
                         File (mkFile true (Text "project(__MOD__) # __NAME__")));
                        ("icon.png", File (mkFile true (Binary [x89; x50])));
                        ("LICENSE", File (mkFile false (Text "(c) __AUTHOR__")))])
                = Some g
                /\ g' = substituted (mapping_of (only_id "TEST") "TEST") g)
    /\ Fs.is_dir n = true
    /\ option_map Fs.is_dir (Fs.resolve ["TEST-rnbo"] n) = Some true.
Proof.
  assert (V : well_formed_id "TEST").
  { apply (validate_module_id_true "TEST" (mkState (Dir []) [] [])).
    reflexivity. }
  refine (main_create_result (only_id "TEST") "TEST" _ _
            (mkFile true (Text ("add_subdirectory(common)" ++ Py.nl)))
            ("add_subdirectory(common)" ++ Py.nl)
            (mkState sample_project [] [])
            eq_refl V eq_refl eq_refl eq_refl eq_refl _ eq_refl eq_refl
            (or_intror eq_refl)).
  intros g H. vm_compute in H. discriminate H.
Defined.

(** X16. How a creation ends.  With a non-empty identifier on the command
    line, in a tree where the names of a directory are distinct, the
    script ends with status 0 or 1, and with 0 exactly under the
    conditions above. *)
Theorem main_create_status (a : args) (mid : string) (st : state) :
  module_id a = Some mid -> mid <> EmptyString -> Fs.wf (fs st) = true ->
  (exit_status (fst (main a st)) = 0 \/ exit_status (fst (main a st)) = 1)
  /\ (exit_status (fst (main a st)) = 0
      <-> well_formed_id mid
          /\ (exists tes,
                 Fs.resolve template_dir (fs st) = Some (Dir tes)
                 /\ forall g, Fs.lookup (mid ++ "-rnbo") tes <> Some (File g))
          /\ (exists es, Fs.resolve modules_dir (fs st) = Some (Dir es))
          /\ Fs.resolve (modules_dir ++ [mid]) (fs st) = None
          /\ exists f c,
               Fs.file_at cmake_file (fs st) = Some f /\ data f = Text c
               /\ (Py.contains (directive mid) c = true \/ writable f = true)).
Proof.
  intros Ha Hne W.
  set (Good :=
         well_formed_id mid
         /\ (exists tes,
                Fs.resolve template_dir (fs st) = Some (Dir tes)
                /\ forall g, Fs.lookup (mid ++ "-rnbo") tes <> Some (File g))
         /\ (exists es, Fs.resolve modules_dir (fs st) = Some (Dir es))
         /\ Fs.resolve (modules_dir ++ [mid]) (fs st) = None
         /\ exists f c,
              Fs.file_at cmake_file (fs st) = Some f /\ data f = Text c
              /\ (Py.contains (directive mid) c = true \/ writable f = true)).
  assert (Back : Good -> exit_status (fst (main a st)) = 0).
  { intros (V & (tes & Rt & Hrnbo) & (es & Rm) & Rx & f & c & Hf & D & Hw).
    destruct (main_create_run a mid tes es f c st Ha V Rt
                (wf_resolve _ _ _ W Rt) Rm Rx Hrnbo Hf D Hw)
      as (n & st' & E & _).
    now rewrite E. }
  assert (Bad : ~ Good ->
                forall e s, main a st = (Raise e, s) ->
                            exit_status (@Raise unit e) = 1 ->
                (exit_status (fst (main a st)) = 0
                 \/ exit_status (fst (main a st)) = 1)
                /\ (exit_status (fst (main a st)) = 0 <-> Good)).
  { intros NG e s E X. rewrite E. cbn [fst]. rewrite X.
    split; [now right |]. split; [discriminate | intros G; now destruct NG]. }
  destruct (Fs.resolve template_dir (fs st)) as [t |] eqn:Rt.
  2:{ eapply Bad.
      - intros (_ & (tes & H & _) & _). discriminate H.
      - unfold main. erewrite bind_run by reflexivity.
        unfold Fs.exists_. rewrite Rt. reflexivity.
      - reflexivity. }
  destruct (Fs.resolve modules_dir (fs st)) as [md |] eqn:Rm.
  2:{ eapply Bad.
      - intros (_ & _ & (es & H) & _). discriminate H.
      - unfold main. erewrite bind_run by reflexivity.
        unfold Fs.exists_. rewrite Rt. cbn [negb].
        erewrite bind_run by reflexivity.
        unfold Fs.exists_. rewrite Rm. reflexivity.
      - reflexivity. }
  assert (Open : main a st
                 = (substitutions <- collect_module_info a ;;
                    module_id <- dict_get "__MOD__" substitutions ;;
                    copy_and_substitute template_dir (modules_dir ++ [module_id])
                      substitutions ;;
                    update_modules_cmake modules_dir module_id ;;
                    print_next_steps module_id) st).
  { unfold main. erewrite bind_run by reflexivity.
    unfold Fs.exists_. rewrite Rt. cbn [negb].
    erewrite bind_run by reflexivity.
    unfold Fs.exists_. rewrite Rm. reflexivity. }
  destruct (collect_module_info_run a mid st Ha Hne) as (b & ms & Ec & Hb).
  destruct b.
  2:{ eapply Bad.
      - intros (V & _). apply Hb in V. discriminate V.
      - rewrite Open. erewrite bind_raise by exact Ec. reflexivity.
      - reflexivity. }
  pose proof (proj1 Hb eq_refl) as V.
  set (s1 := mkState (fs st) (stdin st) (trace st ++ map Print ms)) in *.
  assert (Hmod : forall s, dict_get "__MOD__" (mapping_of a mid) s
                           = (Return mid, s)) by reflexivity.
  assert (Open2 : main a st
                  = (copy_and_substitute template_dir (modules_dir ++ [mid])
                       (mapping_of a mid) ;;
                     update_modules_cmake modules_dir mid ;;
                     print_next_steps mid) s1).
  { rewrite Open. erewrite bind_run by exact Ec.
    erewrite bind_run by reflexivity. reflexivity. }
  assert (Fail :
            Fs.resolve (modules_dir ++ [mid]) (fs s1) <> None
            \/ (forall tes, Fs.resolve template_dir (fs s1) <> Some (Dir tes))
            \/ (exists f, Fs.resolve modules_dir (fs s1) = Some (File f))
            \/ (exists tes f, Fs.resolve template_dir (fs s1) = Some (Dir tes)
                              /\ Fs.lookup (mid ++ "-rnbo") tes = Some (File f)) ->
            exists e s, main a st = (Raise e, s)
                        /\ exit_status (@Raise unit e) = 1).
  { intros F.
    destruct (copy_and_substitute_fails template_dir modules_dir mid
                (mapping_of a mid) mid s1 Hmod F) as (e & s' & E & X).
    exists e, s'. rewrite Open2. erewrite bind_raise by exact E. now split. }
  cbn [fs s1] in Fail.
  destruct (Fs.resolve (modules_dir ++ [mid]) (fs st)) as [n |] eqn:Rx.
  { destruct Fail as (e & s & E & X); [left; discriminate |].
    eapply Bad; [| exact E | exact X].
    intros (_ & _ & _ & H & _). discriminate H. }
  destruct t as [f | tes].
  { destruct Fail as (e & s & E & X);
      [right; left; intros tes; rewrite Rt; discriminate |].
    eapply Bad; [| exact E | exact X].
    intros (_ & (tes & H & _) & _). discriminate H. }
  destruct md as [f | pes].
  { destruct Fail as (e & s & E & X); [right; right; left; now exists f |].
    eapply Bad; [| exact E | exact X].
    intros (_ & _ & (es & H) & _). discriminate H. }
  destruct (Fs.lookup (mid ++ "-rnbo") tes) as [[f | d] |] eqn:L.
  { destruct Fail as (e & s & E & X);
      [right; right; right; now exists tes, f |].
    eapply Bad; [| exact E | exact X].
    intros (_ & (tes' & H & Hn) & _). injection H as <-. now apply (Hn f). }
  all: clear Fail.
  all: assert (Hrnbo : forall g, Fs.lookup (mid ++ "-rnbo") tes <> Some (File g))
         by (intros g; rewrite L; discriminate).
  all: destruct (copy_and_substitute_run template_dir modules_dir mid
                   (mapping_of a mid) mid tes pes s1 Rt
                   (wf_resolve _ _ _ W Rt) Rm Rx Hmod Hrnbo)
         as (s3 & E3 & _ & _ & Frame & _);
       pose proof (Frame "CMakeLists.txt" [] (well_formed_id_not_registry _ V))
         as Fc; cbn [fs s1] in Fc; fold cmake_file in Fc.
  all: destruct (Fs.file_at cmake_file (fs st)) as [f |] eqn:Hf;
       [destruct (data f) as [c | raw] eqn:D;
        [destruct (Py.contains (directive mid) c) eqn:Cc;
         [| destruct (writable f) eqn:Wf] |] |].
  all: try (assert (G : Good);
            [ split; [exact V |];
              split; [exists tes; split; [reflexivity | exact Hrnbo] |];
              split; [exists pes; reflexivity |];
              split; [reflexivity |];
              exists f, c; split; [reflexivity |]; split; [exact D |];
              (left; exact Cc) || (right; exact Wf)
            | split; [left; exact (Back G) |];
              split; [intros _; exact G | intros _; exact (Back G)] ]).
  all: try (destruct (update_modules_cmake_fails modules_dir mid s3)
              as (e & s' & E & X);
            [intros f' c' H; fold cmake_file in H; congruence |];
            eapply Bad;
            [| rewrite Open2; erewrite bind_run by exact E3;
               erewrite bind_raise by exact E; reflexivity
             | exact X];
            intros (_ & _ & _ & _ & f' & c' & H1 & H2 & _); congruence).
  all: pose proof (update_modules_cmake_text modules_dir mid f c s3 Fc D) as Eu;
       fold cmake_file in Eu; rewrite Cc, Wf in Eu.
  all: eapply Bad;
       [| rewrite Open2; erewrite bind_run by exact E3;
          erewrite bind_raise by exact Eu; reflexivity
        | reflexivity].
  all: intros (_ & _ & _ & _ & f' & c' & H1 & H2 & [H3 | H3]);
       assert (f' = f) by congruence; subst f';
       assert (c' = c) by congruence; subst c'; congruence.
Qed.

Lemma main_create_status_witness :
  exit_status (fst (main (only_id "TEST") (mkState sample_project [] []))) = 0
  /\ exit_status (fst (main (only_id "common") (mkState sample_project [] [])))
     = 1.
Proof.
  assert (Hn : "TEST" <> EmptyString) by discriminate.
  assert (Hc : "common" <> EmptyString) by discriminate.
  destruct (main_create_status (only_id "TEST") "TEST"
              (mkState sample_project [] []) eq_refl Hn eq_refl)
    as (_ & Zero).
  destruct (main_create_status (only_id "common") "common"
              (mkState sample_project [] []) eq_refl Hc eq_refl)
    as ([Z | One] & Zero').
  - apply Zero' in Z. destruct Z as ((Z & _) & _). discriminate Z.
  - split; [| exact One]. apply Zero.
    split.
    { apply (validate_module_id_true "TEST" (mkState (Dir []) [] [])).
      reflexivity. }
    split.
    { eexists. split; [reflexivity |]. intros g H. vm_compute in H.
      discriminate H. }
    split; [eexists; reflexivity |].
    split; [reflexivity |].
    eexists. eexists. split; [reflexivity |]. split; [reflexivity |].
    now right.
Defined.

End Created.

(** ** Creation, then removal *)

Section RoundTrip.

Lemma remove_entry_absent x es :
  Fs.lookup x es = None -> Fs.remove_entry x es = es.
Proof.
  unfold Fs.remove_entry.
  induction es as [| [y m] es IH]; cbn [Fs.lookup filter fst]; [reflexivity |].
  destruct (String.eqb y x); [discriminate |]. intros H. cbn [negb].
  now rewrite IH.
Qed.

Lemma remove_entry_set_entry x n es :
  Fs.lookup x es = None -> Fs.remove_entry x (Fs.set_entry x n es) = es.
Proof.
  intros H. rewrite (set_entry_absent _ _ _ H). unfold Fs.remove_entry.
  rewrite filter_app. cbn [filter fst]. rewrite String.eqb_refl. cbn [negb].
  rewrite app_nil_r. now apply remove_entry_absent.
Qed.

(** Unlinking what has just been bound at a new name gives the tree
    back. *)
Lemma delete_put_new parent x n root :
  (exists es, Fs.resolve parent root = Some (Dir es)) ->
  Fs.resolve (parent ++ [x]) root = None ->
  Fs.delete (parent ++ [x]) (Fs.put (parent ++ [x]) n root) = root.
Proof.
  revert root. induction parent as [| y parent IH]; intros root (es & Hp) Hx.
  - injection Hp as ->. cbn [app Fs.put Fs.delete]. f_equal.
    apply remove_entry_set_entry.
    cbn [app] in Hx. rewrite resolve_cons in Hx.
    now destruct (Fs.lookup x es).
  - destruct root as [f | es0]; [discriminate Hp |].
    rewrite resolve_cons in Hp.
    destruct (Fs.lookup y es0) as [m |] eqn:L; [| discriminate Hp].
    change ((y :: parent) ++ [x]) with (y :: (parent ++ [x])) in *.
    rewrite resolve_cons, L in Hx.
    rewrite put_inner by apply snoc_not_nil.
    rewrite delete_inner by apply snoc_not_nil.
    rewrite update_entry_twice. f_equal.
    apply (update_entry_same _ _ m); [exact L |].
    apply IH; [now exists es | exact Hx].
Qed.

(** X17. Creation, then removal.  In a project where createModule.py succeeds
    for the identifier, and whose registry file has no carriage return, is
    empty or ends with a newline, does not mention the directive and can
    be written, a forced removeModule.py of the module just created that
    ends with status 0 has read no input and has left the project tree
    exactly as it was before the creation. *)
Theorem create_then_remove_restores (a : CreateModule.args) (mid : string)
  (tes es : Fs.entries) (c : string) (st : state) :
  CreateModule.module_id a = Some mid -> well_formed_id mid ->
  Fs.resolve CreateModule.template_dir (fs st) = Some (Dir tes) ->
  Fs.wf (Dir tes) = true ->
  Fs.resolve modules_dir (fs st) = Some (Dir es) ->
  Fs.resolve (modules_dir ++ [mid]) (fs st) = None ->
  (forall g, Fs.lookup (mid ++ "-rnbo") tes <> Some (File g)) ->
  Fs.file_at cmake_file (fs st) = Some (mkFile true (Text c)) ->
  no_carriage_return c ->
  Py.contains (directive mid) c = false ->
  c = EmptyString \/ ends_with_newline c ->
  let created := CreateModule.main a st in
  let removed :=
    RemoveModule.main (RemoveModule.mkArgs (Some mid) true false)
      (snd created) in
  exit_status (fst created) = 0
  /\ (exit_status (fst removed) = 0 ->
      stdin (snd removed) = stdin st /\ fs (snd removed) = fs st).
Proof.
  intros Ha V Rt Wt Rm Rx Hrnbo Hf _ Hno Hend created removed.
  pose proof (well_formed_id_not_empty _ V) as Hne.
  destruct (main_create_run a mid tes es _ c st Ha V Rt Wt Rm Rx Hrnbo Hf
              eq_refl (or_intror eq_refl))
    as (n & s1 & E1 & S1 & F1 & _ & Kn & _).
  rewrite Hno in F1.
  unfold removed, created. rewrite E1. cbn [fst snd exit_status].
  split; [reflexivity |].
  set (target := modules_dir ++ [mid]) in *.
  set (fs0 := Fs.put target n (fs st)) in *.
  (* the tree between the two runs *)
  assert (Rc0 : Fs.resolve cmake_file fs0 = Some (File (mkFile true (Text c)))).
  { unfold fs0, target, cmake_file.
    rewrite (resolve_put_apart modules_dir mid "CMakeLists.txt" [] [])
      by (intros H; symmetry in H; now apply (well_formed_id_not_registry _ V)).
    now apply file_at_resolve. }
  assert (Rc1 : Fs.resolve cmake_file (fs s1)
                = Some (File (mkFile true
                                (Text (c ++ (directive mid ++ Py.nl)))))).
  { rewrite F1. apply (resolve_put_same _ _ _ _ Rc0). }
  assert (Rt0 : Fs.resolve target fs0 = Some n)
    by apply (resolve_put_child _ _ _ _ _ Rm).
  assert (Rt1 : Fs.resolve target (fs s1) = Some n).
  { rewrite F1. unfold target, cmake_file.
    rewrite (resolve_put_apart modules_dir "CMakeLists.txt" mid [] [])
      by now apply (well_formed_id_not_registry _ V).
    exact Rt0. }
  assert (Rm1 : exists es1, Fs.resolve modules_dir (fs s1) = Some (Dir es1)).
  { unfold target in Rt1. rewrite resolve_app in Rt1.
    destruct (Fs.resolve modules_dir (fs s1)) as [[g | es1] |];
      try discriminate Rt1.
    now exists es1. }
  destruct Rm1 as (es1 & Rm1).
  destruct (main_remove_run (RemoveModule.mkArgs (Some mid) true false)
              mid es1 n s1 s1 eq_refl Hne eq_refl Rm1 Rt1 eq_refl)
    as (b1 & s2 & E2 & Main).
  rewrite Main. clear Main.
  rewrite remove_from_cmake_eq in E2. cbn [fs stdin trace] in E2.
  rewrite Rc1 in E2. cbn [data writable] in E2.
  rewrite (has_line_after_addition _ _ Hend (well_formed_id_no_newline _ V))
    in E2.
  pose proof (f_equal fst E2) as Eb. pose proof (f_equal snd E2) as Es.
  cbn [fst snd] in Eb, Es. clear E2. injection Eb as <-. subst s2.
  rewrite Kn. cbn [andb fst snd fs stdin exit_status].
  intros _. split; [exact S1 |].
  rewrite F1, put_put.
  rewrite (other_lines_added _ _ Hno Hend (well_formed_id_no_newline _ V)).
  rewrite (put_same_node _ _ _ Rc0).
  apply delete_put_new; [now exists es | exact Rx].
Qed.

Lemma create_then_remove_restores_witness :
  let created := CreateModule.main (only_id "TEST")
                   (mkState sample_project [] []) in
  let removed :=
    RemoveModule.main (RemoveModule.mkArgs (Some "TEST") true false)
      (snd created) in
  exit_status (fst created) = 0
  /\ exit_status (fst removed) = 0
  /\ stdin (snd removed) = []
  /\ fs (snd removed) = sample_project.
Proof.
  assert (V : well_formed_id "TEST").
  { apply (validate_module_id_true "TEST" (mkState (Dir []) [] [])).
    reflexivity. }
  assert (Hrnbo : forall g,
             Fs.lookup ("TEST" ++ "-rnbo")
               [("CMakeLists.txt",
                 File (mkFile true (Text "project(__MOD__) # __NAME__")))]
             <> Some (File g)).
  { intros g H. vm_compute in H. discriminate H. }
  assert (Hend : ("add_subdirectory(common)" ++ Py.nl)%string = EmptyString
                 \/ ends_with_newline ("add_subdirectory(common)" ++ Py.nl)).
  { right. now exists "add_subdirectory(common)". }
  destruct (create_then_remove_restores (only_id "TEST") "TEST" _ _
              ("add_subdirectory(common)" ++ Py.nl)
              (mkState sample_project [] [])
              eq_refl V eq_refl eq_refl eq_refl eq_refl Hrnbo eq_refl eq_refl
              eq_refl Hend) as (Hc & Hr).
  assert (Z : exit_status
                (fst (RemoveModule.main
                        (RemoveModule.mkArgs (Some "TEST") true false)
                        (snd (CreateModule.main (only_id "TEST")
                                (mkState sample_project [] []))))) = 0)
    by (vm_compute; reflexivity).
  destruct (Hr Z) as (Hin & Hfs).
  split; [exact Hc |]. split; [exact Z |]. split; [exact Hin | exact Hfs].
Defined.

End RoundTrip.

(** ** How the steps of a creation fail *)

Section CreationFails.

Import CreateModule.

(** X18. [validate_module_id] raises nothing, reads nothing and changes no
    file.  It says nothing when it accepts and nothing about the empty
    string; every other rejection is explained by one message, and a
    string of the wrong length is told its length before anything else is
    looked at. *)
Theorem validate_module_id_reports (s : string) (st : state) :
  exists (b : bool) (ms : list message),
    validate_module_id s st
    = (Return b, mkState (fs st) (stdin st) (trace st ++ map Print ms))
    /\ (ms = [] <-> s = EmptyString \/ b = true)
    /\ List.length ms <= 1
    /\ (s <> EmptyString -> String.length s <> 4 ->
        ms = [Err_id_length (String.length s)]).
Proof.
  unfold validate_module_id.
  destruct (String.eqb s "") eqn:E0.
  { apply String.eqb_eq in E0. exists false, []. cbn [map].
    rewrite app_nil_r, state_eta.
    split; [reflexivity |]. split; [split; auto |]. split; [auto |].
    intros H. now destruct H. }
  apply String.eqb_neq in E0.
  destruct (Nat.eqb (String.length s) 4) eqn:E4; cbn [negb].
  2:{ exists false, [Err_id_length (String.length s)].
      split; [reflexivity |].
      split; [split; [discriminate | intros [H | H]; [now destruct E0 | discriminate H]] |].
      split; [auto |]. reflexivity. }
  apply Nat.eqb_eq in E4.
  destruct (Py.str_isalnum s); cbn [negb].
  2:{ exists false, [Err_id_not_alnum]. split; [reflexivity |].
      split; [split; [discriminate | intros [H | H]; [now destruct E0 | discriminate H]] |].
      split; [auto |]. intros _ H. now destruct H. }
  destruct s as [| c0 r0]; [now destruct E0 |]. cbn [String.get].
  destruct (Py.isalpha c0); cbn [negb].
  2:{ exists false, [Err_id_first_not_letter]. split; [reflexivity |].
      split; [split; [discriminate | intros [H | H]; [now destruct E0 | discriminate H]] |].
      split; [auto |]. intros _ H. now destruct H. }
  destruct (Py.is_own_upper (String c0 r0)); cbn [negb].
  2:{ exists false, [Err_id_not_uppercase]. split; [reflexivity |].
      split; [split; [discriminate | intros [H | H]; [now destruct E0 | discriminate H]] |].
      split; [auto |]. intros _ H. now destruct H. }
  exists true, []. cbn [map]. rewrite app_nil_r, state_eta.
  split; [reflexivity |]. split; [split; auto |]. split; [auto |].
  intros _ H. now destruct H.
Qed.

(** X19. How [update_modules_cmake] ends: with status 0 exactly when the
    registry file is a text file that mentions the directive or can be
    written, with status 1 otherwise, and then with the tree as it was.
    It reads no input. *)
Theorem update_modules_cmake_status (dir : path) (module_id : string)
  (st : state) :
  let r := update_modules_cmake dir module_id st in
  (exit_status (fst r) = 0 \/ exit_status (fst r) = 1)
  /\ (exit_status (fst r) = 0
      <-> exists f c,
            Fs.file_at (dir ++ ["CMakeLists.txt"]) (fs st) = Some f
            /\ data f = Text c
            /\ (Py.contains (directive module_id) c = true
                \/ writable f = true))
  /\ (exit_status (fst r) = 1 -> fs (snd r) = fs st)
  /\ stdin (snd r) = stdin st.
Proof.
  cbv zeta.
  destruct (Fs.resolve (dir ++ ["CMakeLists.txt"]) (fs st)) as [[f | es] |] eqn:R.
  - assert (Hf : Fs.file_at (dir ++ ["CMakeLists.txt"]) (fs st) = Some f)
      by now apply file_at_resolve.
    destruct (data f) as [c | raw] eqn:D.
    + rewrite (update_modules_cmake_text _ _ _ _ _ Hf D).
      destruct (Py.contains (directive module_id) c) eqn:Cc;
        [| destruct (writable f) eqn:Wf]; cbn [fst snd fs stdin exit_status].
      * split; [now left |]. split; [| split; [discriminate | reflexivity]].
        split; [intros _; exists f, c; auto | reflexivity].
      * split; [now left |]. split; [| split; [discriminate | reflexivity]].
        split; [intros _; exists f, c; auto | reflexivity].
      * split; [now right |]. split; [| split; reflexivity].
        split; [discriminate |].
        intros (f' & c' & H1 & H2 & [H3 | H3]);
          assert (f' = f) by congruence; subst f';
          assert (c' = c) by congruence; subst c'; congruence.
    + assert (E : update_modules_cmake dir module_id st
                  = (Raise UnicodeDecodeError, st)).
      { unfold update_modules_cmake. cbv zeta.
        erewrite bind_run by reflexivity. unfold Fs.exists_. rewrite R.
        cbn [negb]. erewrite bind_raise; [reflexivity |].
        unfold Io.read_text. run_cmd. now rewrite R, D. }
      rewrite E. cbn [fst snd exit_status].
      split; [now right |]. split; [| split; reflexivity].
      split; [discriminate |]. intros (f' & c' & H1 & H2 & _). congruence.
  - assert (E : update_modules_cmake dir module_id st = (Raise OSError, st)).
    { unfold update_modules_cmake. cbv zeta.
      erewrite bind_run by reflexivity. unfold Fs.exists_. rewrite R.
      cbn [negb]. erewrite bind_raise; [reflexivity |].
      unfold Io.read_text. run_cmd. now rewrite R. }
    rewrite E. cbn [fst snd exit_status].
    split; [now right |]. split; [| split; reflexivity].
    split; [discriminate |]. intros (f' & c' & H1 & _).
    apply file_at_resolve in H1. congruence.
  - assert (E : update_modules_cmake dir module_id st
                = (Raise (SystemExit 1),
                   mkState (fs st) (stdin st)
                     (trace st
                      ++ [Print (Err_cmake_not_found (dir ++ ["CMakeLists.txt"]))]))).
    { unfold update_modules_cmake. cbv zeta.
      erewrite bind_run by reflexivity. unfold Fs.exists_. rewrite R.
      reflexivity. }
    rewrite E. cbn [fst snd fs stdin exit_status].
    split; [now right |]. split; [| split; reflexivity].
    split; [discriminate |]. intros (f' & c' & H1 & _).
    apply file_at_resolve in H1. congruence.
Qed.

(** X20. A mapping without the key __MOD__.  [copy_and_substitute] finds the
    key missing only after it has copied the template: KeyError is raised
    with the copy in place, not substituted and without its export
    directory. *)
Theorem copy_and_substitute_missing_key (template parent : path) (x : string)
  (substitutions : dict) (tes pes : Fs.entries) (st : state) :
  ~ In "__MOD__" (map fst substitutions) ->
  Fs.resolve template (fs st) = Some (Dir tes) ->
  Fs.resolve parent (fs st) = Some (Dir pes) ->
  Fs.resolve (parent ++ [x]) (fs st) = None ->
  copy_and_substitute template (parent ++ [x]) substitutions st
  = (Raise KeyError,
     mkState (Fs.put (parent ++ [x]) (Dir tes) (fs st)) (stdin st)
       (trace st ++ [Print (Copying_template template (parent ++ [x]));
                     Copied template (parent ++ [x])])).
Proof.
  intros Hk Ht Hp Hx. unfold copy_and_substitute.
  erewrite bind_run by reflexivity. unfold Fs.exists_. rewrite Hx.
  erewrite bind_run by reflexivity. cbn [fs stdin trace].
  erewrite bind_run.
  2:{ unfold Io.copytree. run_cmd. rewrite Ht, Hx.
      unfold Fs.parent. rewrite removelast_last.
      rewrite (makedirs_dir _ _ _ Hp). reflexivity. }
  cbn [fs stdin trace].
  assert (Hget : forall s, dict_get "__MOD__" substitutions s
                           = (Raise KeyError, s)).
  { clear - Hk. intros s.
    induction substitutions as [| [k v] d IH]; [reflexivity |].
    cbn [dict_get]. cbn [map fst In] in Hk.
    destruct (String.eqb k "__MOD__") eqn:E.
    - apply String.eqb_eq in E. destruct Hk. now left.
    - apply IH. intros H. apply Hk. now right. }
  erewrite bind_raise by apply Hget. now rewrite <- app_assoc.
Qed.

Lemma copy_and_substitute_missing_key_witness :
  copy_and_substitute template_dir (modules_dir ++ ["TEST"])
    [("__NAME__", "Test")] (mkState sample_project [] [])
  = (Raise KeyError,
     mkState
       (Fs.put (modules_dir ++ ["TEST"])
          (Dir [("CMakeLists.txt",
                 File (mkFile true (Text "project(__MOD__) # __NAME__")));
                ("icon.png", File (mkFile true (Binary [x89; x50])));
                ("LICENSE", File (mkFile false (Text "(c) __AUTHOR__")))])
          sample_project)
       []
       [Print (Copying_template template_dir (modules_dir ++ ["TEST"]));
        Copied template_dir (modules_dir ++ ["TEST"])]).
Proof.
  refine (copy_and_substitute_missing_key template_dir modules_dir "TEST"
            [("__NAME__", "Test")] _ _ (mkState sample_project [] [])
            _ eq_refl eq_refl eq_refl).
  intros [H | []]. discriminate H.
Defined.

End CreationFails.

(** * The scripts that run the two scripts *)

(** ** Commands of the calling scripts *)

Section Calls.

Import Drv.
Local Open Scope drv_scope.

Lemma call_run {A B} (c : D A) (k : A -> D B) (w w' : world) (a : A) :
  c w = (Return a, w') -> bind c k w = k a w'.
Proof. intros H. unfold bind. now rewrite H. Qed.

Lemma call_raise {A B} (c : D A) (k : A -> D B) (w w' : world) (e : exn) :
  c w = (Raise e, w') -> bind c k w = (Raise e, w').
Proof. intros H. unfold bind. now rewrite H. Qed.

Lemma quiet_call_ret {A} (a : A) : quiet_call (ret a).
Proof.
  intros w r w' H. injection H as _ <-. split; [reflexivity | now exists []].
Qed.

Lemma quiet_call_raise {A} (e : exn) : quiet_call (@raise A e).
Proof.
  intros w r w' H. injection H as _ <-. split; [reflexivity | now exists []].
Qed.

Lemma quiet_call_print (m : message) : quiet_call (print m).
Proof.
  intros w r w' H. injection H as _ <-. split; [reflexivity | now exists []].
Qed.

Lemma quiet_call_bind {A B} (c : D A) (k : A -> D B) :
  quiet_call c -> (forall a, quiet_call (k a)) -> quiet_call (bind c k).
Proof.
  intros Hc Hk w r w' H. unfold bind in H.
  destruct (c w) as [[a | e] w1] eqn:E.
  - destruct (Hc _ _ _ E) as (F1 & t1 & S1).
    destruct (Hk a _ _ _ H) as (F2 & t2 & S2).
    split; [congruence |]. exists (t1 ++ t2). rewrite S1, S2.
    now rewrite app_assoc.
  - injection H as _ <-. apply (Hc _ _ _ E).
Qed.

Lemma quiet_call_lift {A} (c : M A) : quiet c -> quiet_call (lift c).
Proof.
  intros Hc w r w' H. unfold lift in H.
  destruct (c (inner w)) as [r0 st] eqn:E. injection H as _ <-.
  apply (Hc _ _ _ E).
Qed.

Lemma quiet_call_input (n : nat) : quiet_call (input n).
Proof.
  intros w r w' H. unfold input in H.
  destruct (stdin (inner w)) as [| l ls] eqn:S; injection H as _ <-;
    cbn [inner fs stdin].
  - split; [reflexivity | exists []; now rewrite S].
  - split; [reflexivity | now exists [l]].
Qed.

Lemma quiet_call_while_true {A} (body : D (option A)) :
  quiet_call body -> quiet_call (while_true body).
Proof.
  intros Hb.
  assert (Hn : forall n, quiet_call (rounds n body)).
  { induction n as [| n IH]; cbn [rounds]; [apply quiet_call_raise |].
    apply quiet_call_bind; [exact Hb |].
    intros [a |]; [apply quiet_call_ret | exact IH]. }
  intros w r w' H. apply (Hn _ _ _ _ H).
Qed.

Lemma quiet_iterdir (p : path) : quiet (Io.iterdir p).
Proof.
  intros st r st' H. revert H. unfold Io.iterdir. run_cmd.
  destruct (Fs.resolve p (fs st)) as [[f | es] |]; intros H;
    injection H as _ <-; (split; [reflexivity | now exists []]).
Qed.

Lemma quiet_list_all (dir : path) : quiet (RemoveAll.list_available_modules dir).
Proof.
  unfold RemoveAll.list_available_modules.
  apply quiet_bind; [apply quiet_iterdir | intros items]. apply quiet_ret.
Qed.

Lemma quiet_call_confirm (modules : list string) (force : bool) :
  quiet_call (RemoveAll.confirm_removal modules force).
Proof.
  unfold RemoveAll.confirm_removal. destruct force; [apply quiet_call_ret |].
  destruct modules as [| m ms].
  { apply quiet_call_bind; [apply quiet_call_print | intros _].
    apply quiet_call_ret. }
  apply quiet_call_bind; [apply quiet_call_print | intros _].
  apply quiet_call_while_true.
  apply quiet_call_bind; [apply quiet_call_input | intros l]. cbv zeta.
  destruct (RemoveModule.name_in _ _); [apply quiet_call_ret |].
  destruct (RemoveModule.name_in _ _); [apply quiet_call_ret |].
  apply quiet_call_bind; [apply quiet_call_print | intros _].
  apply quiet_call_ret.
Qed.

(** The question of removeAll.py is only answered yes by a line that
    says yes. *)
Lemma confirm_all_yes (modules : list string) w w' :
  RemoveAll.confirm_removal modules false w = (Return true, w') ->
  exists l, In l (stdin (inner w)) /\ answer l = Some true.
Proof.
  unfold RemoveAll.confirm_removal. destruct modules as [| m ms].
  { unfold bind, print, ret. discriminate. }
  unfold bind at 1. unfold print at 1. unfold while_true. cbn [inner].
  generalize (S (List.length (stdin (inner w)))).
  generalize (said w ++ [Print (Warn_delete_all (m :: ms))]).
  destruct w as [st sd]. cbn [inner said]. intros sd' n.
  revert st sd'. induction n as [| n IH]; intros st sd' H; [discriminate H |].
  cbn [rounds] in H. unfold bind at 1 in H. unfold bind at 1 in H.
  unfold input in H. cbn [inner said] in H.
  destruct (stdin st) as [| l ls] eqn:Hs; [discriminate H |].
  cbv zeta in H. unfold answer.
  destruct (RemoveModule.name_in (Py.lower (Py.strip l)) ["yes"; "y"]) eqn:Y.
  { exists l. split; [now left |]. cbv zeta. now rewrite Y. }
  destruct (RemoveModule.name_in (Py.lower (Py.strip l)) ["no"; "n"]) eqn:N.
  { discriminate H. }
  unfold bind at 1 in H. unfold print at 1 in H. cbn [inner said] in H.
  unfold ret at 1 in H.
  destruct (IH _ _ H) as (l' & Hin & Hl'). cbn [stdin] in Hin.
  exists l'. split; [now right | exact Hl'].
Qed.

(** X21. Nothing is removed without consent.  Without the force flag, when no
    line of the input says yes, removeAll.py leaves the project tree
    exactly as it found it, whatever its child processes would do. *)
Theorem remove_all_needs_consent
  (spawn : path -> list string -> M (nat * string))
  (a : RemoveAll.args) (w : world) :
  RemoveAll.force a = false ->
  (forall l, In l (stdin (inner w)) -> answer l <> Some true) ->
  fs (inner (snd (RemoveAll.main spawn a w))) = fs (inner w).
Proof.
  intros Hf Hno. unfold RemoveAll.main.
  unfold bind at 1.
  destruct (lift (Io.path_exists modules_dir) w) as [[m | e] w1] eqn:E1;
    destruct (quiet_call_lift _ (quiet_path_exists _) _ _ _ E1)
      as (F1 & t1 & S1); [| exact F1].
  destruct m; cbn [negb]; [| exact F1].
  unfold bind at 1.
  destruct (lift (RemoveAll.list_available_modules modules_dir) w1)
    as [[available | e] w2] eqn:E2;
    destruct (quiet_call_lift _ (quiet_list_all _) _ _ _ E2)
      as (F2 & t2 & S2); [| cbn [snd]; congruence].
  destruct available as [| m0 ms]; [cbn; congruence |].
  unfold bind at 1. rewrite Hf.
  destruct (RemoveAll.confirm_removal (m0 :: ms) false w2)
    as [[go | e] w3] eqn:E3;
    destruct (quiet_call_confirm _ _ _ _ _ E3) as (F3 & t3 & S3);
    [| cbn [snd]; congruence].
  destruct go; cbn [negb]; [| cbn; congruence].
  exfalso. destruct (confirm_all_yes _ _ _ E3) as (l & Hin & Hl).
  apply (Hno l); [| exact Hl].
  rewrite S1, S2. apply in_or_app. right. apply in_or_app. now right.
Qed.

Lemma remove_all_needs_consent_witness :
  fs (inner (snd (RemoveAll.main
                    (fun _ _ st => (Return (0, ""), mkState (Dir []) [] []))
                    (RemoveAll.mkArgs false)
                    (mkWorld
                       (mkState
                          (Fs.put (modules_dir ++ ["TEST"]) (Dir [])
                             sample_project)
                          ["maybe"; "NO"] [])
                       []))))
  = Fs.put (modules_dir ++ ["TEST"]) (Dir []) sample_project.
Proof.
  apply (remove_all_needs_consent
           (fun _ _ st => (Return (0, ""), mkState (Dir []) [] []))
           (RemoveAll.mkArgs false)
           (mkWorld
              (mkState
                 (Fs.put (modules_dir ++ ["TEST"]) (Dir []) sample_project)
                 ["maybe"; "NO"] [])
              [])).
  - reflexivity.
  - intros l [<- | [<- | []]]; discriminate.
Defined.

End Calls.

(** ** removeAll.py with removeModule.py for its child *)

Section RemoveAllRuns.

Import Drv.
Local Open Scope drv_scope.

Lemma plain_name_not_empty (m : string) :
  plain_name m = true -> m <> EmptyString.
Proof. intros H ->. discriminate H. Qed.

(** One child: the registry step, then the directory. *)
Lemma forced_removal_child
  (spawn : path -> list string -> M (nat * string)) (m : string) (st : state) :
  spawns_remove_module spawn -> plain_name m = true ->
  option_map Fs.is_dir (Fs.resolve (modules_dir ++ [m]) (fs st)) = Some true ->
  exists err,
    spawn RemoveAll.remove_script [m; "--force"] st
    = (Return (if removable m (fs st) then 0 else 1, err),
       mkState (Fs.delete (modules_dir ++ [m]) (without_line m (fs st)))
               (stdin st) (trace st)).
Proof.
  intros Hs Hm Hd.
  destruct (Hs m Hm st) as (err & E). cbv zeta in E.
  exists err. rewrite E. clear E.
  set (started := mkState (fs st) (stdin st) []).
  destruct (Fs.resolve (modules_dir ++ [m]) (fs st)) as [n |] eqn:Rd;
    [| discriminate Hd].
  assert (Kn : Fs.is_dir n = true) by (cbn in Hd; congruence).
  assert (Rm : exists es, Fs.resolve modules_dir (fs st) = Some (Dir es)).
  { rewrite resolve_app in Rd.
    destruct (Fs.resolve modules_dir (fs st)) as [[g | es] |];
      try discriminate Rd.
    now exists es. }
  destruct Rm as (es & Rm).
  destruct (main_remove_run (RemoveModule.mkArgs (Some m) true false)
              m es n started started eq_refl (plain_name_not_empty _ Hm)
              eq_refl Rm Rd eq_refl)
    as (b1 & s1 & E1 & Main).
  rewrite Main. clear Main. rewrite Kn.
  rewrite remove_from_cmake_eq in E1. cbn [fs stdin trace started] in E1.
  unfold removable, without_line, Fs.file_at.
  destruct (Fs.resolve cmake_file (fs st)) as [[f | des] |];
    [destruct (data f) as [c | raw];
     [destruct (has_line_for m c); [destruct (writable f) |] |] | |].
  all: pose proof (f_equal fst E1) as Eb; pose proof (f_equal snd E1) as Es;
       cbn [fst snd] in Eb, Es; clear E1; injection Eb as <-; subst s1.
  all: reflexivity.
Qed.

(** The tree one child leaves. *)
Lemma without_line_cases (m : string) (root : node) :
  without_line m root = root
  \/ exists f c,
       Fs.resolve cmake_file root = Some (File f)
       /\ without_line m root
          = Fs.put cmake_file
              (File (mkFile true (Text (Py.writelines (other_lines m c))))) root.
Proof.
  unfold without_line, Fs.file_at.
  destruct (Fs.resolve cmake_file root) as [[f | des] |] eqn:R; auto.
  destruct (data f) as [c | raw]; auto.
  destruct (has_line_for m c && writable f); auto.
  right. now exists f, c.
Qed.

Lemma step_gone (m : string) (root : node) (q : path) :
  Fs.resolve ((modules_dir ++ [m]) ++ q)
    (Fs.delete (modules_dir ++ [m]) (without_line m root)) = None.
Proof.
  rewrite resolve_app, resolve_delete_same by apply snoc_not_nil. reflexivity.
Qed.

Lemma step_kinds (m y : string) (q : path) (root : node) :
  y <> m ->
  option_map Fs.is_dir
    (Fs.resolve (modules_dir ++ y :: q)
       (Fs.delete (modules_dir ++ [m]) (without_line m root)))
  = option_map Fs.is_dir (Fs.resolve (modules_dir ++ y :: q) root).
Proof.
  intros Hy. rewrite resolve_delete_apart by congruence.
  destruct (without_line_cases m root) as [-> | (f & c & R & ->)];
    [reflexivity |].
  apply (put_file_kind _ _ _ _ R).
Qed.

Lemma step_apart (m y : string) (q : path) (root : node) :
  y <> m -> y <> "CMakeLists.txt" ->
  Fs.resolve (modules_dir ++ y :: q)
    (Fs.delete (modules_dir ++ [m]) (without_line m root))
  = Fs.resolve (modules_dir ++ y :: q) root.
Proof.
  intros Hy Hc. rewrite resolve_delete_apart by congruence.
  destruct (without_line_cases m root) as [-> | (f & c & R & ->)];
    [reflexivity |].
  unfold cmake_file. now rewrite resolve_put_apart by congruence.
Qed.

Lemma step_outside (m : string) (q : path) (root : node) :
  diverge modules_dir q ->
  Fs.resolve q (Fs.delete (modules_dir ++ [m]) (without_line m root))
  = Fs.resolve q root.
Proof.
  intros Hq.
  rewrite (diverge_delete _ _ _ (diverge_below _ [m] _ Hq)).
  destruct (without_line_cases m root) as [-> | (f & c & R & ->)];
    [reflexivity |].
  apply (diverge_put _ _ _ _ (diverge_below _ ["CMakeLists.txt"] _ Hq)).
Qed.

(** *** The registry from one child to the next *)

Lemma directive_inj (m m' : string) : directive m = directive m' -> m = m'.
Proof.
  unfold directive. intros H. apply append_cancel_l in H.
  apply chars_inj. apply (f_equal list_ascii_of_string) in H.
  rewrite !chars_append in H. now apply app_inv_tail in H.
Qed.

Lemma is_line_for_one (m m' line : string) :
  is_line_for m line = true -> is_line_for m' line = true -> m = m'.
Proof.
  unfold is_line_for. intros H H'.
  apply String.eqb_eq in H. apply String.eqb_eq in H'.
  apply directive_inj. congruence.
Qed.

Lemma readlines_other_lines (m c : string) :
  Py.readlines (Py.writelines (other_lines m c)) = other_lines m c.
Proof.
  apply readlines_writelines, line_list_filter, readlines_line_list.
Qed.

Lemma has_line_other_lines (m m' c : string) :
  m <> m' ->
  has_line_for m' (Py.writelines (other_lines m c)) = has_line_for m' c.
Proof.
  intros Hm. unfold has_line_for. rewrite readlines_other_lines.
  unfold other_lines.
  induction (Py.readlines c) as [| l ls IH]; [reflexivity |].
  cbn [filter existsb].
  destruct (is_line_for m l) eqn:E; cbn [negb existsb].
  - rewrite IH. destruct (is_line_for m' l) eqn:E'; [| reflexivity].
    destruct Hm. now apply (is_line_for_one _ _ l).
  - now rewrite IH.
Qed.

Lemma lines_for_none_of_cons (m : string) (ms : list string) (c : string) :
  lines_for_none_of ms (Py.writelines (other_lines m c))
  = lines_for_none_of (m :: ms) c.
Proof.
  unfold lines_for_none_of. rewrite readlines_other_lines.
  unfold other_lines.
  induction (Py.readlines c) as [| l ls IH]; [reflexivity |].
  cbn [filter existsb].
  destruct (is_line_for m l); cbn [negb orb filter].
  - exact IH.
  - destruct (existsb (fun m0 => is_line_for m0 l) ms); cbn [negb];
      now rewrite IH.
Qed.

Lemma lines_for_none_of_nil (c : string) :
  Py.writelines (lines_for_none_of [] c) = c.
Proof.
  unfold lines_for_none_of.
  replace (filter (fun line => negb (existsb (fun m => is_line_for m line) []))
             (Py.readlines c)) with (Py.readlines c).
  - apply writelines_readlines.
  - induction (Py.readlines c) as [| l ls IH]; [reflexivity |].
    cbn [filter]. cbn [existsb negb] in *. now rewrite <- IH.
Qed.

(** A module directory is not the registry file. *)
Lemma module_dir_not_registry (m : string) (f : file) (root : node) :
  option_map Fs.is_dir (Fs.resolve (modules_dir ++ [m]) root) = Some true ->
  Fs.resolve cmake_file root = Some (File f) ->
  m <> "CMakeLists.txt".
Proof.
  intros Hd Hf ->. fold cmake_file in Hd. rewrite Hf in Hd. discriminate Hd.
Qed.

Lemma removable_step (m m' : string) (root : node) :
  m <> m' ->
  option_map Fs.is_dir (Fs.resolve (modules_dir ++ [m]) root) = Some true ->
  removable m' (Fs.delete (modules_dir ++ [m]) (without_line m root))
  = removable m' root.
Proof.
  intros Hm Hd. unfold removable, without_line, Fs.file_at.
  destruct (Fs.resolve cmake_file root) as [[f | des] |] eqn:R.
  - pose proof (module_dir_not_registry _ _ _ Hd R) as Hc.
    assert (Apart : forall r,
               Fs.resolve cmake_file (Fs.delete (modules_dir ++ [m]) r)
               = Fs.resolve cmake_file r).
    { intros r. unfold cmake_file.
      now rewrite (resolve_delete_apart modules_dir m "CMakeLists.txt" [] []). }
    rewrite Apart.
    destruct (data f) as [c | raw] eqn:D; [| now rewrite R, D].
    destruct (has_line_for m c) eqn:L; cbn [andb]; [| now rewrite R, D].
    destruct (writable f) eqn:W; [| now rewrite R, D, W].
    rewrite (resolve_put_same _ _ _ _ R). cbn [data writable].
    now rewrite (has_line_other_lines _ _ _ Hm).
  - destruct (String.eqb m "CMakeLists.txt") eqn:E.
    + apply String.eqb_eq in E. subst m. fold cmake_file in Hd.
      rewrite R in Hd. fold cmake_file.
      rewrite resolve_delete_same by discriminate. reflexivity.
    + apply String.eqb_neq in E. unfold cmake_file.
      rewrite (resolve_delete_apart modules_dir m "CMakeLists.txt" [] [])
        by exact E.
      fold cmake_file. now rewrite R.
  - destruct (String.eqb m "CMakeLists.txt") eqn:E.
    + apply String.eqb_eq in E. subst m. fold cmake_file in Hd.
      rewrite R in Hd. discriminate Hd.
    + apply String.eqb_neq in E. unfold cmake_file.
      rewrite (resolve_delete_apart modules_dir m "CMakeLists.txt" [] [])
        by exact E.
      fold cmake_file. now rewrite R.
Qed.

Lemma registry_step (m : string) (c : string) (root : node) :
  Fs.file_at cmake_file root = Some (mkFile true (Text c)) ->
  option_map Fs.is_dir (Fs.resolve (modules_dir ++ [m]) root) = Some true ->
  Fs.file_at cmake_file (Fs.delete (modules_dir ++ [m]) (without_line m root))
  = Some (mkFile true (Text (Py.writelines (other_lines m c)))).
Proof.
  intros Hf Hd. pose proof Hf as R. apply file_at_resolve in R.
  pose proof (module_dir_not_registry _ _ _ Hd R) as Hc.
  unfold Fs.file_at at 1. unfold cmake_file at 1.
  rewrite (resolve_delete_apart modules_dir m "CMakeLists.txt" [] [])
    by exact Hc.
  fold cmake_file. unfold without_line. rewrite Hf. cbn [data writable].
  rewrite andb_true_r. destruct (has_line_for m c) eqn:L.
  - now rewrite (resolve_put_same _ _ _ _ R).
  - rewrite R. rewrite (other_lines_all _ _ L).
    now rewrite writelines_readlines.
Qed.

(** *** The loop over the modules *)

Lemma remove_each_run (spawn : path -> list string -> M (nat * string)) :
  spawns_remove_module spawn ->
  forall (ms : list string) (k : nat) (w : world),
    NoDup ms -> forallb plain_name ms = true ->
    (forall m, In m ms ->
               option_map Fs.is_dir
                 (Fs.resolve (modules_dir ++ [m]) (fs (inner w))) = Some true) ->
    exists w',
      RemoveAll.remove_each spawn ms k w
      = (Return (k + List.length
                       (filter (fun m => removable m (fs (inner w))) ms)), w')
      /\ stdin (inner w') = stdin (inner w)
      /\ (forall m q, In m ms ->
            Fs.resolve ((modules_dir ++ [m]) ++ q) (fs (inner w')) = None)
      /\ (forall y q, ~ In y ms ->
            option_map Fs.is_dir
              (Fs.resolve (modules_dir ++ y :: q) (fs (inner w')))
            = option_map Fs.is_dir
                (Fs.resolve (modules_dir ++ y :: q) (fs (inner w))))
      /\ (forall y q, ~ In y ms -> y <> "CMakeLists.txt" ->
            Fs.resolve (modules_dir ++ y :: q) (fs (inner w'))
            = Fs.resolve (modules_dir ++ y :: q) (fs (inner w)))
      /\ (forall q, diverge modules_dir q ->
            Fs.resolve q (fs (inner w')) = Fs.resolve q (fs (inner w)))
      /\ (forall c,
            Fs.file_at cmake_file (fs (inner w)) = Some (mkFile true (Text c)) ->
            Fs.file_at cmake_file (fs (inner w'))
            = Some (mkFile true
                      (Text (Py.writelines (lines_for_none_of ms c))))).
Proof.
  intros Hs ms. induction ms as [| m ms IH]; intros k w Hnd Hpl Hdirs.
  - exists w. cbn [RemoveAll.remove_each filter List.length].
    rewrite Nat.add_0_r. split; [reflexivity |]. split; [reflexivity |].
    split; [intros m q []|]. split; [reflexivity |]. split; [reflexivity |].
    split; [reflexivity |].
    intros c Hc. now rewrite lines_for_none_of_nil.
  - inversion Hnd as [| ? ? Hm Hnd']; subst.
    cbn [forallb] in Hpl. apply andb_true_iff in Hpl as [Hpm Hpl].
    pose proof (Hdirs m (or_introl eq_refl)) as Hd.
    destruct (forced_removal_child spawn m (inner w) Hs Hpm Hd) as (err & Ec).
    set (root := fs (inner w)) in *.
    set (T := Fs.delete (modules_dir ++ [m]) (without_line m root)) in *.
    set (k1 := if removable m root then S k else k).
    assert (Estep : exists sd,
               (print (Removing m) ;;
                try_except
                  (result <- lift (spawn RemoveAll.remove_script
                                     [m; "--force"]) ;;
                   if Nat.eqb (fst result) 0
                   then print (Removed m) ;; ret (S k)
                   else print (Failed_to_remove m (snd result)) ;; ret k)
                  (fun e =>
                     if is_Exception e
                     then Some (print (Err_removing m) ;; ret k)
                     else None)) w
               = (Return k1,
                  mkWorld (mkState T (stdin (inner w)) (trace (inner w))) sd)).
    { unfold bind at 1. unfold print at 1. unfold try_except.
      unfold bind at 1. unfold lift at 1. cbn [inner said]. rewrite Ec.
      cbn [fst snd]. unfold k1.
      destruct (removable m root); cbn [Nat.eqb];
        eexists; reflexivity. }
    destruct Estep as (sd & Estep).
    set (w1 := mkWorld (mkState T (stdin (inner w)) (trace (inner w))) sd) in *.
    assert (Hdirs1 : forall m', In m' ms ->
               option_map Fs.is_dir
                 (Fs.resolve (modules_dir ++ [m']) (fs (inner w1))) = Some true).
    { intros m' Hin. cbn [w1 inner fs]. unfold T.
      rewrite (step_kinds m m' [] root) by (intros ->; contradiction).
      apply Hdirs. now right. }
    destruct (IH k1 w1 Hnd' Hpl Hdirs1)
      as (w' & E & S' & Gone & Kinds & Apart & Out & Reg).
    exists w'. cbn [inner fs stdin w1] in *. split; [| split; [exact S' |]].
    { cbn [RemoveAll.remove_each].
      change (RemoveAll.remove_each spawn (m :: ms) k w)
        with ((print (Removing m) ;;
               success_count <-
                 try_except
                   (result <- lift (spawn RemoveAll.remove_script
                                      [m; "--force"]) ;;
                    if Nat.eqb (fst result) 0
                    then print (Removed m) ;; ret (S k)
                    else print (Failed_to_remove m (snd result)) ;; ret k)
                   (fun e =>
                      if is_Exception e
                      then Some (print (Err_removing m) ;; ret k)
                      else None) ;;
               RemoveAll.remove_each spawn ms success_count) w).
      assert (Split : forall (A B : Type) (c1 : D unit) (c2 : D A)
                             (k2 : A -> D B) (v : world),
                 (c1 ;; x <- c2 ;; k2 x) v = (x <- (c1 ;; c2) ;; k2 x) v).
      { intros A B c1 c2 k2 v. unfold bind.
        destruct (c1 v) as [[[] | e] v1]; reflexivity. }
      rewrite Split. erewrite call_run by exact Estep. rewrite E.
      f_equal. f_equal. cbn [filter]. unfold k1.
      assert (Same : filter (fun m0 => removable m0 T) ms
                     = filter (fun m0 => removable m0 root) ms).
      { apply filter_ext_in. intros m' Hin. unfold T.
        apply removable_step; [intros ->; contradiction | exact Hd]. }
      rewrite Same. destruct (removable m root); cbn [List.length]; lia. }
    split; [| split; [| split; [| split]]].
    + intros m' q [<- | Hin]; [| now apply Gone].
      pose proof (Kinds m q Hm) as K.
      pose proof (step_gone m root q) as G.
      rewrite <- app_assoc in G. cbn [app] in G. fold T in G.
      rewrite G in K. rewrite <- app_assoc. cbn [app].
      now destruct (Fs.resolve (modules_dir ++ m :: q) (fs (inner w'))).
    + intros y q Hy. rewrite Kinds by (intros H; apply Hy; now right).
      apply step_kinds. intros ->. apply Hy. now left.
    + intros y q Hy Hc. rewrite Apart by (auto; intros H; apply Hy; now right).
      apply step_apart; [| exact Hc]. intros ->. apply Hy. now left.
    + intros q Hq. rewrite (Out q Hq). now apply step_outside.
    + intros c Hc. rewrite <- lines_for_none_of_cons.
      apply Reg. unfold T. now apply registry_step.
Qed.

(** *** The modules that are listed *)

Lemma list_all_run (es : Fs.entries) (st : state) :
  Fs.resolve modules_dir (fs st) = Some (Dir es) ->
  RemoveAll.list_available_modules modules_dir st = (Return (listed es), st).
Proof.
  intros R. unfold RemoveAll.list_available_modules. run_cmd.
  rewrite R. now destruct st.
Qed.

Lemma listed_In (es : Fs.entries) (m : string) :
  In m (listed es)
  <-> exists n, In (m, n) es /\ Fs.is_dir n = true
                /\ ~ In m ["common"; "inc"; ".git"].
Proof.
  unfold listed. split.
  - intros H. apply (Permutation_in _ (sorted_perm _)) in H.
    apply in_map_iff in H as ([x n] & <- & H).
    apply filter_In in H as (Hin & Hp). cbn [fst snd] in Hp.
    apply andb_true_iff in Hp as (Hd & Hr). exists n.
    split; [exact Hin |]. split; [exact Hd |].
    intros Hres. apply name_in_spec in Hres.
    cbn [fst] in *. rewrite Hres in Hr. discriminate Hr.
  - intros (n & Hin & Hd & Hr).
    apply (Permutation_in _ (Permutation_sym (sorted_perm _))).
    apply in_map_iff. exists (m, n). split; [reflexivity |].
    apply filter_In. split; [exact Hin |]. cbn [fst snd]. rewrite Hd.
    destruct (RemoveModule.name_in m ["common"; "inc"; ".git"]) eqn:E;
      [| reflexivity].
    apply name_in_spec in E. contradiction.
Qed.

Lemma listed_NoDup (es : Fs.entries) :
  NoDup (map fst es) -> NoDup (listed es).
Proof.
  intros H. unfold listed.
  apply (Permutation_NoDup (Permutation_sym (sorted_perm _))).
  now apply NoDup_names_filter.
Qed.

Lemma listed_dirs (es : Fs.entries) (root : node) (m : string) :
  Fs.resolve modules_dir root = Some (Dir es) -> NoDup (map fst es) ->
  In m (listed es) ->
  option_map Fs.is_dir (Fs.resolve (modules_dir ++ [m]) root) = Some true.
Proof.
  intros R Hnd Hin. apply listed_In in Hin as (n & Hin & Hd & _).
  rewrite resolve_app, R, resolve_cons, (In_lookup _ _ _ Hnd Hin).
  cbn [Fs.resolve option_map]. now rewrite Hd.
Qed.

Lemma filter_all_length {A} (p : A -> bool) (l : list A) :
  List.length (filter p l) = List.length l <-> forall x, In x l -> p x = true.
Proof.
  induction l as [| a l IH]; cbn [filter List.length In].
  - split; [intros _ x [] | reflexivity].
  - destruct (p a) eqn:E; cbn [List.length].
    + split.
      * intros H x [<- | Hx]; [exact E |]. apply IH; [lia | exact Hx].
      * intros H. f_equal. apply IH. intros x Hx. apply H. now right.
    + split.
      * intros H. pose proof (filter_length_le p l). lia.
      * intros H. specialize (H a (or_introl eq_refl)). congruence.
Qed.

(** *** The whole run *)

Lemma remove_all_forced_run
  (spawn : path -> list string -> M (nat * string)) (es : Fs.entries)
  (w : world) :
  spawns_remove_module spawn ->
  Fs.resolve modules_dir (fs (inner w)) = Some (Dir es) ->
  NoDup (map fst es) ->
  Fs.exists_ RemoveAll.remove_script (fs (inner w)) = true ->
  forallb plain_name (listed es) = true ->
  exists r w',
    RemoveAll.main spawn (RemoveAll.mkArgs true) w = (r, w')
    /\ (exit_status r = 0 \/ exit_status r = 1)
    /\ (exit_status r = 0
        <-> forall m, In m (listed es) -> removable m (fs (inner w)) = true)
    /\ stdin (inner w') = stdin (inner w)
    /\ (forall m q, In m (listed es) ->
          Fs.resolve ((modules_dir ++ [m]) ++ q) (fs (inner w')) = None)
    /\ (forall y q, ~ In y (listed es) -> y <> "CMakeLists.txt" ->
          Fs.resolve (modules_dir ++ y :: q) (fs (inner w'))
          = Fs.resolve (modules_dir ++ y :: q) (fs (inner w)))
    /\ (forall q, diverge modules_dir q ->
          Fs.resolve q (fs (inner w')) = Fs.resolve q (fs (inner w)))
    /\ (forall c,
          Fs.file_at cmake_file (fs (inner w)) = Some (mkFile true (Text c)) ->
          Fs.file_at cmake_file (fs (inner w'))
          = Some (mkFile true
                    (Text (Py.writelines (lines_for_none_of (listed es) c))))).
Proof.
  intros Hs Rm Hnd Hscript Hpl.
  assert (E1 : lift (Io.path_exists modules_dir) w = (Return true, w)).
  { unfold lift, Io.path_exists. run_cmd. rewrite Rm. now destruct w. }
  assert (E2 : lift (RemoveAll.list_available_modules modules_dir) w
               = (Return (listed es), w)).
  { unfold lift. rewrite (list_all_run _ _ Rm). now destruct w. }
  unfold RemoveAll.main.
  erewrite call_run by exact E1. cbn [negb].
  erewrite call_run by exact E2.
  destruct (listed es) as [| m0 ms] eqn:L.
  { do 2 eexists. split; [reflexivity |]. cbn [exit_status inner fs stdin].
    split; [now left |]. split; [split; [intros _ m [] | reflexivity] |].
    split; [reflexivity |]. split; [intros m q [] |].
    split; [reflexivity |]. split; [reflexivity |].
    intros c Hc. now rewrite lines_for_none_of_nil. }
  rewrite <- L in *.
  erewrite call_run by reflexivity. cbn [negb].
  assert (E3 : lift (Io.path_exists RemoveAll.remove_script) w
               = (Return true, w)).
  { unfold lift, Io.path_exists. run_cmd. unfold Fs.exists_ in Hscript.
    destruct (Fs.resolve RemoveAll.remove_script (fs (inner w)));
      [| discriminate Hscript].
    now destruct w. }
  destruct (remove_each_run spawn Hs (listed es) 0 w
              (listed_NoDup _ Hnd) Hpl
              (fun m Hin => listed_dirs _ _ _ Rm Hnd Hin))
    as (w' & E & S' & Gone & _ & Apart & Out & Reg).
  unfold RemoveAll.remove_all_modules.
  set (count := 0 + List.length
                      (filter (fun m => removable m (fs (inner w)))
                              (listed es))) in *.
  assert (Eall : (e <- lift (Io.path_exists RemoveAll.remove_script) ;;
                  if negb e
                  then print (Err_remove_script_not_found
                                RemoveAll.remove_script) ;; ret false
                  else
                    let total_count := List.length (listed es) in
                    success_count <- RemoveAll.remove_each spawn (listed es) 0 ;;
                    print (Removal_complete success_count total_count) ;;
                    ret (Nat.eqb success_count total_count)) w
                 = (Return (Nat.eqb count (List.length (listed es))),
                    mkWorld (inner w')
                      (said w' ++ [Print (Removal_complete count
                                            (List.length (listed es)))]))).
  { erewrite call_run by exact E3. cbn [negb]. cbv zeta.
    erewrite call_run by exact E. reflexivity. }
  erewrite call_run by exact Eall.
  assert (Hcount : Nat.eqb count (List.length (listed es)) = true
                   <-> forall m, In m (listed es) ->
                                 removable m (fs (inner w)) = true).
  { rewrite Nat.eqb_eq. unfold count. cbn [Nat.add].
    apply filter_all_length. }
  destruct (Nat.eqb count (List.length (listed es))) eqn:Eq.
  - do 2 eexists. split; [reflexivity |]. cbn [exit_status inner].
    split; [now left |].
    split; [split; [intros _; now apply Hcount | reflexivity] |].
    now repeat split.
  - do 2 eexists. split; [reflexivity |]. cbn [exit_status inner].
    split; [now right |].
    split; [split; [discriminate | intros H; apply Hcount in H; discriminate H] |].
    now repeat split.
Qed.

Lemma remove_module_child_spawns : spawns_remove_module remove_module_child.
Proof. intros m _ st. now exists EmptyString. Qed.

Lemma sample_checkout_names :
  NoDup (map fst [ ("TEST", Dir [("TEST.cpp", File (mkFile true (Text "")))]);
                   ("CMakeLists.txt",
                    File (mkFile true
                            (Text ("add_subdirectory(common)" ++ Py.nl
                                   ++ "add_subdirectory(TEST)" ++ Py.nl))));
                   ("common", Dir []);
                   ("DEMO", Dir []) ]).
Proof.
  cbn [map fst].
  repeat (constructor;
          [cbn [In]; intros H;
           repeat (destruct H as [H | H]; [discriminate H |]); exact H |]).
  constructor.
Qed.

(** X22. With the force flag removeAll.py reads no input and clears the modules
    directory of its modules.  When the modules directory exists, its
    entries have distinct names, the script removeModule.py is there and
    each child process is a run of removeModule.py, then after the run no
    path below a listed module exists any more; every other entry of the
    modules directory except the registry, and every path that is not
    below the modules directory, is as it was. *)
Theorem remove_all_forced_clears
  (spawn : path -> list string -> M (nat * string)) (es : Fs.entries)
  (w : world) :
  spawns_remove_module spawn ->
  Fs.resolve modules_dir (fs (inner w)) = Some (Dir es) ->
  NoDup (map fst es) ->
  Fs.exists_ RemoveAll.remove_script (fs (inner w)) = true ->
  forallb plain_name (listed es) = true ->
  let w' := snd (RemoveAll.main spawn (RemoveAll.mkArgs true) w) in
  stdin (inner w') = stdin (inner w)
  /\ (forall m q, In m (listed es) ->
        Fs.resolve ((modules_dir ++ [m]) ++ q) (fs (inner w')) = None)
  /\ (forall y q, ~ In y (listed es) -> y <> "CMakeLists.txt" ->
        Fs.resolve (modules_dir ++ y :: q) (fs (inner w'))
        = Fs.resolve (modules_dir ++ y :: q) (fs (inner w)))
  /\ (forall q, diverge modules_dir q ->
        Fs.resolve q (fs (inner w')) = Fs.resolve q (fs (inner w))).
Proof.
  intros Hs Rm Hnd Hscript Hpl.
  destruct (remove_all_forced_run spawn es w Hs Rm Hnd Hscript Hpl)
    as (r & w1 & E & _ & _ & S' & Gone & Apart & Out & _).
  cbv zeta. rewrite E. cbn [snd]. now repeat split.
Qed.

Lemma remove_all_forced_clears_witness :
  let w := mkWorld (mkState sample_checkout ["no"] []) [] in
  let w' := snd (RemoveAll.main remove_module_child (RemoveAll.mkArgs true) w) in
  stdin (inner w') = ["no"]
  /\ (forall m q, In m ["DEMO"; "TEST"] ->
        Fs.resolve ((modules_dir ++ [m]) ++ q) (fs (inner w')) = None)
  /\ (forall y q, ~ In y ["DEMO"; "TEST"] -> y <> "CMakeLists.txt" ->
        Fs.resolve (modules_dir ++ y :: q) (fs (inner w'))
        = Fs.resolve (modules_dir ++ y :: q) sample_checkout)
  /\ (forall q, diverge modules_dir q ->
        Fs.resolve q (fs (inner w')) = Fs.resolve q sample_checkout).
Proof.
  exact (remove_all_forced_clears remove_module_child _
           (mkWorld (mkState sample_checkout ["no"] []) [])
           remove_module_child_spawns eq_refl sample_checkout_names
           eq_refl eq_refl).
Defined.

(** X23. The exit status of a forced removeAll.py and the registry it leaves.
    Under the same conditions the exit status is 0 exactly when every
    listed module has a line in a registry that is a writable text file
    (so also when no module is listed), and 1 otherwise; such a registry
    ends as its lines for none of the listed modules, in their order. *)
Theorem remove_all_forced_status
  (spawn : path -> list string -> M (nat * string)) (es : Fs.entries)
  (w : world) :
  spawns_remove_module spawn ->
  Fs.resolve modules_dir (fs (inner w)) = Some (Dir es) ->
  NoDup (map fst es) ->
  Fs.exists_ RemoveAll.remove_script (fs (inner w)) = true ->
  forallb plain_name (listed es) = true ->
  let r := RemoveAll.main spawn (RemoveAll.mkArgs true) w in
  (exit_status (fst r) = 0
   <-> forall m, In m (listed es) -> removable m (fs (inner w)) = true)
  /\ (exit_status (fst r) = 0 \/ exit_status (fst r) = 1)
  /\ (forall c,
        Fs.file_at cmake_file (fs (inner w)) = Some (mkFile true (Text c)) ->
        Fs.file_at cmake_file (fs (inner (snd r)))
        = Some (mkFile true
                  (Text (Py.writelines (lines_for_none_of (listed es) c))))).
Proof.
  intros Hs Rm Hnd Hscript Hpl.
  destruct (remove_all_forced_run spawn es w Hs Rm Hnd Hscript Hpl)
    as (r & w1 & E & H01 & Hiff & _ & _ & _ & _ & Reg).
  cbv zeta. rewrite E. cbn [fst snd].
  split; [exact Hiff | split; [exact H01 | exact Reg]].
Qed.

Lemma remove_all_forced_status_witness :
  let w := mkWorld (mkState sample_checkout [] []) [] in
  let r := RemoveAll.main remove_module_child (RemoveAll.mkArgs true) w in
  (exit_status (fst r) = 0
   <-> forall m, In m ["DEMO"; "TEST"] -> removable m sample_checkout = true)
  /\ (exit_status (fst r) = 0 \/ exit_status (fst r) = 1)
  /\ (forall c,
        Fs.file_at cmake_file sample_checkout = Some (mkFile true (Text c)) ->
        Fs.file_at cmake_file (fs (inner (snd r)))
        = Some (mkFile true
                  (Text (Py.writelines
                           (lines_for_none_of ["DEMO"; "TEST"] c))))).
Proof.
  exact (remove_all_forced_status remove_module_child _
           (mkWorld (mkState sample_checkout [] []) [])
           remove_module_child_spawns eq_refl sample_checkout_names
           eq_refl eq_refl).
Defined.

End RemoveAllRuns.

(** ** test.py with createModule.py for its child *)

Section TestRuns.

Import Drv.

(** The line for TEST at the end of a text makes no room for the directive
    of VERB. *)
Lemma prefix_verb_test (s : string) :
  s <> EmptyString ->
  prefix (directive "VERB") (s ++ directive "TEST" ++ Py.nl) = true ->
  prefix (directive "VERB") s = true.
Proof.
  change (directive "VERB") with "add_subdirectory(VERB)"%string.
  change (directive "TEST" ++ Py.nl)%string
    with (String "a" ("dd_subdirectory(TEST)" ++ Py.nl))%string.
  intros Hs H.
  destruct s as [| a0 s]; [contradiction |]. clear Hs.
  cbn [prefix append] in H |- *.
  destruct (ascii_dec _ a0); [| discriminate H].
  do 21 (destruct s as [| ? s];
         [cbn [prefix append] in H;
          match type of H with
          | context [ascii_dec ?x ?y] =>
              destruct (ascii_dec x y) as [Eq | _];
              [discriminate Eq | discriminate H]
          end
         | cbn [prefix append] in H |- *;
           match goal with
           | |- context [ascii_dec ?x ?y] =>
               destruct (ascii_dec x y); [| discriminate H]
           end]).
  now destruct s.
Qed.

Lemma prefix_before (d s t : string) :
  prefix d s = true -> prefix d (s ++ t) = true.
Proof.
  revert s. induction d as [| x d IHd]; intros s P; [now destruct (s ++ t)%string |].
  destruct s as [| y s]; [discriminate P |].
  cbn [prefix append] in P |- *.
  destruct (ascii_dec x y); [now apply IHd | discriminate P].
Qed.

Lemma contains_verb_test (c : string) :
  Py.contains (directive "VERB") (c ++ directive "TEST" ++ Py.nl)
  = Py.contains (directive "VERB") c.
Proof.
  induction c as [| a c IH]; [reflexivity |].
  cbn [append Py.contains]. rewrite IH.
  destruct (prefix (directive "VERB") (String a c)) eqn:P.
  - cbn [orb].
    replace (prefix (directive "VERB")
               (String a (c ++ directive "TEST" ++ Py.nl))) with true;
      [reflexivity |].
    symmetry. exact (prefix_before _ (String a c) _ P).
  - destruct (prefix (directive "VERB")
                (String a (c ++ directive "TEST" ++ Py.nl))) eqn:Q;
      [| reflexivity].
    rewrite (prefix_verb_test (String a c)) in P; [discriminate P | | exact Q].
    discriminate.
Qed.

(** The tree a creation leaves, seen from its paths. *)
Lemma created_tree_facts (mid : string) (n : node) (g f0 : file) (b : bool)
  (es : Fs.entries) (root : node) :
  mid <> "CMakeLists.txt" ->
  Fs.resolve modules_dir root = Some (Dir es) ->
  Fs.file_at cmake_file root = Some f0 ->
  let root' :=
    if b then Fs.put (modules_dir ++ [mid]) n root
    else Fs.put cmake_file (File g) (Fs.put (modules_dir ++ [mid]) n root) in
  (forall q, diverge modules_dir q -> Fs.resolve q root' = Fs.resolve q root)
  /\ (forall y q, y <> mid -> y <> "CMakeLists.txt" ->
        Fs.resolve (modules_dir ++ y :: q) root'
        = Fs.resolve (modules_dir ++ y :: q) root)
  /\ (forall q, Fs.resolve ((modules_dir ++ [mid]) ++ q) root' = Fs.resolve q n)
  /\ (exists es', Fs.resolve modules_dir root' = Some (Dir es'))
  /\ Fs.file_at cmake_file root' = Some (if b then f0 else g).
Proof.
  intros Hne Rm Hf. apply file_at_resolve in Hf.
  assert (Rc : Fs.resolve cmake_file (Fs.put (modules_dir ++ [mid]) n root)
               = Some (File f0)).
  { change cmake_file with (modules_dir ++ "CMakeLists.txt" :: []).
    rewrite resolve_put_apart by exact Hne. exact Hf. }
  assert (Rn : forall q, Fs.resolve ((modules_dir ++ [mid]) ++ q)
                           (Fs.put (modules_dir ++ [mid]) n root)
                         = Fs.resolve q n).
  { intros q. now rewrite resolve_app, (resolve_put_child _ _ _ _ _ Rm). }
  assert (Rp : Fs.resolve modules_dir (Fs.put (modules_dir ++ [mid]) n root)
               = Some (Dir (Fs.set_entry mid n es))).
  { now apply resolve_put_parent. }
  destruct b; cbv zeta.
  - split; [intros q D; apply diverge_put; now apply diverge_below |].
    split; [intros y q Hy _; apply resolve_put_apart; congruence |].
    split; [exact Rn |]. split; [eexists; exact Rp |].
    now apply file_at_resolve.
  - split.
    { intros q D. rewrite diverge_put.
      - apply diverge_put. now apply diverge_below.
      - change cmake_file with (modules_dir ++ ["CMakeLists.txt"]).
        now apply diverge_below. }
    split.
    { intros y q Hy Hc.
      change cmake_file with (modules_dir ++ "CMakeLists.txt" :: []).
      rewrite resolve_put_apart by congruence.
      apply resolve_put_apart. congruence. }
    split.
    { intros q. rewrite <- Rn.
      change cmake_file with (modules_dir ++ "CMakeLists.txt" :: []).
      rewrite <- app_assoc. cbn [app].
      apply resolve_put_apart. congruence. }
    split.
    { change cmake_file with (modules_dir ++ ["CMakeLists.txt"]).
      rewrite (resolve_put_parent _ _ _ _ _ Rp). eexists; reflexivity. }
    apply file_at_resolve. exact (resolve_put_same _ _ _ _ Rc).
Qed.

Lemma test_ids_well_formed (module_config : TestModules.config) :
  In module_config TestModules.test_modules ->
  well_formed_id (TestModules.id module_config).
Proof.
  intros [<- | [<- | []]];
    apply (validate_module_id_true _ (mkState (Dir []) [] []));
    reflexivity.
Qed.

(** One call of [create_test_module] in a checkout that is ready for the
    module. *)
Lemma create_test_module_run
  (spawn : path -> list string -> M (nat * string))
  (module_config : TestModules.config) (tes es : Fs.entries) (c : string)
  (w : world) :
  spawns_create_module spawn ->
  In module_config TestModules.test_modules ->
  Fs.exists_ TestModules.create_script (fs (inner w)) = true ->
  Fs.resolve CreateModule.template_dir (fs (inner w)) = Some (Dir tes) ->
  Fs.wf (Dir tes) = true ->
  (forall g, Fs.lookup (TestModules.id module_config ++ "-rnbo") tes
             <> Some (File g)) ->
  Fs.resolve modules_dir (fs (inner w)) = Some (Dir es) ->
  Fs.resolve (modules_dir ++ [TestModules.id module_config]) (fs (inner w))
  = None ->
  Fs.file_at cmake_file (fs (inner w)) = Some (mkFile true (Text c)) ->
  exists n w',
    TestModules.create_test_module spawn module_config w = (Return true, w')
    /\ stdin (inner w') = stdin (inner w)
    /\ fs (inner w')
       = (if Py.contains (directive (TestModules.id module_config)) c
          then Fs.put (modules_dir ++ [TestModules.id module_config]) n
                 (fs (inner w))
          else Fs.put cmake_file
                 (File (mkFile true
                          (Text (c ++ (directive (TestModules.id module_config)
                                       ++ Py.nl)))))
                 (Fs.put (modules_dir ++ [TestModules.id module_config]) n
                    (fs (inner w))))
    /\ (forall q g',
          Fs.file_at q n = Some g'
          <-> exists g,
                Fs.file_at q (Dir tes) = Some g
                /\ g' = substituted
                          (mapping_of (args_of module_config)
                             (TestModules.id module_config)) g).
Proof.
  intros Hs Hin Hscript Rt Wt Hrn Rm Hnew Hf.
  destruct (Hs module_config Hin (inner w)) as (err & E). cbv zeta in E.
  set (started := mkState (fs (inner w)) (stdin (inner w)) []) in *.
  destruct (main_create_run (args_of module_config)
              (TestModules.id module_config) tes es (mkFile true (Text c)) c
              started eq_refl (test_ids_well_formed _ Hin) Rt Wt Rm Hnew Hrn
              Hf eq_refl (or_intror eq_refl))
    as (n & st' & Main & Sin & Sfs & Files & _ & _).
  rewrite Main in E. cbn [fst snd exit_status] in E.
  exists n.
  assert (E1 : lift (Io.path_exists TestModules.create_script) w
               = (Return true, w)).
  { unfold lift, Io.path_exists. run_cmd. unfold Fs.exists_ in Hscript.
    destruct (Fs.resolve TestModules.create_script (fs (inner w)));
      [| discriminate Hscript].
    now destruct w. }
  unfold TestModules.create_test_module.
  erewrite call_run by exact E1. cbn [negb]. cbv zeta.
  erewrite call_run by reflexivity.
  unfold try_except.
  erewrite call_run; [| unfold lift; cbn [inner said]; rewrite E; reflexivity].
  cbn [fst Nat.eqb].
  eexists. split; [reflexivity |]. cbn [inner fs stdin].
  split; [exact Sin |]. split; [exact Sfs | exact Files].
Qed.

(** The whole run of test.py in a checkout that has neither module. *)
Lemma test_main_run
  (spawn : path -> list string -> M (nat * string)) (tes es : Fs.entries)
  (c : string) (w : world) :
  spawns_create_module spawn ->
  Fs.exists_ TestModules.create_script (fs (inner w)) = true ->
  Fs.resolve CreateModule.template_dir (fs (inner w)) = Some (Dir tes) ->
  Fs.wf (Dir tes) = true ->
  (forall module_config g,
      In module_config TestModules.test_modules ->
      Fs.lookup (TestModules.id module_config ++ "-rnbo") tes
      <> Some (File g)) ->
  Fs.resolve modules_dir (fs (inner w)) = Some (Dir es) ->
  (forall module_config,
      In module_config TestModules.test_modules ->
      Fs.resolve (modules_dir ++ [TestModules.id module_config])
        (fs (inner w)) = None) ->
  Fs.file_at cmake_file (fs (inner w)) = Some (mkFile true (Text c)) ->
  exists w',
    TestModules.main spawn w = (Return tt, w')
    /\ stdin (inner w') = stdin (inner w)
    /\ (forall module_config,
          In module_config TestModules.test_modules ->
          forall q g',
            Fs.file_at ((modules_dir ++ [TestModules.id module_config]) ++ q)
              (fs (inner w')) = Some g'
            <-> exists g,
                  Fs.file_at q (Dir tes) = Some g
                  /\ g' = substituted
                            (mapping_of (args_of module_config)
                               (TestModules.id module_config)) g)
    /\ Fs.file_at cmake_file (fs (inner w'))
       = Some (mkFile true
                 (Text (c ++ line_if_missing "TEST" c
                          ++ line_if_missing "VERB" c)))
    /\ (forall y q,
          ~ In y ["TEST"; "VERB"; "CMakeLists.txt"] ->
          Fs.resolve (modules_dir ++ y :: q) (fs (inner w'))
          = Fs.resolve (modules_dir ++ y :: q) (fs (inner w)))
    /\ (forall q, diverge modules_dir q ->
          Fs.resolve q (fs (inner w')) = Fs.resolve q (fs (inner w))).
Proof.
  intros Hs Hscript Rt Wt Hrn Rm Hnew Hf.
  pose (test := nth 0 TestModules.test_modules
                  (TestModules.mkConfig "" "" "" "" "" "" "")).
  pose (verb := nth 1 TestModules.test_modules
                  (TestModules.mkConfig "" "" "" "" "" "" "")).
  assert (In1 : In test TestModules.test_modules) by now left.
  assert (In2 : In verb TestModules.test_modules) by (right; now left).
  (* the first module *)
  destruct (create_test_module_run spawn test tes es c
              (mkWorld (inner w) (said w ++ [Print Test_banner]))
              Hs In1 Hscript Rt Wt
              (fun g => Hrn test g In1) Rm (Hnew test In1) Hf)
    as (n1 & w1 & E1 & S1 & F1 & Files1).
  cbn [inner] in S1, F1.
  change (TestModules.id test) with "TEST"%string in F1, Files1.
  destruct (created_tree_facts "TEST" n1
              (mkFile true (Text (c ++ (directive "TEST" ++ Py.nl))))
              (mkFile true (Text c)) (Py.contains (directive "TEST") c)
              es (fs (inner w)) ltac:(discriminate) Rm Hf)
    as (A1 & B1 & C1 & (es1 & D1) & G1).
  cbv zeta in A1, B1, C1, D1, G1. rewrite <- F1 in A1, B1, C1, D1, G1.
  set (c1 := (c ++ line_if_missing "TEST" c)%string).
  assert (Hf1 : Fs.file_at cmake_file (fs (inner w1))
                = Some (mkFile true (Text c1))).
  { rewrite G1. unfold c1, line_if_missing.
    destruct (Py.contains (directive "TEST") c);
      [now rewrite append_nil_r | reflexivity]. }
  assert (Hscript1 : Fs.exists_ TestModules.create_script (fs (inner w1))
                     = true).
  { unfold Fs.exists_. rewrite A1; [exact Hscript |].
    now exists [], "modules", "scripts", [], ["createModule.py"]. }
  assert (Rt1 : Fs.resolve CreateModule.template_dir (fs (inner w1))
                = Some (Dir tes)).
  { rewrite A1; [exact Rt |].
    now exists [], "modules", "template", [], ["module"]. }
  assert (Hnew1 : Fs.resolve (modules_dir ++ [TestModules.id verb])
                    (fs (inner w1)) = None).
  { change (TestModules.id verb) with "VERB"%string.
    rewrite B1 by discriminate. exact (Hnew verb In2). }
  (* the second module *)
  destruct (create_test_module_run spawn verb tes es1 c1
              (mkWorld (inner w1) (said w1 ++ [Print Blank_line]))
              Hs In2 Hscript1
              Rt1 Wt (fun g => Hrn verb g In2) D1 Hnew1 Hf1)
    as (n2 & w2 & E2 & S2 & F2 & Files2).
  cbn [inner] in S2, F2.
  change (TestModules.id verb) with "VERB"%string in F2, Files2.
  destruct (created_tree_facts "VERB" n2
              (mkFile true (Text (c1 ++ (directive "VERB" ++ Py.nl))))
              (mkFile true (Text c1)) (Py.contains (directive "VERB") c1)
              es1 (fs (inner w1)) ltac:(discriminate) D1 Hf1)
    as (A2 & B2 & C2 & _ & G2).
  cbv zeta in A2, B2, C2, G2. rewrite <- F2 in A2, B2, C2, G2.
  assert (Hc : Py.contains (directive "VERB") c1
               = Py.contains (directive "VERB") c).
  { unfold c1, line_if_missing.
    destruct (Py.contains (directive "TEST") c);
      [now rewrite append_nil_r | apply contains_verb_test]. }
  (* the run *)
  eexists. split.
  { unfold TestModules.main. erewrite call_run by reflexivity. cbv zeta.
    change TestModules.test_modules with [test; verb].
    cbn [TestModules.create_each].
    erewrite call_run; [| erewrite call_run by exact E1;
                          erewrite call_run by reflexivity;
                          erewrite call_run by exact E2;
                          erewrite call_run by reflexivity; reflexivity].
    erewrite call_run by reflexivity. reflexivity. }
  cbn [inner fs stdin].
  split; [congruence |].
  split.
  { intros cfg [<- | [<- | []]] q g'.
    - cbn [TestModules.id].
      unfold Fs.file_at at 1. rewrite <- app_assoc. cbn [app].
      rewrite B2 by discriminate.
      pose proof (C1 q) as K. rewrite <- app_assoc in K. cbn [app] in K.
      rewrite K. exact (Files1 q g').
    - cbn [TestModules.id].
      unfold Fs.file_at at 1. rewrite C2. exact (Files2 q g'). }
  split.
  { rewrite G2, Hc. unfold c1. unfold line_if_missing at 2 4.
    destruct (Py.contains (directive "VERB") c);
      [now rewrite append_nil_r | now rewrite append_assoc]. }
  split.
  { intros y q Hy. rewrite B2, B1; [reflexivity | | | |];
      intros ->; apply Hy; cbn [In]; tauto. }
  intros q D. now rewrite A2, A1.
Qed.

Lemma create_module_child_spawns : spawns_create_module create_module_child.
Proof. intros module_config _ st. now exists EmptyString. Qed.

(** X24. test.py creates both of its modules.  When createModule.py is there,
    each child process is a run of createModule.py, the template is a
    well-formed directory with no file named after the RNBO directory of
    TEST or VERB, the modules directory has neither module and the registry
    is a writable text file, then test.py ends with status 0, reads no
    input, and the directory of each module holds a file at a path exactly
    when the template does, with the placeholders replaced by the values
    of that module. *)
Theorem test_creates_both
  (spawn : path -> list string -> M (nat * string)) (tes es : Fs.entries)
  (c : string) (w : world) :
  spawns_create_module spawn ->
  Fs.exists_ TestModules.create_script (fs (inner w)) = true ->
  Fs.resolve CreateModule.template_dir (fs (inner w)) = Some (Dir tes) ->
  Fs.wf (Dir tes) = true ->
  (forall module_config g,
      In module_config TestModules.test_modules ->
      Fs.lookup (TestModules.id module_config ++ "-rnbo") tes
      <> Some (File g)) ->
  Fs.resolve modules_dir (fs (inner w)) = Some (Dir es) ->
  (forall module_config,
      In module_config TestModules.test_modules ->
      Fs.resolve (modules_dir ++ [TestModules.id module_config])
        (fs (inner w)) = None) ->
  Fs.file_at cmake_file (fs (inner w)) = Some (mkFile true (Text c)) ->
  let r := TestModules.main spawn w in
  exit_status (fst r) = 0
  /\ stdin (inner (snd r)) = stdin (inner w)
  /\ (forall module_config,
        In module_config TestModules.test_modules ->
        forall q g',
          Fs.file_at ((modules_dir ++ [TestModules.id module_config]) ++ q)
            (fs (inner (snd r))) = Some g'
          <-> exists g,
                Fs.file_at q (Dir tes) = Some g
                /\ g' = substituted
                          (mapping_of (args_of module_config)
                             (TestModules.id module_config)) g).
Proof.
  intros Hs Hscript Rt Wt Hrn Rm Hnew Hf.
  destruct (test_main_run spawn tes es c w Hs Hscript Rt Wt Hrn Rm Hnew Hf)
    as (w' & E & Sin & Files & _).
  cbv zeta. rewrite E. cbn [fst snd exit_status].
  split; [reflexivity |]. split; [exact Sin | exact Files].
Qed.

Lemma test_creates_both_witness :
  let w := mkWorld
             (mkState (Fs.delete (modules_dir ++ ["TEST"]) sample_checkout)
                      ["yes"] [])
             [] in
  let r := TestModules.main create_module_child w in
  exit_status (fst r) = 0
  /\ stdin (inner (snd r)) = ["yes"]
  /\ (forall module_config,
        In module_config TestModules.test_modules ->
        forall q g',
          Fs.file_at ((modules_dir ++ [TestModules.id module_config]) ++ q)
            (fs (inner (snd r))) = Some g'
          <-> exists g,
                Fs.file_at q
                  (Dir [("CMakeLists.txt",
                         File (mkFile true
                                 (Text "project(__MOD__) # __NAME__")))])
                = Some g
                /\ g' = substituted
                          (mapping_of (args_of module_config)
                             (TestModules.id module_config)) g).
Proof.
  refine (test_creates_both create_module_child _ _ _
            (mkWorld
               (mkState (Fs.delete (modules_dir ++ ["TEST"]) sample_checkout)
                        ["yes"] [])
               [])
            create_module_child_spawns eq_refl eq_refl eq_refl _ eq_refl _
            eq_refl).
  - intros module_config g [<- | [<- | []]]; discriminate.
  - intros module_config [<- | [<- | []]]; reflexivity.
Defined.

(** X25. What test.py leaves around its modules.  Under the same conditions the
    registry ends as its text followed by the line for TEST and the line
    for VERB, each only if the text did not have that directive; every
    entry of the modules directory other than TEST, VERB and the registry,
    and every path that is not below the modules directory, is as it
    was. *)
Theorem test_leaves_the_rest
  (spawn : path -> list string -> M (nat * string)) (tes es : Fs.entries)
  (c : string) (w : world) :
  spawns_create_module spawn ->
  Fs.exists_ TestModules.create_script (fs (inner w)) = true ->
  Fs.resolve CreateModule.template_dir (fs (inner w)) = Some (Dir tes) ->
  Fs.wf (Dir tes) = true ->
  (forall module_config g,
      In module_config TestModules.test_modules ->
      Fs.lookup (TestModules.id module_config ++ "-rnbo") tes
      <> Some (File g)) ->
  Fs.resolve modules_dir (fs (inner w)) = Some (Dir es) ->
  (forall module_config,
      In module_config TestModules.test_modules ->
      Fs.resolve (modules_dir ++ [TestModules.id module_config])
        (fs (inner w)) = None) ->
  Fs.file_at cmake_file (fs (inner w)) = Some (mkFile true (Text c)) ->
  let root' := fs (inner (snd (TestModules.main spawn w))) in
  Fs.file_at cmake_file root'
  = Some (mkFile true
            (Text (c ++ line_if_missing "TEST" c ++ line_if_missing "VERB" c)))
  /\ (forall y q,
        ~ In y ["TEST"; "VERB"; "CMakeLists.txt"] ->
        Fs.resolve (modules_dir ++ y :: q) root'
        = Fs.resolve (modules_dir ++ y :: q) (fs (inner w)))
  /\ (forall q, diverge modules_dir q ->
        Fs.resolve q root' = Fs.resolve q (fs (inner w))).
Proof.
  intros Hs Hscript Rt Wt Hrn Rm Hnew Hf.
  destruct (test_main_run spawn tes es c w Hs Hscript Rt Wt Hrn Rm Hnew Hf)
    as (w' & E & _ & _ & Reg & Rest & Out).
  cbv zeta. rewrite E. cbn [snd].
  split; [exact Reg |]. split; [exact Rest | exact Out].
Qed.

Lemma test_leaves_the_rest_witness :
  let root := Fs.delete (modules_dir ++ ["TEST"]) sample_checkout in
  let w := mkWorld (mkState root [] []) [] in
  let root' := fs (inner (snd (TestModules.main create_module_child w))) in
  Fs.file_at cmake_file root'
  = Some (mkFile true
            (Text ("add_subdirectory(common)" ++ Py.nl
                   ++ "add_subdirectory(TEST)" ++ Py.nl
                   ++ "add_subdirectory(VERB)" ++ Py.nl)))
  /\ (forall y q,
        ~ In y ["TEST"; "VERB"; "CMakeLists.txt"] ->
        Fs.resolve (modules_dir ++ y :: q) root'
        = Fs.resolve (modules_dir ++ y :: q) root)
  /\ (forall q, diverge modules_dir q ->
        Fs.resolve q root' = Fs.resolve q root).
Proof.
  refine (test_leaves_the_rest create_module_child _ _ _
            (mkWorld
               (mkState (Fs.delete (modules_dir ++ ["TEST"]) sample_checkout)
                        [] [])
               [])
            create_module_child_spawns eq_refl eq_refl eq_refl _ eq_refl _
            eq_refl).
  - intros module_config g [<- | [<- | []]]; discriminate.
  - intros module_config [<- | [<- | []]]; reflexivity.
Defined.

End TestRuns.

(** ** addDemo.py *)

Section AddDemoRuns.

Import Drv.

Lemma resolve_delete_parent t x d root :
  Fs.resolve t root = Some (Dir d) ->
  Fs.resolve t (Fs.delete (t ++ [x]) root)
  = Some (Dir (Fs.remove_entry x d)).
Proof.
  revert root. induction t as [| y t IH]; intros root H.
  - cbn in H. injection H as ->. reflexivity.
  - destruct root as [f | es]; [discriminate |]. rewrite resolve_cons in H.
    destruct (Fs.lookup y es) as [m |] eqn:L; [| discriminate].
    change ((y :: t) ++ [x]) with (y :: (t ++ [x])).
    rewrite delete_inner by apply snoc_not_nil.
    rewrite resolve_cons, lookup_update_entry_same, L. cbn [option_map].
    now apply IH.
Qed.

Lemma template_apart (q : path) :
  diverge AddDemo.module_rnbo_dir (AddDemo.template_rnbo_dir ++ q).
Proof.
  now exists [], "modules", "template", ["DEMO"; "DEMO-rnbo"],
             (["Demo"; "Demo-rnbo"] ++ q).
Qed.

(** One entry of the demo code, copied. *)
Lemma copy_item_run (x : string) (n : node) (st : state) :
  Fs.resolve (AddDemo.template_rnbo_dir ++ [x]) (fs st) = Some n ->
  (exists ds, Fs.resolve AddDemo.module_rnbo_dir (fs st) = Some (Dir ds)) ->
  can_take n (Fs.resolve (AddDemo.module_rnbo_dir ++ [x]) (fs st)) = true ->
  exists st',
    AddDemo.copy_item (x, n) st = (Return tt, st')
    /\ stdin st' = stdin st
    /\ Fs.resolve (AddDemo.module_rnbo_dir ++ [x]) (fs st') = Some n
    /\ (forall y q, y <> x ->
          Fs.resolve (AddDemo.module_rnbo_dir ++ y :: q) (fs st')
          = Fs.resolve (AddDemo.module_rnbo_dir ++ y :: q) (fs st))
    /\ (forall q, diverge AddDemo.module_rnbo_dir q ->
          Fs.resolve q (fs st') = Fs.resolve q (fs st))
    /\ (exists ds', Fs.resolve AddDemo.module_rnbo_dir (fs st')
                    = Some (Dir ds')).
Proof.
  intros Rs (ds & Rd) Hc.
  set (src := AddDemo.template_rnbo_dir ++ [x]) in *.
  set (dst := AddDemo.module_rnbo_dir ++ [x]) in *.
  assert (Hne : src <> dst) by discriminate.
  assert (Pd : Fs.parent dst = AddDemo.module_rnbo_dir)
    by (unfold dst, Fs.parent; apply removelast_last).
  assert (Put : forall m root,
             Fs.resolve AddDemo.module_rnbo_dir root = Some (Dir ds) ->
             Fs.resolve dst (Fs.put dst m root) = Some m
             /\ (forall y q, y <> x ->
                   Fs.resolve (AddDemo.module_rnbo_dir ++ y :: q)
                     (Fs.put dst m root)
                   = Fs.resolve (AddDemo.module_rnbo_dir ++ y :: q) root)
             /\ (forall q, diverge AddDemo.module_rnbo_dir q ->
                   Fs.resolve q (Fs.put dst m root) = Fs.resolve q root)
             /\ (exists ds', Fs.resolve AddDemo.module_rnbo_dir
                               (Fs.put dst m root) = Some (Dir ds'))).
  { intros m root R. split; [exact (resolve_put_child _ _ _ _ _ R) |].
    split; [intros y q Hy; apply resolve_put_apart; congruence |].
    split; [intros q D; apply diverge_put; now apply diverge_below |].
    eexists. exact (resolve_put_parent _ _ _ _ _ R). }
  destruct n as [f | es]; unfold AddDemo.copy_item; cbn [fst snd]; cbv zeta;
    fold src; fold dst.
  - (* a file *)
    unfold Shutil.copy2. run_cmd. rewrite Rs.
    destruct (Fs.resolve dst (fs st)) as [[g | d] |] eqn:Rx;
      cbn [can_take Fs.is_dir] in Hc; try discriminate Hc.
    + destruct (list_eq_dec string_dec src dst) as [E | _];
        [contradiction |].
      rewrite Rx, Hc. run_cmd. eexists. split; [reflexivity |].
      cbn [fs stdin]. split; [reflexivity |]. now apply Put.
    + destruct (list_eq_dec string_dec src dst) as [E | _];
        [contradiction |].
      rewrite Rx. unfold dst at 1.
      rewrite (parent_is_dir_child _ _ _ _ Rd). run_cmd.
      eexists. split; [reflexivity |].
      cbn [fs stdin]. split; [reflexivity |]. now apply Put.
  - (* a directory *)
    unfold Io.path_exists, Fs.exists_. run_cmd.
    destruct (Fs.resolve dst (fs st)) as [[g | d] |] eqn:Rx;
      cbn [can_take Fs.is_dir] in Hc; try discriminate Hc.
    + unfold Io.rmtree. run_cmd. rewrite Rx. run_cmd.
      unfold Io.copytree. run_cmd.
      assert (R1 : Fs.resolve AddDemo.module_rnbo_dir
                     (Fs.delete dst (fs st))
                   = Some (Dir (Fs.remove_entry x ds)))
        by exact (resolve_delete_parent _ _ _ _ Rd).
      unfold src at 1.
      rewrite (diverge_delete dst _ (fs st))
        by (apply diverge_below, template_apart).
      fold src. rewrite Rs.
      rewrite resolve_delete_same by apply snoc_not_nil.
      rewrite Pd, (makedirs_dir _ _ _ R1). run_cmd.
      eexists. split; [reflexivity |]. cbn [fs stdin].
      split; [reflexivity |].
      split; [exact (resolve_put_child _ _ _ _ _ R1) |].
      split.
      { intros y q Hy. unfold dst.
        rewrite resolve_put_apart by congruence.
        apply resolve_delete_apart. congruence. }
      split.
      { intros q D. rewrite diverge_put by now apply diverge_below.
        apply diverge_delete. now apply diverge_below. }
      eexists. exact (resolve_put_parent _ _ _ _ _ R1).
    + run_cmd. unfold Io.copytree. run_cmd. rewrite Rs, Rx.
      rewrite Pd, (makedirs_dir _ _ _ Rd). run_cmd.
      eexists. split; [reflexivity |]. cbn [fs stdin].
      split; [reflexivity |]. now apply Put.
Qed.

(** The loop of [copy_demo_rnbo_code]. *)
Lemma copy_items_run (items : list (string * node)) :
  forall w : world,
    NoDup (map fst items) ->
    (forall x n, In (x, n) items ->
       Fs.resolve (AddDemo.template_rnbo_dir ++ [x]) (fs (inner w)) = Some n) ->
    (exists ds, Fs.resolve AddDemo.module_rnbo_dir (fs (inner w))
                = Some (Dir ds)) ->
    (forall x n, In (x, n) items ->
       can_take n (Fs.resolve (AddDemo.module_rnbo_dir ++ [x]) (fs (inner w)))
       = true) ->
    exists w',
      for_each items
        (fun item =>
           bind (lift (AddDemo.copy_item item))
             (fun _ =>
                match snd item with
                | File _ => print (Copied_file (fst item))
                | Dir _ => print (Copied_directory (fst item))
                end)) w
      = (Return tt, w')
      /\ stdin (inner w') = stdin (inner w)
      /\ (forall x n, In (x, n) items ->
            Fs.resolve (AddDemo.module_rnbo_dir ++ [x]) (fs (inner w'))
            = Some n)
      /\ (forall y q, ~ In y (map fst items) ->
            Fs.resolve (AddDemo.module_rnbo_dir ++ y :: q) (fs (inner w'))
            = Fs.resolve (AddDemo.module_rnbo_dir ++ y :: q) (fs (inner w)))
      /\ (forall q, diverge AddDemo.module_rnbo_dir q ->
            Fs.resolve q (fs (inner w')) = Fs.resolve q (fs (inner w))).
Proof.
  induction items as [| [x n] items IH]; intros w Hnd Hsrc Hdir Hcan.
  - exists w. split; [reflexivity |]. split; [reflexivity |].
    split; [intros x n [] |]. split; reflexivity.
  - apply NoDup_cons_iff in Hnd as (Hx & Hnd). cbn [map fst] in Hx.
    destruct (copy_item_run x n (inner w)
                (Hsrc x n (or_introl eq_refl)) Hdir
                (Hcan x n (or_introl eq_refl)))
      as (st1 & E & S1 & Rx & Other & Out & Hdir1).
    set (w1 := mkWorld st1
                 (said w ++ [Print match n with
                                   | File _ => Copied_file x
                                   | Dir _ => Copied_directory x
                                   end])).
    destruct (IH w1 Hnd) as (w' & E' & S' & Got & Other' & Out').
    { intros y m Hy. cbn [w1 inner]. rewrite Out by apply template_apart.
      apply Hsrc. now right. }
    { exact Hdir1. }
    { intros y m Hy. cbn [w1 inner].
      rewrite (Other y []).
      - apply Hcan. now right.
      - intros ->. apply Hx. apply in_map_iff. now exists (x, m). }
    exists w'. split.
    { cbn [for_each]. erewrite call_run; [exact E' |].
      erewrite call_run; [| unfold lift; rewrite E; reflexivity].
      cbn [snd fst]. destruct n; reflexivity. }
    cbn [w1 inner] in S', Other', Out'.
    split; [congruence |]. split.
    { intros y m [Hy | Hy].
      - injection Hy as <- <-. rewrite (Other' x []) by exact Hx. exact Rx.
      - now apply Got. }
    split.
    { intros y q Hy. cbn [map fst In] in Hy.
      rewrite Other' by tauto. apply Other. intros ->. tauto. }
    intros q D. now rewrite Out', Out.
Qed.

(** The copy in full. *)
Lemma copy_demo_rnbo_code_run (des ds : Fs.entries) (w : world) :
  Fs.resolve AddDemo.template_rnbo_dir (fs (inner w)) = Some (Dir des) ->
  NoDup (map fst des) ->
  Fs.resolve AddDemo.module_rnbo_dir (fs (inner w)) = Some (Dir ds) ->
  (forall x n, In (x, n) des -> can_take n (Fs.lookup x ds) = true) ->
  let r := AddDemo.copy_demo_rnbo_code w in
  fst r = Return true
  /\ stdin (inner (snd r)) = stdin (inner w)
  /\ (forall x n, In (x, n) des ->
        Fs.resolve (AddDemo.module_rnbo_dir ++ [x]) (fs (inner (snd r)))
        = Some n)
  /\ (forall y q, ~ In y (map fst des) ->
        Fs.resolve (AddDemo.module_rnbo_dir ++ y :: q) (fs (inner (snd r)))
        = Fs.resolve (AddDemo.module_rnbo_dir ++ y :: q) (fs (inner w)))
  /\ (forall q, diverge AddDemo.module_rnbo_dir q ->
        Fs.resolve q (fs (inner (snd r))) = Fs.resolve q (fs (inner w))).
Proof.
  intros Rt Hnd Rm Hcan. cbv zeta.
  set (w0 := mkWorld (inner w)
               (said w ++ [Print (Copying_demo AddDemo.template_rnbo_dir
                                    AddDemo.module_rnbo_dir)])).
  destruct (copy_items_run des w0 Hnd) as (w' & E & S' & Got & Other & Out).
  { intros x n Hin. cbn [w0 inner]. rewrite resolve_app, Rt, resolve_cons.
    now rewrite (In_lookup _ _ _ Hnd Hin). }
  { exists ds. exact Rm. }
  { intros x n Hin. cbn [w0 inner]. rewrite resolve_app, Rm, resolve_cons.
    specialize (Hcan x n Hin).
    destruct (Fs.lookup x ds); exact Hcan. }
  assert (Run : AddDemo.copy_demo_rnbo_code w
                = (Return true,
                   mkWorld (inner w') (said w' ++ [Print Demo_copied]))).
  { unfold AddDemo.copy_demo_rnbo_code.
    erewrite call_run.
    2:{ unfold lift, Io.path_exists, Fs.exists_. run_cmd. cbn [inner].
        rewrite Rt. reflexivity. }
    cbn [negb].
    erewrite call_run.
    2:{ unfold lift, Io.path_exists, Fs.exists_. run_cmd. cbn [inner].
        rewrite Rm. reflexivity. }
    cbn [negb].
    erewrite call_run by reflexivity.
    unfold try_except.
    erewrite call_run.
    2:{ unfold lift, Io.iterdir. run_cmd. cbn [inner]. rewrite Rt.
        reflexivity. }
    erewrite call_run.
    2:{ replace (mkWorld (inner w) _) with w0 by (now destruct w).
        exact E. }
    reflexivity. }
  rewrite Run. cbn [fst snd inner]. cbn [w0 inner] in S', Other, Out.
  now repeat split.
Qed.

(** X26. The demo code is copied over what the module has.  When the demo code
    in the template is a directory whose entries have distinct names, the
    RNBO directory of the module is a directory, and each entry can be
    taken where it goes, then [copy_demo_rnbo_code] returns true and reads
    no input; afterwards each entry of the demo code is in the RNBO
    directory of the module as it is in the template, the entries of that
    directory with other names are as they were, and so is everything
    outside of it. *)
Theorem copy_demo_rnbo_code_copies (des ds : Fs.entries) (w : world) :
  Fs.resolve AddDemo.template_rnbo_dir (fs (inner w)) = Some (Dir des) ->
  NoDup (map fst des) ->
  Fs.resolve AddDemo.module_rnbo_dir (fs (inner w)) = Some (Dir ds) ->
  (forall x n, In (x, n) des -> can_take n (Fs.lookup x ds) = true) ->
  let r := AddDemo.copy_demo_rnbo_code w in
  fst r = Return true
  /\ stdin (inner (snd r)) = stdin (inner w)
  /\ (forall x n, In (x, n) des ->
        Fs.resolve (AddDemo.module_rnbo_dir ++ [x]) (fs (inner (snd r)))
        = Some n)
  /\ (forall y q, ~ In y (map fst des) ->
        Fs.resolve (AddDemo.module_rnbo_dir ++ y :: q) (fs (inner (snd r)))
        = Fs.resolve (AddDemo.module_rnbo_dir ++ y :: q) (fs (inner w)))
  /\ (forall q, diverge AddDemo.module_rnbo_dir q ->
        Fs.resolve q (fs (inner (snd r))) = Fs.resolve q (fs (inner w))).
Proof.
  intros Rt Hnd Rm Hcan.
  exact (copy_demo_rnbo_code_run des ds w Rt Hnd Rm Hcan).
Qed.

Lemma copy_demo_rnbo_code_copies_witness :
  let w := mkWorld (mkState sample_with_demo ["x"] []) [] in
  let r := AddDemo.copy_demo_rnbo_code w in
  fst r = Return true
  /\ stdin (inner (snd r)) = ["x"]
  /\ (forall x n,
        In (x, n)
           [("patch.cpp", File (mkFile true (Text "new")));
            ("src", Dir [("dsp.h", File (mkFile false (Text "dsp")))])] ->
        Fs.resolve (AddDemo.module_rnbo_dir ++ [x]) (fs (inner (snd r)))
        = Some n)
  /\ (forall y q, ~ In y ["patch.cpp"; "src"] ->
        Fs.resolve (AddDemo.module_rnbo_dir ++ y :: q) (fs (inner (snd r)))
        = Fs.resolve (AddDemo.module_rnbo_dir ++ y :: q) sample_with_demo)
  /\ (forall q, diverge AddDemo.module_rnbo_dir q ->
        Fs.resolve q (fs (inner (snd r))) = Fs.resolve q sample_with_demo).
Proof.
  refine (copy_demo_rnbo_code_copies _ _
            (mkWorld (mkState sample_with_demo ["x"] []) [])
            eq_refl _ eq_refl _).
  - repeat (constructor;
            [cbn [In]; intros H;
             repeat (destruct H as [H | H]; [discriminate H |]); exact H |]).
    constructor.
  - intros x n [H | [H | []]]; injection H as <- <-; reflexivity.
Defined.

(** X27. An existing DEMO module is not touched without the force flag:
    addDemo.py stops with status 1 and leaves the project and the input as
    they are, whatever its child processes would do. *)
Theorem add_demo_keeps_existing
  (spawn : path -> list string -> M (nat * string))
  (a : AddDemo.args) (w : world) :
  AddDemo.force a = false ->
  Fs.exists_ AddDemo.demo_dir (fs (inner w)) = true ->
  exit_status (fst (AddDemo.main spawn a w)) = 1
  /\ inner (snd (AddDemo.main spawn a w)) = inner w.
Proof.
  intros Hf He. unfold AddDemo.main.
  assert (E : AddDemo.check_demo_exists w = (Return true, w)).
  { unfold AddDemo.check_demo_exists, lift, Io.path_exists. run_cmd.
    unfold Fs.exists_ in He.
    destruct (Fs.resolve AddDemo.demo_dir (fs (inner w)));
      [| discriminate He].
    now destruct w. }
  erewrite call_run by exact E. rewrite Hf.
  erewrite call_raise by reflexivity. now split.
Qed.

Lemma add_demo_keeps_existing_witness :
  let w := mkWorld (mkState sample_with_demo ["yes"] []) [] in
  let r := AddDemo.main
             (fun _ _ st => (Return (0, ""), mkState (Dir []) [] []))
             (AddDemo.mkArgs false) w in
  exit_status (fst r) = 1 /\ inner (snd r) = inner w.
Proof.
  exact (add_demo_keeps_existing
           (fun _ _ st => (Return (0, ""), mkState (Dir []) [] []))
           (AddDemo.mkArgs false)
           (mkWorld (mkState sample_with_demo ["yes"] []) [])
           eq_refl eq_refl).
Defined.

Lemma demo_id_well_formed : well_formed_id "DEMO".
Proof.
  apply (validate_module_id_true _ (mkState (Dir []) [] [])). reflexivity.
Qed.

Lemma kind_none (o : option node) : option_map Fs.is_dir o = None -> o = None.
Proof. now destruct o. Qed.

(** [create_demo_module] in a checkout that is ready for the module. *)
Lemma create_demo_module_run
  (spawn : path -> list string -> M (nat * string))
  (tes es : Fs.entries) (c : string) (w : world) :
  runs_as (spawn AddDemo.create_script AddDemo.command_line)
          (CreateModule.main demo_args) ->
  Fs.exists_ AddDemo.create_script (fs (inner w)) = true ->
  Fs.resolve CreateModule.template_dir (fs (inner w)) = Some (Dir tes) ->
  Fs.wf (Dir tes) = true ->
  Fs.lookup "DEMO-rnbo" tes = None ->
  Fs.resolve modules_dir (fs (inner w)) = Some (Dir es) ->
  Fs.resolve AddDemo.demo_dir (fs (inner w)) = None ->
  Fs.file_at cmake_file (fs (inner w)) = Some (mkFile true (Text c)) ->
  exists n w',
    AddDemo.create_demo_module spawn w = (Return true, w')
    /\ stdin (inner w') = stdin (inner w)
    /\ fs (inner w')
       = (if Py.contains (directive "DEMO") c
          then Fs.put (modules_dir ++ ["DEMO"]) n (fs (inner w))
          else Fs.put cmake_file
                 (File (mkFile true (Text (c ++ (directive "DEMO" ++ Py.nl)))))
                 (Fs.put (modules_dir ++ ["DEMO"]) n (fs (inner w))))
    /\ (forall q g',
          Fs.file_at q n = Some g'
          <-> exists g,
                Fs.file_at q (Dir tes) = Some g
                /\ g' = substituted (mapping_of demo_args "DEMO") g)
    /\ (exists ds, Fs.resolve ["DEMO-rnbo"] n = Some (Dir ds))
    /\ (forall x q, Fs.resolve ("DEMO-rnbo" :: x :: q) n = None).
Proof.
  intros Hs Hscript Rt Wt Hrn Rm Hnew Hf.
  destruct (Hs (inner w)) as (err & E). cbv zeta in E.
  set (started := mkState (fs (inner w)) (stdin (inner w)) []) in *.
  destruct (main_create_run demo_args "DEMO" tes es (mkFile true (Text c)) c
              started eq_refl demo_id_well_formed Rt Wt Rm Hnew
              ltac:(intros g; change ("DEMO" ++ "-rnbo")%string
                                with "DEMO-rnbo"%string;
                    rewrite Hrn; discriminate)
              Hf eq_refl (or_intror eq_refl))
    as (n & st' & Main & Sin & Sfs & Files & _ & _ & Kd).
  rewrite Main in E. cbn [fst snd exit_status] in E.
  unfold with_rnbo_dir in Kd.
  change ("DEMO" ++ "-rnbo")%string with "DEMO-rnbo"%string in Kd.
  rewrite Hrn in Kd.
  assert (Lr : Fs.lookup "DEMO-rnbo" (tes ++ [("DEMO-rnbo"%string, Dir [])])
               = Some (Dir [])).
  { rewrite lookup_app, Hrn. reflexivity. }
  exists n.
  assert (E1 : lift (Io.path_exists AddDemo.create_script) w
               = (Return true, w)).
  { unfold lift, Io.path_exists. run_cmd. unfold Fs.exists_ in Hscript.
    destruct (Fs.resolve AddDemo.create_script (fs (inner w)));
      [| discriminate Hscript].
    now destruct w. }
  unfold AddDemo.create_demo_module.
  erewrite call_run by exact E1. cbn [negb]. cbv zeta.
  erewrite call_run by reflexivity.
  unfold try_except.
  erewrite call_run; [| unfold lift; cbn [inner said]; rewrite E; reflexivity].
  cbn [fst Nat.eqb].
  eexists. split; [reflexivity |]. cbn [inner fs stdin].
  split; [exact Sin |]. split; [exact Sfs |]. split; [exact Files |].
  split.
  - pose proof (Kd ["DEMO-rnbo"]) as K.
    rewrite (resolve_cons "DEMO-rnbo" [] (tes ++ _)), Lr in K.
    destruct (Fs.resolve ["DEMO-rnbo"] n) as [[g | ds] |] eqn:R;
      [discriminate K | now exists ds | discriminate K].
  - intros x q. apply kind_none. rewrite Kd.
    rewrite (resolve_cons "DEMO-rnbo" (x :: q) (tes ++ _)), Lr.
    reflexivity.
Qed.

(** addDemo.py from the point where the module is not there. *)
Lemma add_demo_rest_run
  (spawn : path -> list string -> M (nat * string))
  (tes es des : Fs.entries) (c : string) (w : world) :
  runs_as (spawn AddDemo.create_script AddDemo.command_line)
          (CreateModule.main demo_args) ->
  Fs.exists_ AddDemo.create_script (fs (inner w)) = true ->
  Fs.resolve CreateModule.template_dir (fs (inner w)) = Some (Dir tes) ->
  Fs.wf (Dir tes) = true ->
  Fs.lookup "DEMO-rnbo" tes = None ->
  Fs.resolve modules_dir (fs (inner w)) = Some (Dir es) ->
  Fs.resolve AddDemo.demo_dir (fs (inner w)) = None ->
  Fs.file_at cmake_file (fs (inner w)) = Some (mkFile true (Text c)) ->
  Fs.resolve AddDemo.template_rnbo_dir (fs (inner w)) = Some (Dir des) ->
  NoDup (map fst des) ->
  exists w',
    bind (AddDemo.create_demo_module spawn)
      (fun created =>
         if negb created then bind (print Failed_create_demo)
                                (fun _ => sys_exit 1)
         else
           bind AddDemo.copy_demo_rnbo_code
             (fun copied =>
                if negb copied then bind (print Failed_copy_demo)
                                      (fun _ => sys_exit 1)
                else AddDemo.print_success_message)) w
    = (Return tt, w')
    /\ stdin (inner w') = stdin (inner w)
    /\ (forall x n, In (x, n) des ->
          Fs.resolve (AddDemo.module_rnbo_dir ++ [x]) (fs (inner w'))
          = Some n)
    /\ (forall y q, ~ In y (map fst des) ->
          Fs.resolve (AddDemo.module_rnbo_dir ++ y :: q) (fs (inner w'))
          = None)
    /\ (forall y q g',
          y <> "DEMO-rnbo" ->
          Fs.file_at (AddDemo.demo_dir ++ y :: q) (fs (inner w')) = Some g'
          <-> exists g,
                Fs.file_at (y :: q) (Dir tes) = Some g
                /\ g' = substituted (mapping_of demo_args "DEMO") g)
    /\ Fs.file_at cmake_file (fs (inner w'))
       = Some (mkFile true (Text (c ++ line_if_missing "DEMO" c)))
    /\ (forall y q, y <> "DEMO" -> y <> "CMakeLists.txt" ->
          Fs.resolve (modules_dir ++ y :: q) (fs (inner w'))
          = Fs.resolve (modules_dir ++ y :: q) (fs (inner w)))
    /\ (forall q, diverge modules_dir q ->
          Fs.resolve q (fs (inner w')) = Fs.resolve q (fs (inner w))).
Proof.
  intros Hs Hscript Rt Wt Hrn Rm Hnew Hf Rd Hnd.
  destruct (create_demo_module_run spawn tes es c w Hs Hscript Rt Wt Hrn Rm
              Hnew Hf)
    as (n & w1 & E1 & S1 & F1 & Files & (ds & Rr) & Empty).
  destruct (created_tree_facts "DEMO" n
              (mkFile true (Text (c ++ (directive "DEMO" ++ Py.nl))))
              (mkFile true (Text c)) (Py.contains (directive "DEMO") c)
              es (fs (inner w)) ltac:(discriminate) Rm Hf)
    as (A1 & B1 & C1 & _ & G1).
  cbv zeta in A1, B1, C1, G1. rewrite <- F1 in A1, B1, C1, G1.
  assert (Rd1 : Fs.resolve AddDemo.template_rnbo_dir (fs (inner w1))
                = Some (Dir des)).
  { rewrite A1; [exact Rd |].
    now exists [], "modules", "template", [], ["Demo"; "Demo-rnbo"]. }
  assert (Rm1 : Fs.resolve AddDemo.module_rnbo_dir (fs (inner w1))
                = Some (Dir ds)).
  { change AddDemo.module_rnbo_dir
      with ((modules_dir ++ ["DEMO"]) ++ ["DEMO-rnbo"]).
    now rewrite C1. }
  assert (Below : forall y q,
             Fs.resolve (AddDemo.module_rnbo_dir ++ y :: q) (fs (inner w1))
             = None).
  { intros y q.
    change (AddDemo.module_rnbo_dir ++ y :: q)
      with ((modules_dir ++ ["DEMO"]) ++ "DEMO-rnbo" :: y :: q).
    rewrite C1. apply Empty. }
  destruct (copy_demo_rnbo_code_run des ds w1 Rd1 Hnd Rm1)
    as (Ec & S2 & Got & Other & Out).
  { intros x m _. pose proof (Below x []) as K.
    rewrite resolve_app, Rm1, resolve_cons in K.
    destruct (Fs.lookup x ds); [discriminate K | reflexivity]. }
  destruct (AddDemo.copy_demo_rnbo_code w1) as [r2 w2] eqn:E2.
  cbn [fst snd] in *. subst r2.
  exists (mkWorld (inner w2) (said w2 ++ [Print Demo_success_message])).
  split.
  { erewrite call_run by exact E1. cbn [negb].
    erewrite call_run by exact E2. reflexivity. }
  cbn [inner].
  assert (Side : forall q, diverge AddDemo.module_rnbo_dir q ->
                           Fs.resolve q (fs (inner w2))
                           = Fs.resolve q (fs (inner w1))) by exact Out.
  split; [congruence |]. split; [exact Got |].
  split; [intros y q Hy; rewrite Other by exact Hy; apply Below |].
  split.
  { intros y q g' Hy. unfold Fs.file_at at 1.
    rewrite Side.
    - change (AddDemo.demo_dir ++ y :: q)
        with ((modules_dir ++ ["DEMO"]) ++ y :: q).
      rewrite C1. exact (Files (y :: q) g').
    - exists ["modules"; "DEMO"], "DEMO-rnbo", y, [], q.
      split; [reflexivity |]. split; [reflexivity | congruence]. }
  split.
  { unfold Fs.file_at. rewrite Side.
    - fold (Fs.file_at cmake_file (fs (inner w1))). rewrite G1.
      unfold line_if_missing.
      destruct (Py.contains (directive "DEMO") c);
        [now rewrite append_nil_r | reflexivity].
    - now exists ["modules"], "DEMO", "CMakeLists.txt", ["DEMO-rnbo"], []. }
  split.
  { intros y q Hy Hc. rewrite Side.
    - now apply B1.
    - exists ["modules"], "DEMO", y, ["DEMO-rnbo"], q.
      split; [reflexivity |]. split; [reflexivity | congruence]. }
  intros q D. rewrite Side; [now apply A1 |].
  exact (diverge_below modules_dir ["DEMO"; "DEMO-rnbo"] q D).
Qed.

(** The child that removes a module without asking. *)
Lemma forced_removal_as (child : M (nat * string)) (m : string) (st : state) :
  runs_as child (RemoveModule.main (RemoveModule.mkArgs (Some m) true false)) ->
  m <> EmptyString ->
  option_map Fs.is_dir (Fs.resolve (modules_dir ++ [m]) (fs st)) = Some true ->
  exists err,
    child st
    = (Return (if removable m (fs st) then 0 else 1, err),
       mkState (Fs.delete (modules_dir ++ [m]) (without_line m (fs st)))
               (stdin st) (trace st)).
Proof.
  intros Hs Hm Hd.
  destruct (Hs st) as (err & E). cbv zeta in E.
  exists err. rewrite E. clear E.
  set (started := mkState (fs st) (stdin st) []).
  destruct (Fs.resolve (modules_dir ++ [m]) (fs st)) as [n |] eqn:Rd;
    [| discriminate Hd].
  assert (Kn : Fs.is_dir n = true) by (cbn in Hd; congruence).
  assert (Rm : exists es, Fs.resolve modules_dir (fs st) = Some (Dir es)).
  { rewrite resolve_app in Rd.
    destruct (Fs.resolve modules_dir (fs st)) as [[g | es] |];
      try discriminate Rd.
    now exists es. }
  destruct Rm as (es & Rm).
  destruct (main_remove_run (RemoveModule.mkArgs (Some m) true false)
              m es n started started eq_refl Hm eq_refl Rm Rd eq_refl)
    as (b1 & s1 & E1 & Main).
  rewrite Main. clear Main. rewrite Kn.
  rewrite remove_from_cmake_eq in E1. cbn [fs stdin trace started] in E1.
  unfold removable, without_line, Fs.file_at.
  destruct (Fs.resolve cmake_file (fs st)) as [[f | des] |];
    [destruct (data f) as [c | raw];
     [destruct (has_line_for m c); [destruct (writable f) |] |] | |].
  all: pose proof (f_equal fst E1) as Eb; pose proof (f_equal snd E1) as Es;
       cbn [fst snd] in Eb, Es; clear E1; injection Eb as <-; subst s1.
  all: reflexivity.
Qed.

Lemma without_line_kept (m : string) (root : node) :
  removable m root = false -> without_line m root = root.
Proof.
  unfold removable, without_line.
  destruct (Fs.file_at cmake_file root) as [f |]; [| reflexivity].
  destruct (data f); [| reflexivity]. now intros ->.
Qed.

(** The first part of [main] with the force flag, when the module is
    there. *)
Lemma add_demo_removal_run
  (spawn : path -> list string -> M (nat * string)) (w : world) :
  runs_as (spawn AddDemo.remove_script ["DEMO"; "--force"])
          (RemoveModule.main (RemoveModule.mkArgs (Some "DEMO") true false)) ->
  option_map Fs.is_dir (Fs.resolve AddDemo.demo_dir (fs (inner w)))
  = Some true ->
  Fs.exists_ AddDemo.remove_script (fs (inner w)) = true ->
  exists w',
    bind (print Demo_exists_removing)
      (fun _ =>
         bind (lift (Io.path_exists AddDemo.remove_script))
           (fun s =>
              if s
              then
                try_except
                  (bind (lift (spawn AddDemo.remove_script ["DEMO"; "--force"]))
                     (fun result =>
                        if negb (Nat.eqb (fst result) 0)
                        then bind (print (Failed_to_remove_demo (snd result)))
                               (fun _ => sys_exit 1)
                        else print Demo_removed))
                  (fun e =>
                     if is_Exception e
                     then Some (bind (print Err_removing_demo)
                                  (fun _ => sys_exit 1))
                     else None)
              else bind (print (Err_remove_script_not_found
                                  AddDemo.remove_script))
                     (fun _ => sys_exit 1))) w
    = (if removable "DEMO" (fs (inner w)) then Return tt
       else Raise (SystemExit 1), w')
    /\ stdin (inner w') = stdin (inner w)
    /\ fs (inner w')
       = Fs.delete AddDemo.demo_dir (without_line "DEMO" (fs (inner w))).
Proof.
  intros Hs Hd Hscript.
  set (w0 := mkWorld (inner w) (said w ++ [Print Demo_exists_removing])).
  destruct (forced_removal_as _ "DEMO" (inner w0) Hs ltac:(discriminate) Hd)
    as (err & E).
  assert (E3 : lift (Io.path_exists AddDemo.remove_script) w0
               = (Return true, w0)).
  { unfold lift, Io.path_exists. run_cmd. unfold Fs.exists_ in Hscript.
    cbn [w0 inner].
    destruct (Fs.resolve AddDemo.remove_script (fs (inner w)));
      [| discriminate Hscript].
    reflexivity. }
  erewrite call_run by reflexivity. fold w0.
  erewrite call_run by exact E3.
  unfold try_except.
  erewrite call_run; [| unfold lift; rewrite E; reflexivity].
  cbn [fst snd w0 inner].
  destruct (removable "DEMO" (fs (inner w))); cbn [Nat.eqb negb].
  - eexists. split; [reflexivity |]. now split.
  - eexists. split; [reflexivity |]. now split.
Qed.

(** X28. addDemo.py makes the DEMO module with the demo code.  When there is
    no DEMO module, the two scripts are there, each child process is a run
    of the script it names, the template is a well-formed directory
    without an entry for the RNBO directory, the registry is a writable
    text file and the demo code is a directory whose entries have
    distinct names, then addDemo.py ends with status 0 and reads no input.
    Afterwards the RNBO directory of the module has the entries of the
    demo code as they are in the template and nothing else; the files of
    the module outside of it are the files of the template with the
    placeholders replaced; the registry has gained the line for DEMO
    unless it had the directive; nothing else is changed in the modules
    directory or outside of it. *)
Theorem add_demo_creates
  (spawn : path -> list string -> M (nat * string)) (a : AddDemo.args)
  (tes es des : Fs.entries) (c : string) (w : world) :
  spawns_for_demo spawn ->
  Fs.exists_ AddDemo.create_script (fs (inner w)) = true ->
  Fs.resolve CreateModule.template_dir (fs (inner w)) = Some (Dir tes) ->
  Fs.wf (Dir tes) = true ->
  Fs.lookup "DEMO-rnbo" tes = None ->
  Fs.resolve modules_dir (fs (inner w)) = Some (Dir es) ->
  Fs.resolve AddDemo.demo_dir (fs (inner w)) = None ->
  Fs.file_at cmake_file (fs (inner w)) = Some (mkFile true (Text c)) ->
  Fs.resolve AddDemo.template_rnbo_dir (fs (inner w)) = Some (Dir des) ->
  NoDup (map fst des) ->
  let r := AddDemo.main spawn a w in
  let root' := fs (inner (snd r)) in
  exit_status (fst r) = 0
  /\ stdin (inner (snd r)) = stdin (inner w)
  /\ (forall x n, In (x, n) des ->
        Fs.resolve (AddDemo.module_rnbo_dir ++ [x]) root' = Some n)
  /\ (forall y q, ~ In y (map fst des) ->
        Fs.resolve (AddDemo.module_rnbo_dir ++ y :: q) root' = None)
  /\ (forall y q g',
        y <> "DEMO-rnbo" ->
        Fs.file_at (AddDemo.demo_dir ++ y :: q) root' = Some g'
        <-> exists g,
              Fs.file_at (y :: q) (Dir tes) = Some g
              /\ g' = substituted (mapping_of demo_args "DEMO") g)
  /\ Fs.file_at cmake_file root'
     = Some (mkFile true (Text (c ++ line_if_missing "DEMO" c)))
  /\ (forall y q, y <> "DEMO" -> y <> "CMakeLists.txt" ->
        Fs.resolve (modules_dir ++ y :: q) root'
        = Fs.resolve (modules_dir ++ y :: q) (fs (inner w)))
  /\ (forall q, diverge modules_dir q ->
        Fs.resolve q root' = Fs.resolve q (fs (inner w))).
Proof.
  intros (Hc & _) Hscript Rt Wt Hrn Rm Hnew Hf Rd Hnd.
  destruct (add_demo_rest_run spawn tes es des c w Hc Hscript Rt Wt Hrn Rm
              Hnew Hf Rd Hnd) as (w' & E & Rest).
  assert (E0 : AddDemo.check_demo_exists w = (Return false, w)).
  { unfold AddDemo.check_demo_exists, lift, Io.path_exists, Fs.exists_.
    run_cmd. rewrite Hnew. now destruct w. }
  assert (Run : AddDemo.main spawn a w = (Return tt, w')).
  { unfold AddDemo.main. erewrite call_run by exact E0.
    erewrite call_run by reflexivity. exact E. }
  cbv zeta. rewrite Run. cbn [fst snd exit_status].
  split; [reflexivity | exact Rest].
Qed.

Lemma demo_children_spawn : spawns_for_demo demo_children.
Proof. split; intros st; now exists EmptyString. Qed.

Lemma sample_demo_names :
  NoDup (map fst
           [("patch.cpp", File (mkFile true (Text "new")));
            ("src", Dir [("dsp.h", File (mkFile false (Text "dsp")))])]).
Proof.
  cbn [map fst].
  repeat (constructor;
          [cbn [In]; intros H;
           repeat (destruct H as [H | H]; [discriminate H |]); exact H |]).
  constructor.
Qed.

Lemma add_demo_creates_witness :
  let root := Fs.delete AddDemo.demo_dir sample_with_demo in
  let w := mkWorld (mkState root ["n"] []) [] in
  let r := AddDemo.main demo_children (AddDemo.mkArgs false) w in
  let root' := fs (inner (snd r)) in
  exit_status (fst r) = 0
  /\ stdin (inner (snd r)) = ["n"]
  /\ (forall x n,
        In (x, n)
           [("patch.cpp", File (mkFile true (Text "new")));
            ("src", Dir [("dsp.h", File (mkFile false (Text "dsp")))])] ->
        Fs.resolve (AddDemo.module_rnbo_dir ++ [x]) root' = Some n)
  /\ (forall y q, ~ In y ["patch.cpp"; "src"] ->
        Fs.resolve (AddDemo.module_rnbo_dir ++ y :: q) root' = None)
  /\ (forall y q g',
        y <> "DEMO-rnbo" ->
        Fs.file_at (AddDemo.demo_dir ++ y :: q) root' = Some g'
        <-> exists g,
              Fs.file_at (y :: q)
                (Dir [("CMakeLists.txt",
                       File (mkFile true (Text "project(__MOD__) # __NAME__")))])
              = Some g
              /\ g' = substituted (mapping_of demo_args "DEMO") g)
  /\ Fs.file_at cmake_file root'
     = Some (mkFile true
               (Text ("add_subdirectory(common)" ++ Py.nl
                      ++ "add_subdirectory(DEMO)" ++ Py.nl)))
  /\ (forall y q, y <> "DEMO" -> y <> "CMakeLists.txt" ->
        Fs.resolve (modules_dir ++ y :: q) root'
        = Fs.resolve (modules_dir ++ y :: q) root)
  /\ (forall q, diverge modules_dir q ->
        Fs.resolve q root' = Fs.resolve q root).
Proof.
  exact (add_demo_creates demo_children (AddDemo.mkArgs false) _ _ _ _
           (mkWorld
              (mkState (Fs.delete AddDemo.demo_dir sample_with_demo) ["n"] [])
              [])
           demo_children_spawn eq_refl eq_refl eq_refl eq_refl eq_refl eq_refl
           eq_refl eq_refl sample_demo_names).
Defined.

(** X29. The force flag does not help when the registry has no line for DEMO.
    When the DEMO module is a directory, removeModule.py is there and its
    child process is a run of it, but the registry step of the removal
    fails (no line for DEMO, or a registry that cannot be rewritten),
    addDemo.py with the force flag removes the directory of the module
    and stops with status 1: nothing is created, and the tree is the one
    it found without that directory. *)
Theorem add_demo_force_needs_line
  (spawn : path -> list string -> M (nat * string)) (a : AddDemo.args)
  (w : world) :
  spawns_for_demo spawn ->
  AddDemo.force a = true ->
  option_map Fs.is_dir (Fs.resolve AddDemo.demo_dir (fs (inner w)))
  = Some true ->
  Fs.exists_ AddDemo.remove_script (fs (inner w)) = true ->
  removable "DEMO" (fs (inner w)) = false ->
  let r := AddDemo.main spawn a w in
  exit_status (fst r) = 1
  /\ stdin (inner (snd r)) = stdin (inner w)
  /\ fs (inner (snd r)) = Fs.delete AddDemo.demo_dir (fs (inner w)).
Proof.
  intros (_ & Hr) Hf Hd Hscript Hno.
  destruct (add_demo_removal_run spawn w Hr Hd Hscript) as (w' & E & S' & F').
  rewrite Hno in E. rewrite (without_line_kept _ _ Hno) in F'.
  assert (E0 : AddDemo.check_demo_exists w = (Return true, w)).
  { unfold AddDemo.check_demo_exists, lift, Io.path_exists, Fs.exists_.
    run_cmd.
    destruct (Fs.resolve AddDemo.demo_dir (fs (inner w)));
      [| discriminate Hd].
    now destruct w. }
  assert (Run : AddDemo.main spawn a w = (Raise (SystemExit 1), w')).
  { unfold AddDemo.main. erewrite call_run by exact E0. rewrite Hf.
    erewrite call_raise by exact E. reflexivity. }
  cbv zeta. rewrite Run. cbn [fst snd exit_status]. now repeat split.
Qed.

Lemma add_demo_force_needs_line_witness :
  let w := mkWorld (mkState sample_with_demo [] []) [] in
  let r := AddDemo.main demo_children (AddDemo.mkArgs true) w in
  exit_status (fst r) = 1
  /\ stdin (inner (snd r)) = []
  /\ fs (inner (snd r)) = Fs.delete AddDemo.demo_dir sample_with_demo.
Proof.
  exact (add_demo_force_needs_line demo_children (AddDemo.mkArgs true)
           (mkWorld (mkState sample_with_demo [] []) [])
           demo_children_spawn eq_refl eq_refl eq_refl eq_refl).
Defined.

(** X30. With the force flag a registered DEMO module is made again.  When the
    DEMO module is a directory, the registry is a writable text file with
    a line for DEMO, and the other conditions of a creation hold, then
    addDemo.py with the force flag ends with status 0 and reads no input.
    Afterwards the RNBO directory of the module has the entries of the
    demo code and nothing else, whatever the module had before; the files
    of the module outside of it are the files of the template with the
    placeholders replaced; the registry is its text without the lines for
    DEMO, followed by the line for DEMO unless that text still has the
    directive; nothing else is changed in the modules directory or
    outside of it. *)
Theorem add_demo_force_recreates
  (spawn : path -> list string -> M (nat * string)) (a : AddDemo.args)
  (tes des : Fs.entries) (c : string) (w : world) :
  spawns_for_demo spawn ->
  AddDemo.force a = true ->
  option_map Fs.is_dir (Fs.resolve AddDemo.demo_dir (fs (inner w)))
  = Some true ->
  Fs.exists_ AddDemo.remove_script (fs (inner w)) = true ->
  Fs.exists_ AddDemo.create_script (fs (inner w)) = true ->
  Fs.resolve CreateModule.template_dir (fs (inner w)) = Some (Dir tes) ->
  Fs.wf (Dir tes) = true ->
  Fs.lookup "DEMO-rnbo" tes = None ->
  Fs.file_at cmake_file (fs (inner w)) = Some (mkFile true (Text c)) ->
  has_line_for "DEMO" c = true ->
  Fs.resolve AddDemo.template_rnbo_dir (fs (inner w)) = Some (Dir des) ->
  NoDup (map fst des) ->
  let r := AddDemo.main spawn a w in
  let root' := fs (inner (snd r)) in
  let c' := Py.writelines (other_lines "DEMO" c) in
  exit_status (fst r) = 0
  /\ stdin (inner (snd r)) = stdin (inner w)
  /\ (forall x n, In (x, n) des ->
        Fs.resolve (AddDemo.module_rnbo_dir ++ [x]) root' = Some n)
  /\ (forall y q, ~ In y (map fst des) ->
        Fs.resolve (AddDemo.module_rnbo_dir ++ y :: q) root' = None)
  /\ (forall y q g',
        y <> "DEMO-rnbo" ->
        Fs.file_at (AddDemo.demo_dir ++ y :: q) root' = Some g'
        <-> exists g,
              Fs.file_at (y :: q) (Dir tes) = Some g
              /\ g' = substituted (mapping_of demo_args "DEMO") g)
  /\ Fs.file_at cmake_file root'
     = Some (mkFile true (Text (c' ++ line_if_missing "DEMO" c')))
  /\ (forall y q, y <> "DEMO" -> y <> "CMakeLists.txt" ->
        Fs.resolve (modules_dir ++ y :: q) root'
        = Fs.resolve (modules_dir ++ y :: q) (fs (inner w)))
  /\ (forall q, diverge modules_dir q ->
        Fs.resolve q root' = Fs.resolve q (fs (inner w))).
Proof.
  intros (Hc & Hr) Hf Hd Hrs Hcs Rt Wt Hrn Hreg Hline Rd Hnd.
  destruct (add_demo_removal_run spawn w Hr Hd Hrs) as (w1 & E & S1 & F1).
  assert (Hyes : removable "DEMO" (fs (inner w)) = true).
  { unfold removable. rewrite Hreg. cbn [data writable]. now rewrite Hline. }
  rewrite Hyes in E.
  set (c' := Py.writelines (other_lines "DEMO" c)) in *.
  assert (Hw : without_line "DEMO" (fs (inner w))
               = Fs.put cmake_file (File (mkFile true (Text c')))
                   (fs (inner w))).
  { unfold without_line. rewrite Hreg. cbn [data writable].
    now rewrite Hline. }
  rewrite Hw in F1. clear Hw.
  (* the tree after the removal *)
  assert (Rm : exists es, Fs.resolve modules_dir (fs (inner w))
                          = Some (Dir es)).
  { change AddDemo.demo_dir with (modules_dir ++ ["DEMO"]) in Hd.
    rewrite resolve_app in Hd.
    destruct (Fs.resolve modules_dir (fs (inner w))) as [[g | es] |];
      try discriminate Hd.
    now exists es. }
  destruct Rm as (es & Rm).
  apply file_at_resolve in Hreg.
  assert (Out1 : forall q, diverge modules_dir q ->
                           Fs.resolve q (fs (inner w1))
                           = Fs.resolve q (fs (inner w))).
  { intros q D. rewrite F1.
    change AddDemo.demo_dir with (modules_dir ++ ["DEMO"]).
    rewrite diverge_delete by now apply diverge_below.
    apply diverge_put. unfold cmake_file. now apply diverge_below. }
  assert (Other1 : forall y q, y <> "DEMO" -> y <> "CMakeLists.txt" ->
                     Fs.resolve (modules_dir ++ y :: q) (fs (inner w1))
                     = Fs.resolve (modules_dir ++ y :: q) (fs (inner w))).
  { intros y q Hy Hy'. rewrite F1.
    change AddDemo.demo_dir with (modules_dir ++ "DEMO" :: []).
    rewrite resolve_delete_apart by congruence.
    change cmake_file with (modules_dir ++ "CMakeLists.txt" :: []).
    apply resolve_put_apart. congruence. }
  assert (Rm1 : exists es1, Fs.resolve modules_dir (fs (inner w1))
                            = Some (Dir es1)).
  { rewrite F1. eexists.
    change AddDemo.demo_dir with (modules_dir ++ ["DEMO"]).
    apply resolve_delete_parent.
    unfold cmake_file. exact (resolve_put_parent _ _ _ _ _ Rm). }
  destruct Rm1 as (es1 & Rm1).
  assert (Hnew1 : Fs.resolve AddDemo.demo_dir (fs (inner w1)) = None).
  { rewrite F1. now apply resolve_delete_same. }
  assert (Hreg1 : Fs.file_at cmake_file (fs (inner w1))
                  = Some (mkFile true (Text c'))).
  { apply file_at_resolve. rewrite F1.
    change AddDemo.demo_dir with (modules_dir ++ "DEMO" :: []).
    change cmake_file with (modules_dir ++ "CMakeLists.txt" :: []) at 1.
    rewrite resolve_delete_apart by discriminate.
    exact (resolve_put_same _ _ _ _ Hreg). }
  assert (Hcs1 : Fs.exists_ AddDemo.create_script (fs (inner w1)) = true).
  { unfold Fs.exists_. rewrite Out1; [exact Hcs |].
    now exists [], "modules", "scripts", [], ["createModule.py"]. }
  assert (Rt1 : Fs.resolve CreateModule.template_dir (fs (inner w1))
                = Some (Dir tes)).
  { rewrite Out1; [exact Rt |].
    now exists [], "modules", "template", [], ["module"]. }
  assert (Rd1 : Fs.resolve AddDemo.template_rnbo_dir (fs (inner w1))
                = Some (Dir des)).
  { rewrite Out1; [exact Rd |].
    now exists [], "modules", "template", [], ["Demo"; "Demo-rnbo"]. }
  destruct (add_demo_rest_run spawn tes es1 des c' w1 Hc Hcs1 Rt1 Wt Hrn Rm1
              Hnew1 Hreg1 Rd1 Hnd)
    as (w' & E' & S' & Got & Only & Files & Reg & Other & Out).
  assert (E0 : AddDemo.check_demo_exists w = (Return true, w)).
  { unfold AddDemo.check_demo_exists, lift, Io.path_exists, Fs.exists_.
    run_cmd.
    destruct (Fs.resolve AddDemo.demo_dir (fs (inner w)));
      [| discriminate Hd].
    now destruct w. }
  assert (Run : AddDemo.main spawn a w = (Return tt, w')).
  { unfold AddDemo.main. erewrite call_run by exact E0. rewrite Hf.
    erewrite call_run by exact E. exact E'. }
  cbv zeta. rewrite Run. cbn [fst snd exit_status].
  split; [reflexivity |]. split; [congruence |]. split; [exact Got |].
  split; [exact Only |]. split; [exact Files |]. split; [exact Reg |].
  split.
  - intros y q Hy Hy'. now rewrite Other, Other1.
  - intros q D. now rewrite Out, Out1.
Qed.

Lemma add_demo_force_recreates_witness :
  let root :=
    Fs.put cmake_file
      (File (mkFile true
               (Text ("add_subdirectory(DEMO)" ++ Py.nl
                      ++ "add_subdirectory(common)" ++ Py.nl))))
      sample_with_demo in
  let w := mkWorld (mkState root [] []) [] in
  let r := AddDemo.main demo_children (AddDemo.mkArgs true) w in
  let root' := fs (inner (snd r)) in
  let c' := Py.writelines
              (other_lines "DEMO"
                 ("add_subdirectory(DEMO)" ++ Py.nl
                  ++ "add_subdirectory(common)" ++ Py.nl)) in
  exit_status (fst r) = 0
  /\ stdin (inner (snd r)) = []
  /\ (forall x n,
        In (x, n)
           [("patch.cpp", File (mkFile true (Text "new")));
            ("src", Dir [("dsp.h", File (mkFile false (Text "dsp")))])] ->
        Fs.resolve (AddDemo.module_rnbo_dir ++ [x]) root' = Some n)
  /\ (forall y q, ~ In y ["patch.cpp"; "src"] ->
        Fs.resolve (AddDemo.module_rnbo_dir ++ y :: q) root' = None)
  /\ (forall y q g',
        y <> "DEMO-rnbo" ->
        Fs.file_at (AddDemo.demo_dir ++ y :: q) root' = Some g'
        <-> exists g,
              Fs.file_at (y :: q)
                (Dir [("CMakeLists.txt",
                       File (mkFile true (Text "project(__MOD__) # __NAME__")))])
              = Some g
              /\ g' = substituted (mapping_of demo_args "DEMO") g)
  /\ Fs.file_at cmake_file root'
     = Some (mkFile true (Text (c' ++ line_if_missing "DEMO" c')))
  /\ (forall y q, y <> "DEMO" -> y <> "CMakeLists.txt" ->
        Fs.resolve (modules_dir ++ y :: q) root'
        = Fs.resolve (modules_dir ++ y :: q) root)
  /\ (forall q, diverge modules_dir q ->
        Fs.resolve q root' = Fs.resolve q root).
Proof.
  exact (add_demo_force_recreates demo_children (AddDemo.mkArgs true) _ _ _
           (mkWorld
              (mkState
                 (Fs.put cmake_file
                    (File (mkFile true
                             (Text ("add_subdirectory(DEMO)" ++ Py.nl
                                    ++ "add_subdirectory(common)" ++ Py.nl))))
                    sample_with_demo)
                 [] [])
              [])
           demo_children_spawn eq_refl eq_refl eq_refl eq_refl eq_refl eq_refl
           eq_refl eq_refl eq_refl eq_refl sample_demo_names).
Defined.

End AddDemoRuns.
